(** * telegram-bot-feedback: the conversation state machine, the question
    router and the correspondence replayer, embedded from the Go sources.

    The Go packages become modules: [Strconv] and [Strings] (the few
    standard-library functions the bot calls), [Logger], [Database]
    (internal/pkg/database), [Tg] (the transport client) and [Bot]
    (internal/pkg/bot).  Go's [int] is [Z]; strings are byte strings, so
    the star emoji is the three bytes of its UTF-8 encoding, as in Go.

    Effects are explicit.  A function that takes [db *gorm.DB] runs in a
    state monad over [Database.DB]; a function that takes [app *App] runs in
    a state monad over [Bot.App].  The transport, the store and the
    configuration file can each refuse an operation: every one of them
    carries the schedule of its future refusals, which every operation
    consumes (see [attempt]). *)

From Stdlib Require Import ZArith List String Ascii Bool Lia.
From Stdlib Require Import DecimalString Sorted Permutation.
From Stdlib Require Import DecimalPos DecimalZ.
Import ListNotations.
Local Open Scope string_scope.
Local Open Scope list_scope.
Local Open Scope Z_scope.

Set Implicit Arguments.

(* ================================================================== *)
(** ** Standard-library functions used by the bot *)

Module Strconv.

(** [strconv.Itoa]: decimal rendering, a minus sign in front of a negative. *)
Definition Itoa (n : Z) : string := NilZero.string_of_int (Z.to_int n).

Definition digit (c : ascii) : option Z :=
  let n := Z.of_nat (nat_of_ascii c) in
  if (48 <=? n) && (n <=? 57) then Some (n - 48) else None.

(** The digit loop of [Atoi]: [n = n*10 + int(ch)], a syntax error at the
    first byte that is no digit. *)
Fixpoint digits (acc : Z) (s : string) : option Z :=
  match s with
  | EmptyString => Some acc
  | String c s' =>
      match digit c with
      | Some d => digits (acc * 10 + d) s'
      | None => None
      end
  end.

Definition maxInt : Z := 9223372036854775807.
Definition minInt : Z := -9223372036854775808.

(** The part of [Atoi] after the optional sign: at least one digit, only
    digits, and a value that fits a 64-bit [int]. *)
Definition signed (neg : bool) (body : string) : option Z :=
  match body with
  | EmptyString => None
  | _ =>
      match digits 0 body with
      | Some n =>
          let v := if neg then - n else n in
          if (minInt <=? v) && (v <=? maxInt) then Some v else None
      | None => None
      end
  end.

(** [strconv.Atoi]; [None] is the error result. *)
Definition Atoi (s : string) : option Z :=
  match s with
  | EmptyString => None
  | String c rest =>
      if Ascii.eqb c "-"%char then signed true rest
      else if Ascii.eqb c "+"%char then signed false rest
      else signed false s
  end.

End Strconv.

Module Strings.

Fixpoint repeat_nat (s : string) (count : nat) : string :=
  match count with
  | O => ""
  | S n => s ++ repeat_nat s n
  end.

(** [strings.Repeat]; Go panics on a negative count, which no caller
    passes (ratings are 0..5), and which gives the empty string here. *)
Definition Repeat (s : string) (count : Z) : string :=
  repeat_nat s (Z.to_nat count).

(** [strings.Split] for a separator of one byte: the pieces between the
    occurrences of [sep]; always at least one piece. *)
Fixpoint Split (s : string) (sep : ascii) : list string :=
  match s with
  | EmptyString => [""]
  | String c s' =>
      if Ascii.eqb c sep then "" :: Split s' sep
      else
        match Split s' sep with
        | [] => [String c ""]
        | p :: ps => String c p :: ps
        end
  end.

End Strings.

(* ================================================================== *)
(** ** internal/pkg/logger *)

Module Logger.

(** Go's [error]: [None] is [nil]. *)
Definition error := option string.

Definition NewError (msg : string) : error := Some msg.

(** [getCallerInfo]: the position of the call of [Err] as text.  Go finds
    it with [runtime.Caller(2)]; here every call of [Err] passes its own
    position, the name of its file as the source tree has it (the last
    element of the path) and its line in that file. *)
Definition getCallerInfo (file : string) (line : Z) : string :=
  ("[" ++ file ++ ":" ++ Strconv.Itoa line ++ "]")%string.

(** [Err] keeps [nil] and otherwise puts the caller's position in front of
    the text.  ([fmt.Errorf] gets the new text as its format, without
    arguments; the texts that reach it here hold no per-cent sign, so it
    returns them as they are.) *)
Definition Err (file : string) (line : Z) (err : error) : error :=
  match err with
  | None => None
  | Some m => Some (getCallerInfo file line ++ " " ++ m)%string
  end.

End Logger.

(* ================================================================== *)
(** ** State passing *)

(** A computation over a state [S] that returns an [A]. *)
Definition M (S A : Type) : Type := S -> A * S.

Definition ret {S A : Type} (a : A) : M S A := fun s => (a, s).

Definition bind {S A B : Type} (m : M S A) (k : A -> M S B) : M S B :=
  fun s => let (a, s') := m s in k a s'.

Declare Scope monad_scope.
Delimit Scope monad_scope with monad.
Notation "x <- c ;; k" := (bind c (fun x => k))
  (at level 61, c at next level, right associativity) : monad_scope.
Notation "' p <- c ;; k" := (bind c (fun x => let p := x in k))
  (at level 61, p pattern, c at next level, right associativity) : monad_scope.
Notation "c ;;; k" := (bind c (fun _ => k))
  (at level 61, right associativity) : monad_scope.
Local Open Scope monad_scope.

(** One operation against a collaborator that may refuse it.  The
    collaborator carries its future as a list of numbers, each the number
    of operations it accepts before it refuses one; after the last refusal
    it accepts everything, so the empty list is the collaborator that never
    refuses.  [attempt] tells whether the next operation is accepted, and
    gives the future after it. *)
Definition attempt (refusals : list nat) : bool * list nat :=
  match refusals with
  | [] => (true, [])
  | O :: rest => (false, rest)
  | S n :: rest => (true, n :: rest)
  end.

(* ================================================================== *)
(** ** internal/pkg/database: tables *)

Module Database.

(** [User] table.  [gorm.Model] contributes the primary key [ID]; its
    time stamps are never read for users. *)
Module User.
Record t : Type := mk {
  ID : Z;
  ChatID : Z;
  State : Z;
  Nickname : string;
  IsEmployee : bool;
  IsReceiver : bool }.
Definition zero : t := mk 0 0 0 "" false false.
Definition with_ID (v : Z) (u : t) : t :=
  mk v (ChatID u) (State u) (Nickname u) (IsEmployee u) (IsReceiver u).
Definition with_ChatID (v : Z) (u : t) : t :=
  mk (ID u) v (State u) (Nickname u) (IsEmployee u) (IsReceiver u).
Definition with_State (v : Z) (u : t) : t :=
  mk (ID u) (ChatID u) v (Nickname u) (IsEmployee u) (IsReceiver u).
Definition with_Nickname (v : string) (u : t) : t :=
  mk (ID u) (ChatID u) (State u) v (IsEmployee u) (IsReceiver u).
Definition with_IsEmployee (v : bool) (u : t) : t :=
  mk (ID u) (ChatID u) (State u) (Nickname u) v (IsReceiver u).
Definition with_IsReceiver (v : bool) (u : t) : t :=
  mk (ID u) (ChatID u) (State u) (Nickname u) (IsEmployee u) v.
End User.

(** [Review] table; [CreatedAt] (of [gorm.Model]) is the instant of the
    insertion in Unix seconds; the store keeps it as the text of the
    machine's local time, which the range query reads.  [User] is the
    belongs-to struct of the Go type: set by the caller on creation, filled
    by [Preload] on reading, and not a column. *)
Module Review.
Record t : Type := mk {
  ID : Z;
  CreatedAt : Z;
  Rating : Z;
  Text : string;
  UserID : Z;
  User : User.t }.
Definition with_ID (v : Z) (r : t) : t :=
  mk v (CreatedAt r) (Rating r) (Text r) (UserID r) (User r).
Definition with_CreatedAt (v : Z) (r : t) : t :=
  mk (ID r) v (Rating r) (Text r) (UserID r) (User r).
Definition with_Text (v : string) (r : t) : t :=
  mk (ID r) (CreatedAt r) (Rating r) v (UserID r) (User r).
Definition with_UserID (v : Z) (r : t) : t :=
  mk (ID r) (CreatedAt r) (Rating r) (Text r) v (User r).
Definition with_User (v : User.t) (r : t) : t :=
  mk (ID r) (CreatedAt r) (Rating r) (Text r) (UserID r) v.
End Review.

(** [Question] table; [User] and [Answerer] are the belongs-to structs. *)
Module Question.
Record t : Type := mk {
  ID : Z;
  Header : string;
  UserID : Z;
  User : User.t;
  AnswererID : Z;
  Answerer : User.t;
  HaveAnswer : bool;
  IsClosed : bool }.
Definition zero : t := mk 0 "" 0 User.zero 0 User.zero false false.
Definition with_ID (v : Z) (q : t) : t :=
  mk v (Header q) (UserID q) (User q) (AnswererID q) (Answerer q)
     (HaveAnswer q) (IsClosed q).
Definition with_Header (v : string) (q : t) : t :=
  mk (ID q) v (UserID q) (User q) (AnswererID q) (Answerer q)
     (HaveAnswer q) (IsClosed q).
Definition with_UserID (v : Z) (q : t) : t :=
  mk (ID q) (Header q) v (User q) (AnswererID q) (Answerer q)
     (HaveAnswer q) (IsClosed q).
Definition with_User (v : User.t) (q : t) : t :=
  mk (ID q) (Header q) (UserID q) v (AnswererID q) (Answerer q)
     (HaveAnswer q) (IsClosed q).
Definition with_AnswererID (v : Z) (q : t) : t :=
  mk (ID q) (Header q) (UserID q) (User q) v (Answerer q)
     (HaveAnswer q) (IsClosed q).
Definition with_Answerer (v : User.t) (q : t) : t :=
  mk (ID q) (Header q) (UserID q) (User q) (AnswererID q) v
     (HaveAnswer q) (IsClosed q).
Definition with_HaveAnswer (v : bool) (q : t) : t :=
  mk (ID q) (Header q) (UserID q) (User q) (AnswererID q) (Answerer q)
     v (IsClosed q).
Definition with_IsClosed (v : bool) (q : t) : t :=
  mk (ID q) (Header q) (UserID q) (User q) (AnswererID q) (Answerer q)
     (HaveAnswer q) v.
End Question.

(** [QuestionCorrespondence] table. *)
Module QuestionCorrespondence.
Record t : Type := mk {
  ID : Z;
  QuestionID : Z;
  MessageID : Z;
  UserID : Z;
  User : User.t;
  IsEmployee : bool }.
Definition with_ID (v : Z) (c : t) : t :=
  mk v (QuestionID c) (MessageID c) (UserID c) (User c) (IsEmployee c).
Definition with_UserID (v : Z) (c : t) : t :=
  mk (ID c) (QuestionID c) (MessageID c) v (User c) (IsEmployee c).
Definition with_User (v : User.t) (c : t) : t :=
  mk (ID c) (QuestionID c) (MessageID c) (UserID c) v (IsEmployee c).
End QuestionCorrespondence.

(** The store behind [*gorm.DB]: the four tables in insertion order, the
    clock that stamps new rows (Unix seconds), the offset of the machine's
    local time zone from UTC in seconds (the stamps are written as local
    time; the offset is taken as constant), and the future refusals of
    writes. *)
Record DB : Type := mkDB {
  users : list User.t;
  reviews : list Review.t;
  questions : list Question.t;
  question_correspondences : list QuestionCorrespondence.t;
  clock : Z;
  zone : Z;
  refusals : list nat }.

Definition with_users (v : list User.t) (db : DB) : DB :=
  mkDB v (reviews db) (questions db) (question_correspondences db)
       (clock db) (zone db) (refusals db).
Definition with_reviews (v : list Review.t) (db : DB) : DB :=
  mkDB (users db) v (questions db) (question_correspondences db)
       (clock db) (zone db) (refusals db).
Definition with_questions (v : list Question.t) (db : DB) : DB :=
  mkDB (users db) (reviews db) v (question_correspondences db)
       (clock db) (zone db) (refusals db).
Definition with_question_correspondences
  (v : list QuestionCorrespondence.t) (db : DB) : DB :=
  mkDB (users db) (reviews db) (questions db) v (clock db) (zone db)
       (refusals db).
Definition with_refusals (v : list nat) (db : DB) : DB :=
  mkDB (users db) (reviews db) (questions db) (question_correspondences db)
       (clock db) (zone db) v.

(** *** What gorm does with a table

    Reads always answer (a failed read and an empty answer are the same
    [nil] to every caller).  [First] orders by primary key and takes one
    row; [Order("id asc")] sorts by primary key.  [Save] of a struct whose
    key is zero inserts it under the next key; [Save] of a struct with a
    key rewrites the row of that key with the struct's columns.  Before
    either, [Save] turns to the belongs-to structs of the struct: one that
    is set (it has a key) is inserted unless the users table has a row of
    its key, which it always has here, and its key is copied into the
    foreign key of the struct.  So the key of [Review{User: *user}] or
    [QuestionCorrespondence{User: *user}] becomes the foreign key on
    insert, and a question that was read with [Preload] is written back
    with the keys of its preloaded [User] and [Answerer], whatever the
    caller has assigned to [UserID] and [AnswererID] in between.  The
    belongs-to structs themselves are not columns: rows hold them zeroed,
    [Preload] fills them from the users table. *)

Section Table.
Variable A : Type.
Variable id : A -> Z.

Fixpoint insert_by_id (x : A) (l : list A) : list A :=
  match l with
  | [] => [x]
  | y :: l' => if id x <? id y then x :: y :: l' else y :: insert_by_id x l'
  end.

(** [ORDER BY id ASC]. *)
Fixpoint order_by_id (l : list A) : list A :=
  match l with
  | [] => []
  | x :: l' => insert_by_id x (order_by_id l')
  end.

(** [Where(cond).First(&x)]. *)
Definition First (cond : A -> bool) (tbl : list A) : option A :=
  hd_error (order_by_id (filter cond tbl)).

(** The key the store gives to the next inserted row. *)
Definition next_id (tbl : list A) : Z :=
  1 + fold_right Z.max 0 (map id tbl).

Definition has_id (k : Z) (tbl : list A) : bool :=
  existsb (fun r => id r =? k) tbl.

(** The table after [Save(&x)] of a struct with a key: the row of that key
    rewritten, or (no such row) the struct inserted under its key. *)
Definition update (x : A) (tbl : list A) : list A :=
  if has_id (id x) tbl
  then map (fun r => if id r =? id x then x else r) tbl
  else tbl ++ [x].

End Table.

(** [Preload("User")] and [Preload("Answerer")]: the user of that key, the
    zero struct when there is none. *)
Definition load_user (k : Z) (db : DB) : User.t :=
  match First User.ID (fun u => User.ID u =? k) (users db) with
  | Some u => u
  | None => User.zero
  end.

Definition preload_question (db : DB) (q : Question.t) : Question.t :=
  Question.with_Answerer (load_user (Question.AnswererID q) db)
    (Question.with_User (load_user (Question.UserID q) db) q).

Definition preload_review (db : DB) (r : Review.t) : Review.t :=
  Review.with_User (load_user (Review.UserID r) db) r.

Definition preload_correspondence (db : DB) (c : QuestionCorrespondence.t)
  : QuestionCorrespondence.t :=
  QuestionCorrespondence.with_User
    (load_user (QuestionCorrespondence.UserID c) db) c.

(** The columns of a struct: the belongs-to structs dropped. *)
Definition question_columns (q : Question.t) : Question.t :=
  Question.with_Answerer User.zero (Question.with_User User.zero q).
Definition review_columns (r : Review.t) : Review.t :=
  Review.with_User User.zero r.
Definition correspondence_columns (c : QuestionCorrespondence.t)
  : QuestionCorrespondence.t :=
  QuestionCorrespondence.with_User User.zero c.

(** The foreign key that [Save] writes: the key of the belongs-to struct
    when one is set, the value of the foreign key field otherwise. *)
Definition owner_key (owner : User.t) (key : Z) : Z :=
  if User.ID owner =? 0 then key else User.ID owner.

(** A struct with its foreign keys as [Save] leaves them. *)
Definition review_keys (r : Review.t) : Review.t :=
  Review.with_UserID (owner_key (Review.User r) (Review.UserID r)) r.

Definition question_keys (q : Question.t) : Question.t :=
  Question.with_AnswererID
    (owner_key (Question.Answerer q) (Question.AnswererID q))
    (Question.with_UserID (owner_key (Question.User q) (Question.UserID q)) q).

Definition correspondence_keys (c : QuestionCorrespondence.t)
  : QuestionCorrespondence.t :=
  QuestionCorrespondence.with_UserID
    (owner_key (QuestionCorrespondence.User c)
       (QuestionCorrespondence.UserID c)) c.

Definition store_error : Logger.error := Some "store: write refused".

(** [db.Save(&user).Error], with the struct as [Save] leaves it. *)
Definition SaveUser (user : User.t) : M DB (User.t * Logger.error) :=
  fun db =>
    let (ok, rest) := attempt (refusals db) in
    let db := with_refusals rest db in
    if negb ok then ((user, store_error), db)
    else if User.ID user =? 0 then
      let user := User.with_ID (next_id User.ID (users db)) user in
      ((user, None), with_users (users db ++ [user]) db)
    else ((user, None), with_users (update User.ID user (users db)) db).

Definition SaveReview (review : Review.t) : M DB (Review.t * Logger.error) :=
  fun db =>
    let (ok, rest) := attempt (refusals db) in
    let db := with_refusals rest db in
    if negb ok then ((review, store_error), db)
    else
      let review := review_keys review in
      if Review.ID review =? 0 then
        let review :=
          Review.with_ID (next_id Review.ID (reviews db))
            (Review.with_CreatedAt (clock db) review) in
        ((review, None),
         with_reviews (reviews db ++ [review_columns review]) db)
      else
        ((review, None),
         with_reviews (update Review.ID (review_columns review) (reviews db))
           db).

Definition SaveQuestion (question : Question.t)
  : M DB (Question.t * Logger.error) :=
  fun db =>
    let (ok, rest) := attempt (refusals db) in
    let db := with_refusals rest db in
    if negb ok then ((question, store_error), db)
    else
      let question := question_keys question in
      if Question.ID question =? 0 then
        let question :=
          Question.with_ID (next_id Question.ID (questions db)) question in
        ((question, None),
         with_questions (questions db ++ [question_columns question]) db)
      else
        ((question, None),
         with_questions
           (update Question.ID (question_columns question) (questions db)) db).

Definition SaveCorrespondence (corr : QuestionCorrespondence.t)
  : M DB (QuestionCorrespondence.t * Logger.error) :=
  fun db =>
    let (ok, rest) := attempt (refusals db) in
    let db := with_refusals rest db in
    if negb ok then ((corr, store_error), db)
    else
      let corr := correspondence_keys corr in
      if QuestionCorrespondence.ID corr =? 0 then
        let corr :=
          QuestionCorrespondence.with_ID
            (next_id QuestionCorrespondence.ID (question_correspondences db))
            corr in
        ((corr, None),
         with_question_correspondences
           (question_correspondences db ++ [correspondence_columns corr]) db)
      else
        ((corr, None),
         with_question_correspondences
           (update QuestionCorrespondence.ID (correspondence_columns corr)
              (question_correspondences db)) db).

(* ------------------------------------------------------------------ *)
(** *** internal/pkg/database: queries and updates *)

(** A read of the store inside a computation. *)
Definition query {A : Type} (f : DB -> A) : M DB A := fun db => (f db, db).

(** The file of the functions below, for [Logger.Err]. *)
Definition file : string := "part_001".

(** [AddEmployeeByID] creates/updates User by Telegram ID with field
    IsEmployee = true; [RemoveEmployeeByID] with IsEmployee = false.  The
    operator console calls them.  [line] is the line of the function's
    [return l.Err(...)]. *)
Definition SetEmployeeByID (line : Z) (isEmployee : bool) (id : Z)
  : M DB Logger.error :=
  found <- query (fun db =>
    First User.ID (fun u => User.ChatID u =? id) (users db)) ;;
  let user := match found with Some u => u | None => User.zero end in
  let user := User.with_ChatID id user in
  let user := User.with_IsEmployee isEmployee user in
  '(_, err) <- SaveUser user ;;
  ret (Logger.Err file line err).

Definition AddEmployeeByID (id : Z) : M DB Logger.error :=
  SetEmployeeByID 87 true id.

Definition RemoveEmployeeByID (id : Z) : M DB Logger.error :=
  SetEmployeeByID 105 false id.

(** [AddEmployeeByNickname] and [RemoveEmployeeByNickname]: the same by
    Telegram Nickname. *)
Definition SetEmployeeByNickname (line : Z) (isEmployee : bool)
  (nick : string) : M DB Logger.error :=
  found <- query (fun db =>
    First User.ID (fun u => String.eqb (User.Nickname u) nick) (users db)) ;;
  let user := match found with Some u => u | None => User.zero end in
  let user := User.with_Nickname nick user in
  let user := User.with_IsEmployee isEmployee user in
  '(_, err) <- SaveUser user ;;
  ret (Logger.Err file line err).

Definition AddEmployeeByNickname (nick : string) : M DB Logger.error :=
  SetEmployeeByNickname 96 true nick.

Definition RemoveEmployeeByNickname (nick : string) : M DB Logger.error :=
  SetEmployeeByNickname 114 false nick.

(** [AddUser] creates/updates User. *)
Definition AddUser (chatId : Z) (nick : string) (state : Z)
  : M DB (User.t * Logger.error) :=
  found <- query (fun db =>
    First User.ID
      (fun u => (User.ChatID u =? chatId) || String.eqb (User.Nickname u) nick)
      (users db)) ;;
  let user := match found with Some u => u | None => User.zero end in
  let user := User.with_Nickname nick user in
  let user := User.with_ChatID chatId user in
  let user := User.with_State state user in
  let user := User.with_IsReceiver false user in
  '(user, err) <- SaveUser user ;;
  ret (user, Logger.Err file 126 err).

(** [AddQuestion] creates Question from User. *)
Definition AddQuestion (header : string) (user : User.t)
  : M DB (Question.t * Logger.error) :=
  let question := Question.zero in
  let question := Question.with_UserID (User.ID user) question in
  let question := Question.with_Header header question in
  '(question, err) <- SaveQuestion question ;;
  ret (question, Logger.Err file 135 err).

(** [GetEmployees]; an empty answer is Go's [nil] slice. *)
Definition GetEmployees (db : DB) : list User.t :=
  filter (fun u => User.IsEmployee u) (users db).

(** [GetReceivers]: employees who receive and who are the answerer of no
    question at all. *)
Definition GetReceivers (db : DB) : list User.t :=
  filter
    (fun u =>
       User.IsEmployee u && User.IsReceiver u &&
       negb (existsb (fun q => Question.AnswererID q =? User.ID u)
               (questions db)))
    (users db).

(** [GetUserByChatID]; [None] is the [nil] pointer. *)
Definition GetUserByChatID (chatId : Z) (db : DB) : option User.t :=
  match First User.ID (fun u => User.ChatID u =? chatId) (users db) with
  | Some user => if User.ID user =? 0 then None else Some user
  | None => None
  end.

(** [GetEmptyReview] returns Review from User with empty Text. *)
Definition GetEmptyReview (user : User.t) (db : DB) : option Review.t :=
  match First Review.ID
          (fun r => (Review.UserID r =? User.ID user)
                    && String.eqb (Review.Text r) "")
          (reviews db) with
  | Some review =>
      if Review.ID review =? 0 then None
      else Some (preload_review db review)
  | None => None
  end.

(** The place of a zone among the zones written as text, the sign and
    then the hours and minutes of the offset: the plus sign sorts before
    the minus sign, the digits by their size. *)
Definition zone_rank (zone : Z) : Z :=
  let minutes := Z.quot zone 60 in
  if minutes <? 0 then 1440 - minutes else minutes.

(** The order of two stamps as texts.  A stamp is written as the date and
    the wall clock of its zone followed by the offset of the zone, sign
    first; two such texts compare as their wall clocks (given in seconds)
    and, when these agree, as their zones. *)
Definition stamp_leb (wall1 zone1 wall2 zone2 : Z) : bool :=
  (wall1 <? wall2)
  || ((wall1 =? wall2) && (zone_rank zone1 <=? zone_rank zone2)).

(** [GetReviewsInRange]: [created_at BETWEEN sDate AND fDate].  The store
    compares texts: the stamp of a row is its instant as the local time
    of the machine, the two bounds are UTC times. *)
Definition GetReviewsInRange (fDate sDate : Z) (db : DB) : list Review.t :=
  order_by_id Review.ID
    (filter (fun r =>
               let wall := Review.CreatedAt r + zone db in
               stamp_leb sDate 0 wall (zone db)
               && stamp_leb wall (zone db) fDate 0)
       (reviews db)).

(** [GetCountReviewsByRating]: the counts for the ratings 1 to 5. *)
Definition GetCountReviewsByRating (db : DB) : list Z :=
  map (fun i =>
         Z.of_nat (List.length (filter (fun r => Review.Rating r =? i + 1)
                             (reviews db))))
      [0; 1; 2; 3; 4].

(** [GetQuestionById], with User and Answerer preloaded. *)
Definition GetQuestionById (id : Z) (db : DB) : option Question.t :=
  match First Question.ID (fun q => Question.ID q =? id) (questions db) with
  | Some question =>
      if Question.ID question =? 0 then None
      else Some (preload_question db question)
  | None => None
  end.

(** [GetOpenQuestionByUser], with User and Answerer preloaded. *)
Definition GetOpenQuestionByUser (user : User.t) (db : DB)
  : option Question.t :=
  match First Question.ID
          (fun q => (Question.UserID q =? User.ID user)
                    && Bool.eqb (Question.IsClosed q) false)
          (questions db) with
  | Some question =>
      if Question.ID question =? 0 then None
      else Some (preload_question db question)
  | None => None
  end.

(** [GetOpenQuestionByAnswerer], with User and Answerer preloaded. *)
Definition GetOpenQuestionByAnswerer (user : User.t) (db : DB)
  : option Question.t :=
  match First Question.ID
          (fun q => (Question.AnswererID q =? User.ID user)
                    && Bool.eqb (Question.IsClosed q) false)
          (questions db) with
  | Some question =>
      if Question.ID question =? 0 then None
      else Some (preload_question db question)
  | None => None
  end.

(** The filter of the new questions: no answerer, no answer, not closed
    (the column [answerer_id] is Go's [int], never NULL). *)
Definition is_new (q : Question.t) : bool :=
  (Question.AnswererID q =? 0)
  && Bool.eqb (Question.HaveAnswer q) false
  && Bool.eqb (Question.IsClosed q) false.

(** [GetNewQuestionById]: open Question without answer and Answerer, by
    ID; nothing is preloaded, so the struct holds the columns of the row
    and zero belongs-to structs. *)
Definition GetNewQuestionById (id : Z) (db : DB) : option Question.t :=
  match First Question.ID
          (fun q => (Question.ID q =? id) && is_new q) (questions db) with
  | Some question =>
      if Question.ID question =? 0 then None
      else Some (question_columns question)
  | None => None
  end.

(** [GetNewQuestions]: open Questions without answer and Answerer, nothing
    preloaded. *)
Definition GetNewQuestions (db : DB) : list Question.t :=
  map question_columns
    (order_by_id Question.ID (filter is_new (questions db))).

(** [GetCorrespondenceByQuestion], User preloaded, ordered by key. *)
Definition GetCorrespondenceByQuestion (questions : Question.t) (db : DB)
  : list QuestionCorrespondence.t :=
  map (preload_correspondence db)
    (order_by_id QuestionCorrespondence.ID
       (filter (fun c => QuestionCorrespondence.QuestionID c
                         =? Question.ID questions)
          (question_correspondences db))).

(** [AddCorrespondence] creates Correspondence from User; the pointer to
    the row is [None] when the user has no open question. *)
Definition AddCorrespondence (user : User.t) (messageId : Z)
  : M DB (option QuestionCorrespondence.t * Logger.error) :=
  question <- query (fun db =>
    if User.IsEmployee user then GetOpenQuestionByAnswerer user db
    else GetOpenQuestionByUser user db) ;;
  match question with
  | None => ret (None, None)
  | Some question =>
      let corr :=
        QuestionCorrespondence.mk 0 (Question.ID question) messageId 0
          user false in
      '(corr, err) <- SaveCorrespondence corr ;;
      ret (Some corr, Logger.Err file 156 err)
  end.

(** [ChangeUserState] change User "State". *)
Definition ChangeUserState (state : Z) (user : User.t)
  : M DB (User.t * Logger.error) :=
  let user := User.with_State state user in
  '(user, err) <- SaveUser user ;;
  ret (user, Logger.Err file 285 err).

(** [ChangeUserIsReceiver] change User "IsReceiver". *)
Definition ChangeUserIsReceiver (isReceiver : bool) (user : User.t)
  : M DB (User.t * Logger.error) :=
  let user := User.with_IsReceiver isReceiver user in
  '(user, err) <- SaveUser user ;;
  ret (user, Logger.Err file 292 err).

(** [ChangeTextReviewByUser] change Review "Text" (by User). *)
Definition ChangeTextReviewByUser (text : string) (user : User.t)
  : M DB Logger.error :=
  review <- query (GetEmptyReview user) ;;
  match review with
  | None => ret None
  | Some review =>
      let review := Review.with_Text text review in
      '(_, err) <- SaveReview review ;;
      ret (Logger.Err file 302 err)
  end.

(** [ChangeQuestionHaveAnswer] change Question "HaveAnswer". *)
Definition ChangeQuestionHaveAnswer (state : bool) (question : Question.t)
  : M DB (Question.t * Logger.error) :=
  let question := Question.with_HaveAnswer state question in
  '(question, err) <- SaveQuestion question ;;
  ret (question, Logger.Err file 309 err).

(** [ChangeQuestionAnswerer] change Question "Answerer". *)
Definition ChangeQuestionAnswerer (answererID : Z) (question : Question.t)
  : M DB (Question.t * Logger.error) :=
  let question := Question.with_AnswererID answererID question in
  '(question, err) <- SaveQuestion question ;;
  ret (question, Logger.Err file 316 err).

(** [ChangeQuestionIsClosed] change Question "IsClosed". *)
Definition ChangeQuestionIsClosed (closed : bool) (question : Question.t)
  : M DB (Question.t * Logger.error) :=
  let question := Question.with_IsClosed closed question in
  '(question, err) <- SaveQuestion question ;;
  ret (question, Logger.Err file 323 err).

End Database.

(* ================================================================== *)
(** ** pkg/telegram-bot-api: what the bot uses of the transport *)

Module Tg.

Module User.
Record t : Type := mk { ID : Z; UserName : string }.
End User.

Module Chat.
Record t : Type := mk { ID : Z }.
End Chat.

(** An incoming message of a private chat; it always carries its sender. *)
Module Message.
Record t : Type := mk {
  MessageID : Z;
  From : User.t;
  Chat : Chat.t;
  Text : string }.
End Message.

(** A button press; [Message] is the bot's message that carries the
    button. *)
Module CallbackQuery.
Record t : Type := mk { Message : Message.t; Data : string }.
End CallbackQuery.

Module Update.
Record t : Type := mk {
  UpdateID : Z;
  Message : option Message.t;
  CallbackQuery : option CallbackQuery.t }.
End Update.

Inductive ReplyMarkup : Type :=
| NoMarkup
| ReplyKeyboardMarkup (Keyboard : list (list string))
| InlineKeyboardMarkup (InlineKeyboard : list (list (string * string))).

(** The requests the bot sends. *)
Inductive Config : Type :=
| SendMessageConf (ChatID : Z) (Text : string) (Markup : ReplyMarkup)
| ForwardMessageConf (ChatID FromChatID MessageID : Z)
| CopyMessageConf (ChatID FromChatID MessageID : Z).

Definition NewMessage (chatID : Z) (text : string) : Config :=
  SendMessageConf chatID text NoMarkup.

(** [message.ReplyMarkup = markup]. *)
Definition with_ReplyMarkup (markup : ReplyMarkup) (c : Config) : Config :=
  match c with
  | SendMessageConf chat text _ => SendMessageConf chat text markup
  | _ => c
  end.

Definition NewForward (chatID fromChatID messageID : Z) : Config :=
  ForwardMessageConf chatID fromChatID messageID.

Definition NewCopyMessage (chatID fromChatID messageID : Z) : Config :=
  CopyMessageConf chatID fromChatID messageID.

(** The transport as the bot sees it: what it has delivered so far, in
    order, and its future refusals of requests. *)
Record Client : Type := mkClient {
  Sent : list Config;
  Refusals : list nat }.

Definition transport_error : Logger.error := Some "transport: request refused".

(** [client.Send(c)]: the request is delivered, or refused with an error
    and nothing delivered.  The returned message is used by no caller. *)
Definition Send (c : Config) : M Client Logger.error :=
  fun client =>
    let (ok, rest) := attempt (Refusals client) in
    if ok then (None, mkClient (Sent client ++ [c]) rest)
    else (transport_error, mkClient (Sent client) rest).

End Tg.

(* ================================================================== *)
(** ** The standard library's clock arithmetic used by [loadReviews] *)

Module Time.

Definition day : Z := 86400.

(** [t.UTC().Truncate(24 * time.Hour)] on Unix seconds. *)
Definition Truncate_day (t : Z) : Z := t - t mod day.

(** Year, month and day of a day number (days since 1970-01-01). *)
Definition civil_from_days (z : Z) : Z * Z * Z :=
  let z := z + 719468 in
  let era := z / 146097 in
  let doe := z - era * 146097 in
  let yoe := (doe - doe / 1460 + doe / 36524 - doe / 146096) / 365 in
  let doy := doe - (365 * yoe + yoe / 4 - yoe / 100) in
  let mp := (5 * doy + 2) / 153 in
  let d := doy - (153 * mp + 2) / 5 + 1 in
  let m := if mp <? 10 then mp + 3 else mp - 9 in
  let y := yoe + era * 400 in
  (if m <=? 2 then y + 1 else y, m, d).

(** The day number of the first of a month. *)
Definition days_from_civil (y m : Z) : Z :=
  let y := if m <=? 2 then y - 1 else y in
  let era := y / 400 in
  let yoe := y - era * 400 in
  let doy := (153 * (if 2 <? m then m - 3 else m + 9) + 2) / 5 in
  let doe := yoe * 365 + yoe / 4 - yoe / 100 + doy in
  era * 146097 + doe - 719468.

(** [t.AddDate(0, 0, -n)] for a UTC time. *)
Definition AddDays_back (n : Z) (t : Z) : Z := t - n * day.

(** [t.AddDate(0, -1, 0)] for a UTC midnight: the same day number in the
    month before, a day past the end of that month running over into the
    next, as [time.Date] normalises it. *)
Definition AddMonth_back (t : Z) : Z :=
  let '(y, m, d) := civil_from_days (t / day) in
  let '(y', m') := if m =? 1 then (y - 1, 12) else (y, m - 1) in
  (days_from_civil y' m' + d - 1) * day.

End Time.

(* ================================================================== *)
(** ** internal/pkg/bot *)

Module Bot.

(** User states *)
Definition SNew : Z := 1.
Definition SMain : Z := 2.
Definition SReview : Z := 3.
Definition SReviewText : Z := 4.
Definition SQuestion : Z := 5.
Definition SQuestionDiscussion : Z := 6.
Definition SSwitchReceiver : Z := 7.
Definition SSearchQuestion : Z := 8.

(** Callback data types *)
Definition CBQuestion : Z := 1.

(** Date intervals *)
Definition RDay : Z := 1.
Definition RWeek : Z := 2.
Definition RMonth : Z := 3.
Definition RAll : Z := 4.

(** Button Sets *)
Definition UserMain : Z := 1.
Definition UserStars : Z := 2.
Definition UserClose : Z := 3.
Definition EmplMain : Z := 4.
Definition EmplMainR : Z := 5.
Definition EmplReview : Z := 6.
Definition EmplExit : Z := 7.

(** The configuration behind [*viper.Viper]: the value of the key
    ["offset"] in memory, the value in the configuration file, and the
    future refusals of writes of the file. *)
Record Viper : Type := mkViper {
  Offset : Z;
  Written : Z;
  WriteRefusals : list nat }.

Definition config_error : Logger.error := Some "config: write refused".

(** [conf.Set("offset", v)]. *)
Definition Set_offset (v : Z) : M Viper unit :=
  fun conf => (tt, mkViper v (Written conf) (WriteRefusals conf)).

(** [conf.WriteConfig()]. *)
Definition WriteConfig : M Viper Logger.error :=
  fun conf =>
    let (ok, rest) := attempt (WriteRefusals conf) in
    if ok then (None, mkViper (Offset conf) (Offset conf) rest)
    else (config_error, mkViper (Offset conf) (Written conf) rest).

Record App : Type := mkApp {
  Bot : Tg.Client;
  DB : Database.DB;
  Conf : Viper }.

(** A computation on [app.DB], [app.Bot] or [app.Conf] as one on [app]. *)
Definition onDB {A : Type} (m : M Database.DB A) : M App A :=
  fun app => let (a, db) := m (DB app) in (a, mkApp (Bot app) db (Conf app)).
Definition onBot {A : Type} (m : M Tg.Client A) : M App A :=
  fun app => let (a, bot) := m (Bot app) in (a, mkApp bot (DB app) (Conf app)).
Definition onConf {A : Type} (m : M Viper A) : M App A :=
  fun app => let (a, conf) := m (Conf app) in (a, mkApp (Bot app) (DB app) conf).

(** Go's 64-bit [int] addition. *)
Definition int_add (a b : Z) : Z :=
  (a + b + 9223372036854775808) mod 18446744073709551616
  - 9223372036854775808.

(** [buttons] returns button texts for ReplyKeyboardMarkup *)
Definition buttons (key : Z) : list string :=
  if key =? UserMain then ["⭐Review"; "❓Question"]
  else if key =? UserStars then ["⭐⭐⭐⭐⭐"; "⭐⭐⭐⭐"; "⭐⭐⭐"; "⭐⭐"; "⭐"]
  else if key =? UserClose then ["❌Close"]
  else if key =? EmplMain then
    ["❓Receive questions"; "❓Open questions"; "❓Find a question"; "⭐Reviews"]
  else if key =? EmplMainR then
    ["❓Do not receive questions"; "❓Open questions"; "❓Find a question";
     "⭐Reviews"]
  else if key =? EmplReview then
    ["📅For a day"; "📅For a week"; "📅For a month"; "📅All (no text)"; "↩️Back"]
  else if key =? EmplExit then ["↩️Back"]
  else [].

(** [newReplyKeyboardMarkup]: one button per row. *)
Definition newReplyKeyboardMarkup (text : list string) : Tg.ReplyMarkup :=
  Tg.ReplyKeyboardMarkup (map (fun row => [row]) text).

(** [newOneButtonInlineKeyboardMarkup] *)
Definition newOneButtonInlineKeyboardMarkup (text data : string)
  : Tg.ReplyMarkup :=
  Tg.InlineKeyboardMarkup [[(text, data)]].

(** The line feed of Go's ["\n"]. *)
Definition nl : string := String (ascii_of_nat 10) "".

(** The two files of the package that call [Logger.Err]; the number that
    goes with them at every call is the line of that call. *)
Definition part_002 : string := "part_002".
Definition parsers_go : string := "parsers.go".

(** [responserCommandUser] responds to user commands *)
Definition responserCommandUser (command : string) (user : Database.User.t)
  : M App (Database.User.t * Logger.error) :=
  if String.eqb command "/start" then
    let message :=
      Tg.NewMessage (Database.User.ChatID user)
        ("Greetings 👋" ++ nl ++ "With my help, you can leave a "
         ++ String (ascii_of_nat 34) "⭐Review" ++ String (ascii_of_nat 34) " "
         ++ nl ++ "or ask a " ++ String (ascii_of_nat 34) "❓Question"
         ++ String (ascii_of_nat 34) "") in
    let message :=
      Tg.with_ReplyMarkup (newReplyKeyboardMarkup (buttons UserMain)) message in
    err <- onBot (Tg.Send message) ;;
    match err with
    | Some _ => ret (user, Logger.Err part_002 60 err)
    | None =>
        '(user, err) <- onDB (Database.ChangeUserState SMain user) ;;
        ret (user, Logger.Err part_002 63 err)
    end
  else ret (user, None).

(** [responserCommandEmployee] responds to employee commands *)
Definition responserCommandEmployee (command : string) (user : Database.User.t)
  : M App (Database.User.t * Logger.error) :=
  if String.eqb command "/start" then
    let message :=
      Tg.NewMessage (Database.User.ChatID user)
        ("Greetings 👋" ++ nl ++ "I implement customer feedback" ++ nl
         ++ "o receive questions click" ++ nl
         ++ String (ascii_of_nat 34) "❓Receive questions"
         ++ String (ascii_of_nat 34) "") in
    let message :=
      Tg.with_ReplyMarkup (newReplyKeyboardMarkup (buttons EmplMain)) message in
    err <- onBot (Tg.Send message) ;;
    match err with
    | Some _ => ret (user, Logger.Err part_002 76 err)
    | None =>
        '(user, err) <- onDB (Database.ChangeUserState SMain user) ;;
        ret (user, Logger.Err part_002 79 err)
    end
  else ret (user, None).

(** [responserCommand] responds to commands *)
Definition responserCommand (command : string) (user : Database.User.t)
  : M App (Database.User.t * Logger.error) :=
  if Database.User.IsEmployee user then
    '(user, err) <- responserCommandEmployee command user ;;
    ret (user, Logger.Err part_002 47 err)
  else
    '(user, err) <- responserCommandUser command user ;;
    ret (user, Logger.Err part_002 49 err).

(** A text message with a reply keyboard, sent, and the error returned
    by the [return l.Err(err)] of the given line. *)
Definition send_menu (line : Z) (chat : Z) (text : string) (keys : Z)
  : M App Logger.error :=
  let message := Tg.NewMessage chat text in
  let message :=
    Tg.with_ReplyMarkup (newReplyKeyboardMarkup (buttons keys)) message in
  err <- onBot (Tg.Send message) ;;
  ret (Logger.Err part_002 line err).

(** A text message without keyboard, sent, and the error returned by the
    [return l.Err(err)] of the given line. *)
Definition send_text (line : Z) (chat : Z) (text : string)
  : M App Logger.error :=
  err <- onBot (Tg.Send (Tg.NewMessage chat text)) ;;
  ret (Logger.Err part_002 line err).

(** [responserUser] responds to user message *)
Definition responserUser (user : Database.User.t) : M App Logger.error :=
  let state := Database.User.State user in
  let chat := Database.User.ChatID user in
  if state =? SMain then
    send_menu 99 chat
      "If you have any questions or review, I'm listening carefully" UserMain
  else if state =? SReview then
    send_menu 104 chat "Please rate from 1 to 5" UserStars
  else if state =? SReviewText then
    send_menu 109 chat
      ("Thank you for your review" ++ nl ++ "You can also leave a comment"
       ++ nl ++ "Or press " ++ String (ascii_of_nat 34) "❌Close"
       ++ String (ascii_of_nat 34) "")
      UserClose
  else if state =? SQuestion then
    send_menu 114 chat
      ("Please ask your question" ++ nl ++ "Or click "
       ++ String (ascii_of_nat 34) "❌Close" ++ String (ascii_of_nat 34) "")
      UserClose
  else if state =? SQuestionDiscussion then
    question <- onDB (Database.query (Database.GetOpenQuestionByUser user)) ;;
    match question with
    | None => send_text 120 chat "Please reopen the question"
    | Some question =>
        let id := Strconv.Itoa (Database.Question.ID question) in
        send_text 125 chat
          ("Your question #" ++ id ++ nl ++ "Thank you for your question" ++ nl
           ++ "An available employee will answer you shortly")
    end
  else ret None.

(** [responserEmployee] responds to employee message *)
Definition responserEmployee (user : Database.User.t)
  : M App (Database.User.t * Logger.error) :=
  let state := Database.User.State user in
  let chat := Database.User.ChatID user in
  if state =? SMain then
    err <- (if Database.User.IsReceiver user
            then send_menu 141 chat "Choose an action" EmplMainR
            else send_menu 141 chat "Choose an action" EmplMain) ;;
    ret (user, err)
  else if state =? SReview then
    err <- send_menu 146 chat "Select Interval" EmplReview ;;
    ret (user, err)
  else if state =? SQuestion then
    err <- onBot (Tg.Send (Tg.NewMessage chat "No questions")) ;;
    match err with
    | Some _ => ret (user, Logger.Err part_002 151 err)
    | None =>
        '(user, err) <- onDB (Database.ChangeUserState SMain user) ;;
        ret (user, Logger.Err part_002 154 err)
    end
  else if state =? SQuestionDiscussion then
    err <- send_menu 159 chat "You have entered a chat with a user" EmplExit ;;
    ret (user, err)
  else if state =? SSwitchReceiver then
    '(user, err) <- onDB (Database.ChangeUserState SMain user) ;;
    match err with
    | Some _ => ret (user, Logger.Err part_002 163 err)
    | None =>
        if Database.User.IsReceiver user then
          '(user, err) <- onDB (Database.ChangeUserIsReceiver false user) ;;
          match err with
          | Some _ => ret (user, Logger.Err part_002 170 err)
          | None =>
              err <- send_menu 173 chat "You no longer receive questions"
                       EmplMain ;;
              ret (user, err)
          end
        else
          '(user, err) <- onDB (Database.ChangeUserIsReceiver true user) ;;
          match err with
          | Some _ => ret (user, Logger.Err part_002 179 err)
          | None =>
              err <- send_menu 182 chat "Now You receive questions" EmplMainR ;;
              ret (user, err)
          end
    end
  else if state =? SSearchQuestion then
    err <- send_menu 187 chat "Enter question number" EmplExit ;;
    ret (user, err)
  else ret (user, None).

(** [responser] responds to message *)
Definition responser (user : Database.User.t)
  : M App (Database.User.t * Logger.error) :=
  if Database.User.IsEmployee user then
    '(user, err) <- responserEmployee user ;;
    ret (user, Logger.Err part_002 87 err)
  else
    err <- responserUser user ;;
    ret (user, Logger.Err part_002 89 err).

(** [ratingInStars] returns rating as ⭐ *)
Definition ratingInStars (rating : Z) : string := Strings.Repeat "⭐" rating.

(** [sendQuestions] sends Questions to the chat *)
Fixpoint sendQuestions (to : Database.User.t)
  (question : list Database.Question.t) : M Tg.Client Logger.error :=
  match question with
  | [] => ret None
  | q :: rest =>
      let id := Strconv.Itoa (Database.Question.ID q) in
      let key := (Strconv.Itoa CBQuestion ++ "-")%string in
      let text :=
        ("Question #" ++ id ++ nl ++ Database.Question.Header q)%string in
      let message := Tg.NewMessage (Database.User.ChatID to) text in
      let message :=
        Tg.with_ReplyMarkup
          (newOneButtonInlineKeyboardMarkup "Take question" (key ++ id))
          message in
      err <- Tg.Send message ;;
      match err with
      | Some _ => ret (Logger.Err part_002 227 err)
      | None => sendQuestions to rest
      end
  end.

(** [sendCorrespondenceFromUser] forwarding message from user to employee *)
Definition sendCorrespondenceFromUser (question : Database.Question.t)
  (message : Tg.Message.t) : M Tg.Client Logger.error :=
  let copy :=
    Tg.NewForward
      (Database.User.ChatID (Database.Question.Answerer question))
      (Database.User.ChatID (Database.Question.User question))
      (Tg.Message.MessageID message) in
  err <- Tg.Send copy ;;
  ret (Logger.Err part_002 237 err).

(** [sendCorrespondenceFromAnswerer] sends copy of message from employee
    to user *)
Definition sendCorrespondenceFromAnswerer (question : Database.Question.t)
  (message : Tg.Message.t) : M Tg.Client Logger.error :=
  let copy :=
    Tg.NewCopyMessage
      (Database.User.ChatID (Database.Question.User question))
      (Database.User.ChatID (Database.Question.Answerer question))
      (Tg.Message.MessageID message) in
  err <- Tg.Send copy ;;
  ret (Logger.Err part_002 244 err).

(** The replay loop of [loadCorrespondence] and [loadFullQuestionById]:
    every row forwarded to the user's chat, in the order of the slice,
    until a request is refused.  The result is the error of the refused
    request, which [loadCorrespondence] returns through [l.Err] and
    [loadFullQuestionById] drops. *)
Fixpoint forwardCorrespondence (user : Database.User.t)
  (correspondence : list Database.QuestionCorrespondence.t)
  : M Tg.Client Logger.error :=
  match correspondence with
  | [] => ret None
  | corr :: rest =>
      let copy :=
        Tg.NewForward (Database.User.ChatID user)
          (Database.User.ChatID (Database.QuestionCorrespondence.User corr))
          (Database.QuestionCorrespondence.MessageID corr) in
      err <- Tg.Send copy ;;
      match err with
      | Some _ => ret err
      | None => forwardCorrespondence user rest
      end
  end.

(** [loadCorrespondence] loads Correspondence to the chat by Question ID *)
Definition loadCorrespondence (id : Z) (user : Database.User.t)
  : M App Logger.error :=
  question <- onDB (Database.query (Database.GetNewQuestionById id)) ;;
  match question with
  | None =>
      let message :=
        Tg.NewMessage (Database.User.ChatID user) "Question already taken" in
      err <- onBot (Tg.Send message) ;;
      ret (Logger.Err part_002 253 err)
  | Some question =>
      '(question, err) <-
        onDB (Database.ChangeQuestionAnswerer (Database.User.ID user) question) ;;
      match err with
      | Some _ => ret (Logger.Err part_002 257 err)
      | None =>
          correspondence <-
            onDB (Database.query
                    (Database.GetCorrespondenceByQuestion question)) ;;
          err <- onBot (forwardCorrespondence user correspondence) ;;
          ret (Logger.Err part_002 264 err)
      end
  end.

(** A loop whose body's errors are dropped. *)
Fixpoint for_each {S A : Type} (l : list A) (body : A -> M S unit)
  : M S unit :=
  match l with
  | [] => ret tt
  | x :: rest => body x ;;; for_each rest body
  end.

(** The text of the rating counts in [loadReviews]. *)
Fixpoint counts_text (i : Z) (counts : list Z) (text : string) : string :=
  match counts with
  | [] => text
  | r :: rest =>
      counts_text (i + 1) rest
        (text ++ ratingInStars (i + 1) ++ " - " ++ Strconv.Itoa r ++ nl)
  end.

(** Go's zero [time.Time], 0001-01-01, in Unix seconds. *)
Definition zero_time : Z := -62135596800.

(** [loadReviews] loads Reviews by date interval *)
Definition loadReviews (interval : Z) (user : Database.User.t)
  : M App unit :=
  now <- onDB (Database.query Database.clock) ;;
  let fDate := Time.Truncate_day now + Time.day in
  let chat := Database.User.ChatID user in
  if interval =? RAll then
    counts <- onDB (Database.query Database.GetCountReviewsByRating) ;;
    let text := counts_text 0 counts "" in
    onBot (Tg.Send (Tg.NewMessage chat text)) ;;; ret tt
  else
    let sDate :=
      if interval =? RDay then Time.AddDays_back 1 fDate
      else if interval =? RWeek then Time.AddDays_back 7 fDate
      else if interval =? RMonth then Time.AddMonth_back fDate
      else zero_time in
    reviews <- onDB (Database.query (Database.GetReviewsInRange fDate sDate)) ;;
    for_each reviews (fun r =>
      onBot (Tg.Send
               (Tg.NewMessage chat
                  (ratingInStars (Database.Review.Rating r) ++ nl
                   ++ Database.Review.Text r))) ;;; ret tt).

(** [loadFullQuestionById] loads Question to the chat by ID *)
Definition loadFullQuestionById (id : string) (user : Database.User.t)
  : M App unit :=
  let chat := Database.User.ChatID user in
  match Strconv.Atoi id with
  | None => onBot (Tg.Send (Tg.NewMessage chat "Wrong format")) ;;; ret tt
  | Some idInt =>
      question <- onDB (Database.query (Database.GetQuestionById idInt)) ;;
      match question with
      | None =>
          onBot (Tg.Send (Tg.NewMessage chat "Question not found")) ;;; ret tt
      | Some question =>
          onBot (Tg.Send
                   (Tg.NewMessage chat (Database.Question.Header question))) ;;;
          correspondence <-
            onDB (Database.query
                    (Database.GetCorrespondenceByQuestion question)) ;;
          onBot (forwardCorrespondence user correspondence) ;;; ret tt
      end
  end.

(* ------------------------------------------------------------------ *)
(** *** parsers.go *)

(** The closing lines of most transitions:
    [err = responser(user, app);
     if err != nil { database.ChangeUserState(back, user, app.DB) };
     return l.Err(err)], the last of them on the given line. *)
Definition respond_or_back (line : Z) (back : Z) (user : Database.User.t)
  : M App Logger.error :=
  '(user, err) <- responser user ;;
  match err with
  | Some _ =>
      onDB (Database.ChangeUserState back user) ;;;
      ret (Logger.Err parsers_go line err)
  | None => ret (Logger.Err parsers_go line err)
  end.

(** A transition that only changes the state:
    [err := database.ChangeUserState(state, user, app.DB);
     if err != nil { return l.Err(err) }], this [return] on the line
    [line1], and then the closing lines, which end on the line [line2]. *)
Definition enter (line1 line2 : Z) (state back : Z) (user : Database.User.t)
  : M App Logger.error :=
  '(user, err) <- onDB (Database.ChangeUserState state user) ;;
  match err with
  | Some _ => ret (Logger.Err parsers_go line1 err)
  | None => respond_or_back line2 back user
  end.

(** The [switch] of [parseReview]; [r] stays 0 on any other text. *)
Definition rating_value (rating : string) : Z :=
  if String.eqb rating "⭐" || String.eqb rating "1" then 1
  else if String.eqb rating "⭐⭐" || String.eqb rating "2" then 2
  else if String.eqb rating "⭐⭐⭐" || String.eqb rating "3" then 3
  else if String.eqb rating "⭐⭐⭐⭐" || String.eqb rating "4" then 4
  else if String.eqb rating "⭐⭐⭐⭐⭐" || String.eqb rating "5" then 5
  else 0.

(** [parseReview] parse rating Review *)
Definition parseReview (rating : string) (user : Database.User.t)
  : M App Logger.error :=
  let r := rating_value rating in
  let review := Database.Review.mk 0 0 r "" 0 user in
  '(_, err) <- onDB (Database.SaveReview review) ;;
  ret (Logger.Err parsers_go 463 err).

(** [splitCallbackData] split data from CallbackQuery *)
Definition splitCallbackData (callback : Tg.CallbackQuery.t) : Z * string :=
  let parts := Strings.Split (Tg.CallbackQuery.Data callback) "-"%char in
  match Strconv.Atoi (hd "" parts) with
  | None => (0, "")
  | Some key =>
      match parts with
      | _ :: data :: _ => (key, data)
      | _ => (key, "")
      end
  end.

(** The rating tokens of the [SReview] case. *)
Definition is_rating_token (text : string) : bool :=
  existsb (String.eqb text)
    ["⭐"; "⭐⭐"; "⭐⭐⭐"; "⭐⭐⭐⭐"; "⭐⭐⭐⭐⭐"; "1"; "2"; "3"; "4"; "5"].

(** [parseMessageUser] parse Message from user *)
Definition parseMessageUser (user : Database.User.t) (message : Tg.Message.t)
  : M App Logger.error :=
  let state := Database.User.State user in
  let text := Tg.Message.Text message in
  if state =? SNew then
    '(_, err) <- onDB (Database.ChangeUserState SMain user) ;;
    ret err
  else if state =? SMain then
    if String.eqb text "⭐Review" then enter 82 88 SReview SMain user
    else if String.eqb text "❓Question" then enter 92 98 SQuestion SMain user
    else ret None
  else if state =? SReview then
    if is_rating_token text then
      err <- parseReview text user ;;
      match err with
      | Some _ => ret (Logger.Err parsers_go 107 err)
      | None => enter 111 117 SReviewText SReview user
      end
    else ret None
  else if state =? SReviewText then
    if String.eqb text "❌Close" then
      err <- onDB (Database.ChangeTextReviewByUser "-" user) ;;
      match err with
      | Some _ => ret (Logger.Err parsers_go 126 err)
      | None => enter 130 136 SMain SReviewText user
      end
    else
      err <- onDB (Database.ChangeTextReviewByUser text user) ;;
      match err with
      | Some _ => ret (Logger.Err parsers_go 140 err)
      | None => enter 144 150 SMain SReviewText user
      end
  else if state =? SQuestion then
    if String.eqb text "❌Close" then enter 157 163 SMain SQuestion user
    else
      '(question, err) <- onDB (Database.AddQuestion text user) ;;
      match err with
      | Some _ => ret (Logger.Err parsers_go 167 err)
      | None =>
          let questions := [question] in
          receivers <- onDB (Database.query Database.GetReceivers) ;;
          for_each receivers (fun receiver =>
            onBot (sendQuestions receiver questions) ;;; ret tt) ;;;
          enter 176 182 SQuestionDiscussion SQuestion user
      end
  else if state =? SQuestionDiscussion then
    if String.eqb text "❌Close" then
      '(user, err) <- onDB (Database.ChangeUserState SMain user) ;;
      match err with
      | Some _ => ret (Logger.Err parsers_go 189 err)
      | None =>
          question <-
            onDB (Database.query (Database.GetOpenQuestionByUser user)) ;;
          match question with
          | Some question =>
              '(_, err) <-
                onDB (Database.AddCorrespondence user
                        (Tg.Message.MessageID message)) ;;
              match err with
              | Some _ => ret (Logger.Err parsers_go 195 err)
              | None =>
                  '(question, err) <-
                    onDB (Database.ChangeQuestionIsClosed true question) ;;
                  match err with
                  | Some _ => ret (Logger.Err parsers_go 199 err)
                  | None =>
                      if negb (Database.User.ID
                                 (Database.Question.Answerer question) =? 0)
                      then
                        err <-
                          onBot (sendCorrespondenceFromUser question message) ;;
                        match err with
                        | Some _ => ret (Logger.Err parsers_go 204 err)
                        | None => respond_or_back 212 SQuestionDiscussion user
                        end
                      else respond_or_back 212 SQuestionDiscussion user
                  end
              end
          | None => respond_or_back 212 SQuestionDiscussion user
          end
      end
    else
      question <- onDB (Database.query (Database.GetOpenQuestionByUser user)) ;;
      match question with
      | None => ret None
      | Some question =>
          err <-
            (if negb (Database.User.ID (Database.Question.Answerer question)
                      =? 0)
             then onBot (sendCorrespondenceFromUser question message)
             else ret None) ;;
          match err with
          | Some _ => ret (Logger.Err parsers_go 221 err)
          | None =>
              '(question, err) <-
                onDB (Database.ChangeQuestionHaveAnswer false question) ;;
              match err with
              | Some _ => ret (Logger.Err parsers_go 226 err)
              | None =>
                  '(_, err) <-
                    onDB (Database.AddCorrespondence user
                            (Tg.Message.MessageID message)) ;;
                  ret (Logger.Err parsers_go 229 err)
              end
          end
      end
  else ret None.

(** [parseMessageEmployee] parse Message from employee *)
Definition parseMessageEmployee (user : Database.User.t)
  (message : Tg.Message.t) : M App Logger.error :=
  let state := Database.User.State user in
  let text := Tg.Message.Text message in
  if state =? SNew then
    '(_, err) <- onDB (Database.ChangeUserState SMain user) ;;
    ret err
  else if state =? SMain then
    if String.eqb text "❓Receive questions" then
      '(user, err) <- onDB (Database.ChangeUserState SSwitchReceiver user) ;;
      match err with
      | Some _ => ret (Logger.Err parsers_go 246 err)
      | None =>
          '(_, err) <- responser user ;;
          ret (Logger.Err parsers_go 249 err)
      end
    else if String.eqb text "❓Do not receive questions" then
      '(user, err) <- onDB (Database.ChangeUserState SSwitchReceiver user) ;;
      match err with
      | Some _ => ret (Logger.Err parsers_go 253 err)
      | None =>
          '(_, err) <- responser user ;;
          ret (Logger.Err parsers_go 256 err)
      end
    else if String.eqb text "❓Open questions" then
      questions <- onDB (Database.query Database.GetNewQuestions) ;;
      match questions with
      | [] =>
          '(user, err) <- onDB (Database.ChangeUserState SQuestion user) ;;
          match err with
          | Some _ => ret (Logger.Err parsers_go 262 err)
          | None =>
              '(_, err) <- responser user ;;
              ret (Logger.Err parsers_go 264 err)
          end
      | _ :: _ =>
          onBot (sendQuestions user questions) ;;;
          ret (Logger.Err parsers_go 267 None)
      end
    else if String.eqb text "⭐Reviews" then enter 271 277 SReview SMain user
    else if String.eqb text "❓Find a question" then
      enter 281 287 SSearchQuestion SMain user
    else ret None
  else if state =? SReview then
    if String.eqb text "📅For a day" then loadReviews RDay user ;;; ret None
    else if String.eqb text "📅For a week" then
      loadReviews RWeek user ;;; ret None
    else if String.eqb text "📅For a month" then
      loadReviews RMonth user ;;; ret None
    else if String.eqb text "📅All (no text)" then
      loadReviews RAll user ;;; ret None
    else if String.eqb text "↩️Back" then
      enter 308 314 SMain SQuestionDiscussion user
    else ret None
  else if state =? SQuestionDiscussion then
    if String.eqb text "↩️Back" then
      '(user, err) <- onDB (Database.ChangeUserState SMain user) ;;
      match err with
      | Some _ => ret (Logger.Err parsers_go 323 err)
      | None =>
          question <-
            onDB (Database.query (Database.GetOpenQuestionByAnswerer user)) ;;
          match question with
          | Some question =>
              '(_, err) <-
                onDB (Database.ChangeQuestionAnswerer 0 question) ;;
              match err with
              | Some _ => ret (Logger.Err parsers_go 329 err)
              | None => respond_or_back 336 SQuestionDiscussion user
              end
          | None => respond_or_back 336 SQuestionDiscussion user
          end
      end
    else
      question <-
        onDB (Database.query (Database.GetOpenQuestionByAnswerer user)) ;;
      match question with
      | Some question =>
          err <- onBot (sendCorrespondenceFromAnswerer question message) ;;
          match err with
          | Some _ => ret (Logger.Err parsers_go 342 err)
          | None =>
              '(question, err) <-
                onDB (Database.ChangeQuestionHaveAnswer true question) ;;
              match err with
              | Some _ => ret (Logger.Err parsers_go 346 err)
              | None =>
                  '(_, err) <-
                    onDB (Database.AddCorrespondence user
                            (Tg.Message.MessageID message)) ;;
                  ret (Logger.Err parsers_go 349 err)
              end
          end
      | None => ret None
      end
  else if state =? SSearchQuestion then
    if String.eqb text "↩️Back" then enter 358 364 SMain SSearchQuestion user
    else loadFullQuestionById text user ;;; ret None
  else ret None.

(** [parseCommand] parse commands: whether the text is a command, and the
    error of handling it. *)
Definition parseCommand (message : Tg.Message.t)
  : M App (bool * Logger.error) :=
  let text := Tg.Message.Text message in
  if String.eqb text "/start" then
    '(user, err) <-
      onDB (Database.AddUser (Tg.User.ID (Tg.Message.From message))
              (Tg.User.UserName (Tg.Message.From message)) SNew) ;;
    match err with
    | Some _ => ret (true, Logger.Err parsers_go 380 err)
    | None =>
        question <-
          onDB (Database.query (Database.GetOpenQuestionByUser user)) ;;
        err <-
          match question with
          | Some question =>
              '(_, err) <-
                onDB (Database.ChangeQuestionIsClosed true question) ;;
              ret err
          | None => ret None
          end ;;
        match err with
        | Some _ => ret (true, Logger.Err parsers_go 386 err)
        | None =>
            '(_, err) <- responserCommand text user ;;
            ret (true, Logger.Err parsers_go 390 err)
        end
    end
  else ret (false, None).

Definition user_not_found (chat : Z) : Logger.error :=
  Logger.NewError ("User " ++ Strconv.Itoa chat ++ " is not found").

(** [parseMessage] parse Message *)
Definition parseMessage (message : Tg.Message.t) : M App Logger.error :=
  '(isCommand, err) <- parseCommand message ;;
  if isCommand : bool then ret (Logger.Err parsers_go 60 err)
  else
    user <-
      onDB (Database.query
              (Database.GetUserByChatID
                 (Tg.User.ID (Tg.Message.From message)))) ;;
    match user with
    | None =>
        ret (Logger.Err parsers_go 64
               (user_not_found (Tg.User.ID (Tg.Message.From message))))
    | Some user =>
        if Database.User.IsEmployee user then
          err <- parseMessageEmployee user message ;;
          ret (Logger.Err parsers_go 67 err)
        else
          err <- parseMessageUser user message ;;
          ret (Logger.Err parsers_go 69 err)
    end.

(** [parseCallbackUser] parse CallbackQuery from user (not used) *)
Definition parseCallbackUser (user : Database.User.t)
  (callback : Tg.CallbackQuery.t) : M App Logger.error :=
  ret None.

(** [parseCallbackEmployee] parse CallbackQuery from employee *)
Definition parseCallbackEmployee (user : Database.User.t)
  (callback : Tg.CallbackQuery.t) : M App Logger.error :=
  let (key, data) := splitCallbackData callback in
  if Database.User.State user =? SMain then
    if key =? CBQuestion then
      match Strconv.Atoi data with
      | None => ret (Logger.Err parsers_go 424 (Logger.NewError "no id"))
      | Some id =>
          err <- loadCorrespondence id user ;;
          match err with
          | Some _ => ret (Logger.Err parsers_go 428 err)
          | None => enter 432 438 SQuestionDiscussion SMain user
          end
      end
    else ret None
  else ret None.

(** [parseCallback] parse CallbackQuery *)
Definition parseCallback (callback : Tg.CallbackQuery.t)
  : M App Logger.error :=
  let chat :=
    Tg.Chat.ID (Tg.Message.Chat (Tg.CallbackQuery.Message callback)) in
  user <- onDB (Database.query (Database.GetUserByChatID chat)) ;;
  match user with
  | None => ret (Logger.Err parsers_go 400 (user_not_found chat))
  | Some user =>
      if Database.User.IsEmployee user then
        err <- parseCallbackEmployee user callback ;;
        ret (Logger.Err parsers_go 403 err)
      else
        err <- parseCallbackUser user callback ;;
        ret (Logger.Err parsers_go 405 err)
  end.

(** [parseUpdate] parse bot Update *)
Definition parseUpdate (update : Tg.Update.t) : M App Logger.error :=
  err <-
    match Tg.Update.Message update with
    | Some message => parseMessage message
    | None => ret None
    end ;;
  err <-
    match Tg.Update.CallbackQuery update with
    | Some callback => parseCallback callback
    | None => ret err
    end ;;
  match err with
  | None =>
      onConf (Set_offset (int_add (Tg.Update.UpdateID update) 1)) ;;;
      err <- onConf WriteConfig ;;
      ret (Logger.Err parsers_go 54 err)
  | Some _ => ret (Logger.Err parsers_go 54 err)
  end.

(** The inner loop of [RunFetcher] over one fetched batch:
    [for _, update := range updates { err := parseUpdate(&update, &app);
     if err != nil { l.Error(err); break } }].  The result lists what the
    calls of [parseUpdate] have returned, in order. *)
Fixpoint processBatch (updates : list Tg.Update.t)
  : M App (list Logger.error) :=
  match updates with
  | [] => ret []
  | update :: rest =>
      err <- parseUpdate update ;;
      match err with
      | Some _ => ret [err]
      | None => results <- processBatch rest ;; ret (err :: results)
      end
  end.

End Bot.

(* ================================================================== *)
(** ** internal/pkg/console *)

Module Console.

(** What the console works on: the store, the lines it has printed to the
    standard output and the errors it has handed to the logger. *)
Record t : Type := mk {
  DB : Database.DB;
  Printed : list string;
  Logged : list Logger.error }.

Definition onDB {A : Type} (m : M Database.DB A) : M t A :=
  fun c => let (a, db) := m (DB c) in (a, mk db (Printed c) (Logged c)).

(** [fmt.Println(line)]. *)
Definition Println (line : string) : M t unit :=
  fun c => (tt, mk (DB c) (Printed c ++ [line]) (Logged c)).

(** [l.Error(err)]. *)
Definition Error (err : Logger.error) : M t unit :=
  fun c => (tt, mk (DB c) (Printed c) (Logged c ++ [err])).

Definition quote : string := String (ascii_of_nat 34) "".

Definition help : list string :=
  ["Here are the available commands:";
   "abi <id> - adds employee by user ID";
   "abn <nickname> - adds an employee by user Nickname";
   "rbi <id> - removes an employee by user ID";
   "rbn <nickname> - removes an employee by user Nickname";
   "ge - displays a list of employees";
   "close - closes the program"].

(** The two lines that [ge] prints for an employee:
    [fmt.Printf("UserID: %d Nickname: %s\n", user.ChatID, user.Nickname)]
    and the hint. *)
Definition employee_lines (user : Database.User.t) : list string :=
  [("UserID: " ++ Strconv.Itoa (Database.User.ChatID user) ++ " Nickname: "
    ++ Database.User.Nickname user)%string;
   "(empty fields are filled when the employee uses the bot)"].

(** The cases [abi] and [rbi]: the argument is read as a number. *)
Definition by_id (command : list string) (change : Z -> M Database.DB Logger.error)
  (done : string) : M t unit :=
  match command with
  | _ :: arg :: _ =>
      match Strconv.Atoi arg with
      | None => Println "Wrong format"
      | Some id =>
          err <- onDB (change id) ;;
          match err with
          | Some _ => Error err
          | None => Println done
          end
      end
  | _ => Println "Enter value"
  end.

(** The cases [abn] and [rbn]. *)
Definition by_nickname (command : list string)
  (change : string -> M Database.DB Logger.error) (done : string) : M t unit :=
  match command with
  | _ :: nick :: _ =>
      err <- onDB (change nick) ;;
      match err with
      | Some _ => Error err
      | None => Println done
      end
  | _ => Println "Enter value"
  end.

(** One pass of the loop of [Run] on the line that [in.Scan] has read;
    the result tells whether the loop has ended ([cancel(); return]). *)
Definition command (line : string) : M t bool :=
  let command := Strings.Split line " "%char in
  let c0 := hd "" command in
  if String.eqb c0 "" then ret false
  else if String.eqb c0 "help" then
    Bot.for_each help Println ;;; ret false
  else if String.eqb c0 "abi" then
    by_id command Database.AddEmployeeByID "Employee added" ;;; ret false
  else if String.eqb c0 "abn" then
    by_nickname command Database.AddEmployeeByNickname "Employee added" ;;;
    ret false
  else if String.eqb c0 "rbi" then
    by_id command Database.RemoveEmployeeByID "Employee removed" ;;; ret false
  else if String.eqb c0 "rbn" then
    by_nickname command Database.RemoveEmployeeByNickname "Employee removed" ;;;
    ret false
  else if String.eqb c0 "ge" then
    users <- onDB (Database.query Database.GetEmployees) ;;
    Bot.for_each users (fun user =>
      Bot.for_each (employee_lines user) Println) ;;;
    ret false
  else if String.eqb c0 "close" then ret true
  else
    Println ("Unknown command, use " ++ quote ++ "help" ++ quote) ;;; ret false.

(** [Run] on the lines that the successive scans read, up to the [close]
    command; the result tells whether [close] was among them. *)
Fixpoint Run (lines : list string) : M t bool :=
  match lines with
  | [] => ret false
  | line :: rest =>
      closed <- command line ;;
      if closed : bool then ret true else Run rest
  end.

End Console.

(* ================================================================== *)
(** ** Runs of the bot used as examples *)

Module Scenario.

(** The store before anything was written, at time 0, on a machine whose
    local time is UTC. *)
Definition empty_db (refusals : list nat) : Database.DB :=
  Database.mkDB [] [] [] [] 0 0 refusals.

(** The bot at its first start: nothing sent, nothing stored, cursor 0. *)
Definition start_app (transport store : list nat) : Bot.App :=
  Bot.mkApp (Tg.mkClient [] transport) (empty_db store) (Bot.mkViper 0 0 []).

(** An update that carries a text message of a private chat. *)
Definition text_update (update_id message_id chat : Z) (nick text : string)
  : Tg.Update.t :=
  Tg.Update.mk update_id
    (Some (Tg.Message.mk message_id (Tg.User.mk chat nick) (Tg.Chat.mk chat)
             text))
    None.

(** An update that carries the press of a button under a message of the
    bot in the given chat. *)
Definition button_update (update_id chat : Z) (data : string)
  : Tg.Update.t :=
  Tg.Update.mk update_id None
    (Some (Tg.CallbackQuery.mk
             (Tg.Message.mk 0 (Tg.User.mk 0 "") (Tg.Chat.mk chat) "") data)).

(** The updates dispatched one after the other, errors dropped. *)
Definition run (updates : list Tg.Update.t) (app : Bot.App) : Bot.App :=
  fold_left (fun app update => snd (Bot.parseUpdate update app)) updates app.

(** The operator's [abi <id>]. *)
Definition abi (id : Z) (app : Bot.App) : Bot.App :=
  snd (Bot.onDB (Database.AddEmployeeByID id) app).

(** The operator's [abn <nickname>]. *)
Definition abn (nick : string) (app : Bot.App) : Bot.App :=
  snd (Bot.onDB (Database.AddEmployeeByNickname nick) app).

(** An employee (chat 9) who has started the bot, and a customer (chat 5)
    who has asked question 1. *)
Definition asked : Bot.App :=
  run [text_update 1 10 9 "eve" "/start";
       text_update 2 20 5 "bob" "/start";
       text_update 3 21 5 "bob" "❓Question";
       text_update 4 22 5 "bob" "Why is my order late?"]
      (abi 9 (start_app [] [])).

(** The employee has taken question 1. *)
Definition claimed : Bot.App :=
  run [button_update 5 9 "1-1"] asked.

(** The employee has answered in the thread. *)
Definition answered : Bot.App :=
  run [text_update 6 11 9 "eve" "It shipped yesterday"] claimed.

(** The employee has left the thread with the back button. *)
Definition left_thread : Bot.App :=
  run [text_update 7 12 9 "eve" "↩️Back"] answered.

(** Two employees (chats 9 and 8) have started the bot, the customer has
    asked question 1 and the employee of chat 9 has taken it. *)
Definition taken_by_other : Bot.App :=
  run [text_update 1 10 9 "eve" "/start";
       text_update 2 30 8 "dan" "/start";
       text_update 3 20 5 "bob" "/start";
       text_update 4 21 5 "bob" "❓Question";
       text_update 5 22 5 "bob" "Why is my order late?";
       button_update 6 9 "1-1"]
      (abi 8 (abi 9 (start_app [] []))).

(** The press of the claim button of question 1 in chat 8. *)
Definition late_press : Tg.CallbackQuery.t :=
  Tg.CallbackQuery.mk (Tg.Message.mk 0 (Tg.User.mk 0 "") (Tg.Chat.mk 8) "")
    "1-1".

(** The back button pressed in chat 9. *)
Definition back_message : Tg.Message.t :=
  Tg.Message.mk 12 (Tg.User.mk 9 "eve") (Tg.Chat.mk 9) "↩️Back".

(** The customer has written twice more into the thread of question 1
    before any employee has taken it. *)
Definition thread : Bot.App :=
  run [text_update 5 23 5 "bob" "It was due on Monday";
       text_update 6 24 5 "bob" "Order 1234"] asked.

(** The operator has added an employee by the nickname "dan" and one by
    the chat 8; the employee of chat 8 has started the bot under the
    nickname "d8" and receives questions. *)
Definition renamed : Bot.App :=
  run [text_update 1 30 8 "d8" "/start";
       text_update 2 31 8 "d8" "❓Receive questions"]
      (abi 8 (abn "dan" (start_app [] []))).

(** /start from chat 8, whose user has taken the nickname "dan". *)
Definition start_as_dan : Tg.Message.t :=
  Tg.Message.mk 32 (Tg.User.mk 8 "dan") (Tg.Chat.mk 8) "/start".

(** The user row of the employee of chat 9 in the Main state. *)
Definition eve : Database.User.t :=
  Database.User.mk 1 9 Bot.SMain "eve" true false.

(** A batch of two updates: /start of chat 5, then a text of chat 6,
    which the bot does not know. *)
Definition mixed_batch : list Tg.Update.t :=
  [text_update 1 10 5 "bob" "/start"; text_update 2 11 6 "amy" "hello"].

(** The employee of chat 9 receives questions and has answered question 1,
    which the customer has closed since; the employee is back in the Main
    state. *)
Definition busy_receiver : Bot.App :=
  run [text_update 1 10 9 "eve" "/start";
       text_update 2 11 9 "eve" "❓Receive questions";
       text_update 3 20 5 "bob" "/start";
       text_update 4 21 5 "bob" "❓Question";
       text_update 5 22 5 "bob" "Why is my order late?";
       button_update 6 9 "1-1";
       text_update 7 23 5 "bob" "❌Close";
       text_update 8 12 9 "eve" "↩️Back";
       text_update 9 24 5 "bob" "❓Question"]
      (abi 9 (start_app [] [])).

(** The customer's next question. *)
Definition second_question : Tg.Message.t :=
  Tg.Message.mk 25 (Tg.User.mk 5 "bob") (Tg.Chat.mk 5) "Where is my refund?".

(** The employee of chat 9 receives questions; the customer of chat 5 is
    about to ask. *)
Definition asking : Bot.App :=
  run [text_update 1 10 9 "eve" "/start";
       text_update 2 11 9 "eve" "❓Receive questions";
       text_update 3 20 5 "bob" "/start";
       text_update 4 21 5 "bob" "❓Question"]
      (abi 9 (start_app [] [])).

(** The customer's question. *)
Definition first_question : Tg.Message.t :=
  Tg.Message.mk 22 (Tg.User.mk 5 "bob") (Tg.Chat.mk 5) "Why?".

(** A customer asks; the transport accepts two requests and refuses the
    third, which is the confirmation of the question; the customer writes
    again. *)
Definition asked_twice : Bot.App :=
  run [text_update 1 20 5 "bob" "/start";
       text_update 2 21 5 "bob" "❓Question";
       text_update 3 22 5 "bob" "Why is my order late?";
       text_update 4 23 5 "bob" "Hello?"]
      (start_app [2%nat] []).

(** The employee of chat 9 looks at the reviews; the customer of chat 5
    has rated with four stars and not commented yet. *)
Definition rated : Bot.App :=
  run [text_update 1 10 9 "eve" "/start";
       text_update 2 11 9 "eve" "⭐Reviews";
       text_update 3 20 5 "bob" "/start";
       text_update 4 21 5 "bob" "⭐Review";
       text_update 5 22 5 "bob" "⭐⭐⭐⭐"]
      (abi 9 (start_app [] [])).

(** The customer has sent the comment. *)
Definition reviewed : Bot.App :=
  run [text_update 6 23 5 "bob" "Great"] rated.

(** The employee of chat 9 is about to look a question up; the thread of
    question 1 holds two messages. *)
Definition searching : Bot.App :=
  run [text_update 7 14 9 "eve" "❓Find a question"] thread.

(** A machine five hours east of UTC at 23:00 UTC of the day 10.  The
    employee of chat 9 looks at the reviews: review 1 was created at 22:00
    UTC of the day 9 (03:00 of the day 10, local time), review 2 at 20:00
    UTC of the day 10 (01:00 of the day 11, local time). *)
Definition east_of_UTC : Bot.App :=
  Bot.mkApp (Tg.mkClient [] [])
    (Database.mkDB
       [Database.User.mk 1 9 Bot.SReview "eve" true false;
        Database.User.mk 2 5 Bot.SMain "bob" false false]
       [Database.Review.mk 1 856800 4 "Late" 2 Database.User.zero;
        Database.Review.mk 2 936000 5 "Great" 2 Database.User.zero]
       [] [] 946800 18000 [])
    (Bot.mkViper 0 0 []).

End Scenario.

(* ================================================================== *)
(** ** Notions used to state the properties *)

(** The store never refuses again. *)
Definition store_reliable (db : Database.DB) : Prop :=
  Database.refusals db = [].

(** Neither the transport nor the store refuses again. *)
Definition reliable (app : Bot.App) : Prop :=
  Tg.Refusals (Bot.Bot app) = [] /\ store_reliable (Bot.DB app).

(** [app] with another store, as [onDB] builds it. *)
Definition set_DB (db : Database.DB) (app : Bot.App) : Bot.App :=
  Bot.mkApp (Bot.Bot app) db (Bot.Conf app).

(** [app] after the delivery of requests by a transport that no longer
    refuses. *)
Definition delivered (requests : list Tg.Config) (app : Bot.App) : Bot.App :=
  Bot.mkApp (Tg.mkClient (Tg.Sent (Bot.Bot app) ++ requests) [])
    (Bot.DB app) (Bot.Conf app).

(** The question that [AddQuestion] creates. *)
Definition new_question (header : string) (user : Database.User.t)
  (db : Database.DB) : Database.Question.t :=
  Database.Question.mk
    (Database.next_id Database.Question.ID (Database.questions db))
    header (Database.User.ID user) Database.User.zero 0 Database.User.zero
    false false.

(** The condition of [GetOpenQuestionByAnswerer]. *)
Definition answered_open_by (k : Z) (q : Database.Question.t) : bool :=
  (Database.Question.AnswererID q =? k)
  && Bool.eqb (Database.Question.IsClosed q) false.

(** A computation [m] that is started in a state with [P] ends in a state
    with [Q] of its result. *)
Definition hoare {S A : Type} (P : S -> Prop) (m : M S A)
  (Q : A -> S -> Prop) : Prop :=
  forall s, P s -> Q (fst (m s)) (snd (m s)).

(** The same for a property of the store alone, of a computation on the
    whole [App]. *)
Definition on_store {A : Type} (P : Database.DB -> Prop) (m : M Bot.App A)
  (Q : A -> Database.DB -> Prop) : Prop :=
  hoare (fun app => P (Bot.DB app)) m (fun a app => Q a (Bot.DB app)).

(** The next operation is accepted. *)
Definition accepts_next (refusals : list nat) : Prop :=
  fst (attempt refusals) = true.

(** Every user row has a key (gorm gives keys from 1 on). *)
Definition users_keyed (db : Database.DB) : Prop :=
  forall u, In u (Database.users db) -> Database.User.ID u <> 0.

(** At most one user row carries the chat or the nickname (the condition
    by which [AddUser] looks for the row to write). *)
Definition single_row (chat : Z) (nick : string) (db : Database.DB) : Prop :=
  forall u v,
    In u (Database.users db) -> In v (Database.users db) ->
    (Database.User.ChatID u =? chat)
    || String.eqb (Database.User.Nickname u) nick = true ->
    (Database.User.ChatID v =? chat)
    || String.eqb (Database.User.Nickname v) nick = true ->
    Database.User.ID u = Database.User.ID v.

(** No user row of the chat receives questions. *)
Definition chat_silent (chat : Z) (db : Database.DB) : Prop :=
  forall u, In u (Database.users db) -> Database.User.ChatID u = chat ->
            Database.User.IsReceiver u = false.

(** The chat resolves to the user row of key [key], and neither that row
    nor any other row of the chat receives questions. *)
Definition stopped_receiving (chat key : Z) (db : Database.DB) : Prop :=
  (exists user,
     Database.GetUserByChatID chat db = Some user
     /\ Database.User.ID user = key
     /\ Database.User.IsReceiver user = false)
  /\ chat_silent chat db.

(** The chat that a request of the bot is addressed to. *)
Definition request_chat (c : Tg.Config) : Z :=
  match c with
  | Tg.SendMessageConf chat _ _ => chat
  | Tg.ForwardMessageConf chat _ _ => chat
  | Tg.CopyMessageConf chat _ _ => chat
  end.

(** The request that replays one correspondence row to a user: a forward
    of the original message from the chat of its sender. *)
Definition replayed (user : Database.User.t)
  (corr : Database.QuestionCorrespondence.t) : Tg.Config :=
  Tg.ForwardMessageConf (Database.User.ChatID user)
    (Database.User.ChatID (Database.QuestionCorrespondence.User corr))
    (Database.QuestionCorrespondence.MessageID corr).

(** How many of [n] requests in a row a collaborator accepts before it
    refuses one. *)
Definition deliveries (refusals : list nat) (n : nat) : nat :=
  match refusals with
  | [] => n
  | k :: _ => Nat.min k n
  end.

(** The correspondence table is in creation order: every row has a
    larger key than the rows before it. *)
Definition correspondence_ascending (db : Database.DB) : Prop :=
  StronglySorted
    (fun a b => Database.QuestionCorrespondence.ID a
                < Database.QuestionCorrespondence.ID b)
    (Database.question_correspondences db).

(** [m] keeps [I]: started in a state with [I] it ends in one. *)
Definition stable {S A : Type} (I : S -> Prop) (m : M S A) : Prop :=
  hoare I m (fun _ => I).

(** The cursor that a batch leaves in the configuration file: the
    identifier after the last of the [k] updates that were handled
    without error, the old cursor when there is none. *)
Definition cursor_after (k : nat) (updates : list Tg.Update.t) (old : Z) : Z :=
  last (map (fun u => Bot.int_add (Tg.Update.UpdateID u) 1) (firstn k updates))
    old.

(** The claim-offer of a question to a user: the text of the question and
    one button whose data is the callback type and the key of the
    question. *)
Definition offer (q : Database.Question.t) (to : Database.User.t)
  : Tg.Config :=
  Tg.SendMessageConf (Database.User.ChatID to)
    ("Question #" ++ Strconv.Itoa (Database.Question.ID q) ++ Bot.nl
     ++ Database.Question.Header q)
    (Tg.InlineKeyboardMarkup
       [[("Take question",
          ((Strconv.Itoa Bot.CBQuestion ++ "-")
           ++ Strconv.Itoa (Database.Question.ID q))%string)]]).

(** *** Open questions *)

(** The question is open and was asked by the user of that key. *)
Definition is_open_of (asker : Z) (q : Database.Question.t) : bool :=
  (Database.Question.UserID q =? asker) && negb (Database.Question.IsClosed q).

Definition open_questions_of (asker : Z) (db : Database.DB)
  : list Database.Question.t :=
  filter (is_open_of asker) (Database.questions db).

(** At most one open question per asker. *)
Definition at_most_one_open (db : Database.DB) : Prop :=
  forall asker, (List.length (open_questions_of asker db) <= 1)%nat.

(** The clock of the store set, as time passes between updates. *)
Definition set_clock (now : Z) (app : Bot.App) : Bot.App :=
  Bot.mkApp (Bot.Bot app)
    (Database.mkDB (Database.users (Bot.DB app))
       (Database.reviews (Bot.DB app)) (Database.questions (Bot.DB app))
       (Database.question_correspondences (Bot.DB app)) now
       (Database.zone (Bot.DB app)) (Database.refusals (Bot.DB app)))
    (Bot.Conf app).

(** The states that the bot reaches from its first start through the
    dispatch of updates, whatever the transport and the store refuse. *)
Inductive reachable : Bot.App -> Prop :=
| reachable_start (transport store : list nat) :
    reachable (Scenario.start_app transport store)
| reachable_tick (now : Z) (app : Bot.App) :
    reachable app -> reachable (set_clock now app)
| reachable_step (update : Tg.Update.t) (app : Bot.App) :
    reachable app -> reachable (snd (Bot.parseUpdate update app)).

(** *** The invariant behind "one open question per asker" *)

(** What the invariant looks at: the users and the questions. *)
Definition View : Type := (list Database.User.t * list Database.Question.t)%type.

Definition view (db : Database.DB) : View :=
  (Database.users db, Database.questions db).

Definition open_in (asker : Z) (qs : list Database.Question.t)
  : list Database.Question.t :=
  filter (is_open_of asker) qs.

(** Keys are distinct and not zero in both tables, and the rows of the
    questions hold no belongs-to struct. *)
Definition tables_keyed (v : View) : Prop :=
  NoDup (map Database.User.ID (fst v))
  /\ (forall u, In u (fst v) -> Database.User.ID u <> 0)
  /\ NoDup (map Database.Question.ID (snd v))
  /\ (forall q, In q (snd v) -> Database.Question.ID q <> 0)
  /\ (forall q, In q (snd v) -> Database.question_keys q = q).

(** The invariant: at most one open question per asker, and a customer
    who is not in QuestionDiscussion has none. *)
Definition one_question_each (v : View) : Prop :=
  tables_keyed v
  /\ (forall a, (List.length (open_in a (snd v)) <= 1)%nat)
  /\ (forall u, In u (fst v) ->
        Database.User.IsEmployee u = false ->
        Database.User.State u <> Bot.SQuestionDiscussion ->
        List.length (open_in (Database.User.ID u) (snd v)) = 0%nat).

(** The columns of [q] that the invariant looks at are those of a stored
    row of the same key, and [Save] writes [q] back with its asker. *)
Definition stored_as (q : Database.Question.t)
  (qs : list Database.Question.t) : Prop :=
  Database.Question.ID q <> 0
  /\ (exists row,
        In row qs
        /\ Database.Question.ID row = Database.Question.ID q
        /\ Database.Question.UserID row = Database.Question.UserID q
        /\ Database.Question.IsClosed row = Database.Question.IsClosed q)
  /\ Database.Question.UserID (Database.question_keys q)
     = Database.Question.UserID q.

(** What holds in the middle of a handler that works for the user [u]:
    the invariant for everybody else, [u] is a stored row, [u] has at most
    [n] open questions, and the question in hand, if any, is stored. *)
Definition handling (u : Database.User.t) (n : nat)
  (q : option Database.Question.t) (v : View) : Prop :=
  tables_keyed v
  /\ (forall a, (List.length (open_in a (snd v)) <= 1)%nat)
  /\ (forall w, In w (fst v) ->
        Database.User.ID w <> Database.User.ID u ->
        Database.User.IsEmployee w = false ->
        Database.User.State w <> Bot.SQuestionDiscussion ->
        List.length (open_in (Database.User.ID w) (snd v)) = 0%nat)
  /\ In u (fst v)
  /\ (List.length (open_in (Database.User.ID u) (snd v)) <= n)%nat
  /\ match q with
     | None => True
     | Some q => stored_as q (snd v)
     end.

(** The handler may stop here: [u] is an employee, or is in
    QuestionDiscussion, or has no open question. *)
Definition settled (u : Database.User.t) (n : nat) : Prop :=
  Database.User.IsEmployee u = true
  \/ Database.User.State u = Bot.SQuestionDiscussion
  \/ n = 0%nat.

(** Nothing will be refused, and the view of the store has [P]. *)
Definition holds (P : View -> Prop) (app : Bot.App) : Prop :=
  reliable app /\ P (view (Bot.DB app)).

(** The states reached when nothing is ever refused, from a store that
    may hold users (the operator's employees) but no questions yet. *)
Inductive reachable_unrefused : Bot.App -> Prop :=
| unrefused_start (app : Bot.App) :
    reliable app ->
    Database.questions (Bot.DB app) = [] ->
    NoDup (map Database.User.ID (Database.users (Bot.DB app))) ->
    users_keyed (Bot.DB app) ->
    reachable_unrefused app
| unrefused_tick (now : Z) (app : Bot.App) :
    reachable_unrefused app -> reachable_unrefused (set_clock now app)
| unrefused_step (update : Tg.Update.t) (app : Bot.App) :
    reachable_unrefused app ->
    reachable_unrefused (snd (Bot.parseUpdate update app)).

(** A computation on the transport that, on a transport that never
    refuses, returns no error and leaves such a transport. *)
Definition never_fails (m : M Tg.Client Logger.error) : Prop :=
  forall client,
    Tg.Refusals client = [] ->
    fst (m client) = None /\ Tg.Refusals (snd (m client)) = [].

(** The row that [AddCorrespondence] appends for a message of [user]
    under the question of key [question]. *)
Definition filed (user : Database.User.t) (question messageId : Z)
  (db : Database.DB) : Database.QuestionCorrespondence.t :=
  Database.QuestionCorrespondence.mk
    (Database.next_id Database.QuestionCorrespondence.ID
       (Database.question_correspondences db))
    question messageId (Database.User.ID user) Database.User.zero false.

(* ================================================================== *)
(** * Properties *)

(** ** The monad and the refusal schedules *)

Lemma Err_None (file : string) (line : Z) : Logger.Err file line None = None.
Proof. reflexivity. Qed.

Lemma Err_None_iff (file : string) (line : Z) (e : Logger.error) :
  Logger.Err file line e = None <-> e = None.
Proof. destruct e; simpl; split; intros H; congruence. Qed.

Lemma Err_Some (file : string) (line : Z) (e : Logger.error) :
  e <> None -> Logger.Err file line e <> None.
Proof. destruct e; simpl; congruence. Qed.

Lemma attempt_never : attempt [] = (true, []).
Proof. reflexivity. Qed.

(** ** Tables: ordering by key, [First], [update] *)

Section TableFacts.

Variable A : Type.
Variable id : A -> Z.

Let le_id (a b : A) : Prop := id a <= id b.

Lemma insert_by_id_perm (x : A) (l : list A) :
  Permutation (Database.insert_by_id id x l) (x :: l).
Proof.
  induction l as [|y l IH]; simpl.
  - apply Permutation_refl.
  - destruct (id x <? id y).
    + apply Permutation_refl.
    + eapply Permutation_trans.
      * apply perm_skip, IH.
      * apply perm_swap.
Qed.

Lemma order_by_id_perm (l : list A) :
  Permutation (Database.order_by_id id l) l.
Proof.
  induction l as [|x l IH]; simpl.
  - constructor.
  - eapply Permutation_trans.
    + apply insert_by_id_perm.
    + apply perm_skip, IH.
Qed.

Lemma order_by_id_In (x : A) (l : list A) :
  In x (Database.order_by_id id l) <-> In x l.
Proof.
  split; apply Permutation_in.
  - apply order_by_id_perm.
  - apply Permutation_sym, order_by_id_perm.
Qed.

Lemma insert_by_id_sorted (x : A) (l : list A) :
  StronglySorted le_id l -> StronglySorted le_id (Database.insert_by_id id x l).
Proof.
  induction 1 as [|y l Hs IH Hy]; simpl.
  - repeat constructor.
  - destruct (id x <? id y) eqn:E.
    + apply Z.ltb_lt in E. constructor.
      * constructor; assumption.
      * constructor; [unfold le_id; lia|].
        rewrite Forall_forall in *. intros z Hz.
        specialize (Hy z Hz). unfold le_id in *. lia.
    + apply Z.ltb_ge in E. constructor; [exact IH|].
      rewrite Forall_forall in *. intros z Hz.
      apply (Permutation_in _ (insert_by_id_perm x l)) in Hz.
      destruct Hz as [<-|Hz]; [exact E|apply Hy, Hz].
Qed.

Lemma order_by_id_sorted (l : list A) :
  StronglySorted le_id (Database.order_by_id id l).
Proof.
  induction l; simpl; [constructor|apply insert_by_id_sorted; assumption].
Qed.

(** A list that is already in strictly ascending key order is left as it
    is. *)
Lemma insert_by_id_front (x : A) (l : list A) :
  Forall (fun y => id x < id y) l -> Database.insert_by_id id x l = x :: l.
Proof.
  destruct l as [|y l]; simpl; [reflexivity|].
  intros H. inversion H; subst.
  destruct (id x <? id y) eqn:E; [reflexivity|].
  apply Z.ltb_ge in E. lia.
Qed.

Lemma order_by_id_ascending (l : list A) :
  StronglySorted (fun a b => id a < id b) l -> Database.order_by_id id l = l.
Proof.
  induction 1 as [|x l Hs IH Hx]; simpl; [reflexivity|].
  rewrite IH. apply insert_by_id_front, Hx.
Qed.

Lemma First_Some (cond : A -> bool) (tbl : list A) (x : A) :
  Database.First id cond tbl = Some x ->
  In x tbl /\ cond x = true /\
  forall y, In y tbl -> cond y = true -> id x <= id y.
Proof.
  unfold Database.First. intros H.
  pose proof (order_by_id_sorted (filter cond tbl)) as Hs.
  pose proof (order_by_id_In) as Hin.
  destruct (Database.order_by_id id (filter cond tbl)) as [|z l] eqn:E;
    simpl in H; [discriminate|].
  injection H as ->.
  assert (Hx : In x (filter cond tbl)).
  { apply (Hin x). rewrite E. left; reflexivity. }
  apply filter_In in Hx. destruct Hx as [Hx Hc].
  repeat split; try assumption.
  intros y Hy Hcy.
  assert (Hy' : In y (x :: l)).
  { rewrite <- E. apply Hin. apply filter_In. split; assumption. }
  inversion Hs as [|? ? _ Hall]; subst.
  destruct Hy' as [<-|Hy']; [lia|].
  rewrite Forall_forall in Hall. apply Hall, Hy'.
Qed.

Lemma First_None (cond : A -> bool) (tbl : list A) :
  Database.First id cond tbl = None ->
  forall y, In y tbl -> cond y = false.
Proof.
  unfold Database.First. intros H y Hy.
  destruct (cond y) eqn:Hc; [|reflexivity].
  assert (Hin : In y (Database.order_by_id id (filter cond tbl))).
  { apply order_by_id_In, filter_In. split; assumption. }
  destruct (Database.order_by_id id (filter cond tbl)); [destruct Hin|].
  discriminate.
Qed.

Lemma First_found (cond : A -> bool) (tbl : list A) (y : A) :
  In y tbl -> cond y = true -> exists x, Database.First id cond tbl = Some x.
Proof.
  intros Hy Hc.
  destruct (Database.First id cond tbl) as [x|] eqn:E; [eauto|].
  rewrite (First_None _ _ E y Hy) in Hc. discriminate.
Qed.

Lemma First_ext (c1 c2 : A -> bool) (tbl : list A) :
  (forall y, In y tbl -> c1 y = c2 y) ->
  Database.First id c1 tbl = Database.First id c2 tbl.
Proof.
  intros H. unfold Database.First. f_equal. f_equal.
  apply filter_ext_in, H.
Qed.

Lemma has_id_true (k : Z) (tbl : list A) :
  Database.has_id id k tbl = true <-> exists r, In r tbl /\ id r = k.
Proof.
  unfold Database.has_id. rewrite existsb_exists.
  split; intros [r [Hr He]]; exists r; split; try assumption.
  - apply Z.eqb_eq, He.
  - apply Z.eqb_eq, He.
Qed.

Lemma next_id_above (tbl : list A) (r : A) :
  In r tbl -> id r < Database.next_id id tbl.
Proof.
  unfold Database.next_id.
  induction tbl as [|y l IH]; cbn [map fold_right In]; [tauto|].
  intros [->|H]; [lia|]. specialize (IH H). lia.
Qed.

Lemma next_id_positive (tbl : list A) : 0 < Database.next_id id tbl.
Proof.
  unfold Database.next_id.
  induction tbl as [|y l IH]; cbn [map fold_right]; lia.
Qed.

(** The rows after the rewrite of a present key. *)
Lemma update_present (x : A) (tbl : list A) :
  Database.has_id id (id x) tbl = true ->
  Database.update id x tbl = map (fun r => if id r =? id x then x else r) tbl.
Proof. unfold Database.update. intros ->. reflexivity. Qed.

Lemma In_update (x : A) (tbl : list A) (y : A) :
  Database.has_id id (id x) tbl = true ->
  (In y (Database.update id x tbl) <->
   (y = x \/ (In y tbl /\ id y <> id x))).
Proof.
  intros Hp. rewrite (update_present _ _ Hp). rewrite in_map_iff. split.
  - intros [r [Hr Hin]]. destruct (id r =? id x) eqn:E.
    + left; symmetry; exact Hr.
    + right. subst y. split; [assumption|]. apply Z.eqb_neq, E.
  - intros [->|[Hin Hne]].
    + apply has_id_true in Hp. destruct Hp as [r [Hr He]].
      exists r. split; [|assumption]. rewrite He, Z.eqb_refl. reflexivity.
    + exists y. split; [|assumption].
      apply Z.eqb_neq in Hne. rewrite Hne. reflexivity.
Qed.

Lemma update_ids (x : A) (tbl : list A) :
  Database.has_id id (id x) tbl = true ->
  map id (Database.update id x tbl) = map id tbl.
Proof.
  intros Hp. rewrite (update_present _ _ Hp). rewrite map_map.
  apply map_ext. intros r. destruct (id r =? id x) eqn:E; [|reflexivity].
  apply Z.eqb_eq in E. auto.
Qed.

End TableFacts.

(* ================================================================== *)
(** ** Ratings *)

Lemma rating_between (r : Z) :
  1 <= r <= 5 -> r = 1 \/ r = 2 \/ r = 3 \/ r = 4 \/ r = 5.
Proof. lia. Qed.

(** What [parseReview] writes when the store accepts the write: one new
    review with the rating of the token, no comment yet, owned by the
    user. *)
Lemma parseReview_accepted (rating : string) (user : Database.User.t)
  (app : Bot.App) :
  Database.refusals (Bot.DB app) = [] ->
  Bot.parseReview rating user app =
  (None,
   Bot.mkApp (Bot.Bot app)
     (Database.with_reviews
        (Database.reviews (Bot.DB app) ++
         [Database.Review.mk
            (Database.next_id Database.Review.ID (Database.reviews (Bot.DB app)))
            (Database.clock (Bot.DB app)) (Bot.rating_value rating) ""
            (Database.owner_key user 0) Database.User.zero])
        (Bot.DB app))
     (Bot.Conf app)).
Proof.
  destruct app as [bot [us rs qs cs clk rf] conf]. simpl. intros ->.
  reflexivity.
Qed.

(** C7. The rating parser resolves the star run of length [r] and the
    digit token of [r] to the rating [r], for every [r] from 1 to 5; in
    particular the three-star token and the token "3" both give 3.  Both
    tokens are accepted in the Review state, and the review that
    [parseReview] stores for them carries the rating [r]. *)
Theorem rating_tokens_resolve (r : Z) (Hr : 1 <= r <= 5) :
  Bot.rating_value "⭐⭐⭐" = 3 /\ Bot.rating_value "3" = 3 /\
  Bot.rating_value (Bot.ratingInStars r) = r /\
  Bot.rating_value (Strconv.Itoa r) = r /\
  Bot.is_rating_token (Bot.ratingInStars r) = true /\
  Bot.is_rating_token (Strconv.Itoa r) = true /\
  forall (token : string) (user : Database.User.t) (app : Bot.App),
    token = Bot.ratingInStars r \/ token = Strconv.Itoa r ->
    Database.refusals (Bot.DB app) = [] ->
    exists review,
      Database.reviews (Bot.DB (snd (Bot.parseReview token user app)))
      = Database.reviews (Bot.DB app) ++ [review]
      /\ Database.Review.Rating review = r.
Proof.
  assert (Hv : Bot.rating_value (Bot.ratingInStars r) = r /\
               Bot.rating_value (Strconv.Itoa r) = r /\
               Bot.is_rating_token (Bot.ratingInStars r) = true /\
               Bot.is_rating_token (Strconv.Itoa r) = true).
  { destruct (rating_between Hr) as [->|[->|[->|[->| ->]]]];
      vm_compute; auto. }
  destruct Hv as (Hs & Hd & Hts & Htd).
  repeat split; try assumption.
  intros token user app Htok Hacc.
  rewrite (parseReview_accepted _ _ _ Hacc). simpl.
  eexists. split; [reflexivity|]. simpl.
  destruct Htok as [-> | ->]; assumption.
Qed.

Lemma rating_tokens_resolve_witness :
  1 <= 4 <= 5 /\
  Bot.rating_value (Bot.ratingInStars 4) = 4 /\
  Bot.rating_value (Strconv.Itoa 4) = 4.
Proof.
  split; [lia|].
  pose proof (rating_tokens_resolve (r := 4) ltac:(lia)) as H.
  split; [apply H | apply H].
Defined.

(* ================================================================== *)
(** ** Button presses *)

Lemma parseCallbackEmployee_outside_Main (user : Database.User.t)
  (callback : Tg.CallbackQuery.t) (app : Bot.App) :
  Database.User.State user <> Bot.SMain ->
  Bot.parseCallbackEmployee user callback app = (None, app).
Proof.
  intros Hs. unfold Bot.parseCallbackEmployee.
  destruct (Bot.splitCallbackData callback) as [key data].
  apply Z.eqb_neq in Hs. rewrite Hs. reflexivity.
Qed.

(** C10. A button press from an employee whose state is not Main is
    ignored: [parseCallback] returns no error and leaves the store, the
    transport and the configuration exactly as they were; the dispatch
    of an update that carries only this press changes neither the store
    nor what has been sent (it only moves the cursor). *)
Theorem claim_button_outside_Main_ignored
  (callback : Tg.CallbackQuery.t) (app : Bot.App) (user : Database.User.t)
  (Huser : Database.GetUserByChatID
             (Tg.Chat.ID (Tg.Message.Chat (Tg.CallbackQuery.Message callback)))
             (Bot.DB app) = Some user)
  (Hemployee : Database.User.IsEmployee user = true)
  (Hstate : Database.User.State user <> Bot.SMain) :
  Bot.parseCallback callback app = (None, app) /\
  forall update_id : Z,
    let app' :=
      snd (Bot.parseUpdate (Tg.Update.mk update_id None (Some callback)) app) in
    Bot.DB app' = Bot.DB app /\ Bot.Bot app' = Bot.Bot app.
Proof.
  assert (H : Bot.parseCallback callback app = (None, app)).
  { unfold Bot.parseCallback, bind, Bot.onDB, Database.query.
    rewrite Huser, Hemployee.
    destruct app as [bot db conf]; simpl.
    rewrite parseCallbackEmployee_outside_Main by assumption.
    reflexivity. }
  split; [exact H|].
  intros update_id. unfold Bot.parseUpdate, bind. simpl.
  rewrite H. destruct app as [bot db conf]. unfold Bot.onConf. simpl.
  match goal with |- context [Bot.WriteConfig ?c] =>
    destruct (Bot.WriteConfig c) as [e c'] end.
  simpl. split; reflexivity.
Qed.

Lemma claim_button_outside_Main_ignored_witness :
  Bot.parseCallback
    (Tg.CallbackQuery.mk
       (Tg.Message.mk 0 (Tg.User.mk 0 "") (Tg.Chat.mk 9) "") "1-1")
    Scenario.claimed
  = (None, Scenario.claimed).
Proof.
  refine (proj1 (@claim_button_outside_Main_ignored _ Scenario.claimed
                   (Database.User.mk 1 9 6 "eve" true false) _ _ _)).
  - vm_compute. reflexivity.
  - reflexivity.
  - vm_compute. discriminate.
Defined.

(** Every row that [AddCorrespondence] writes has the employee flag
    [false], whoever sends. *)
Lemma AddCorrespondence_flag (user : Database.User.t) (messageId : Z)
  (db : Database.DB) (corr : Database.QuestionCorrespondence.t) :
  fst (fst (Database.AddCorrespondence user messageId db)) = Some corr ->
  Database.QuestionCorrespondence.IsEmployee corr = false.
Proof.
  unfold Database.AddCorrespondence, bind, Database.query.
  destruct (if Database.User.IsEmployee user
            then Database.GetOpenQuestionByAnswerer user db
            else Database.GetOpenQuestionByUser user db) as [q|];
    simpl; [|discriminate].
  unfold Database.SaveCorrespondence.
  destruct (attempt (Database.refusals db)) as [ok rest].
  destruct ok; simpl; intros H; injection H as <-; reflexivity.
Qed.

(** C4, evaluated.  The employee of chat 9, who has taken question 1,
    writes into the thread: the row appended for the message records
    the employee as sender and has the employee flag [false]. *)
Theorem employee_entry_flag_false :
  Database.GetUserByChatID 9 (Bot.DB Scenario.claimed)
  = Some (Database.User.mk 1 9 Bot.SQuestionDiscussion "eve" true false) /\
  Database.question_correspondences (Bot.DB Scenario.claimed) = [] /\
  Database.question_correspondences (Bot.DB Scenario.answered)
  = [Database.QuestionCorrespondence.mk 1 1 11 1 Database.User.zero false].
Proof. vm_compute. auto. Qed.

(** C1, evaluated.  Question 1 is taken by the employee of chat 9; the
    employee of chat 8 is in the Main state and presses its claim
    button.  The filtered fetch returns nothing, "Question already taken"
    is sent, the question row stays as it was, and the employee of chat 8
    is moved to the QuestionDiscussion state and told so. *)
Theorem late_claim_changes_state :
  let before := Scenario.taken_by_other in
  let after := snd (Bot.parseCallback Scenario.late_press before) in
  Database.GetUserByChatID 8 (Bot.DB before)
  = Some (Database.User.mk 2 8 Bot.SMain "dan" true false) /\
  Database.GetNewQuestionById 1 (Bot.DB before) = None /\
  fst (Bot.parseCallback Scenario.late_press before) = None /\
  Tg.Sent (Bot.Bot after)
  = Tg.Sent (Bot.Bot before) ++
    [Tg.SendMessageConf 8 "Question already taken" Tg.NoMarkup;
     Tg.SendMessageConf 8 "You have entered a chat with a user"
       (Tg.ReplyKeyboardMarkup [["↩️Back"]])] /\
  Database.questions (Bot.DB after) = Database.questions (Bot.DB before) /\
  Database.GetUserByChatID 8 (Bot.DB after)
  = Some (Database.User.mk 2 8 Bot.SQuestionDiscussion "dan" true false).
Proof. vm_compute. repeat split. Qed.

(* ================================================================== *)
(** ** What the operations do when nothing is refused *)

Ltac store_cases db H :=
  destruct db as [us rs qs cs clk zn rf]; unfold store_reliable in H;
  simpl in H; subst rf.

Lemma SaveUser_rewrite (user : Database.User.t) (db : Database.DB) :
  store_reliable db -> Database.User.ID user <> 0 ->
  Database.SaveUser user db
  = ((user, None),
     Database.with_users
       (Database.update Database.User.ID user (Database.users db)) db).
Proof.
  intros H Hid. store_cases db H. unfold Database.SaveUser. simpl.
  apply Z.eqb_neq in Hid. rewrite Hid. reflexivity.
Qed.

Lemma SaveUser_insert (user : Database.User.t) (db : Database.DB) :
  store_reliable db -> Database.User.ID user = 0 ->
  Database.SaveUser user db
  = (let user' :=
       Database.User.with_ID
         (Database.next_id Database.User.ID (Database.users db)) user in
     ((user', None), Database.with_users (Database.users db ++ [user']) db)).
Proof.
  intros H Hid. store_cases db H. unfold Database.SaveUser. simpl.
  rewrite Hid. reflexivity.
Qed.

(** The key of a preloaded user is the key it was loaded by, or 0. *)
Lemma owner_key_load_user (k : Z) (db : Database.DB) :
  Database.owner_key (Database.load_user k db) k = k.
Proof.
  unfold Database.owner_key, Database.load_user.
  destruct (Database.First Database.User.ID _ (Database.users db))
    as [u|] eqn:E; [|reflexivity].
  apply First_Some in E. destruct E as (_ & Hc & _). apply Z.eqb_eq in Hc.
  rewrite Hc. destruct (k =? 0) eqn:E0; [|reflexivity].
  apply Z.eqb_eq in E0. congruence.
Qed.

(** [Save] writes a question back with the foreign keys it was read
    with, as long as the caller has not assigned others. *)
Lemma question_keys_preload (db : Database.DB) (row : Database.Question.t) :
  Database.question_keys (Database.preload_question db row)
  = Database.preload_question db row.
Proof.
  unfold Database.question_keys, Database.preload_question.
  destruct row as [i h u su a sa ha c].
  cbn [Database.Question.Answerer Database.Question.AnswererID
       Database.Question.User Database.Question.UserID
       Database.Question.with_Answerer Database.Question.with_User
       Database.Question.with_AnswererID Database.Question.with_UserID
       Database.Question.ID Database.Question.Header
       Database.Question.HaveAnswer Database.Question.IsClosed].
  rewrite !owner_key_load_user. reflexivity.
Qed.

Lemma question_keys_IsClosed (c : bool) (q : Database.Question.t) :
  Database.question_keys q = q ->
  Database.question_keys (Database.Question.with_IsClosed c q)
  = Database.Question.with_IsClosed c q.
Proof.
  intros H. rewrite <- H at 2. destruct q; reflexivity.
Qed.

Lemma question_keys_HaveAnswer (c : bool) (q : Database.Question.t) :
  Database.question_keys q = q ->
  Database.question_keys (Database.Question.with_HaveAnswer c q)
  = Database.Question.with_HaveAnswer c q.
Proof.
  intros H. rewrite <- H at 2. destruct q; reflexivity.
Qed.

(** A question read without [Preload] is written with the foreign keys
    that the caller has assigned. *)
Lemma question_keys_plain (q : Database.Question.t) :
  Database.User.ID (Database.Question.User q) = 0 ->
  Database.User.ID (Database.Question.Answerer q) = 0 ->
  Database.question_keys q = q.
Proof.
  intros Hu Ha. unfold Database.question_keys, Database.owner_key.
  rewrite Hu, Ha. destruct q; reflexivity.
Qed.

Lemma question_keys_columns (q : Database.Question.t) :
  Database.question_keys (Database.question_columns q)
  = Database.question_columns q.
Proof. apply question_keys_plain; reflexivity. Qed.

Lemma question_keys_ID (q : Database.Question.t) :
  Database.Question.ID (Database.question_keys q) = Database.Question.ID q.
Proof. reflexivity. Qed.

(** The new questions are the columns of the stored rows that pass the
    filter. *)
Lemma GetNewQuestions_In (db : Database.DB) (x : Database.Question.t) :
  In x (Database.GetNewQuestions db) <->
  exists row, In row (Database.questions db)
              /\ Database.is_new row = true
              /\ x = Database.question_columns row.
Proof.
  unfold Database.GetNewQuestions. rewrite in_map_iff. split.
  - intros (row & <- & Hrow). apply order_by_id_In, filter_In in Hrow.
    exists row. tauto.
  - intros (row & Hin & Hnew & ->). exists row. split; [reflexivity|].
    apply order_by_id_In, filter_In. tauto.
Qed.

Lemma is_new_columns (q : Database.Question.t) :
  Database.is_new (Database.question_columns q) = Database.is_new q.
Proof. reflexivity. Qed.

Lemma SaveQuestion_rewrite (q : Database.Question.t) (db : Database.DB) :
  store_reliable db -> Database.Question.ID q <> 0 ->
  Database.SaveQuestion q db
  = ((Database.question_keys q, None),
     Database.with_questions
       (Database.update Database.Question.ID
          (Database.question_columns (Database.question_keys q))
          (Database.questions db)) db).
Proof.
  intros H Hid. store_cases db H. unfold Database.SaveQuestion. simpl.
  apply Z.eqb_neq in Hid. rewrite Hid. reflexivity.
Qed.

Lemma ChangeUserState_accepted (state : Z) (user : Database.User.t)
  (db : Database.DB) :
  store_reliable db -> Database.User.ID user <> 0 ->
  Database.ChangeUserState state user db
  = ((Database.User.with_State state user, None),
     Database.with_users
       (Database.update Database.User.ID
          (Database.User.with_State state user) (Database.users db)) db).
Proof.
  intros H Hid. unfold Database.ChangeUserState, bind, ret.
  rewrite SaveUser_rewrite by assumption. reflexivity.
Qed.

Lemma ChangeUserIsReceiver_accepted (isReceiver : bool)
  (user : Database.User.t) (db : Database.DB) :
  store_reliable db -> Database.User.ID user <> 0 ->
  Database.ChangeUserIsReceiver isReceiver user db
  = ((Database.User.with_IsReceiver isReceiver user, None),
     Database.with_users
       (Database.update Database.User.ID
          (Database.User.with_IsReceiver isReceiver user) (Database.users db))
       db).
Proof.
  intros H Hid. unfold Database.ChangeUserIsReceiver, bind, ret.
  rewrite SaveUser_rewrite by assumption. reflexivity.
Qed.

Lemma ChangeQuestionAnswerer_accepted (answererID : Z)
  (q : Database.Question.t) (db : Database.DB) :
  store_reliable db -> Database.Question.ID q <> 0 ->
  Database.ChangeQuestionAnswerer answererID q db
  = ((Database.question_keys
        (Database.Question.with_AnswererID answererID q), None),
     Database.with_questions
       (Database.update Database.Question.ID
          (Database.question_columns
             (Database.question_keys
                (Database.Question.with_AnswererID answererID q)))
          (Database.questions db)) db).
Proof.
  intros H Hid. unfold Database.ChangeQuestionAnswerer, bind, ret.
  rewrite SaveQuestion_rewrite by assumption. reflexivity.
Qed.

(** The same for the two other columns, and any question. *)
Lemma ChangeQuestionHaveAnswer_written (state : bool)
  (q : Database.Question.t) (db : Database.DB) :
  store_reliable db -> Database.Question.ID q <> 0 ->
  Database.ChangeQuestionHaveAnswer state q db
  = ((Database.question_keys
        (Database.Question.with_HaveAnswer state q), None),
     Database.with_questions
       (Database.update Database.Question.ID
          (Database.question_columns
             (Database.question_keys
                (Database.Question.with_HaveAnswer state q)))
          (Database.questions db)) db).
Proof.
  intros H Hid. unfold Database.ChangeQuestionHaveAnswer, bind, ret.
  rewrite SaveQuestion_rewrite by assumption. reflexivity.
Qed.

Lemma ChangeQuestionIsClosed_written (closed : bool)
  (q : Database.Question.t) (db : Database.DB) :
  store_reliable db -> Database.Question.ID q <> 0 ->
  Database.ChangeQuestionIsClosed closed q db
  = ((Database.question_keys
        (Database.Question.with_IsClosed closed q), None),
     Database.with_questions
       (Database.update Database.Question.ID
          (Database.question_columns
             (Database.question_keys
                (Database.Question.with_IsClosed closed q)))
          (Database.questions db)) db).
Proof.
  intros H Hid. unfold Database.ChangeQuestionIsClosed, bind, ret.
  rewrite SaveQuestion_rewrite by assumption. reflexivity.
Qed.

Lemma ChangeQuestionHaveAnswer_accepted (state : bool)
  (q : Database.Question.t) (db : Database.DB) :
  store_reliable db -> Database.Question.ID q <> 0 ->
  Database.question_keys q = q ->
  Database.ChangeQuestionHaveAnswer state q db
  = ((Database.Question.with_HaveAnswer state q, None),
     Database.with_questions
       (Database.update Database.Question.ID
          (Database.question_columns
             (Database.Question.with_HaveAnswer state q))
          (Database.questions db)) db).
Proof.
  intros H Hid Hk. unfold Database.ChangeQuestionHaveAnswer, bind, ret.
  rewrite SaveQuestion_rewrite by assumption.
  rewrite (question_keys_HaveAnswer state Hk). reflexivity.
Qed.

Lemma ChangeQuestionIsClosed_accepted (closed : bool)
  (q : Database.Question.t) (db : Database.DB) :
  store_reliable db -> Database.Question.ID q <> 0 ->
  Database.question_keys q = q ->
  Database.ChangeQuestionIsClosed closed q db
  = ((Database.Question.with_IsClosed closed q, None),
     Database.with_questions
       (Database.update Database.Question.ID
          (Database.question_columns
             (Database.Question.with_IsClosed closed q))
          (Database.questions db)) db).
Proof.
  intros H Hid Hk. unfold Database.ChangeQuestionIsClosed, bind, ret.
  rewrite SaveQuestion_rewrite by assumption.
  rewrite (question_keys_IsClosed closed Hk). reflexivity.
Qed.

Lemma AddQuestion_accepted (header : string) (user : Database.User.t)
  (db : Database.DB) :
  store_reliable db ->
  Database.AddQuestion header user db
  = ((new_question header user db, None),
     Database.with_questions
       (Database.questions db ++ [new_question header user db]) db).
Proof.
  intros H. store_cases db H. reflexivity.
Qed.

Lemma Send_accepted (c : Tg.Config) (client : Tg.Client) :
  Tg.Refusals client = [] ->
  Tg.Send c client = (None, Tg.mkClient (Tg.Sent client ++ [c]) []).
Proof.
  destruct client as [sent rf]. simpl. intros ->. reflexivity.
Qed.

(* ================================================================== *)
(** ** Queries after a rewrite of a row *)

Section FirstAfterUpdate.

Variable A : Type.
Variable id : A -> Z.

(** A condition that only rows of the rewritten key can meet finds the
    rewritten row, or nothing. *)
Lemma First_update_on_key (cond : A -> bool) (x : A) (tbl : list A) :
  (forall r, cond r = true -> id r = id x) ->
  Database.has_id id (id x) tbl = true ->
  Database.First id cond (Database.update id x tbl)
  = if cond x then Some x else None.
Proof.
  intros Hkey Hp.
  destruct (Database.First id cond (Database.update id x tbl)) as [y|] eqn:E.
  - apply First_Some in E. destruct E as (Hin & Hc & _).
    apply (In_update id x tbl y Hp) in Hin.
    destruct Hin as [->|[_ Hne]].
    + rewrite Hc. reflexivity.
    + exfalso. apply Hne, Hkey, Hc.
  - destruct (cond x) eqn:Hc; [|reflexivity].
    assert (Hin : In x (Database.update id x tbl)).
    { apply In_update; auto. }
    rewrite (First_None _ _ _ E x Hin) in Hc. discriminate.
Qed.

(** The row that [First] found, rewritten so that it still meets the
    condition, is found again. *)
Lemma First_update_found (cond : A -> bool) (u x : A) (tbl : list A) :
  Database.First id cond tbl = Some u ->
  id x = id u -> cond x = true ->
  Database.First id cond (Database.update id x tbl) = Some x.
Proof.
  intros Hu Hid Hc. apply First_Some in Hu. destruct Hu as (Hin & Hcu & Hmin).
  assert (Hp : Database.has_id id (id x) tbl = true).
  { apply has_id_true. exists u. split; [assumption|congruence]. }
  assert (Hx : In x (Database.update id x tbl)) by (apply In_update; auto).
  destruct (First_found id cond _ x Hx Hc) as [y Hy].
  rewrite Hy. f_equal.
  apply First_Some in Hy. destruct Hy as (Hyin & Hyc & Hymin).
  apply (In_update id x tbl y Hp) in Hyin.
  destruct Hyin as [->|[Hyin Hne]]; [reflexivity|].
  exfalso. specialize (Hmin y Hyin Hyc). specialize (Hymin x Hx Hc). lia.
Qed.

(** Rows of other keys are found as before. *)
Lemma First_update_other (cond : A -> bool) (x : A) (tbl : list A) :
  Database.has_id id (id x) tbl = true ->
  cond x = false ->
  (forall r, In r tbl -> id r = id x -> cond r = false) ->
  Database.First id cond (Database.update id x tbl)
  = Database.First id cond tbl.
Proof.
  intros Hp Hx Hold. unfold Database.First. f_equal. f_equal.
  rewrite (update_present id x tbl Hp).
  induction tbl as [|r l IH]; simpl; [reflexivity|].
  assert (IH' : filter cond
                  (map (fun r0 => if id r0 =? id x then x else r0) l)
                = filter cond l).
  { destruct (Database.has_id id (id x) l) eqn:Hl.
    - apply IH; [reflexivity|]. intros; apply Hold; simpl; auto.
    - clear IH. f_equal. rewrite <- (map_id l) at 2. apply map_ext_in.
      intros a Ha. destruct (id a =? id x) eqn:E; [|reflexivity].
      exfalso. apply Z.eqb_eq in E.
      assert (Database.has_id id (id x) l = true)
        by (apply has_id_true; eauto).
      congruence. }
  destruct (id r =? id x) eqn:E.
  - apply Z.eqb_eq in E. rewrite Hx, (Hold r (or_introl eq_refl) E).
    exact IH'.
  - destruct (cond r); [f_equal|]; exact IH'.
Qed.

End FirstAfterUpdate.

(* ================================================================== *)
(** ** Running the handlers when nothing is refused *)

(** Comparisons of two string literals, decided. *)
Ltac decide_strings :=
  repeat match goal with
  | |- context [String.eqb ?a ?b] =>
      let v := eval vm_compute in (String.eqb a b) in
      lazymatch v with
      | true => change (String.eqb a b) with true
      | false => change (String.eqb a b) with false
      end
  end.

(** Comparisons of two state constants, decided. *)
Ltac decide_states :=
  cbn [Z.eqb Pos.eqb Bot.SNew Bot.SMain Bot.SReview Bot.SReviewText
       Bot.SQuestion Bot.SQuestionDiscussion Bot.SSwitchReceiver
       Bot.SSearchQuestion Bot.CBQuestion].

Ltac norm :=
  cbn [Bot.DB Bot.Bot Bot.Conf set_DB delivered
       Database.users Database.reviews Database.questions
       Database.question_correspondences Database.clock Database.refusals
       Database.with_users Database.with_reviews Database.with_questions
       Database.with_question_correspondences Database.with_refusals
       Tg.Sent Tg.Refusals fst snd
       Database.User.ID Database.User.ChatID Database.User.State
       Database.User.Nickname Database.User.IsEmployee Database.User.IsReceiver
       Database.User.with_State Database.User.with_IsReceiver
       Database.User.with_ChatID Database.User.with_Nickname
       Database.User.with_ID] in *.

Ltac side :=
  unfold store_reliable in *; norm;
  solve [assumption | reflexivity | congruence
        | apply question_keys_preload ].

(** One handler run forward over the operations that are accepted. *)
Ltac exec :=
  repeat first
  [ progress (cbv beta iota zeta)
  | progress (unfold bind, ret, Bot.onDB, Bot.onBot, Database.query)
  | progress norm
  | progress cbn [Logger.Err]
  | rewrite ChangeUserState_accepted by side
  | rewrite ChangeUserIsReceiver_accepted by side
  | rewrite ChangeQuestionAnswerer_accepted by side
  | rewrite ChangeQuestionHaveAnswer_accepted by side
  | rewrite ChangeQuestionIsClosed_accepted by side
  | rewrite AddQuestion_accepted by side
  | rewrite Send_accepted by side ].

(** *** Looking users and questions up *)

Lemma GetUserByChatID_Some (chat : Z) (db : Database.DB)
  (user : Database.User.t) :
  Database.GetUserByChatID chat db = Some user ->
  Database.First Database.User.ID (fun u => Database.User.ChatID u =? chat)
    (Database.users db) = Some user
  /\ Database.User.ID user <> 0 /\ Database.User.ChatID user = chat
  /\ In user (Database.users db).
Proof.
  unfold Database.GetUserByChatID.
  destruct (Database.First _ _ _) as [u|] eqn:E; [|discriminate].
  destruct (Database.User.ID u =? 0) eqn:E0; [discriminate|].
  intros H; injection H as <-.
  apply Z.eqb_neq in E0. pose proof (First_Some _ _ _ E) as (Hin & Hc & _).
  apply Z.eqb_eq in Hc. auto.
Qed.

(** The user that a chat resolves to, rewritten with the same key and the
    same chat, is the user the chat resolves to afterwards. *)
Lemma GetUserByChatID_rewritten (chat : Z) (db db' : Database.DB)
  (user user' : Database.User.t) :
  Database.GetUserByChatID chat db = Some user ->
  Database.users db'
  = Database.update Database.User.ID user' (Database.users db) ->
  Database.User.ID user' = Database.User.ID user ->
  Database.User.ChatID user' = chat ->
  Database.GetUserByChatID chat db' = Some user'.
Proof.
  intros H Hus Hid Hchat.
  apply GetUserByChatID_Some in H. destruct H as (HF & Hne & _ & _).
  unfold Database.GetUserByChatID. rewrite Hus.
  rewrite (@First_update_found _ Database.User.ID _ user user' _ HF Hid).
  - rewrite Hid. apply Z.eqb_neq in Hne. rewrite Hne. reflexivity.
  - apply Z.eqb_eq, Hchat.
Qed.

Lemma GetOpenQuestionByAnswerer_row (user : Database.User.t)
  (db : Database.DB) (q : Database.Question.t) :
  Database.GetOpenQuestionByAnswerer user db = Some q ->
  exists row,
    Database.First Database.Question.ID
      (answered_open_by (Database.User.ID user)) (Database.questions db)
    = Some row
    /\ Database.Question.ID row <> 0
    /\ q = Database.preload_question db row.
Proof.
  unfold Database.GetOpenQuestionByAnswerer.
  change (fun q0 => (Database.Question.AnswererID q0 =? Database.User.ID user)
                    && Bool.eqb (Database.Question.IsClosed q0) false)
    with (answered_open_by (Database.User.ID user)).
  destruct (Database.First _ _ _) as [row|]; [|discriminate].
  destruct (Database.Question.ID row =? 0) eqn:E; [discriminate|].
  intros H; injection H as <-. exists row.
  apply Z.eqb_neq in E. auto.
Qed.

Lemma GetOpenQuestionByAnswerer_of_row (user : Database.User.t)
  (db : Database.DB) (row : Database.Question.t) :
  Database.First Database.Question.ID
    (answered_open_by (Database.User.ID user)) (Database.questions db)
  = Some row ->
  Database.Question.ID row <> 0 ->
  Database.GetOpenQuestionByAnswerer user db
  = Some (Database.preload_question db row).
Proof.
  intros HF Hne. unfold Database.GetOpenQuestionByAnswerer.
  change (fun q0 => (Database.Question.AnswererID q0 =? Database.User.ID user)
                    && Bool.eqb (Database.Question.IsClosed q0) false)
    with (answered_open_by (Database.User.ID user)).
  rewrite HF. apply Z.eqb_neq in Hne. rewrite Hne. reflexivity.
Qed.

Ltac qnorm :=
  cbn [Database.Question.ID Database.Question.Header Database.Question.UserID
       Database.Question.AnswererID Database.Question.HaveAnswer
       Database.Question.IsClosed Database.Question.User
       Database.Question.Answerer
       Database.Question.with_AnswererID Database.Question.with_HaveAnswer
       Database.Question.with_IsClosed Database.Question.with_User
       Database.Question.with_Answerer Database.Question.with_UserID
       Database.Question.with_Header Database.Question.with_ID
       Database.preload_question Database.question_columns] in *.

(* ================================================================== *)
(** ** The back button of an employee in a thread *)

(** The run of the back button when nothing is refused: the user row is
    rewritten with the state Main, the Main menu is sent, and the row of
    the first open question the employee answers is rewritten with the
    columns it had.  [ChangeQuestionAnswerer(0, question)] assigns 0 to
    [AnswererID], but the question was read with its [Answerer]
    preloaded, and [Save] puts the key of that struct back. *)
Lemma load_user_ID (k : Z) (db : Database.DB) :
  Database.User.ID (Database.load_user k db) <> 0 ->
  Database.User.ID (Database.load_user k db) = k.
Proof.
  unfold Database.load_user.
  destruct (Database.First Database.User.ID _ (Database.users db))
    as [u|] eqn:E; [|intros H; exfalso; apply H; reflexivity].
  intros _. apply First_Some in E. destruct E as (_ & Hc & _).
  apply Z.eqb_eq, Hc.
Qed.

Lemma question_keys_Answerer (a : Z) (db : Database.DB)
  (row : Database.Question.t) :
  Database.User.ID
    (Database.load_user (Database.Question.AnswererID row) db) <> 0 ->
  Database.question_keys
    (Database.Question.with_AnswererID a (Database.preload_question db row))
  = Database.preload_question db row.
Proof.
  intros Hne. pose proof (load_user_ID _ _ Hne) as Hk.
  unfold Database.question_keys, Database.preload_question.
  destruct row as [i h u su k sa ha c].
  cbn [Database.Question.Answerer Database.Question.AnswererID
       Database.Question.User Database.Question.UserID
       Database.Question.with_Answerer Database.Question.with_User
       Database.Question.with_AnswererID Database.Question.with_UserID
       Database.Question.ID Database.Question.Header
       Database.Question.HaveAnswer Database.Question.IsClosed] in *.
  rewrite owner_key_load_user. unfold Database.owner_key.
  apply Z.eqb_neq in Hne. rewrite Hne, Hk. reflexivity.
Qed.

Lemma question_columns_preload (db : Database.DB)
  (row : Database.Question.t) :
  Database.question_columns (Database.preload_question db row)
  = Database.question_columns row.
Proof. destruct row; reflexivity. Qed.

(** The user row that was just rewritten is the row that [Preload] finds
    under its key. *)
Lemma load_user_rewritten (user user' : Database.User.t)
  (db : Database.DB) :
  In user (Database.users db) ->
  Database.User.ID user' = Database.User.ID user ->
  Database.load_user (Database.User.ID user)
    (Database.with_users
       (Database.update Database.User.ID user' (Database.users db)) db)
  = user'.
Proof.
  intros Hin Hid. unfold Database.load_user.
  cbn [Database.users Database.with_users].
  rewrite First_update_on_key.
  - rewrite Hid, Z.eqb_refl. reflexivity.
  - intros r Hr. apply Z.eqb_eq in Hr. congruence.
  - apply has_id_true. exists user. split; [exact Hin|congruence].
Qed.

Lemma back_run (message : Tg.Message.t) (app : Bot.App)
  (user : Database.User.t) (row : Database.Question.t) :
  reliable app ->
  Tg.Message.Text message = "↩️Back" ->
  Database.GetUserByChatID (Tg.User.ID (Tg.Message.From message)) (Bot.DB app)
  = Some user ->
  Database.User.IsEmployee user = true ->
  Database.User.State user = Bot.SQuestionDiscussion ->
  Database.First Database.Question.ID
    (answered_open_by (Database.User.ID user))
    (Database.questions (Bot.DB app)) = Some row ->
  Database.Question.ID row <> 0 ->
  exists menu,
    Bot.parseMessage message app =
    (None,
     delivered [menu]
       (set_DB
          (Database.with_questions
             (Database.update Database.Question.ID
                (Database.question_columns row)
                (Database.questions (Bot.DB app)))
             (Database.with_users
                (Database.update Database.User.ID
                   (Database.User.with_State Bot.SMain user)
                   (Database.users (Bot.DB app)))
                (Bot.DB app)))
          app)).
Proof.
  intros [Hbot Hdb] Htxt Huser Hemp Hst Hrow Hrid.
  pose proof (GetUserByChatID_Some _ _ Huser) as (_ & Hid & Hchat & Hin).
  pose proof (First_Some _ _ _ Hrow) as (_ & Hcond & _).
  unfold answered_open_by in Hcond. apply andb_true_iff in Hcond.
  destruct Hcond as [Hans _]. apply Z.eqb_eq in Hans.
  unfold Bot.parseMessage, Bot.parseCommand. rewrite Htxt. decide_strings.
  exec. rewrite Huser, Hemp. exec.
  unfold Bot.parseMessageEmployee. rewrite Hst, Htxt.
  decide_states. decide_strings. exec.
  rewrite (@GetOpenQuestionByAnswerer_of_row _ _ row) by (norm; assumption).
  exec.
  rewrite question_keys_Answerer, question_columns_preload.
  - unfold Bot.respond_or_back, Bot.responser. norm. rewrite Hemp.
    unfold Bot.responserEmployee. norm. decide_states. unfold Bot.send_menu.
    destruct (Database.User.IsReceiver user); exec; eexists; reflexivity.
  - rewrite Hans.
    rewrite (@load_user_rewritten user
               (Database.User.with_State Bot.SMain user) (Bot.DB app) Hin
               eq_refl).
    exact Hid.
Qed.

(** C8. The claim fails in the code.  An employee in QuestionDiscussion
    presses the back button and nothing is refused: the employee's state
    becomes Main, and the first open question the employee answers stays
    as it was, open and with the employee as its answerer.  It does not
    pass the filter of the claim ([GetNewQuestionById]) and is not among
    the new questions ([GetNewQuestions]): the claim is not released. *)
Theorem back_keeps_the_claim (message : Tg.Message.t) (app : Bot.App)
  (user : Database.User.t) (q : Database.Question.t)
  (Hreliable : reliable app)
  (Htext : Tg.Message.Text message = "↩️Back")
  (Huser : Database.GetUserByChatID (Tg.User.ID (Tg.Message.From message))
             (Bot.DB app) = Some user)
  (Hemployee : Database.User.IsEmployee user = true)
  (Hstate : Database.User.State user = Bot.SQuestionDiscussion)
  (Hquestion : Database.GetOpenQuestionByAnswerer user (Bot.DB app) = Some q) :
  let app' := snd (Bot.parseMessage message app) in
  fst (Bot.parseMessage message app) = None /\
  (exists q',
     Database.GetQuestionById (Database.Question.ID q) (Bot.DB app') = Some q'
     /\ Database.Question.AnswererID q' = Database.User.ID user
     /\ Database.Question.AnswererID q' <> 0
     /\ Database.Question.IsClosed q' = false
     /\ Database.Question.HaveAnswer q' = Database.Question.HaveAnswer q
     /\ Database.Question.UserID q' = Database.Question.UserID q
     /\ Database.Question.Header q' = Database.Question.Header q) /\
  Database.GetNewQuestionById (Database.Question.ID q) (Bot.DB app') = None /\
  (forall x, In x (Database.GetNewQuestions (Bot.DB app')) ->
             Database.Question.ID x <> Database.Question.ID q) /\
  (exists user',
     Database.GetUserByChatID (Tg.User.ID (Tg.Message.From message))
       (Bot.DB app') = Some user'
     /\ Database.User.ID user' = Database.User.ID user
     /\ Database.User.State user' = Bot.SMain).
Proof.
  destruct (GetOpenQuestionByAnswerer_row _ _ Hquestion)
    as (row & Hrow & Hrid & ->).
  destruct (back_run message Hreliable Htext Huser Hemployee Hstate Hrow Hrid)
    as [menu Hrun].
  pose proof (GetUserByChatID_Some _ _ Huser) as (_ & Huid & _ & _).
  pose proof (First_Some _ _ _ Hrow) as (Hin & Hcond & _).
  unfold answered_open_by in Hcond. apply andb_true_iff in Hcond.
  destruct Hcond as [Hans Hopen]. apply eqb_prop in Hopen.
  apply Z.eqb_eq in Hans.
  assert (Hp : Database.has_id Database.Question.ID
                 (Database.Question.ID (Database.question_columns row))
                 (Database.questions (Bot.DB app)) = true).
  { apply has_id_true. exists row. split; [assumption|reflexivity]. }
  assert (Hnew : Database.is_new (Database.question_columns row) = false).
  { unfold Database.is_new. qnorm. rewrite Hans.
    apply Z.eqb_neq in Huid. rewrite Huid. reflexivity. }
  cbv zeta. rewrite Hrun. norm. qnorm.
  split; [reflexivity|]. split; [|split; [|split]].
  - unfold Database.GetQuestionById. norm.
    rewrite First_update_on_key; [| |exact Hp].
    + qnorm. rewrite Z.eqb_refl. qnorm.
      apply Z.eqb_neq in Hrid. rewrite Hrid.
      eexists. split; [reflexivity|]. qnorm.
      rewrite Hans. auto 7.
    + intros r Hr. apply Z.eqb_eq in Hr. exact Hr.
  - unfold Database.GetNewQuestionById. norm.
    rewrite First_update_on_key; [| |exact Hp].
    + rewrite Hnew, andb_false_r. reflexivity.
    + intros r Hr. apply andb_true_iff in Hr. destruct Hr as [Hr _].
      apply Z.eqb_eq in Hr. exact Hr.
  - intros x Hx Heq. apply GetNewQuestions_In in Hx.
    destruct Hx as (r & Hr & Hrnew & ->). norm.
    apply (In_update Database.Question.ID (Database.question_columns row)
             _ r Hp) in Hr.
    destruct Hr as [->|[_ Hne]]; [congruence|].
    apply Hne. exact Heq.
  - exists (Database.User.with_State Bot.SMain user).
    split; [|split; reflexivity].
    eapply GetUserByChatID_rewritten; [exact Huser|reflexivity|reflexivity|].
    apply (GetUserByChatID_Some _ _ Huser).
Qed.

Lemma back_keeps_the_claim_witness :
  Database.GetNewQuestionById 1
    (Bot.DB (snd (Bot.parseMessage Scenario.back_message Scenario.claimed)))
  = None.
Proof.
  refine (proj1 (proj2 (proj2
    (@back_keeps_the_claim Scenario.back_message Scenario.claimed
       (Database.User.mk 1 9 6 "eve" true false)
       (Database.Question.mk 1 "Why is my order late?" 2
          (Database.User.mk 2 5 6 "bob" false false) 1
          (Database.User.mk 1 9 6 "eve" true false) false false)
       _ _ _ _ _ _)))).
  - split; reflexivity.
  - reflexivity.
  - vm_compute. reflexivity.
  - reflexivity.
  - reflexivity.
  - vm_compute. reflexivity.
Defined.

(** The run of [Scenario.claimed].  The employee of chat 9 has taken
    question 1, which nobody has answered in yet, and presses the back
    button: the employee is in Main, the stored question still names the
    employee (key 1) as its answerer and is open, the filter of the claim
    returns nothing for it and the list of new questions is empty.  The
    same holds after the employee has answered. *)
Lemma back_button_releases_nothing :
  Database.GetUserByChatID 9 (Bot.DB Scenario.claimed)
  = Some (Database.User.mk 1 9 Bot.SQuestionDiscussion "eve" true false) /\
  map (fun q => (Database.Question.ID q, Database.Question.AnswererID q,
                 Database.Question.HaveAnswer q, Database.Question.IsClosed q))
      (Database.questions (Bot.DB Scenario.claimed))
  = [(1, 1, false, false)] /\
  fst (Bot.parseMessage Scenario.back_message Scenario.claimed) = None /\
  (let after :=
     snd (Bot.parseMessage Scenario.back_message Scenario.claimed) in
   map (fun q => (Database.Question.ID q, Database.Question.AnswererID q,
                  Database.Question.HaveAnswer q, Database.Question.IsClosed q))
       (Database.questions (Bot.DB after))
   = [(1, 1, false, false)] /\
   Database.GetUserByChatID 9 (Bot.DB after)
   = Some (Database.User.mk 1 9 Bot.SMain "eve" true false) /\
   Database.GetNewQuestionById 1 (Bot.DB after) = None /\
   Database.GetNewQuestions (Bot.DB after) = []) /\
  map (fun q => (Database.Question.ID q, Database.Question.AnswererID q,
                 Database.Question.HaveAnswer q, Database.Question.IsClosed q))
      (Database.questions (Bot.DB Scenario.left_thread))
  = [(1, 1, true, false)].
Proof. vm_compute. repeat split. Qed.

(* ================================================================== *)
(** ** Reasoning about computations, whatever is refused *)

Section Hoare.

Variables S A B : Type.

Lemma hoare_ret (P : S -> Prop) (Q : A -> S -> Prop) (a : A) :
  (forall s, P s -> Q a s) -> hoare P (ret a) Q.
Proof. intros H s Hs. apply H, Hs. Qed.

Lemma hoare_bind (P : S -> Prop) (R : A -> S -> Prop) (Q : B -> S -> Prop)
  (m : M S A) (k : A -> M S B) :
  hoare P m R -> (forall a, hoare (R a) (k a) Q) -> hoare P (bind m k) Q.
Proof.
  intros Hm Hk s Hs. unfold bind. specialize (Hm s Hs).
  destruct (m s) as [a s']. apply (Hk a s' Hm).
Qed.

Lemma hoare_pre (P P' : S -> Prop) (Q : A -> S -> Prop) (m : M S A) :
  (forall s, P s -> P' s) -> hoare P' m Q -> hoare P m Q.
Proof. intros HP H s Hs. apply H, HP, Hs. Qed.

Lemma hoare_post (P : S -> Prop) (Q Q' : A -> S -> Prop) (m : M S A) :
  hoare P m Q' -> (forall a s, Q' a s -> Q a s) -> hoare P m Q.
Proof. intros H HQ s Hs. apply HQ, H, Hs. Qed.

(** A fact that does not depend on the state is available while proving. *)
Lemma hoare_assume (F : Prop) (P : S -> Prop) (Q : A -> S -> Prop)
  (m : M S A) :
  (F -> hoare P m Q) -> hoare (fun s => F /\ P s) m Q.
Proof. intros H s [HF Hs]. apply (H HF s Hs). Qed.

End Hoare.

Section OnStore.

Variable A : Type.

Lemma on_store_onDB (P : Database.DB -> Prop) (Q : A -> Database.DB -> Prop)
  (m : M Database.DB A) :
  hoare P m Q -> on_store P (Bot.onDB m) Q.
Proof.
  intros H app Hp. unfold Bot.onDB. specialize (H (Bot.DB app) Hp).
  destruct (m (Bot.DB app)) as [a db]. exact H.
Qed.

(** Requests to the transport and writes of the configuration leave the
    store alone. *)
Lemma on_store_onBot (P : Database.DB -> Prop) (m : M Tg.Client A) :
  on_store P (Bot.onBot m) (fun _ => P).
Proof.
  intros app Hp. unfold Bot.onBot.
  destruct (m (Bot.Bot app)) as [a bot]. exact Hp.
Qed.

Lemma on_store_onConf (P : Database.DB -> Prop) (m : M Bot.Viper A) :
  on_store P (Bot.onConf m) (fun _ => P).
Proof.
  intros app Hp. unfold Bot.onConf.
  destruct (m (Bot.Conf app)) as [a conf]. exact Hp.
Qed.

Lemma on_store_query (P : Database.DB -> Prop) (f : Database.DB -> A) :
  on_store P (Bot.onDB (Database.query f)) (fun a db => P db /\ a = f db).
Proof. intros app Hp. simpl. auto. Qed.

End OnStore.

(* ================================================================== *)
(** ** Conditions on a store, decided by evaluation *)

Lemma users_checked (db : Database.DB) :
  forallb (fun u => negb (Database.User.ID u =? 0)) (Database.users db) = true ->
  users_keyed db.
Proof.
  intros H u Hu. rewrite forallb_forall in H. specialize (H u Hu).
  apply negb_true_iff, Z.eqb_neq in H. exact H.
Qed.

Lemma chat_unknown_checked (chat : Z) (db : Database.DB) :
  forallb (fun u => negb (Database.User.ChatID u =? chat)) (Database.users db)
  = true ->
  forall u, In u (Database.users db) -> Database.User.ChatID u <> chat.
Proof.
  intros H u Hu. rewrite forallb_forall in H. specialize (H u Hu).
  apply negb_true_iff, Z.eqb_neq in H. exact H.
Qed.

Lemma ratings_checked (db : Database.DB) :
  forallb (fun r => 0 <=? Database.Review.Rating r) (Database.reviews db)
  = true ->
  forall r, In r (Database.reviews db) -> 0 <= Database.Review.Rating r.
Proof.
  intros H r Hr. rewrite forallb_forall in H. specialize (H r Hr).
  apply Z.leb_le in H. exact H.
Qed.

Lemma single_row_checked (chat : Z) (nick : string) (db : Database.DB) :
  forallb
    (fun u =>
       forallb
         (fun v =>
            implb
              (((Database.User.ChatID u =? chat)
                || String.eqb (Database.User.Nickname u) nick)
               && ((Database.User.ChatID v =? chat)
                   || String.eqb (Database.User.Nickname v) nick))
              (Database.User.ID u =? Database.User.ID v))
         (Database.users db))
    (Database.users db) = true ->
  single_row chat nick db.
Proof.
  intros H u v Hu Hv Hmu Hmv. rewrite forallb_forall in H.
  specialize (H u Hu). rewrite forallb_forall in H. specialize (H v Hv).
  rewrite Hmu, Hmv in H. apply Z.eqb_eq. exact H.
Qed.

(* ================================================================== *)
(** ** The command /start *)

Section FirstAfterSave.

Variable A : Type.
Variable id : A -> Z.

(** A row found under one condition and rewritten is the first row under
    any narrower condition that it meets after the rewrite. *)
Lemma First_update_narrower (wide narrow : A -> bool) (u x : A)
  (tbl : list A) :
  Database.First id wide tbl = Some u ->
  id x = id u -> narrow x = true ->
  (forall r, In r tbl -> narrow r = true -> wide r = true) ->
  Database.First id narrow (Database.update id x tbl) = Some x.
Proof.
  intros Hu Hid Hc Hsub.
  apply First_Some in Hu. destruct Hu as (Hin & Hcu & Hmin).
  assert (Hp : Database.has_id id (id x) tbl = true).
  { apply has_id_true. exists u. split; [assumption|congruence]. }
  assert (Hx : In x (Database.update id x tbl)) by (apply In_update; auto).
  destruct (First_found id narrow _ x Hx Hc) as [y Hy].
  rewrite Hy. f_equal.
  apply First_Some in Hy. destruct Hy as (Hyin & Hyc & Hymin).
  apply (In_update id x tbl y Hp) in Hyin.
  destruct Hyin as [->|[Hyin Hne]]; [reflexivity|].
  exfalso. specialize (Hmin y Hyin (Hsub y Hyin Hyc)).
  specialize (Hymin x Hx Hc). lia.
Qed.

(** A row appended to a table without any row of its kind is the first
    of its kind. *)
Lemma First_append_new (cond : A -> bool) (x : A) (tbl : list A) :
  (forall r, In r tbl -> cond r = false) -> cond x = true ->
  Database.First id cond (tbl ++ [x]) = Some x.
Proof.
  intros Hnone Hx. unfold Database.First. rewrite filter_app.
  assert (Hf : filter cond tbl = []).
  { induction tbl as [|r l IH]; simpl; [reflexivity|].
    rewrite (Hnone r (or_introl eq_refl)). apply IH.
    intros; apply Hnone; simpl; auto. }
  rewrite Hf. simpl. rewrite Hx. reflexivity.
Qed.

End FirstAfterSave.

Lemma GetUserByChatID_same_users (chat : Z) (db db' : Database.DB) :
  Database.users db' = Database.users db ->
  Database.GetUserByChatID chat db' = Database.GetUserByChatID chat db.
Proof. intros H. unfold Database.GetUserByChatID. rewrite H. reflexivity. Qed.

Lemma stopped_receiving_same_users (chat key : Z) (db db' : Database.DB) :
  Database.users db' = Database.users db ->
  stopped_receiving chat key db -> stopped_receiving chat key db'.
Proof.
  intros H [(u & Hu & Hk & Hr) Hsilent]. split.
  - exists u. rewrite (GetUserByChatID_same_users _ _ _ H). auto.
  - unfold chat_silent. rewrite H. exact Hsilent.
Qed.

(** A row of a table after [Save] is the saved struct or a row that was
    there. *)
Lemma In_update_either (A : Type) (id : A -> Z) (x y : A) (tbl : list A) :
  In y (Database.update id x tbl) -> y = x \/ In y tbl.
Proof.
  unfold Database.update. destruct (Database.has_id id (id x) tbl).
  - rewrite in_map_iff. intros [r [Hr Hin]].
    destruct (id r =? id x); [left; congruence|right; congruence].
  - rewrite in_app_iff. simpl. intuition congruence.
Qed.

(** Saving the row the chat resolves to, still without the receiver flag,
    keeps the chat resolved to a row without the flag and every row of the
    chat without it, accepted or not. *)
Lemma SaveUser_stopped (chat : Z) (user : Database.User.t) :
  Database.User.ChatID user = chat ->
  Database.User.IsReceiver user = false ->
  hoare (stopped_receiving chat (Database.User.ID user))
    (Database.SaveUser user)
    (fun r db => fst r = user
                 /\ stopped_receiving chat (Database.User.ID user) db).
Proof.
  intros Hchat Hrecv db Hs. unfold Database.SaveUser.
  destruct (attempt (Database.refusals db)) as [ok rest].
  destruct ok; simpl.
  - destruct Hs as [(u & Hu & Hk & Hr) Hsilent].
    pose proof (GetUserByChatID_Some _ _ Hu) as (_ & Hne & _ & _).
    assert (Hz : (Database.User.ID user =? 0) = false)
      by (apply Z.eqb_neq; congruence).
    rewrite Hz. simpl. split; [reflexivity|]. split.
    + exists user. split; [|auto].
      eapply GetUserByChatID_rewritten;
        [exact Hu|reflexivity|auto|exact Hchat].
    + intros r Hin Hc. cbn [Database.users Database.with_users
                             Database.with_refusals] in Hin.
      apply In_update_either in Hin. destruct Hin as [->|Hin];
        [exact Hrecv|exact (Hsilent r Hin Hc)].
  - split; [reflexivity|].
    eapply stopped_receiving_same_users; [|exact Hs]. reflexivity.
Qed.

Lemma SaveQuestion_stopped (chat key : Z) (q : Database.Question.t) :
  hoare (stopped_receiving chat key) (Database.SaveQuestion q)
    (fun _ => stopped_receiving chat key).
Proof.
  intros db Hs. unfold Database.SaveQuestion.
  destruct (attempt (Database.refusals db)) as [ok rest].
  destruct ok; simpl;
    [destruct (Database.Question.ID q =? 0); simpl|];
    (eapply stopped_receiving_same_users; [|exact Hs]); reflexivity.
Qed.

Lemma ChangeUserState_stopped (chat state : Z) (user : Database.User.t) :
  Database.User.ChatID user = chat ->
  Database.User.IsReceiver user = false ->
  hoare (stopped_receiving chat (Database.User.ID user))
    (Database.ChangeUserState state user)
    (fun _ => stopped_receiving chat (Database.User.ID user)).
Proof.
  intros Hchat Hrecv. unfold Database.ChangeUserState.
  eapply hoare_bind.
  - apply (@SaveUser_stopped chat (Database.User.with_State state user));
      assumption.
  - intros [u e]. apply hoare_ret. simpl. tauto.
Qed.

(** [AddUser], accepted, on a store with at most one row of the chat or
    the nickname: the chat resolves to the row it has written, which does
    not receive, and no other row carries the chat. *)
Lemma AddUser_stopped (chat : Z) (nick : string) (state : Z) :
  hoare (fun db => users_keyed db /\ single_row chat nick db
                   /\ accepts_next (Database.refusals db))
    (Database.AddUser chat nick state)
    (fun r db =>
       snd r = None
       /\ Database.User.ChatID (fst r) = chat
       /\ Database.User.IsReceiver (fst r) = false
       /\ stopped_receiving chat (Database.User.ID (fst r)) db).
Proof.
  intros db (Hkeyed & Hone & Hacc).
  unfold Database.AddUser, bind, ret, Database.query, Database.SaveUser.
  unfold accepts_next in Hacc.
  destruct (attempt (Database.refusals db)) as [ok rest].
  simpl in Hacc. subst ok. simpl.
  destruct (Database.First Database.User.ID _ (Database.users db))
    as [u0|] eqn:E; norm.
  - pose proof (First_Some _ _ _ E) as (Hin & Hm0 & _).
    pose proof (Hkeyed u0 Hin) as Hne.
    assert (Hz : (Database.User.ID u0 =? 0) = false) by (apply Z.eqb_neq, Hne).
    rewrite Hz. simpl. do 3 (split; [reflexivity|]). split.
    + exists (Database.User.with_IsReceiver false
                (Database.User.with_State state
                   (Database.User.with_ChatID chat
                      (Database.User.with_Nickname nick u0)))).
      split; [|split; reflexivity].
      unfold Database.GetUserByChatID. norm.
      erewrite First_update_narrower; [| exact E | reflexivity | |].
      * norm. rewrite Hz. reflexivity.
      * norm. apply Z.eqb_refl.
      * intros r _ Hr. cbv beta in *. rewrite Hr. reflexivity.
    + intros r Hr Hc. cbn [Database.users Database.with_users
                            Database.with_refusals] in Hr.
      assert (Hp : Database.has_id Database.User.ID (Database.User.ID u0)
                     (Database.users db) = true).
      { apply has_id_true. exists u0. split; [exact Hin|reflexivity]. }
      apply (In_update Database.User.ID
               (Database.User.mk (Database.User.ID u0) chat state nick
                  (Database.User.IsEmployee u0) false) _ r Hp) in Hr.
      destruct Hr as [->|[Hr Hkey]]; [reflexivity|].
      exfalso. apply Hkey. cbn [Database.User.ID].
      apply (Hone r u0 Hr Hin); [|exact Hm0].
      apply Z.eqb_eq in Hc. rewrite Hc. reflexivity.
  - simpl. do 3 (split; [reflexivity|]). split.
    + exists (Database.User.with_ID
                (Database.next_id Database.User.ID (Database.users db))
                (Database.User.with_IsReceiver false
                   (Database.User.with_State state
                      (Database.User.with_ChatID chat
                         (Database.User.with_Nickname nick
                            Database.User.zero))))).
      split; [|split; reflexivity].
      unfold Database.GetUserByChatID. norm.
      rewrite First_append_new.
      * norm.
        pose proof (next_id_positive Database.User.ID (Database.users db))
          as Hp.
        destruct (Database.next_id Database.User.ID (Database.users db) =? 0)
          eqn:Hz; [apply Z.eqb_eq in Hz; lia|reflexivity].
      * intros r Hr. pose proof (First_None _ _ _ E r Hr) as Hn.
        apply orb_false_iff in Hn. apply Hn.
      * norm. apply Z.eqb_refl.
    + intros r Hr Hc. cbn [Database.users Database.with_users
                            Database.with_refusals] in Hr.
      apply in_app_iff in Hr. destruct Hr as [Hr|[<-|[]]]; [|reflexivity].
      exfalso. pose proof (First_None _ _ _ E r Hr) as Hn.
      apply orb_false_iff in Hn. destruct Hn as [Hn _].
      apply Z.eqb_neq in Hn. exact (Hn Hc).
Qed.

Lemma responserCommand_stopped (chat : Z) (command : string)
  (user : Database.User.t) :
  Database.User.ChatID user = chat ->
  Database.User.IsReceiver user = false ->
  on_store (stopped_receiving chat (Database.User.ID user))
    (Bot.responserCommand command user)
    (fun _ => stopped_receiving chat (Database.User.ID user)).
Proof.
  intros Hchat Hrecv.
  assert (Hboth : forall message line1 line2,
    on_store (stopped_receiving chat (Database.User.ID user))
      (err <- Bot.onBot (Tg.Send message) ;;
       match err with
       | Some _ => ret (user, Logger.Err Bot.part_002 line1 err)
       | None =>
           '(user, err) <- Bot.onDB (Database.ChangeUserState Bot.SMain user) ;;
           ret (user, Logger.Err Bot.part_002 line2 err)
       end)%monad
      (fun _ => stopped_receiving chat (Database.User.ID user))).
  { intros message line1 line2. unfold on_store. eapply hoare_bind.
    - exact (on_store_onBot
               (stopped_receiving chat (Database.User.ID user)) _).
    - intros [e|]; [apply hoare_ret; auto|].
      eapply hoare_bind.
      + exact (on_store_onDB
                 (@ChangeUserState_stopped chat Bot.SMain user Hchat Hrecv)).
      + intros [u e]. apply hoare_ret. auto. }
  unfold Bot.responserCommand, Bot.responserCommandEmployee,
    Bot.responserCommandUser.
  destruct (Database.User.IsEmployee user);
    (eapply hoare_bind;
     [|intros [u e]; apply hoare_ret; intros s Hs; exact Hs]);
    (destruct (String.eqb command "/start");
     [apply Hboth|apply hoare_ret; auto]).
Qed.

(** The command /start, whose first write the store accepts, leaves the
    sender's chat resolved to a row that does not receive questions, and
    no row of the chat receiving, whatever is refused afterwards. *)
Lemma parseCommand_stopped (message : Tg.Message.t) :
  Tg.Message.Text message = "/start" ->
  on_store
    (fun db => users_keyed db
               /\ single_row (Tg.User.ID (Tg.Message.From message))
                    (Tg.User.UserName (Tg.Message.From message)) db
               /\ accepts_next (Database.refusals db))
    (Bot.parseCommand message)
    (fun r db =>
       fst r = true /\
       exists key,
         stopped_receiving (Tg.User.ID (Tg.Message.From message)) key db).
Proof.
  intros Htext. unfold Bot.parseCommand. rewrite Htext. decide_strings.
  set (chat := Tg.User.ID (Tg.Message.From message)).
  unfold on_store. eapply hoare_bind.
  - exact (on_store_onDB
             (@AddUser_stopped chat
                (Tg.User.UserName (Tg.Message.From message)) Bot.SNew)).
  - intros [user err]. cbn [fst snd].
    apply hoare_pre with
      (P' := fun app =>
               (err = None /\ Database.User.ChatID user = chat
                /\ Database.User.IsReceiver user = false)
               /\ stopped_receiving chat (Database.User.ID user) (Bot.DB app)).
    { intros s H. tauto. }
    apply hoare_assume. intros (-> & Hchat & Hrecv).
    eapply hoare_bind;
      [exact (on_store_query
                (stopped_receiving chat (Database.User.ID user))
                (Database.GetOpenQuestionByUser user))|].
    intros question. cbv beta.
    apply hoare_pre with
      (P' := fun app =>
               stopped_receiving chat (Database.User.ID user) (Bot.DB app)).
    { intros s H. tauto. }
    eapply hoare_bind with
      (R := fun _ app =>
              stopped_receiving chat (Database.User.ID user) (Bot.DB app)).
    + destruct question as [q|]; [|apply hoare_ret; auto].
      eapply hoare_bind.
      * refine (on_store_onDB
                  (P := stopped_receiving chat (Database.User.ID user))
                  (Q := fun _ =>
                          stopped_receiving chat (Database.User.ID user)) _).
        unfold Database.ChangeQuestionIsClosed. eapply hoare_bind.
        -- apply SaveQuestion_stopped.
        -- intros [q' e]. apply hoare_ret. intros s Hs. exact Hs.
      * intros [q' e]. apply hoare_ret. auto.
    + intros [e|].
      * apply hoare_ret. intros s Hs. split; [reflexivity|eauto].
      * eapply hoare_bind.
        -- exact (@responserCommand_stopped chat "/start" user Hchat Hrecv).
        -- intros [u e]. apply hoare_ret. intros s Hs.
           split; [reflexivity|eauto].
Qed.

(** Every request of an offer of questions goes to the chat of the user
    it is offered to. *)
Lemma sendQuestions_addressed (to : Database.User.t)
  (questions : list Database.Question.t) (client : Tg.Client) :
  exists added,
    Tg.Sent (snd (Bot.sendQuestions to questions client))
    = Tg.Sent client ++ added
    /\ Forall (fun c => request_chat c = Database.User.ChatID to) added.
Proof.
  revert client. induction questions as [|q rest IH]; intros client.
  - exists []. cbn. rewrite app_nil_r. split; [reflexivity|constructor].
  - cbn [Bot.sendQuestions]. unfold bind, Tg.Send.
    destruct (attempt (Tg.Refusals client)) as [[|] rf].
    + cbv beta iota zeta.
      match goal with
      | |- context [Bot.sendQuestions to rest ?c] =>
          destruct (IH c) as (added & Hs & Ha); rewrite Hs
      end.
      cbn [Tg.Sent]. rewrite <- app_assoc.
      eexists. split; [reflexivity|].
      constructor; [reflexivity|exact Ha].
    + exists []. cbn. rewrite app_nil_r. split; [reflexivity|constructor].
Qed.

(** The loop that offers new questions to the receivers sends to the
    chats of the receivers only. *)
Lemma fan_out_addressed (chat : Z) (questions : list Database.Question.t)
  (receivers : list Database.User.t) (app : Bot.App) :
  (forall r, In r receivers -> Database.User.ChatID r <> chat) ->
  exists added,
    Tg.Sent (Bot.Bot (snd (Bot.for_each receivers (fun receiver =>
               (Bot.onBot (Bot.sendQuestions receiver questions) ;;; ret tt)
               %monad) app)))
    = Tg.Sent (Bot.Bot app) ++ added
    /\ Forall (fun c => request_chat c <> chat) added.
Proof.
  revert app. induction receivers as [|r rest IH]; intros app Hall.
  - exists []. cbn. rewrite app_nil_r. split; [reflexivity|constructor].
  - cbn [Bot.for_each]. unfold bind at 1. unfold bind at 1.
    unfold Bot.onBot at 1.
    destruct (sendQuestions_addressed r questions (Bot.Bot app))
      as (first & Hf & Hfa).
    destruct (Bot.sendQuestions r questions (Bot.Bot app)) as [e bot] eqn:E.
    cbn [snd] in Hf. cbv beta iota zeta. unfold ret at 1.
    match goal with
    | |- context [Bot.for_each rest ?body ?a] =>
        destruct (IH a) as (more & Hm & Hma)
    end.
    { intros x Hx. apply Hall. right. exact Hx. }
    rewrite Hm. cbn [Bot.Bot]. rewrite Hf, <- app_assoc.
    eexists. split; [reflexivity|].
    apply Forall_app. split; [|exact Hma].
    eapply Forall_impl; [|exact Hfa].
    intros c Hc. rewrite Hc. apply Hall. left. reflexivity.
Qed.




(* ================================================================== *)
(** ** Replay of the correspondence *)

(** The replay loop delivers the rows in the order of the slice up to the
    first refusal, and reports an error exactly when it has stopped
    early. *)
Lemma forwardCorrespondence_prefix (user : Database.User.t)
  (rows : list Database.QuestionCorrespondence.t) (client : Tg.Client) :
  let n := deliveries (Tg.Refusals client) (List.length rows) in
  Tg.Sent (snd (Bot.forwardCorrespondence user rows client))
  = Tg.Sent client ++ map (replayed user) (firstn n rows)
  /\ (fst (Bot.forwardCorrespondence user rows client) = None
      <-> n = List.length rows).
Proof.
  revert client. induction rows as [|c rest IH]; intros [sent refusals].
  - cbn [Bot.forwardCorrespondence ret fst snd Tg.Sent Tg.Refusals
           List.length]. rewrite firstn_nil. cbn [map].
    rewrite app_nil_r. split; [reflexivity|].
    destruct refusals as [|k r]; cbn [deliveries];
      [|rewrite Nat.min_0_r]; split; reflexivity.
  - cbn [Bot.forwardCorrespondence]. unfold bind, Tg.Send.
    cbn [Tg.Refusals Tg.Sent]. destruct refusals as [|[|k] r].
    + cbn [attempt]. cbv iota beta.
      specialize (IH (Tg.mkClient (sent ++ [Tg.NewForward
        (Database.User.ChatID user)
        (Database.User.ChatID (Database.QuestionCorrespondence.User c))
        (Database.QuestionCorrespondence.MessageID c)]) [])).
      cbn [deliveries Tg.Refusals Tg.Sent] in IH |- *.
      destruct IH as [IHs IHe]. rewrite IHs.
      cbn [firstn map List.length]. rewrite <- app_assoc.
      split; [reflexivity|]. rewrite IHe. split; auto.
    + cbn [attempt deliveries Nat.min firstn map List.length fst snd Tg.Sent
             ret].
      rewrite app_nil_r. split; [reflexivity|].
      split; [discriminate|discriminate].
    + cbn [attempt]. cbv iota beta.
      specialize (IH (Tg.mkClient (sent ++ [Tg.NewForward
        (Database.User.ChatID user)
        (Database.User.ChatID (Database.QuestionCorrespondence.User c))
        (Database.QuestionCorrespondence.MessageID c)]) (k :: r))).
      cbn [deliveries Tg.Refusals Tg.Sent] in IH |- *.
      destruct IH as [IHs IHe]. rewrite IHs.
      cbn [firstn map List.length Nat.min]. rewrite <- app_assoc.
      split; [reflexivity|]. rewrite IHe. split; intros H; lia.
Qed.

Lemma deliveries_le (refusals : list nat) (n : nat) :
  (deliveries refusals n <= n)%nat.
Proof. destruct refusals; simpl; lia. Qed.

(** The rows that [GetCorrespondenceByQuestion] returns: those of the
    question, each with its sender loaded, in ascending order of their
    keys. *)
Lemma GetCorrespondenceByQuestion_sorted (question : Database.Question.t)
  (db : Database.DB) :
  StronglySorted
    (fun a b => Database.QuestionCorrespondence.ID a
                <= Database.QuestionCorrespondence.ID b)
    (Database.GetCorrespondenceByQuestion question db).
Proof.
  unfold Database.GetCorrespondenceByQuestion.
  pose proof (order_by_id_sorted Database.QuestionCorrespondence.ID
    (filter (fun c => Database.QuestionCorrespondence.QuestionID c
                      =? Database.Question.ID question)
       (Database.question_correspondences db))) as H.
  induction H as [|x l Hs IH Hx]; simpl; constructor.
  - exact IH.
  - rewrite Forall_forall in *. intros y Hy. apply in_map_iff in Hy.
    destruct Hy as (z & <- & Hz). apply (Hx z Hz).
Qed.

Lemma GetCorrespondenceByQuestion_In (question : Database.Question.t)
  (db : Database.DB) (c : Database.QuestionCorrespondence.t) :
  In c (Database.GetCorrespondenceByQuestion question db) <->
  exists row,
    In row (Database.question_correspondences db)
    /\ Database.QuestionCorrespondence.QuestionID row
       = Database.Question.ID question
    /\ c = Database.preload_correspondence db row.
Proof.
  unfold Database.GetCorrespondenceByQuestion. rewrite in_map_iff. split.
  - intros (row & <- & Hin). apply order_by_id_In, filter_In in Hin.
    destruct Hin as [Hin Hq]. apply Z.eqb_eq in Hq. eauto.
  - intros (row & Hin & Hq & ->). exists row. split; [reflexivity|].
    apply order_by_id_In, filter_In. split; [exact Hin|].
    apply Z.eqb_eq, Hq.
Qed.

Lemma filter_ascending (A : Type) (id : A -> Z) (cond : A -> bool)
  (l : list A) :
  StronglySorted (fun a b => id a < id b) l ->
  StronglySorted (fun a b => id a < id b) (filter cond l).
Proof.
  induction 1 as [|x l Hs IH Hx]; simpl; [constructor|].
  destruct (cond x); [|exact IH]. constructor; [exact IH|].
  rewrite Forall_forall in *. intros y Hy. apply filter_In in Hy.
  apply Hx, Hy.
Qed.

(** On a table in creation order the rows come in the order in which
    they were written. *)
Lemma GetCorrespondenceByQuestion_creation_order
  (question : Database.Question.t) (db : Database.DB) :
  correspondence_ascending db ->
  Database.GetCorrespondenceByQuestion question db
  = map (Database.preload_correspondence db)
      (filter (fun c => Database.QuestionCorrespondence.QuestionID c
                        =? Database.Question.ID question)
         (Database.question_correspondences db)).
Proof.
  intros H. unfold Database.GetCorrespondenceByQuestion.
  rewrite order_by_id_ascending; [reflexivity|].
  apply filter_ascending, H.
Qed.

Lemma GetCorrespondenceByQuestion_same (q q' : Database.Question.t)
  (db db' : Database.DB) :
  Database.Question.ID q' = Database.Question.ID q ->
  Database.question_correspondences db' = Database.question_correspondences db ->
  Database.users db' = Database.users db ->
  Database.GetCorrespondenceByQuestion q' db'
  = Database.GetCorrespondenceByQuestion q db.
Proof.
  intros Hid Hc Hu. unfold Database.GetCorrespondenceByQuestion.
  rewrite Hid, Hc. apply map_ext. intros c.
  unfold Database.preload_correspondence, Database.load_user.
  rewrite Hu. reflexivity.
Qed.

(** What [loadCorrespondence] sends for a question that the filter
    returns, when the store accepts the write of the answerer. *)
Lemma loadCorrespondence_replays (id : Z) (user : Database.User.t)
  (app : Bot.App) (q : Database.Question.t) :
  Database.GetNewQuestionById id (Bot.DB app) = Some q ->
  accepts_next (Database.refusals (Bot.DB app)) ->
  let rows := Database.GetCorrespondenceByQuestion q (Bot.DB app) in
  let n := deliveries (Tg.Refusals (Bot.Bot app)) (List.length rows) in
  Tg.Sent (Bot.Bot (snd (Bot.loadCorrespondence id user app)))
  = Tg.Sent (Bot.Bot app) ++ map (replayed user) (firstn n rows)
  /\ (fst (Bot.loadCorrespondence id user app) = None
      <-> n = List.length rows).
Proof.
  intros Hq Hacc. unfold Bot.loadCorrespondence, bind, Bot.onDB, Bot.onBot,
    Database.query. rewrite Hq.
  unfold Database.ChangeQuestionAnswerer, bind, ret, Database.SaveQuestion.
  unfold accepts_next in Hacc. norm.
  destruct (attempt (Database.refusals (Bot.DB app))) as [ok rest].
  simpl in Hacc. subst ok. cbn [negb].
  assert (Hne : (Database.Question.ID q =? 0) = false).
  { unfold Database.GetNewQuestionById in Hq.
    destruct (Database.First _ _ _) as [row|]; [|discriminate].
    destruct (Database.Question.ID row =? 0) eqn:E; [discriminate|].
    injection Hq as <-. exact E. }
  unfold Database.question_keys. qnorm. rewrite Hne. cbv beta iota zeta.
  cbn [Logger.Err]. norm.
  erewrite GetCorrespondenceByQuestion_same with (q := q) (db := Bot.DB app);
    [|reflexivity|reflexivity|reflexivity].
  pose proof (forwardCorrespondence_prefix user
    (Database.GetCorrespondenceByQuestion q (Bot.DB app)) (Bot.Bot app)) as H.
  cbv zeta in H.
  destruct (Bot.forwardCorrespondence user _ (Bot.Bot app)) as [e bot].
  cbn [fst snd Bot.Bot] in *. rewrite Err_None_iff. exact H.
Qed.

(** C6. Correspondence replay.  The rows that the replay fetches for a
    question are exactly the stored rows of that question, in ascending
    order of their keys, which on a table in creation order is the order
    in which they were written.  The replay forwards them one by one from
    the chat of the original sender; what it delivers is a prefix of that
    sequence: all of it when no request is refused, the part before the
    first refused request otherwise, and then it reports the error.
    [loadCorrespondence] delivers exactly this for the question it
    claims. *)
Theorem replay_delivers_prefix_in_order (question : Database.Question.t)
  (user : Database.User.t) (db : Database.DB) (client : Tg.Client) :
  let rows := Database.GetCorrespondenceByQuestion question db in
  let n := deliveries (Tg.Refusals client) (List.length rows) in
  StronglySorted
    (fun a b => Database.QuestionCorrespondence.ID a
                <= Database.QuestionCorrespondence.ID b) rows
  /\ (forall c, In c rows <->
        exists row,
          In row (Database.question_correspondences db)
          /\ Database.QuestionCorrespondence.QuestionID row
             = Database.Question.ID question
          /\ c = Database.preload_correspondence db row)
  /\ (correspondence_ascending db ->
      rows = map (Database.preload_correspondence db)
               (filter (fun c => Database.QuestionCorrespondence.QuestionID c
                                 =? Database.Question.ID question)
                  (Database.question_correspondences db)))
  /\ (n <= List.length rows)%nat
  /\ Tg.Sent (snd (Bot.forwardCorrespondence user rows client))
     = Tg.Sent client ++ map (replayed user) (firstn n rows)
  /\ (fst (Bot.forwardCorrespondence user rows client) = None
      <-> n = List.length rows)
  /\ (Tg.Refusals client = [] -> n = List.length rows)
  /\ (forall (id : Z) (conf : Bot.Viper),
        Database.GetNewQuestionById id db = Some question ->
        accepts_next (Database.refusals db) ->
        Tg.Sent
          (Bot.Bot
             (snd (Bot.loadCorrespondence id user (Bot.mkApp client db conf))))
        = Tg.Sent client ++ map (replayed user) (firstn n rows)).
Proof.
  cbv zeta. split; [apply GetCorrespondenceByQuestion_sorted|].
  split; [intros c; apply GetCorrespondenceByQuestion_In|].
  split; [apply GetCorrespondenceByQuestion_creation_order|].
  split; [apply deliveries_le|].
  split; [apply forwardCorrespondence_prefix|].
  split; [apply forwardCorrespondence_prefix|].
  split; [intros ->; reflexivity|].
  intros id conf Hq Hacc.
  apply (@loadCorrespondence_replays id user (Bot.mkApp client db conf)
           question Hq Hacc).
Qed.

Lemma replay_delivers_prefix_in_order_witness :
  Tg.Sent
    (Bot.Bot
       (snd (Bot.loadCorrespondence 1 Scenario.eve
               (Bot.mkApp (Tg.mkClient [] [1%nat]) (Bot.DB Scenario.thread)
                  (Bot.Conf Scenario.thread)))))
  = [Tg.ForwardMessageConf 9 5 23].
Proof.
  pose proof (@replay_delivers_prefix_in_order
    (Database.Question.mk 1 "Why is my order late?" 2 Database.User.zero 0
       Database.User.zero false false)
    Scenario.eve (Bot.DB Scenario.thread) (Tg.mkClient [] [1%nat])) as H.
  cbv zeta in H.
  destruct H as (_ & _ & _ & _ & _ & _ & _ & H).
  rewrite (H 1 (Bot.Conf Scenario.thread)).
  - vm_compute. reflexivity.
  - vm_compute. reflexivity.
  - vm_compute. reflexivity.
Defined.

(* ================================================================== *)
(** ** Properties that every operation keeps *)

Section Stable.

Variables S A B : Type.
Variable I : S -> Prop.

Lemma stable_ret (a : A) : stable I (ret a).
Proof. apply hoare_ret. auto. Qed.

Lemma stable_bind (m : M S A) (k : A -> M S B) :
  stable I m -> (forall a, stable I (k a)) -> stable I (bind m k).
Proof. intros Hm Hk. eapply hoare_bind; [exact Hm|exact Hk]. Qed.

End Stable.

Lemma stable_for_each (S A : Type) (I : S -> Prop) (l : list A)
  (body : A -> M S unit) :
  (forall x, stable I (body x)) -> stable I (Bot.for_each l body).
Proof.
  intros H. induction l as [|x l IH]; simpl.
  - apply stable_ret.
  - apply stable_bind; [apply H|intros _; exact IH].
Qed.

(** The dispatcher decomposed: a property of the state that the four
    writes of the store, the reads and the requests to the transport keep
    is kept by the handling of every message and every button press. *)
Section Dispatch.

Variable I : Bot.App -> Prop.

Hypothesis I_bot : forall (A : Type) (m : M Tg.Client A),
  stable I (Bot.onBot m).
Hypothesis I_query : forall (A : Type) (f : Database.DB -> A),
  stable I (Bot.onDB (Database.query f)).
Hypothesis I_SaveUser : forall user,
  stable I (Bot.onDB (Database.SaveUser user)).
Hypothesis I_SaveReview : forall review,
  stable I (Bot.onDB (Database.SaveReview review)).
Hypothesis I_SaveQuestion : forall question,
  stable I (Bot.onDB (Database.SaveQuestion question)).
Hypothesis I_SaveCorrespondence : forall corr,
  stable I (Bot.onDB (Database.SaveCorrespondence corr)).

Lemma stable_onDB_ret (A : Type) (a : A) : stable I (Bot.onDB (ret a)).
Proof. intros [bot db conf] HI. exact HI. Qed.

Lemma stable_onDB_bind (A B : Type) (m : M Database.DB A)
  (k : A -> M Database.DB B) :
  stable I (Bot.onDB m) -> (forall a, stable I (Bot.onDB (k a))) ->
  stable I (Bot.onDB (bind m k)).
Proof.
  intros Hm Hk app HI. specialize (Hm app HI).
  unfold Bot.onDB, bind in *.
  destruct (m (Bot.DB app)) as [a db]. cbn [fst snd] in Hm.
  specialize (Hk a _ Hm). cbn [Bot.DB Bot.Bot Bot.Conf] in Hk.
  destruct (k a db) as [b db']. exact Hk.
Qed.

(** The steps of a computation on the store, taken one by one. *)
Ltac store_steps :=
  repeat first
  [ apply stable_onDB_ret
  | apply I_query
  | apply I_SaveUser
  | apply I_SaveReview
  | apply I_SaveQuestion
  | apply I_SaveCorrespondence
  | apply stable_onDB_bind; [|intros]
  | match goal with
    | |- stable _ (Bot.onDB (match ?x with _ => _ end)) => destruct x
    end ].

Lemma stable_ChangeUserState (state : Z) (user : Database.User.t) :
  stable I (Bot.onDB (Database.ChangeUserState state user)).
Proof. unfold Database.ChangeUserState. store_steps. Qed.

Lemma stable_ChangeUserIsReceiver (flag : bool) (user : Database.User.t) :
  stable I (Bot.onDB (Database.ChangeUserIsReceiver flag user)).
Proof. unfold Database.ChangeUserIsReceiver. store_steps. Qed.

Lemma stable_AddUser (chat : Z) (nick : string) (state : Z) :
  stable I (Bot.onDB (Database.AddUser chat nick state)).
Proof. unfold Database.AddUser. store_steps. Qed.

Lemma stable_AddQuestion (header : string) (user : Database.User.t) :
  stable I (Bot.onDB (Database.AddQuestion header user)).
Proof. unfold Database.AddQuestion. store_steps. Qed.

Lemma stable_ChangeQuestionHaveAnswer (state : bool)
  (q : Database.Question.t) :
  stable I (Bot.onDB (Database.ChangeQuestionHaveAnswer state q)).
Proof. unfold Database.ChangeQuestionHaveAnswer. store_steps. Qed.

Lemma stable_ChangeQuestionAnswerer (answererID : Z)
  (q : Database.Question.t) :
  stable I (Bot.onDB (Database.ChangeQuestionAnswerer answererID q)).
Proof. unfold Database.ChangeQuestionAnswerer. store_steps. Qed.

Lemma stable_ChangeQuestionIsClosed (closed : bool)
  (q : Database.Question.t) :
  stable I (Bot.onDB (Database.ChangeQuestionIsClosed closed q)).
Proof. unfold Database.ChangeQuestionIsClosed. store_steps. Qed.

Lemma stable_AddCorrespondence (user : Database.User.t) (messageId : Z) :
  stable I (Bot.onDB (Database.AddCorrespondence user messageId)).
Proof. unfold Database.AddCorrespondence. store_steps. Qed.

Lemma stable_ChangeTextReviewByUser (text : string)
  (user : Database.User.t) :
  stable I (Bot.onDB (Database.ChangeTextReviewByUser text user)).
Proof. unfold Database.ChangeTextReviewByUser. store_steps. Qed.

(** The steps of a handler, taken one by one. *)
Ltac handler_steps :=
  repeat first
  [ apply stable_ret
  | apply I_bot
  | apply I_query
  | apply stable_ChangeUserState
  | apply stable_ChangeUserIsReceiver
  | apply stable_AddUser
  | apply stable_AddQuestion
  | apply stable_ChangeQuestionHaveAnswer
  | apply stable_ChangeQuestionAnswerer
  | apply stable_ChangeQuestionIsClosed
  | apply stable_AddCorrespondence
  | apply stable_ChangeTextReviewByUser
  | apply I_SaveReview
  | match goal with
    | H : forall _, _ |- stable _ _ => apply H
    end
  | apply stable_bind; [|intros]
  | apply stable_for_each; intros
  | match goal with
    | |- stable _ (match ?x with _ => _ end) => destruct x
    end ].

Lemma stable_send_menu (line chat : Z) (text : string) (keys : Z) :
  stable I (Bot.send_menu line chat text keys).
Proof. unfold Bot.send_menu. handler_steps. Qed.

Lemma stable_send_text (line chat : Z) (text : string) :
  stable I (Bot.send_text line chat text).
Proof. unfold Bot.send_text. handler_steps. Qed.

Lemma stable_responserCommand (command : string) (user : Database.User.t) :
  stable I (Bot.responserCommand command user).
Proof.
  unfold Bot.responserCommand, Bot.responserCommandEmployee,
    Bot.responserCommandUser. handler_steps.
Qed.

Lemma stable_responserUser (user : Database.User.t) :
  stable I (Bot.responserUser user).
Proof.
  pose proof stable_send_menu. pose proof stable_send_text.
  unfold Bot.responserUser. handler_steps.
Qed.

Lemma stable_responserEmployee (user : Database.User.t) :
  stable I (Bot.responserEmployee user).
Proof.
  pose proof stable_send_menu. pose proof stable_send_text.
  unfold Bot.responserEmployee. handler_steps.
Qed.

Lemma stable_responser (user : Database.User.t) :
  stable I (Bot.responser user).
Proof.
  pose proof stable_responserUser. pose proof stable_responserEmployee.
  unfold Bot.responser. handler_steps.
Qed.

Lemma stable_respond_or_back (line back : Z) (user : Database.User.t) :
  stable I (Bot.respond_or_back line back user).
Proof.
  pose proof stable_responser. unfold Bot.respond_or_back. handler_steps.
Qed.

Lemma stable_enter (line1 line2 state back : Z) (user : Database.User.t) :
  stable I (Bot.enter line1 line2 state back user).
Proof.
  pose proof stable_respond_or_back. unfold Bot.enter. handler_steps.
Qed.

Lemma stable_loadCorrespondence (id : Z) (user : Database.User.t) :
  stable I (Bot.loadCorrespondence id user).
Proof. unfold Bot.loadCorrespondence. handler_steps. Qed.

Lemma stable_loadReviews (interval : Z) (user : Database.User.t) :
  stable I (Bot.loadReviews interval user).
Proof. unfold Bot.loadReviews. handler_steps. Qed.

Lemma stable_loadFullQuestionById (id : string) (user : Database.User.t) :
  stable I (Bot.loadFullQuestionById id user).
Proof. unfold Bot.loadFullQuestionById. handler_steps. Qed.

Lemma stable_parseReview (rating : string) (user : Database.User.t) :
  stable I (Bot.parseReview rating user).
Proof. unfold Bot.parseReview. handler_steps. Qed.

Lemma stable_parseMessageUser (user : Database.User.t)
  (message : Tg.Message.t) :
  stable I (Bot.parseMessageUser user message).
Proof.
  pose proof stable_enter. pose proof stable_respond_or_back.
  pose proof stable_parseReview.
  unfold Bot.parseMessageUser. handler_steps.
Qed.

Lemma stable_parseMessageEmployee (user : Database.User.t)
  (message : Tg.Message.t) :
  stable I (Bot.parseMessageEmployee user message).
Proof.
  pose proof stable_enter. pose proof stable_respond_or_back.
  pose proof stable_responser. pose proof stable_loadReviews.
  pose proof stable_loadFullQuestionById.
  unfold Bot.parseMessageEmployee. handler_steps.
Qed.

Lemma stable_parseCommand (message : Tg.Message.t) :
  stable I (Bot.parseCommand message).
Proof.
  pose proof stable_responserCommand.
  unfold Bot.parseCommand. handler_steps.
Qed.

Lemma stable_parseMessage (message : Tg.Message.t) :
  stable I (Bot.parseMessage message).
Proof.
  pose proof stable_parseCommand. pose proof stable_parseMessageUser.
  pose proof stable_parseMessageEmployee.
  unfold Bot.parseMessage. handler_steps.
Qed.

Lemma stable_parseCallback (callback : Tg.CallbackQuery.t) :
  stable I (Bot.parseCallback callback).
Proof.
  pose proof stable_enter. pose proof stable_loadCorrespondence.
  unfold Bot.parseCallback, Bot.parseCallbackEmployee, Bot.parseCallbackUser.
  handler_steps.
Qed.

End Dispatch.

(* ================================================================== *)
(** ** The cursor *)

Lemma onDB_keeps_conf (A : Type) (c : Bot.Viper) (m : M Database.DB A) :
  stable (fun app => Bot.Conf app = c) (Bot.onDB m).
Proof.
  intros app H. unfold Bot.onDB. destruct (m (Bot.DB app)). exact H.
Qed.

Lemma onBot_keeps_conf (A : Type) (c : Bot.Viper) (m : M Tg.Client A) :
  stable (fun app => Bot.Conf app = c) (Bot.onBot m).
Proof.
  intros app H. unfold Bot.onBot. destruct (m (Bot.Bot app)). exact H.
Qed.

(** The handling of a message or of a button press does not touch the
    configuration. *)
Lemma parseMessage_keeps_conf (message : Tg.Message.t) (app : Bot.App) :
  Bot.Conf (snd (Bot.parseMessage message app)) = Bot.Conf app.
Proof.
  assert (Hs : stable (fun a => Bot.Conf a = Bot.Conf app)
                 (Bot.parseMessage message)).
  { apply stable_parseMessage; intros;
      first [apply onBot_keeps_conf | apply onDB_keeps_conf]. }
  exact (Hs app eq_refl).
Qed.

Lemma parseCallback_keeps_conf (callback : Tg.CallbackQuery.t)
  (app : Bot.App) :
  Bot.Conf (snd (Bot.parseCallback callback app)) = Bot.Conf app.
Proof.
  assert (Hs : stable (fun a => Bot.Conf a = Bot.Conf app)
                 (Bot.parseCallback callback)).
  { apply stable_parseCallback; intros;
      first [apply onBot_keeps_conf | apply onDB_keeps_conf]. }
  exact (Hs app eq_refl).
Qed.

(** One update: the cursor in the file is moved to the identifier after
    the update exactly when [parseUpdate] returns no error, and is left
    as it was otherwise. *)
Lemma parseUpdate_cursor (update : Tg.Update.t) (app : Bot.App) :
  (fst (Bot.parseUpdate update app) = None ->
   Bot.Written (Bot.Conf (snd (Bot.parseUpdate update app)))
   = Bot.int_add (Tg.Update.UpdateID update) 1
   /\ Bot.Offset (Bot.Conf (snd (Bot.parseUpdate update app)))
      = Bot.int_add (Tg.Update.UpdateID update) 1)
  /\ (fst (Bot.parseUpdate update app) <> None ->
      Bot.Written (Bot.Conf (snd (Bot.parseUpdate update app)))
      = Bot.Written (Bot.Conf app)).
Proof.
  unfold Bot.parseUpdate, bind.
  assert (H1 : Bot.Conf
                 (snd (match Tg.Update.Message update with
                       | Some message => Bot.parseMessage message
                       | None => ret None
                       end app)) = Bot.Conf app).
  { destruct (Tg.Update.Message update);
      [apply parseMessage_keeps_conf|reflexivity]. }
  destruct (match Tg.Update.Message update with
            | Some message => Bot.parseMessage message
            | None => ret None
            end app) as [e1 app1]. cbn [snd] in H1.
  assert (H2 : Bot.Conf
                 (snd (match Tg.Update.CallbackQuery update with
                       | Some callback => Bot.parseCallback callback
                       | None => ret e1
                       end app1)) = Bot.Conf app).
  { destruct (Tg.Update.CallbackQuery update);
      [rewrite parseCallback_keeps_conf; exact H1|exact H1]. }
  destruct (match Tg.Update.CallbackQuery update with
            | Some callback => Bot.parseCallback callback
            | None => ret e1
            end app1) as [e2 app2]. cbn [snd] in H2.
  destruct e2 as [msg|].
  - cbn [ret fst snd]. rewrite H2. split; [discriminate|reflexivity].
  - unfold Bot.onConf, Bot.Set_offset, Bot.WriteConfig, ret.
    cbn [Bot.Conf Bot.Bot Bot.DB Bot.WriteRefusals Bot.Offset Bot.Written].
    rewrite H2.
    destruct (attempt (Bot.WriteRefusals (Bot.Conf app))) as [ok rest].
    destruct ok; cbn [fst snd Bot.Conf Bot.Written Bot.Offset Logger.Err
                        Bot.config_error].
    + split; [intros _; split; reflexivity|intros H; contradiction].
    + split; [discriminate|reflexivity].
Qed.

Lemma last_cons_default (A : Type) (x d : A) (l : list A) :
  last (x :: l) d = last l x.
Proof.
  revert x d. induction l as [|y l IH]; intros x d; [reflexivity|].
  change (last (x :: y :: l) d) with (last (y :: l) d).
  rewrite (IH y d), (IH y x). reflexivity.
Qed.

(** C5, as the code has it.  The cursor follows every single event: an
    update that [parseUpdate] handles without error moves the cursor in
    the configuration file to its identifier plus one, at once and
    whatever comes later in the batch; an update whose handling returns
    an error leaves the cursor where it was and ends the batch.  So after
    a batch of which the first [k] updates were handled without error the
    cursor is the identifier after the [k]-th update (the old cursor for
    [k = 0]), whether or not the batch was handled to its end. *)
Theorem cursor_follows_each_event (updates : list Tg.Update.t)
  (app : Bot.App) :
  (forall update : Tg.Update.t,
     (fst (Bot.parseUpdate update app) = None ->
      Bot.Written (Bot.Conf (snd (Bot.parseUpdate update app)))
      = Bot.int_add (Tg.Update.UpdateID update) 1)
     /\ (fst (Bot.parseUpdate update app) <> None ->
         Bot.Written (Bot.Conf (snd (Bot.parseUpdate update app)))
         = Bot.Written (Bot.Conf app)))
  /\ exists (k : nat) (tail : list Logger.error),
       fst (Bot.processBatch updates app) = repeat None k ++ tail
       /\ ((tail = [] /\ k = List.length updates)
           \/ ((exists e, tail = [Some e]) /\ (k < List.length updates)%nat))
       /\ Bot.Written (Bot.Conf (snd (Bot.processBatch updates app)))
          = cursor_after k updates (Bot.Written (Bot.Conf app)).
Proof.
  split.
  { intros update. pose proof (parseUpdate_cursor update app) as [H1 H2].
    split; [intros H; apply H1, H|exact H2]. }
  revert app. induction updates as [|u rest IH]; intros app.
  - exists O, []. cbn. auto.
  - cbn [Bot.processBatch]. unfold bind.
    pose proof (parseUpdate_cursor u app) as [Hok Herr].
    destruct (Bot.parseUpdate u app) as [[e|] app1]; cbn [fst snd] in *.
    + exists O, [Some e]. cbn [ret fst snd repeat List.app List.length].
      split; [reflexivity|]. split.
      * right. split; [eauto|lia].
      * rewrite Herr by discriminate. reflexivity.
    + destruct (Hok eq_refl) as [Hw _].
      destruct (IH app1) as (k & tail & Hres & Hshape & Hcur).
      destruct (Bot.processBatch rest app1) as [results app2].
      cbn [fst snd ret] in *.
      exists (S k), tail. subst results. split; [reflexivity|]. split.
      * cbn [List.length].
        destruct Hshape as [[-> ->]|[He Hlt]]; [left; auto|right].
        split; [exact He|lia].
      * rewrite Hcur, Hw. unfold cursor_after. cbn [firstn map].
        rewrite last_cons_default. reflexivity.
Qed.

(** C5 as stated fails: in a batch of two updates the cursor is already
    moved when only the first is handled, and it stays moved although the
    handling of the second returns an error and the batch is given up. *)
Lemma cursor_moves_inside_batch :
  let app := Scenario.start_app [] [] in
  Bot.Written (Bot.Conf app) = 0 /\
  Bot.Written
    (Bot.Conf
       (snd (Bot.parseUpdate (Scenario.text_update 1 10 5 "bob" "/start") app)))
  = 2 /\
  fst (Bot.processBatch Scenario.mixed_batch app)
  = [None; Some "[parsers.go:54] [parsers.go:64] User 6 is not found"] /\
  Bot.Written (Bot.Conf (snd (Bot.processBatch Scenario.mixed_batch app))) = 2.
Proof. vm_compute. repeat split. Qed.

(* ================================================================== *)
(** ** A new question and its offers *)

Lemma sendQuestions_one (to : Database.User.t) (q : Database.Question.t)
  (client : Tg.Client) :
  Tg.Refusals client = [] ->
  Bot.sendQuestions to [q] client
  = (None, Tg.mkClient (Tg.Sent client ++ [offer q to]) []).
Proof.
  intros H. cbn [Bot.sendQuestions]. unfold bind.
  rewrite Send_accepted by assumption. reflexivity.
Qed.

(** A loop whose body delivers one request per element, when nothing is
    refused. *)
Lemma for_each_delivered (A : Type) (request : A -> Tg.Config)
  (body : A -> M Bot.App unit) (l : list A) (app : Bot.App) :
  (forall x app', Tg.Refusals (Bot.Bot app') = [] ->
     body x app' = (tt, delivered [request x] app')) ->
  Tg.Refusals (Bot.Bot app) = [] ->
  Bot.for_each l body app = (tt, delivered (map request l) app).
Proof.
  intros Hbody. revert app. induction l as [|x rest IH]; intros app H.
  - destruct app as [[sent rf] db conf]. simpl in H. subst rf.
    unfold delivered. simpl. rewrite app_nil_r. reflexivity.
  - cbn [Bot.for_each]. unfold bind. rewrite Hbody by assumption.
    rewrite IH by reflexivity.
    unfold delivered. cbn [Bot.Bot Bot.DB Bot.Conf Tg.Sent map].
    rewrite <- app_assoc. reflexivity.
Qed.

(** The run of a question text of a customer in the Question state when
    nothing is refused. *)
Lemma question_run (message : Tg.Message.t) (app : Bot.App)
  (user : Database.User.t) :
  reliable app ->
  Database.GetUserByChatID (Tg.User.ID (Tg.Message.From message)) (Bot.DB app)
  = Some user ->
  Database.User.IsEmployee user = false ->
  Database.User.State user = Bot.SQuestion ->
  Tg.Message.Text message <> "❌Close" ->
  Tg.Message.Text message <> "/start" ->
  let q := new_question (Tg.Message.Text message) user (Bot.DB app) in
  let db1 :=
    Database.with_questions (Database.questions (Bot.DB app) ++ [q])
      (Bot.DB app) in
  let db2 :=
    Database.with_users
      (Database.update Database.User.ID
         (Database.User.with_State Bot.SQuestionDiscussion user)
         (Database.users (Bot.DB app))) db1 in
  exists text,
    Bot.parseMessage message app
    = (None,
       delivered
         (map (offer q) (Database.GetReceivers db1)
          ++ [Tg.SendMessageConf (Database.User.ChatID user) text Tg.NoMarkup])
         (set_DB db2 app)).
Proof.
  intros [Hbot Hdb] Huser Hcust Hst Hclose Hstart.
  pose proof (GetUserByChatID_Some _ _ Huser) as (_ & Hid & Hchat & Hin).
  apply String.eqb_neq in Hclose, Hstart.
  cbv zeta.
  unfold Bot.parseMessage, Bot.parseCommand. rewrite Hstart.
  exec. rewrite Huser, Hcust. exec.
  unfold Bot.parseMessageUser. rewrite Hst, Hclose.
  decide_states. exec.
  rewrite (@for_each_delivered _
             (offer (new_question (Tg.Message.Text message) user (Bot.DB app))));
    [|intros x app' Hx; rewrite sendQuestions_one by exact Hx; reflexivity
     |side].
  unfold Bot.enter. exec.
  unfold Bot.respond_or_back, Bot.responser. norm. rewrite Hcust.
  unfold Bot.responserUser. norm. decide_states. exec.
  match goal with
  | |- context [match ?x with Some _ => _ | None => _ end] => destruct x
  end; unfold Bot.send_text; exec; eexists; unfold delivered, set_DB;
    norm; rewrite <- app_assoc; reflexivity.
Qed.

(** Who receives the offers: the employees who receive questions and are
    the answerer of no question. *)
Lemma GetReceivers_after_question (header : string) (user : Database.User.t)
  (db : Database.DB) (u : Database.User.t) :
  users_keyed db ->
  (In u (Database.GetReceivers
           (Database.with_questions
              (Database.questions db ++ [new_question header user db]) db))
   <->
   In u (Database.users db)
   /\ Database.User.IsEmployee u = true
   /\ Database.User.IsReceiver u = true
   /\ forall q0, In q0 (Database.questions db) ->
                 Database.Question.AnswererID q0 <> Database.User.ID u).
Proof.
  intros Hk. unfold Database.GetReceivers. norm. rewrite filter_In.
  rewrite existsb_app. cbn [existsb new_question Database.Question.AnswererID].
  rewrite orb_false_r.
  split.
  - intros [Hin H]. apply andb_true_iff in H. destruct H as [H Hfree].
    apply andb_true_iff in H. destruct H as [He Hr].
    repeat split; try assumption.
    intros q0 Hq0 Heq. apply negb_true_iff in Hfree.
    apply orb_false_iff in Hfree. destruct Hfree as [Hfree _].
    assert (Hex : existsb (fun q => Database.Question.AnswererID q
                                    =? Database.User.ID u)
                    (Database.questions db) = true).
    { apply existsb_exists. exists q0. split; [exact Hq0|].
      apply Z.eqb_eq, Heq. }
    congruence.
  - intros (Hin & He & Hr & Hfree). split; [exact Hin|].
    rewrite He, Hr. cbn [andb]. apply negb_true_iff, orb_false_iff. split.
    + destruct (existsb _ (Database.questions db)) eqn:E; [|reflexivity].
      apply existsb_exists in E. destruct E as (q0 & Hq0 & Heq).
      apply Z.eqb_eq in Heq. exfalso. apply (Hfree q0 Hq0 Heq).
    + apply Z.eqb_neq. intros H0. apply (Hk u Hin). symmetry. exact H0.
Qed.

(** X26. A customer in the Question state sends a text that is neither the
    close button nor a command, and nothing is refused: one new open
    question of the customer is stored, and the requests that the bot
    sends are exactly one claim-offer for it to every user that
    [GetReceivers] returns, in the order of the table, followed by one
    text to the customer.  [GetReceivers] returns the employees who
    receive questions and whose key is the answerer of no stored
    question, the closed ones counted; the customer is in
    QuestionDiscussion afterwards. *)
Theorem question_offered_to_free_receivers (message : Tg.Message.t)
  (app : Bot.App) (user : Database.User.t)
  (Hreliable : reliable app)
  (Hkeyed : users_keyed (Bot.DB app))
  (Huser : Database.GetUserByChatID (Tg.User.ID (Tg.Message.From message))
             (Bot.DB app) = Some user)
  (Hcustomer : Database.User.IsEmployee user = false)
  (Hstate : Database.User.State user = Bot.SQuestion)
  (Hclose : Tg.Message.Text message <> "❌Close")
  (Hstart : Tg.Message.Text message <> "/start") :
  let app' := snd (Bot.parseMessage message app) in
  let q := new_question (Tg.Message.Text message) user (Bot.DB app) in
  let receivers :=
    Database.GetReceivers
      (Database.with_questions (Database.questions (Bot.DB app) ++ [q])
         (Bot.DB app)) in
  fst (Bot.parseMessage message app) = None
  /\ Database.questions (Bot.DB app') = Database.questions (Bot.DB app) ++ [q]
  /\ (exists text,
        Tg.Sent (Bot.Bot app')
        = Tg.Sent (Bot.Bot app) ++ map (offer q) receivers
          ++ [Tg.SendMessageConf (Database.User.ChatID user) text Tg.NoMarkup])
  /\ (forall u,
        In u receivers <->
        In u (Database.users (Bot.DB app))
        /\ Database.User.IsEmployee u = true
        /\ Database.User.IsReceiver u = true
        /\ forall q0, In q0 (Database.questions (Bot.DB app)) ->
                      Database.Question.AnswererID q0 <> Database.User.ID u)
  /\ Database.GetUserByChatID (Tg.User.ID (Tg.Message.From message))
       (Bot.DB app')
     = Some (Database.User.with_State Bot.SQuestionDiscussion user).
Proof.
  destruct (question_run message Hreliable Huser Hcustomer Hstate Hclose
              Hstart) as [text Hrun].
  cbv zeta in *. rewrite Hrun. unfold delivered, set_DB. norm.
  split; [reflexivity|]. split; [reflexivity|]. split; [eauto|].
  split; [intros u; apply GetReceivers_after_question, Hkeyed|].
  eapply GetUserByChatID_rewritten; [exact Huser|reflexivity|reflexivity|].
  apply (GetUserByChatID_Some _ _ Huser).
Qed.

Lemma question_offered_to_free_receivers_witness :
  Database.GetUserByChatID 5
    (Bot.DB (snd (Bot.parseMessage Scenario.first_question Scenario.asking)))
  = Some (Database.User.mk 2 5 Bot.SQuestionDiscussion "bob" false false).
Proof.
  refine (proj2 (proj2 (proj2 (proj2
    (@question_offered_to_free_receivers Scenario.first_question
       Scenario.asking
       (Database.User.mk 2 5 Bot.SQuestion "bob" false false)
       _ _ _ _ _ _ _))))).
  - split; vm_compute; reflexivity.
  - intros u Hu. vm_compute in Hu. destruct Hu as [<-|[<-|[]]]; discriminate.
  - vm_compute. reflexivity.
  - reflexivity.
  - reflexivity.
  - discriminate.
  - discriminate.
Defined.

(** C3.  The claim fails in the code.  The employee of chat 9 is an
    employee who receives questions (IsEmployee = true, IsReceiver =
    true) and is in Main; the one question that names the employee as
    answerer is closed.  [GetReceivers] tests for any question with that
    answerer, not for an open one, so it leaves the employee out: the
    customer's next question is stored and no offer is sent to chat 9 (the
    only request is the text to the customer). *)
Theorem busy_receiver_gets_no_offer :
  let before := Scenario.busy_receiver in
  let after := snd (Bot.parseMessage Scenario.second_question before) in
  Database.GetUserByChatID 5 (Bot.DB before)
  = Some (Database.User.mk 2 5 Bot.SQuestion "bob" false false) /\
  In (Database.User.mk 1 9 Bot.SMain "eve" true true)
     (Database.users (Bot.DB before)) /\
  map (fun q => (Database.Question.ID q, Database.Question.AnswererID q,
                 Database.Question.IsClosed q))
      (Database.questions (Bot.DB before))
  = [(1, 1, true)] /\
  Database.GetReceivers (Bot.DB before) = [] /\
  List.length (Database.questions (Bot.DB after)) = 2%nat /\
  Tg.Sent (Bot.Bot after)
  = Tg.Sent (Bot.Bot before) ++
    [Tg.SendMessageConf 5
       ("Your question #2" ++ Bot.nl ++ "Thank you for your question"
        ++ Bot.nl ++ "An available employee will answer you shortly")
       Tg.NoMarkup].
Proof. vm_compute. repeat split. left. reflexivity. Qed.

(* ================================================================== *)
(** ** One open question per asker *)

Lemma reachable_run (updates : list Tg.Update.t) (app : Bot.App) :
  reachable app -> reachable (Scenario.run updates app).
Proof.
  revert app. induction updates as [|u rest IH]; intros app H; simpl.
  - exact H.
  - apply IH, reachable_step, H.
Qed.


(** *** Counting rows after a rewrite *)

Section Counting.

Variable A : Type.
Variable id : A -> Z.

(** Rows of a table with distinct keys are told apart by their keys. *)
Lemma same_key_same_row (tbl : list A) (x y : A) :
  NoDup (map id tbl) -> In x tbl -> In y tbl -> id x = id y -> x = y.
Proof.
  induction tbl as [|r l IH]; simpl; [tauto|].
  intros Hnd Hx Hy He. inversion Hnd as [|? ? Hnotin Hnd']; subst.
  destruct Hx as [->|Hx], Hy as [->|Hy]; auto.
  - exfalso. apply Hnotin. rewrite He. apply in_map, Hy.
  - exfalso. apply Hnotin. rewrite <- He. apply in_map, Hx.
Qed.

Lemma count_map_same (f : A -> bool) (g : A -> A) (l : list A) :
  (forall x, In x l -> f (g x) = f x) ->
  List.length (filter f (map g l)) = List.length (filter f l).
Proof.
  induction l as [|x l IH]; intros H; simpl; [reflexivity|].
  rewrite (H x (or_introl eq_refl)).
  destruct (f x); simpl; rewrite IH; auto; intros; apply H; simpl; auto.
Qed.

Lemma count_map_le (f : A -> bool) (g : A -> A) (l : list A) :
  (forall x, In x l -> f (g x) = true -> f x = true) ->
  (List.length (filter f (map g l)) <= List.length (filter f l))%nat.
Proof.
  induction l as [|x l IH]; intros H; simpl; [lia|].
  assert (IH' : (List.length (filter f (map g l))
                 <= List.length (filter f l))%nat).
  { apply IH. intros; apply H; simpl; auto. }
  destruct (f (g x)) eqn:E.
  - rewrite (H x (or_introl eq_refl) E). simpl. lia.
  - destruct (f x); simpl; lia.
Qed.

Lemma count_map_lt (f : A -> bool) (g : A -> A) (l : list A) (r : A) :
  (forall x, In x l -> f (g x) = true -> f x = true) ->
  In r l -> f r = true -> f (g r) = false ->
  (List.length (filter f (map g l)) < List.length (filter f l))%nat.
Proof.
  induction l as [|x l IH]; intros H Hin Hr Hgr; simpl; [destruct Hin|].
  assert (Hle : (List.length (filter f (map g l))
                 <= List.length (filter f l))%nat).
  { apply count_map_le. intros; apply H; simpl; auto. }
  destruct Hin as [->|Hin].
  - rewrite Hr, Hgr. simpl. lia.
  - assert (IH' : (List.length (filter f (map g l))
                   < List.length (filter f l))%nat).
    { apply IH; auto. intros; apply H; simpl; auto. }
    destruct (f (g x)) eqn:E.
    + rewrite (H x (or_introl eq_refl) E). simpl. lia.
    + destruct (f x); simpl; lia.
Qed.

End Counting.

(** *** The invariant under the writes *)

Lemma NoDup_snoc (A : Type) (l : list A) (x : A) :
  NoDup l -> ~ In x l -> NoDup (l ++ [x]).
Proof.
  induction l as [|y l IH]; simpl; intros Hnd Hx.
  - constructor; [tauto|constructor].
  - inversion Hnd; subst. constructor.
    + rewrite in_app_iff. simpl. intros [H|[H|[]]]; [tauto|].
      apply Hx. left. symmetry. exact H.
    + apply IH; [assumption|]. intros H. apply Hx. right. exact H.
Qed.

Lemma fresh_key (A : Type) (id : A -> Z) (tbl : list A) :
  ~ In (Database.next_id id tbl) (map id tbl).
Proof.
  intros H. apply in_map_iff in H. destruct H as (r & He & Hr).
  pose proof (next_id_above id tbl r Hr). lia.
Qed.

Ltac split_handling := split; [|split; [|split; [|split; [|split]]]].

Ltac split_keyed :=
  unfold tables_keyed; cbn [fst snd]; split; [|split; [|split; [|split]]];
  try assumption.

Lemma handling_start (u : Database.User.t) (v : View) :
  one_question_each v -> In u (fst v) -> handling u 1 None v.
Proof.
  intros (Hk & Hone & Hidle) Hin. split_handling; auto.
Qed.

Lemma handling_start_idle (u : Database.User.t) (v : View) :
  one_question_each v -> In u (fst v) ->
  Database.User.IsEmployee u = false ->
  Database.User.State u <> Bot.SQuestionDiscussion ->
  handling u 0 None v.
Proof.
  intros (Hk & Hone & Hidle) Hin Hc Hs. split_handling; auto.
  rewrite (Hidle u Hin Hc Hs). lia.
Qed.

Lemma handling_end (u : Database.User.t) (n : nat)
  (q : option Database.Question.t) (v : View) :
  handling u n q v -> settled u n -> one_question_each v.
Proof.
  intros (Hk & Hone & Hothers & Hin & Hn & _) Hset.
  split; [exact Hk|]. split; [exact Hone|].
  intros w Hw Hc Hs.
  destruct (Z.eq_dec (Database.User.ID w) (Database.User.ID u)) as [He|Hne].
  - destruct Hk as (Hnd & _).
    pose proof (same_key_same_row Database.User.ID _ w u Hnd Hw Hin He).
    subst w. destruct Hset as [H|[H|H]]; [congruence|contradiction|].
    subst n. lia.
  - apply Hothers; assumption.
Qed.

Lemma handling_forget (u : Database.User.t) (n m : nat)
  (q : option Database.Question.t) (v : View) :
  handling u n q v -> (n <= m)%nat -> handling u m None v.
Proof.
  intros (Hk & Hone & Hothers & Hin & Hn & _) Hle.
  split_handling; auto. lia.
Qed.

Lemma handling_take (u : Database.User.t) (n : nat)
  (q : Database.Question.t) (v : View) :
  handling u n None v -> stored_as q (snd v) -> handling u n (Some q) v.
Proof.
  intros (Hk & Hone & Hothers & Hin & Hn & _) Hq.
  split_handling; auto.
Qed.

(** The user row of the handler rewritten. *)
Lemma handling_user_rewritten (u u' : Database.User.t) (n : nat)
  (q : option Database.Question.t) (us : list Database.User.t)
  (qs : list Database.Question.t) :
  handling u n q (us, qs) ->
  Database.User.ID u' = Database.User.ID u ->
  handling u' n q (Database.update Database.User.ID u' us, qs).
Proof.
  intros ((Hnd & Hkey & Hqnd & Hqkey & Hplain) & Hone & Hothers & Hin & Hn & Hq) Hid.
  cbn [fst snd] in *.
  assert (Hp : Database.has_id Database.User.ID (Database.User.ID u') us
               = true).
  { apply has_id_true. exists u. auto. }
  split; [|split; [exact Hone|split; [|split; [|split]]]].
  - split_keyed.
    + rewrite update_ids by exact Hp. exact Hnd.
    + intros w Hw. apply (In_update _ _ _ _ Hp) in Hw.
      destruct Hw as [->|[Hw _]]; [rewrite Hid|]; auto.
  - cbn [fst snd]. intros w Hw Hne Hc Hs.
    apply (In_update _ _ _ _ Hp) in Hw.
    destruct Hw as [->|[Hw _]]; [contradiction|].
    apply Hothers; auto. congruence.
  - cbn [fst]. apply In_update; auto.
  - cbn [snd]. rewrite Hid. exact Hn.
  - exact Hq.
Qed.

(** A user row appended under a fresh key. *)
Lemma handling_user_appended (u : Database.User.t)
  (us : list Database.User.t) (qs : list Database.Question.t) :
  one_question_each (us, qs) ->
  Database.User.ID u = Database.next_id Database.User.ID us ->
  handling u 1 None (us ++ [u], qs).
Proof.
  intros ((Hnd & Hkey & Hqnd & Hqkey & Hplain) & Hone & Hidle) Hid.
  cbn [fst snd] in *.
  split; [|split; [exact Hone|split; [|split; [|split]]]].
  - split_keyed.
    + rewrite map_app. apply NoDup_snoc; [exact Hnd|].
      cbn [map]. rewrite Hid. apply fresh_key.
    + intros w Hw. apply in_app_iff in Hw.
      destruct Hw as [Hw|[<-|[]]]; [auto|].
      rewrite Hid.
      pose proof (next_id_positive Database.User.ID us). lia.
  - cbn [fst snd]. intros w Hw Hne Hc Hs. apply in_app_iff in Hw.
    destruct Hw as [Hw|[<-|[]]]; [auto|contradiction].
  - cbn [fst]. apply in_app_iff. right. left. reflexivity.
  - apply Hone.
  - exact I.
Qed.

Lemma is_open_of_columns (a : Z) (q q' : Database.Question.t) :
  Database.Question.UserID q' = Database.Question.UserID q ->
  Database.Question.IsClosed q' = Database.Question.IsClosed q ->
  is_open_of a q' = is_open_of a q.
Proof. unfold is_open_of. intros -> ->. reflexivity. Qed.

Lemma is_open_of_closed (a : Z) (q : Database.Question.t) :
  Database.Question.IsClosed q = true -> is_open_of a q = false.
Proof. unfold is_open_of. intros ->. apply andb_false_r. Qed.

(** The question in hand rewritten with the same asker, open as
    before. *)
Lemma handling_question_rewritten (u : Database.User.t) (n : nat)
  (q q' : Database.Question.t) (us : list Database.User.t)
  (qs : list Database.Question.t) :
  handling u n (Some q) (us, qs) ->
  Database.Question.ID q' = Database.Question.ID q ->
  Database.Question.UserID q' = Database.Question.UserID q ->
  Database.Question.IsClosed q' = Database.Question.IsClosed q ->
  Database.question_keys q' = q' ->
  handling u n None (us, Database.update Database.Question.ID q' qs).
Proof.
  intros ((Hnd & Hkey & Hqnd & Hqkey & Hplain) & Hone & Hothers & Hin & Hn
          & (Hq0 & (row & Hrow & Hrid & Hruid & Hrclosed) & Hasker))
         Hid Huid Hclosed Hkeys.
  cbn [fst snd] in *.
  assert (Hp : Database.has_id Database.Question.ID
                 (Database.Question.ID q') qs = true).
  { apply has_id_true. exists row. split; [exact Hrow|congruence]. }
  assert (Hcount : forall a,
            List.length (open_in a (Database.update Database.Question.ID q' qs))
            = List.length (open_in a qs)).
  { intros a. rewrite update_present by exact Hp. unfold open_in.
    apply count_map_same. intros x Hx.
    destruct (Database.Question.ID x =? Database.Question.ID q') eqn:E;
      [|reflexivity].
    apply Z.eqb_eq in E.
    assert (x = row).
    { apply (same_key_same_row Database.Question.ID qs); auto. congruence. }
    subst x. apply is_open_of_columns; congruence. }
  split; [|split; [|split; [|split; [|split]]]].
  - split_keyed.
    + rewrite update_ids by exact Hp. exact Hqnd.
    + intros x Hx. apply (In_update _ _ _ _ Hp) in Hx.
      destruct Hx as [->|[Hx _]]; [congruence|auto].
    + intros x Hx. apply (In_update _ _ _ _ Hp) in Hx.
      destruct Hx as [->|[Hx _]]; [exact Hkeys|auto].
  - intros a. cbn [snd]. rewrite Hcount. apply Hone.
  - cbn [fst snd]. intros w Hw Hne Hc Hs. rewrite Hcount. auto.
  - exact Hin.
  - cbn [snd]. rewrite Hcount. exact Hn.
  - exact I.
Qed.

(** The question in hand rewritten as closed. *)
Lemma handling_question_closed (u : Database.User.t) (n : nat)
  (q q' : Database.Question.t) (us : list Database.User.t)
  (qs : list Database.Question.t) :
  handling u n (Some q) (us, qs) ->
  Database.Question.ID q' = Database.Question.ID q ->
  Database.Question.IsClosed q' = true ->
  Database.question_keys q' = q' ->
  handling u n None (us, Database.update Database.Question.ID q' qs)
  /\ (Database.Question.UserID q = Database.User.ID u ->
      Database.Question.IsClosed q = false ->
      handling u 0 None (us, Database.update Database.Question.ID q' qs)).
Proof.
  intros ((Hnd & Hkey & Hqnd & Hqkey & Hplain) & Hone & Hothers & Hin & Hn
          & (Hq0 & (row & Hrow & Hrid & Hruid & Hrclosed) & Hasker))
         Hid Hclosed Hkeys.
  cbn [fst snd] in *.
  assert (Hp : Database.has_id Database.Question.ID
                 (Database.Question.ID q') qs = true).
  { apply has_id_true. exists row. split; [exact Hrow|congruence]. }
  assert (Hstep : forall a x, In x qs ->
            is_open_of a (if Database.Question.ID x
                             =? Database.Question.ID q' then q' else x) = true ->
            is_open_of a x = true).
  { intros a x Hx.
    destruct (Database.Question.ID x =? Database.Question.ID q');
      [rewrite is_open_of_closed by exact Hclosed; discriminate|auto]. }
  assert (Hcount : forall a,
            (List.length (open_in a (Database.update Database.Question.ID q' qs))
             <= List.length (open_in a qs))%nat).
  { intros a. rewrite update_present by exact Hp. unfold open_in.
    apply count_map_le. intros x Hx. apply Hstep, Hx. }
  assert (Hkeyed' : tables_keyed
                      (us, Database.update Database.Question.ID q' qs)).
  { split_keyed.
    - rewrite update_ids by exact Hp. exact Hqnd.
    - intros x Hx. apply (In_update _ _ _ _ Hp) in Hx.
      destruct Hx as [->|[Hx _]]; [congruence|auto].
    - intros x Hx. apply (In_update _ _ _ _ Hp) in Hx.
      destruct Hx as [->|[Hx _]]; [exact Hkeys|auto]. }
  assert (Hone' : forall a,
            (List.length
               (open_in a (Database.update Database.Question.ID q' qs))
             <= 1)%nat).
  { intros a. specialize (Hcount a). specialize (Hone a). lia. }
  assert (Hothers' : forall w, In w us ->
            Database.User.ID w <> Database.User.ID u ->
            Database.User.IsEmployee w = false ->
            Database.User.State w <> Bot.SQuestionDiscussion ->
            List.length
              (open_in (Database.User.ID w)
                 (Database.update Database.Question.ID q' qs)) = 0%nat).
  { intros w Hw Hne Hc Hs. specialize (Hcount (Database.User.ID w)).
    rewrite (Hothers w Hw Hne Hc Hs) in Hcount. lia. }
  split.
  - split_handling; auto.
    cbn [snd]. specialize (Hcount (Database.User.ID u)). lia.
  - intros Huid Hopen. split_handling; auto.
    cbn [snd].
    assert (Hlt : (List.length
                     (open_in (Database.User.ID u)
                        (Database.update Database.Question.ID q' qs))
                   < List.length (open_in (Database.User.ID u) qs))%nat).
    { rewrite update_present by exact Hp. unfold open_in.
      apply count_map_lt with (r := row).
      - intros x Hx. apply Hstep, Hx.
      - exact Hrow.
      - unfold is_open_of. rewrite Hruid, Huid, Z.eqb_refl, Hrclosed, Hopen.
        reflexivity.
      - assert (E : (Database.Question.ID row =? Database.Question.ID q')
                    = true) by (apply Z.eqb_eq; congruence).
        rewrite E. apply is_open_of_closed, Hclosed. }
    specialize (Hone (Database.User.ID u)). lia.
Qed.

(** A new open question of the handler's user, who had none. *)
Lemma handling_question_appended (u : Database.User.t) (q : Database.Question.t)
  (us : list Database.User.t) (qs : list Database.Question.t) :
  handling u 0 None (us, qs) ->
  Database.Question.ID q = Database.next_id Database.Question.ID qs ->
  Database.Question.UserID q = Database.User.ID u ->
  Database.question_keys q = q ->
  handling u 1 None (us, qs ++ [q]).
Proof.
  intros ((Hnd & Hkey & Hqnd & Hqkey & Hplain) & Hone & Hothers & Hin & Hn & _)
         Hid Huid Hkeys.
  cbn [fst snd] in *.
  assert (Hcount : forall a,
            List.length (open_in a (qs ++ [q]))
            = (List.length (open_in a qs)
               + (if is_open_of a q then 1 else 0))%nat).
  { intros a. unfold open_in. rewrite filter_app, length_app. cbn [filter].
    destruct (is_open_of a q); reflexivity. }
  assert (Hother : forall a, a <> Database.User.ID u ->
            is_open_of a q = false).
  { intros a Ha. unfold is_open_of. rewrite Huid.
    assert (E : (Database.User.ID u =? a) = false)
      by (apply Z.eqb_neq; congruence).
    rewrite E. reflexivity. }
  split; [|split; [|split; [|split; [|split]]]].
  - split_keyed.
    + rewrite map_app. apply NoDup_snoc; [exact Hqnd|].
      cbn [map]. rewrite Hid. apply fresh_key.
    + intros x Hx. apply in_app_iff in Hx.
      destruct Hx as [Hx|[<-|[]]]; [auto|].
      rewrite Hid.
      pose proof (next_id_positive Database.Question.ID qs). lia.
    + intros x Hx. apply in_app_iff in Hx.
      destruct Hx as [Hx|[<-|[]]]; [auto|exact Hkeys].
  - intros a. cbn [snd]. rewrite Hcount.
    destruct (Z.eq_dec a (Database.User.ID u)) as [->|Ha].
    + destruct (is_open_of _ q); lia.
    + rewrite (Hother a Ha). specialize (Hone a). lia.
  - cbn [fst snd]. intros w Hw Hne Hc Hs. rewrite Hcount.
    rewrite (Hother _ Hne). rewrite (Hothers w Hw Hne Hc Hs). reflexivity.
  - exact Hin.
  - cbn [snd]. rewrite Hcount. destruct (is_open_of _ q); lia.
  - exact I.
Qed.

(** *** The operations, when nothing is refused, on the invariant *)

Lemma Send_never_fails (c : Tg.Config) : never_fails (Tg.Send c).
Proof.
  intros client H. rewrite Send_accepted by exact H. split; reflexivity.
Qed.

Lemma sendQuestions_never_fails (to : Database.User.t)
  (qs : list Database.Question.t) : never_fails (Bot.sendQuestions to qs).
Proof.
  induction qs as [|q rest IH]; intros client H.
  - split; [reflexivity|exact H].
  - cbn [Bot.sendQuestions]. unfold bind.
    rewrite Send_accepted by exact H. apply IH. reflexivity.
Qed.

Lemma forwardCorrespondence_never_fails (user : Database.User.t)
  (rows : list Database.QuestionCorrespondence.t) :
  never_fails (Bot.forwardCorrespondence user rows).
Proof.
  induction rows as [|c rest IH]; intros client H.
  - split; [reflexivity|exact H].
  - cbn [Bot.forwardCorrespondence]. unfold bind.
    rewrite Send_accepted by exact H. apply IH. reflexivity.
Qed.

Lemma sendCorrespondenceFromUser_never_fails (q : Database.Question.t)
  (message : Tg.Message.t) :
  never_fails (Bot.sendCorrespondenceFromUser q message).
Proof.
  intros client H. unfold Bot.sendCorrespondenceFromUser, bind.
  rewrite Send_accepted by exact H. split; reflexivity.
Qed.

Lemma sendCorrespondenceFromAnswerer_never_fails (q : Database.Question.t)
  (message : Tg.Message.t) :
  never_fails (Bot.sendCorrespondenceFromAnswerer q message).
Proof.
  intros client H. unfold Bot.sendCorrespondenceFromAnswerer, bind.
  rewrite Send_accepted by exact H. split; reflexivity.
Qed.

Lemma holds_onBot (P : View -> Prop) (m : M Tg.Client Logger.error) :
  never_fails m ->
  hoare (holds P) (Bot.onBot m) (fun r app => r = None /\ holds P app).
Proof.
  intros Hm app [[Hbot Hdb] HP]. unfold Bot.onBot.
  specialize (Hm (Bot.Bot app) Hbot).
  destruct (m (Bot.Bot app)) as [e bot]. cbn [fst snd] in *.
  destruct Hm as [-> Hb].
  split; [reflexivity|]. split; [split; assumption|exact HP].
Qed.

Lemma holds_query (A : Type) (P : View -> Prop) (f : Database.DB -> A) :
  hoare (holds P) (Bot.onDB (Database.query f)) (fun _ => holds P).
Proof. intros [bot db conf] H. exact H. Qed.

(** A computation on the store that leaves users and questions alone. *)
Lemma holds_onDB_frame (A : Type) (P : View -> Prop) (F : A -> Prop)
  (m : M Database.DB A) :
  (forall db, store_reliable db ->
     F (fst (m db)) /\ store_reliable (snd (m db))
     /\ view (snd (m db)) = view db) ->
  hoare (holds P) (Bot.onDB m) (fun r app => F r /\ holds P app).
Proof.
  intros Hm app [[Hbot Hdb] HP]. unfold Bot.onDB.
  specialize (Hm (Bot.DB app) Hdb).
  destruct (m (Bot.DB app)) as [a db]. cbn [fst snd] in *.
  destruct Hm as (HF & Hrel & Hview).
  split; [exact HF|]. split; [split; assumption|].
  cbn [Bot.DB]. rewrite Hview. exact HP.
Qed.

Lemma holds_AddCorrespondence (P : View -> Prop) (user : Database.User.t)
  (messageId : Z) :
  hoare (holds P) (Bot.onDB (Database.AddCorrespondence user messageId))
    (fun r app => snd r = None /\ holds P app).
Proof.
  apply holds_onDB_frame. intros db H. store_cases db H.
  unfold Database.AddCorrespondence, bind, ret, Database.query.
  match goal with
  | |- context [match ?x with Some _ => _ | None => _ end] => destruct x
  end; (split; [reflexivity|split; reflexivity]).
Qed.

Lemma holds_SaveReview (P : View -> Prop) (review : Database.Review.t) :
  hoare (holds P) (Bot.onDB (Database.SaveReview review))
    (fun r app => snd r = None /\ holds P app).
Proof.
  apply holds_onDB_frame. intros db H. store_cases db H.
  unfold Database.SaveReview. cbn [attempt Database.refusals negb].
  cbv zeta.
  destruct (Database.Review.ID (Database.review_keys review) =? 0);
    (split; [reflexivity|split; reflexivity]).
Qed.

Lemma holds_ChangeTextReviewByUser (P : View -> Prop) (text : string)
  (user : Database.User.t) :
  hoare (holds P) (Bot.onDB (Database.ChangeTextReviewByUser text user))
    (fun r app => r = None /\ holds P app).
Proof.
  apply holds_onDB_frame. intros db H. store_cases db H.
  unfold Database.ChangeTextReviewByUser, bind, ret, Database.query.
  destruct (Database.GetEmptyReview user _) as [r|];
    [|split; [reflexivity|split; reflexivity]].
  unfold Database.SaveReview. cbn [attempt Database.refusals negb].
  cbv zeta.
  destruct (Database.Review.ID _ =? 0);
    (split; [reflexivity|split; reflexivity]).
Qed.

(** The row of the user in hand has a key. *)
Lemma handling_user_key (u : Database.User.t) (n : nat)
  (q : option Database.Question.t) (v : View) :
  handling u n q v -> Database.User.ID u <> 0.
Proof. intros ((_ & Hkey & _) & _ & _ & Hin & _). apply Hkey, Hin. Qed.

Lemma holds_ChangeUserState (u : Database.User.t) (n : nat)
  (q : option Database.Question.t) (state : Z) :
  hoare (holds (handling u n q))
    (Bot.onDB (Database.ChangeUserState state u))
    (fun r app =>
       r = (Database.User.with_State state u, None)
       /\ holds (handling (Database.User.with_State state u) n q) app).
Proof.
  intros app [[Hbot Hdb] HP]. unfold Bot.onDB.
  rewrite ChangeUserState_accepted
    by (try exact Hdb; eapply handling_user_key; exact HP).
  cbn [fst snd]. split; [reflexivity|]. split; [split; assumption|].
  unfold view in *. norm.
  apply handling_user_rewritten with (u := u); [exact HP|reflexivity].
Qed.

Lemma holds_ChangeUserIsReceiver (u : Database.User.t) (n : nat)
  (q : option Database.Question.t) (flag : bool) :
  hoare (holds (handling u n q))
    (Bot.onDB (Database.ChangeUserIsReceiver flag u))
    (fun r app =>
       r = (Database.User.with_IsReceiver flag u, None)
       /\ holds (handling (Database.User.with_IsReceiver flag u) n q) app).
Proof.
  intros app [[Hbot Hdb] HP]. unfold Bot.onDB.
  rewrite ChangeUserIsReceiver_accepted
    by (try exact Hdb; eapply handling_user_key; exact HP).
  cbn [fst snd]. split; [reflexivity|]. split; [split; assumption|].
  unfold view in *. norm.
  apply handling_user_rewritten with (u := u); [exact HP|reflexivity].
Qed.

Lemma handling_question_key (u : Database.User.t) (n : nat)
  (q : Database.Question.t) (v : View) :
  handling u n (Some q) v -> Database.Question.ID q <> 0.
Proof. intros (_ & _ & _ & _ & _ & Hq & _). exact Hq. Qed.

Lemma handling_question_asker (u : Database.User.t) (n : nat)
  (q : Database.Question.t) (v : View) :
  handling u n (Some q) v ->
  Database.Question.UserID (Database.question_keys q)
  = Database.Question.UserID q.
Proof. intros (_ & _ & _ & _ & _ & _ & _ & Hq). exact Hq. Qed.

(** [Save] keeps the asker of a question whatever other column the
    caller has assigned. *)
Lemma asker_after_HaveAnswer (state : bool) (q : Database.Question.t) :
  Database.Question.UserID
    (Database.question_keys (Database.Question.with_HaveAnswer state q))
  = Database.Question.UserID (Database.question_keys q).
Proof. destruct q; reflexivity. Qed.

Lemma asker_after_Answerer (a : Z) (q : Database.Question.t) :
  Database.Question.UserID
    (Database.question_keys (Database.Question.with_AnswererID a q))
  = Database.Question.UserID (Database.question_keys q).
Proof. destruct q; reflexivity. Qed.

Lemma asker_after_IsClosed (c : bool) (q : Database.Question.t) :
  Database.Question.UserID
    (Database.question_keys (Database.Question.with_IsClosed c q))
  = Database.Question.UserID (Database.question_keys q).
Proof. destruct q; reflexivity. Qed.

Lemma holds_ChangeQuestionHaveAnswer (u : Database.User.t) (n : nat)
  (q : Database.Question.t) (state : bool) :
  hoare (holds (handling u n (Some q)))
    (Bot.onDB (Database.ChangeQuestionHaveAnswer state q))
    (fun r app => snd r = None /\ holds (handling u n None) app).
Proof.
  intros app [[Hbot Hdb] HP]. unfold Bot.onDB.
  rewrite ChangeQuestionHaveAnswer_written
    by (try exact Hdb; eapply handling_question_key; exact HP).
  cbn [fst snd]. split; [reflexivity|]. split; [split; assumption|].
  unfold view in *. norm.
  apply handling_question_rewritten with (q := q);
    [exact HP|reflexivity| |reflexivity|apply question_keys_columns].
  change (Database.Question.UserID
            (Database.question_keys
               (Database.Question.with_HaveAnswer state q))
          = Database.Question.UserID q).
  rewrite asker_after_HaveAnswer.
  eapply handling_question_asker; exact HP.
Qed.

Lemma holds_ChangeQuestionAnswerer (u : Database.User.t) (n : nat)
  (q : Database.Question.t) (answererID : Z) :
  hoare (holds (handling u n (Some q)))
    (Bot.onDB (Database.ChangeQuestionAnswerer answererID q))
    (fun r app =>
       r = (Database.question_keys
              (Database.Question.with_AnswererID answererID q), None)
       /\ holds (handling u n None) app).
Proof.
  intros app [[Hbot Hdb] HP]. unfold Bot.onDB.
  rewrite ChangeQuestionAnswerer_accepted
    by (try exact Hdb; eapply handling_question_key; exact HP).
  cbn [fst snd]. split; [reflexivity|]. split; [split; assumption|].
  unfold view in *. norm.
  apply handling_question_rewritten with (q := q);
    [exact HP|reflexivity| |reflexivity|apply question_keys_columns].
  change (Database.Question.UserID
            (Database.question_keys
               (Database.Question.with_AnswererID answererID q))
          = Database.Question.UserID q).
  rewrite asker_after_Answerer.
  eapply handling_question_asker; exact HP.
Qed.

Lemma holds_ChangeQuestionIsClosed (u : Database.User.t) (n : nat)
  (q : Database.Question.t) :
  hoare (holds (handling u n (Some q)))
    (Bot.onDB (Database.ChangeQuestionIsClosed true q))
    (fun r app =>
       r = (Database.question_keys (Database.Question.with_IsClosed true q),
            None)
       /\ holds (handling u n None) app
       /\ (Database.Question.UserID q = Database.User.ID u ->
           Database.Question.IsClosed q = false ->
           holds (handling u 0 None) app)).
Proof.
  intros app [[Hbot Hdb] HP]. unfold Bot.onDB.
  rewrite ChangeQuestionIsClosed_written
    by (try exact Hdb; eapply handling_question_key; exact HP).
  cbn [fst snd]. split; [reflexivity|].
  unfold holds, view in *. norm.
  destruct (@handling_question_closed u n q
              (Database.question_columns
                 (Database.question_keys
                    (Database.Question.with_IsClosed true q)))
              _ _ HP eq_refl eq_refl (question_keys_columns _)) as [H1 H2].
  split; [split; [split; assumption|exact H1]|].
  intros Hu Ho. split; [split; assumption|exact (H2 Hu Ho)].
Qed.

Lemma holds_AddQuestion (u : Database.User.t) (header : string) :
  hoare (holds (handling u 0 None))
    (Bot.onDB (Database.AddQuestion header u))
    (fun r app => snd r = None /\ holds (handling u 1 None) app).
Proof.
  intros app [[Hbot Hdb] HP]. unfold Bot.onDB.
  rewrite AddQuestion_accepted by exact Hdb.
  cbn [fst snd]. split; [reflexivity|]. split; [split; assumption|].
  unfold view in *. norm.
  apply handling_question_appended;
    [exact HP|reflexivity|reflexivity|apply question_keys_plain; reflexivity].
Qed.

(** *** The questions that the handlers fetch *)

Lemma filter_nothing (A : Type) (f : A -> bool) (l : list A) :
  (forall x, In x l -> f x = false) -> filter f l = [].
Proof.
  induction l as [|x l IH]; intros H; [reflexivity|]. cbn [filter].
  rewrite (H x (or_introl eq_refl)). apply IH. intros y Hy. apply H.
  right. exact Hy.
Qed.

Lemma First_stored (cond : Database.Question.t -> bool)
  (qs : list Database.Question.t) (row : Database.Question.t) :
  Database.First Database.Question.ID cond qs = Some row ->
  Database.Question.ID row <> 0 ->
  (forall q, In q qs -> Database.question_keys q = q) ->
  stored_as row qs
  /\ (forall db, stored_as (Database.preload_question db row) qs)
  /\ stored_as (Database.question_columns row) qs.
Proof.
  intros HF Hne Hplain. apply First_Some in HF. destruct HF as (Hin & _ & _).
  split; [|split; [intros db|]];
    (split; [exact Hne|split; [exists row; auto|]]).
  - rewrite (Hplain row Hin). reflexivity.
  - rewrite question_keys_preload. reflexivity.
  - rewrite question_keys_columns. reflexivity.
Qed.

Lemma handling_plain (u : Database.User.t) (n : nat)
  (q : option Database.Question.t) (v : View) :
  handling u n q v ->
  forall x, In x (snd v) -> Database.question_keys x = x.
Proof. intros ((_ & _ & _ & _ & Hplain) & _). exact Hplain. Qed.

Lemma handling_count (u : Database.User.t) (n m : nat)
  (q : option Database.Question.t) (v : View) :
  handling u n q v ->
  (List.length (open_in (Database.User.ID u) (snd v)) <= m)%nat ->
  handling u m None v.
Proof.
  intros (Hk & Hone & Hothers & Hin & Hn & _) Hm. split_handling; auto.
Qed.

Lemma holds_GetOpenQuestionByUser (u : Database.User.t) (n : nat) :
  hoare (holds (handling u n None))
    (Bot.onDB (Database.query (Database.GetOpenQuestionByUser u)))
    (fun a app =>
       match a with
       | Some q =>
           (Database.Question.UserID q = Database.User.ID u
            /\ Database.Question.IsClosed q = false)
           /\ holds (handling u n (Some q)) app
       | None => holds (handling u 0 None) app
       end).
Proof.
  intros [bot db conf] [Hrel HP]. unfold Bot.onDB, Database.query. norm.
  unfold Database.GetOpenQuestionByUser.
  destruct (Database.First Database.Question.ID _ (Database.questions db))
    as [row|] eqn:E.
  - pose proof (First_Some _ _ _ E) as (Hin & Hc & _).
    apply andb_true_iff in Hc. destruct Hc as [Hu Ho].
    apply Z.eqb_eq in Hu. apply eqb_prop in Ho.
    assert (Hne : Database.Question.ID row <> 0).
    { destruct HP as ((_ & _ & _ & Hqkey & _) & _). apply Hqkey, Hin. }
    apply Z.eqb_neq in Hne. rewrite Hne. apply Z.eqb_neq in Hne.
    split; [split; assumption|]. split; [exact Hrel|].
    apply handling_take; [exact HP|].
    apply (First_stored _ _ E Hne (handling_plain HP)).
  - split; [exact Hrel|]. apply handling_count with (n := n) (q := None);
      [exact HP|].
    unfold view, open_in. norm.
    assert (Hnone : filter (is_open_of (Database.User.ID u))
                      (Database.questions db) = []).
    { pose proof (First_None _ _ _ E) as Hn.
      apply filter_nothing. intros x Hx. specialize (Hn x Hx).
      cbv beta in Hn. unfold is_open_of.
      destruct (Database.Question.UserID x =? Database.User.ID u);
        [|reflexivity].
      destruct (Database.Question.IsClosed x); [reflexivity|discriminate]. }
    rewrite Hnone. cbn. lia.
Qed.

Lemma holds_GetOpenQuestionByAnswerer (u : Database.User.t) (n : nat) :
  hoare (holds (handling u n None))
    (Bot.onDB (Database.query (Database.GetOpenQuestionByAnswerer u)))
    (fun a app =>
       match a with
       | Some q => holds (handling u n (Some q)) app
       | None => holds (handling u n None) app
       end).
Proof.
  intros [bot db conf] [Hrel HP]. unfold Bot.onDB, Database.query. norm.
  unfold Database.GetOpenQuestionByAnswerer.
  destruct (Database.First Database.Question.ID _ (Database.questions db))
    as [row|] eqn:E; [|split; assumption].
  destruct (Database.Question.ID row =? 0) eqn:E0; [split; assumption|].
  apply Z.eqb_neq in E0. split; [exact Hrel|].
  apply handling_take; [exact HP|].
  apply (First_stored _ _ E E0 (handling_plain HP)).
Qed.

Lemma holds_GetNewQuestionById (u : Database.User.t) (n : nat) (id : Z) :
  hoare (holds (handling u n None))
    (Bot.onDB (Database.query (Database.GetNewQuestionById id)))
    (fun a app =>
       match a with
       | Some q => holds (handling u n (Some q)) app
       | None => holds (handling u n None) app
       end).
Proof.
  intros [bot db conf] [Hrel HP]. unfold Bot.onDB, Database.query. norm.
  unfold Database.GetNewQuestionById.
  destruct (Database.First Database.Question.ID _ (Database.questions db))
    as [row|] eqn:E; [|split; assumption].
  destruct (Database.Question.ID row =? 0) eqn:E0; [split; assumption|].
  apply Z.eqb_neq in E0. split; [exact Hrel|].
  apply handling_take; [exact HP|].
  apply (First_stored _ _ E E0 (handling_plain HP)).
Qed.

(** [AddUser] on a store with the invariant: the row it has written is
    the user in hand. *)
Lemma holds_AddUser (chat : Z) (nick : string) (state : Z) :
  hoare (holds one_question_each)
    (Bot.onDB (Database.AddUser chat nick state))
    (fun r app => snd r = None /\ holds (handling (fst r) 1 None) app).
Proof.
  intros [bot db conf] [[Hbot Hdb] HP].
  unfold Bot.onDB, Database.AddUser, bind, ret, Database.query. norm.
  match goal with
  | |- context [Database.First ?i ?c ?t] =>
      destruct (Database.First i c t) as [u0|] eqn:E
  end.
  - pose proof (First_Some _ _ _ E) as (Hin & _ & _).
    assert (Hne : Database.User.ID u0 <> 0).
    { destruct HP as ((_ & Hkey & _) & _). apply Hkey, Hin. }
    rewrite SaveUser_rewrite by (norm; assumption).
    cbn [fst snd]. split; [reflexivity|].
    split; [split; assumption|]. unfold view. norm.
    apply handling_user_rewritten with (u := u0); [|reflexivity].
    apply handling_start; assumption.
  - rewrite SaveUser_insert by (norm; auto).
    cbn [fst snd]. split; [reflexivity|].
    split; [split; assumption|]. unfold view. norm.
    apply handling_user_appended; [exact HP|reflexivity].
Qed.

(** *** The handlers, when nothing is refused, on the invariant *)

(** One known operation. *)
Ltac hprim :=
  first
  [ apply holds_onBot;
    first [ apply Send_never_fails
          | apply sendQuestions_never_fails
          | apply forwardCorrespondence_never_fails
          | apply sendCorrespondenceFromUser_never_fails
          | apply sendCorrespondenceFromAnswerer_never_fails ]
  | apply holds_ChangeUserState
  | apply holds_ChangeUserIsReceiver
  | apply holds_ChangeQuestionHaveAnswer
  | apply holds_ChangeQuestionAnswerer
  | apply holds_ChangeQuestionIsClosed
  | apply holds_AddQuestion
  | apply holds_AddCorrespondence
  | apply holds_SaveReview
  | apply holds_ChangeTextReviewByUser
  | apply holds_GetOpenQuestionByUser
  | apply holds_GetOpenQuestionByAnswerer
  | apply holds_GetNewQuestionById
  | apply holds_query ].

(** The first operation of a sequence, then its result named. *)
Tactic Notation "hnext" "as" simple_intropattern(p) :=
  eapply hoare_bind; [hprim|]; intros p; cbv beta.

(** A fact about the result, taken out of the precondition. *)
Tactic Notation "hfact" "as" simple_intropattern(p) :=
  apply hoare_assume; intros p.

(** The end of a handler. *)
Ltac hdone := apply hoare_ret; intros ? ?.

Lemma holds_send_menu (P : View -> Prop) (line chat : Z) (text : string)
  (keys : Z) :
  hoare (holds P) (Bot.send_menu line chat text keys)
    (fun r app => r = None /\ holds P app).
Proof.
  unfold Bot.send_menu. hnext as r. hfact as ->. hdone. auto.
Qed.

Lemma holds_send_text (P : View -> Prop) (line chat : Z) (text : string) :
  hoare (holds P) (Bot.send_text line chat text)
    (fun r app => r = None /\ holds P app).
Proof.
  unfold Bot.send_text. hnext as r. hfact as ->. hdone. auto.
Qed.

Lemma holds_responserUser (P : View -> Prop) (user : Database.User.t) :
  hoare (holds P) (Bot.responserUser user)
    (fun r app => r = None /\ holds P app).
Proof.
  unfold Bot.responserUser.
  repeat match goal with
  | |- hoare _ (if ?b then _ else _) _ => destruct b
  end; try apply holds_send_menu.
  - hnext as r. destruct r; apply holds_send_text.
  - hdone. auto.
Qed.

Lemma holds_responserEmployee (u : Database.User.t) (n : nat)
  (q : option Database.Question.t) :
  hoare (holds (handling u n q)) (Bot.responserEmployee u)
    (fun r app =>
       (snd r = None
        /\ Database.User.IsEmployee (fst r) = Database.User.IsEmployee u)
       /\ holds (handling (fst r) n q) app).
Proof.
  unfold Bot.responserEmployee.
  repeat match goal with
  | |- hoare _ (if Z.eqb _ _ then _ else _) _ =>
      let E := fresh "E" in
      match goal with
      | |- hoare _ (if ?b then _ else _) _ => destruct b eqn:E
      end
  end.
  - eapply hoare_bind;
      [destruct (Database.User.IsReceiver u); apply holds_send_menu|].
    intros r. cbv beta. hfact as ->. hdone. auto.
  - eapply hoare_bind; [apply holds_send_menu|].
    intros r. cbv beta. hfact as ->. hdone. auto.
  - hnext as r. hfact as ->. cbv beta iota.
    hnext as r. hfact as ->. hdone. auto.
  - eapply hoare_bind; [apply holds_send_menu|].
    intros r. cbv beta. hfact as ->. hdone. auto.
  - hnext as r. hfact as ->. cbv beta iota.
    cbn [Database.User.IsReceiver Database.User.with_State].
    destruct (Database.User.IsReceiver u).
    + hnext as r. hfact as ->. cbv beta iota.
      eapply hoare_bind; [apply holds_send_menu|].
      intros r. cbv beta. hfact as ->. hdone. auto.
    + hnext as r. hfact as ->. cbv beta iota.
      eapply hoare_bind; [apply holds_send_menu|].
      intros r. cbv beta. hfact as ->. hdone. auto.
  - eapply hoare_bind; [apply holds_send_menu|].
    intros r. cbv beta. hfact as ->. hdone. auto.
  - hdone. auto.
Qed.

Lemma holds_responser (u : Database.User.t) (n : nat)
  (q : option Database.Question.t) :
  hoare (holds (handling u n q)) (Bot.responser u)
    (fun r app =>
       (snd r = None /\ settled u n -> settled (fst r) n)
       /\ snd r = None /\ holds (handling (fst r) n q) app).
Proof.
  unfold Bot.responser. destruct (Database.User.IsEmployee u) eqn:E.
  - eapply hoare_bind; [apply holds_responserEmployee|].
    intros [u' e]. cbv beta. cbn [fst snd]. hfact as [-> Hrole]. hdone. cbn [fst snd].
    split; [|split; [reflexivity|assumption]].
    intros _. left. congruence.
  - eapply hoare_bind; [apply holds_responserUser|].
    intros e. cbv beta. hfact as ->. hdone. cbn [fst snd].
    split; [|split; [reflexivity|assumption]]. tauto.
Qed.

(** The closing lines of a transition end with the invariant when the
    user in hand is settled. *)
Lemma holds_respond_or_back (u : Database.User.t) (n : nat)
  (q : option Database.Question.t) (line back : Z) :
  settled u n ->
  hoare (holds (handling u n q)) (Bot.respond_or_back line back u)
    (fun _ => holds one_question_each).
Proof.
  intros Hset. unfold Bot.respond_or_back.
  eapply hoare_bind; [apply holds_responser|].
  intros [u' e]. cbv beta. cbn [fst snd]. hfact as Hkeep.
  hfact as ->. hdone. destruct H as [Hrel HP]. split; [exact Hrel|].
  eapply handling_end; [exact HP|]. apply Hkeep. auto.
Qed.

Lemma holds_enter (u : Database.User.t) (n : nat)
  (q : option Database.Question.t) (line1 line2 state back : Z) :
  settled (Database.User.with_State state u) n ->
  hoare (holds (handling u n q)) (Bot.enter line1 line2 state back u)
    (fun _ => holds one_question_each).
Proof.
  intros Hset. unfold Bot.enter. hnext as r. hfact as ->. cbv beta iota.
  apply holds_respond_or_back. exact Hset.
Qed.

Lemma holds_forget (u : Database.User.t) (n : nat)
  (q : option Database.Question.t) (app : Bot.App) :
  holds (handling u n q) app -> holds (handling u n None) app.
Proof.
  intros [Hrel H]. split; [exact Hrel|].
  apply handling_forget with (n := n) (q := q); [exact H|lia].
Qed.

Lemma holds_end (u : Database.User.t) (n : nat)
  (q : option Database.Question.t) (app : Bot.App) :
  holds (handling u n q) app -> settled u n -> holds one_question_each app.
Proof.
  intros [Hrel H] Hset. split; [exact Hrel|].
  exact (handling_end H Hset).
Qed.

Lemma holds_for_each (A : Type) (P : View -> Prop) (l : list A)
  (body : A -> M Bot.App unit) :
  (forall x, hoare (holds P) (body x) (fun _ => holds P)) ->
  hoare (holds P) (Bot.for_each l body) (fun _ => holds P).
Proof.
  intros Hbody. induction l as [|x rest IH]; cbn [Bot.for_each].
  - apply hoare_ret. auto.
  - eapply hoare_bind; [apply Hbody|]. intros done. exact IH.
Qed.

Lemma holds_loadCorrespondence (u : Database.User.t) (n : nat) (id : Z) :
  hoare (holds (handling u n None)) (Bot.loadCorrespondence id u)
    (fun r app => r = None /\ holds (handling u n None) app).
Proof.
  unfold Bot.loadCorrespondence. hnext as [question|].
  - hnext as r. hfact as ->. cbv beta iota.
    hnext as rows. hnext as r. hfact as ->. hdone. auto.
  - hnext as r. hfact as ->. hdone. auto.
Qed.

Lemma holds_loadReviews (P : View -> Prop) (interval : Z)
  (user : Database.User.t) :
  hoare (holds P) (Bot.loadReviews interval user) (fun _ => holds P).
Proof.
  unfold Bot.loadReviews. hnext as now. cbv zeta.
  destruct (interval =? Bot.RAll).
  - hnext as counts. hnext as r. hfact as ->. hdone. auto.
  - hnext as reviews. apply holds_for_each. intros x.
    hnext as r. hfact as ->. hdone. auto.
Qed.

Lemma holds_loadFullQuestionById (P : View -> Prop) (id : string)
  (user : Database.User.t) :
  hoare (holds P) (Bot.loadFullQuestionById id user) (fun _ => holds P).
Proof.
  unfold Bot.loadFullQuestionById. cbv zeta.
  destruct (Strconv.Atoi id) as [idInt|].
  - hnext as [question|].
    + hnext as r. hfact as ->. hnext as rows. hnext as r. hfact as ->.
      hdone. auto.
    + hnext as r. hfact as ->. hdone. auto.
  - hnext as r. hfact as ->. hdone. auto.
Qed.

Lemma holds_parseReview (P : View -> Prop) (rating : string)
  (user : Database.User.t) :
  hoare (holds P) (Bot.parseReview rating user)
    (fun r app => r = None /\ holds P app).
Proof.
  unfold Bot.parseReview. cbv zeta. hnext as [review e]. cbn [snd].
  hfact as ->. hdone. auto.
Qed.

Lemma holds_responserCommand (u : Database.User.t) (n : nat)
  (q : option Database.Question.t) (command : string) :
  hoare (holds (handling u n q)) (Bot.responserCommand command u)
    (fun r app => holds (handling (fst r) n q) app).
Proof.
  unfold Bot.responserCommand, Bot.responserCommandEmployee,
    Bot.responserCommandUser.
  destruct (Database.User.IsEmployee u), (String.eqb command "/start");
    cbv zeta.
  all: eapply hoare_bind
         with (R := fun r app => holds (handling (fst r) n q) app);
    [| intros [u' e]; cbv beta; hdone; assumption ].
  all: try (apply hoare_ret; intros s Hs; exact Hs).
  all: hnext as r; hfact as ->; cbv beta iota; hnext as r; hfact as ->;
    cbv beta iota; apply hoare_ret; intros s Hs; exact Hs.
Qed.

Lemma holds_parseCommand (message : Tg.Message.t) :
  hoare (holds one_question_each) (Bot.parseCommand message)
    (fun _ => holds one_question_each).
Proof.
  unfold Bot.parseCommand. cbv zeta.
  destruct (String.eqb (Tg.Message.Text message) "/start").
  - eapply hoare_bind; [apply holds_AddUser|].
    intros [u e]. cbv beta. cbn [fst snd]. hfact as ->. cbv beta iota.
    hnext as [question|].
    + hfact as [Hasker Hopen].
      eapply hoare_bind with (R := fun r app =>
        r = None /\ holds (handling u 0 None) app).
      * hnext as r. hfact as ->. hdone. split; [reflexivity|].
        destruct H as [_ H]. apply H; assumption.
      * intros r. hfact as ->.
        eapply hoare_bind; [apply holds_responserCommand|].
        intros [u' e]. cbv beta. cbn [fst]. hdone.
        apply holds_end with (1 := H). right. right. reflexivity.
    + eapply hoare_bind with (R := fun r app =>
        r = None /\ holds (handling u 0 None) app).
      * hdone. auto.
      * intros r. hfact as ->.
        eapply hoare_bind; [apply holds_responserCommand|].
        intros [u' e]. cbv beta. cbn [fst]. hdone.
        apply holds_end with (1 := H). right. right. reflexivity.
  - hdone. assumption.
Qed.

Ltac states :=
  unfold Bot.SNew, Bot.SMain, Bot.SReview, Bot.SReviewText, Bot.SQuestion,
    Bot.SQuestionDiscussion, Bot.SSwitchReceiver, Bot.SSearchQuestion in *.

Lemma holds_parseMessageUser (u : Database.User.t) (message : Tg.Message.t)
  (n : nat) :
  (Database.User.State u <> Bot.SQuestionDiscussion -> n = 0%nat) ->
  hoare (holds (handling u n None)) (Bot.parseMessageUser u message)
    (fun _ => holds one_question_each).
Proof.
  intros Hn. unfold Bot.parseMessageUser. cbv zeta.
  destruct (Database.User.State u =? Bot.SNew) eqn:E1.
  { assert (n = 0%nat) as -> by (apply Hn; states; lia).
    hnext as r. hfact as ->. hdone.
    apply holds_end with (1 := H). right. right. reflexivity. }
  destruct (Database.User.State u =? Bot.SMain) eqn:E2.
  { assert (n = 0%nat) as -> by (apply Hn; states; lia).
    repeat match goal with
    | |- hoare _ (if ?b then _ else _) _ => destruct b
    end.
    - apply holds_enter. right. right. reflexivity.
    - apply holds_enter. right. right. reflexivity.
    - hdone. apply holds_end with (1 := H). right. right. reflexivity. }
  destruct (Database.User.State u =? Bot.SReview) eqn:E3.
  { assert (n = 0%nat) as -> by (apply Hn; states; lia).
    destruct (Bot.is_rating_token (Tg.Message.Text message)).
    - eapply hoare_bind; [apply holds_parseReview|]. intros r. cbv beta.
      hfact as ->. apply holds_enter. right. right. reflexivity.
    - hdone. apply holds_end with (1 := H). right. right. reflexivity. }
  destruct (Database.User.State u =? Bot.SReviewText) eqn:E4.
  { assert (n = 0%nat) as -> by (apply Hn; states; lia).
    destruct (String.eqb (Tg.Message.Text message) "❌Close").
    - hnext as r. hfact as ->. apply holds_enter. right. right. reflexivity.
    - hnext as r. hfact as ->. apply holds_enter. right. right. reflexivity. }
  destruct (Database.User.State u =? Bot.SQuestion) eqn:E5.
  { assert (n = 0%nat) as -> by (apply Hn; states; lia).
    destruct (String.eqb (Tg.Message.Text message) "❌Close").
    - apply holds_enter. right. right. reflexivity.
    - hnext as [question e]. cbn [snd]. hfact as ->. cbv beta iota zeta.
      hnext as receivers.
      eapply hoare_bind.
      { apply holds_for_each. intros x. hnext as r. hfact as ->. hdone.
        assumption. }
      intros done. apply holds_enter. right. left. reflexivity. }
  destruct (Database.User.State u =? Bot.SQuestionDiscussion) eqn:E6.
  { apply Z.eqb_eq in E6.
    destruct (String.eqb (Tg.Message.Text message) "❌Close").
    - hnext as r. hfact as ->. cbv beta iota.
      hnext as [question|].
      + hfact as [Hasker Hopen].
        hnext as [corr e]. cbn [snd]. hfact as ->. cbv beta iota.
        eapply hoare_bind; [apply holds_ChangeQuestionIsClosed|].
        intros r. cbv beta. hfact as ->. cbv beta iota.
        eapply hoare_pre with
          (P' := holds (handling (Database.User.with_State Bot.SMain u) 0 None)).
        { intros s [_ H]. apply H; assumption. }
        match goal with
        | |- hoare _ (if ?b then _ else _) _ => destruct b
        end.
        * hnext as r. hfact as ->.
          apply holds_respond_or_back. right. right. reflexivity.
        * apply holds_respond_or_back. right. right. reflexivity.
      + apply holds_respond_or_back. right. right. reflexivity.
    - hnext as [question|].
      + hfact as [Hasker Hopen].
        eapply hoare_bind with (R := fun r app =>
          r = None /\ holds (handling u n (Some question)) app).
        { match goal with
          | |- hoare _ (if ?b then _ else _) _ => destruct b
          end; [hprim|hdone; auto]. }
        intros r. hfact as ->.
        hnext as [question' e]. cbn [snd]. hfact as ->. cbv beta iota.
        hnext as [corr e]. cbn [snd]. hfact as ->. hdone.
        apply holds_end with (1 := H). right. left. exact E6.
      + hdone. apply holds_end with (1 := H). right. right. reflexivity. }
  hdone. apply holds_end with (1 := H). right. right.
  apply Hn. apply Z.eqb_neq. exact E6.
Qed.

Ltac employee Hrole :=
  left; cbn [Database.User.IsEmployee Database.User.with_State
             Database.User.with_IsReceiver]; exact Hrole.

Lemma holds_parseMessageEmployee (u : Database.User.t)
  (message : Tg.Message.t) (n : nat) :
  Database.User.IsEmployee u = true ->
  hoare (holds (handling u n None)) (Bot.parseMessageEmployee u message)
    (fun _ => holds one_question_each).
Proof.
  intros Hrole. unfold Bot.parseMessageEmployee. cbv zeta.
  assert (Hend : forall A (a : A) v q,
            hoare (holds (handling (Database.User.with_State v u) n q))
              (ret a) (fun _ => holds one_question_each)).
  { intros A a v q. hdone. apply holds_end with (1 := H). employee Hrole. }
  assert (Hstay : forall A (a : A) q,
            hoare (holds (handling u n q))
              (ret a) (fun _ => holds one_question_each)).
  { intros A a q. hdone. apply holds_end with (1 := H). employee Hrole. }
  assert (Hresp : forall line v q,
            hoare (holds (handling (Database.User.with_State v u) n q))
              (bind (Bot.responser (Database.User.with_State v u))
                 (fun '(_, err) => ret (Logger.Err Bot.parsers_go line err)))
              (fun _ => holds one_question_each)).
  { intros line v q. eapply hoare_bind; [apply holds_responser|].
    intros [u' e]. cbv beta. cbn [fst snd]. hfact as Hkeep. hfact as ->.
    hdone. apply holds_end with (1 := H). apply Hkeep.
    split; [reflexivity|]. employee Hrole. }
  repeat match goal with
  | |- hoare _ (if ?b then _ else _) _ => destruct b
  end.
  all: try (apply holds_enter; employee Hrole).
  all: try apply Hstay.
  all: try (eapply hoare_bind;
            [first [apply holds_loadReviews | apply holds_loadFullQuestionById]|];
            intros done; apply Hstay).
  - hnext as r. hfact as ->. apply Hend.
  - hnext as r. hfact as ->. cbv beta iota. apply Hresp.
  - hnext as r. hfact as ->. cbv beta iota. apply Hresp.
  - hnext as [|q0 questions].
    + hnext as r. hfact as ->. cbv beta iota. apply Hresp.
    + hnext as r. hfact as ->. apply Hstay.
  - hnext as r. hfact as ->. cbv beta iota.
    hnext as [question|].
    + hnext as r. hfact as ->. cbv beta iota.
      apply holds_respond_or_back. employee Hrole.
    + apply holds_respond_or_back. employee Hrole.
  - hnext as [question|].
    + hnext as r. hfact as ->.
      hnext as [question' e]. cbn [snd]. hfact as ->. cbv beta iota.
      hnext as [corr e]. cbn [snd]. hfact as ->. apply Hstay.
    + apply Hstay.
Qed.

Lemma holds_parseCallbackEmployee (u : Database.User.t)
  (callback : Tg.CallbackQuery.t) (n : nat) :
  Database.User.IsEmployee u = true ->
  hoare (holds (handling u n None)) (Bot.parseCallbackEmployee u callback)
    (fun _ => holds one_question_each).
Proof.
  intros Hrole. unfold Bot.parseCallbackEmployee.
  destruct (Bot.splitCallbackData callback) as [key data].
  assert (Hstay : forall A (a : A),
            hoare (holds (handling u n None))
              (ret a) (fun _ => holds one_question_each)).
  { intros A a. hdone. apply holds_end with (1 := H). employee Hrole. }
  repeat match goal with
  | |- hoare _ (if ?b then _ else _) _ => destruct b
  end; try apply Hstay.
  destruct (Strconv.Atoi data) as [id|]; [|apply Hstay].
  eapply hoare_bind; [apply holds_loadCorrespondence|].
  intros r. cbv beta. hfact as ->. apply holds_enter. employee Hrole.
Qed.

(** The user that a chat resolves to is a stored row. *)
Lemma holds_GetUserByChatID (chat : Z) :
  hoare (holds one_question_each)
    (Bot.onDB (Database.query (Database.GetUserByChatID chat)))
    (fun a app =>
       match a with
       | Some u =>
           holds (handling u 1 None) app
           /\ (Database.User.IsEmployee u = false ->
               Database.User.State u <> Bot.SQuestionDiscussion ->
               holds (handling u 0 None) app)
           /\ holds one_question_each app
       | None => holds one_question_each app
       end).
Proof.
  intros [bot db conf] [Hrel H]. unfold Bot.onDB, Database.query.
  cbn [fst snd Bot.DB Bot.Bot Bot.Conf] in *.
  destruct (Database.GetUserByChatID chat db) as [u|] eqn:E.
  - apply GetUserByChatID_Some in E. destruct E as (_ & _ & _ & Hin).
    split; [|split].
    + split; [exact Hrel|]. apply handling_start; [exact H|exact Hin].
    + intros Hc Hs. split; [exact Hrel|].
      apply handling_start_idle; assumption.
    + split; assumption.
  - split; assumption.
Qed.

Lemma holds_dispatch_user (u : Database.User.t) (message : Tg.Message.t) :
  Database.User.IsEmployee u = false ->
  hoare
    (fun app =>
       holds (handling u 1 None) app
       /\ (Database.User.IsEmployee u = false ->
           Database.User.State u <> Bot.SQuestionDiscussion ->
           holds (handling u 0 None) app))
    (Bot.parseMessageUser u message)
    (fun _ => holds one_question_each).
Proof.
  intros Hc.
  destruct (Z.eq_dec (Database.User.State u) Bot.SQuestionDiscussion)
    as [Hs|Hs].
  - eapply hoare_pre with (P' := holds (handling u 1 None)); [tauto|].
    apply holds_parseMessageUser. tauto.
  - eapply hoare_pre with (P' := holds (handling u 0 None)).
    + intros s [_ H]. apply H; assumption.
    + apply holds_parseMessageUser. reflexivity.
Qed.

Lemma holds_parseMessage (message : Tg.Message.t) :
  hoare (holds one_question_each) (Bot.parseMessage message)
    (fun _ => holds one_question_each).
Proof.
  unfold Bot.parseMessage.
  eapply hoare_bind; [apply holds_parseCommand|].
  intros [isCommand e]. cbv beta iota. destruct isCommand.
  - hdone. assumption.
  - eapply hoare_bind; [apply holds_GetUserByChatID|].
    intros [u|]; cbv beta iota.
    + destruct (Database.User.IsEmployee u) eqn:Hrole.
      * eapply hoare_bind.
        { eapply hoare_pre with (P' := holds (handling u 1 None)); [tauto|].
          apply holds_parseMessageEmployee. exact Hrole. }
        intros r. hdone. assumption.
      * eapply hoare_bind.
        { eapply hoare_pre; [|apply holds_dispatch_user; exact Hrole].
          intros s (H1 & H2 & _). split; [exact H1|].
          intros _. apply H2. reflexivity. }
        intros r. hdone. assumption.
    + hdone. assumption.
Qed.

Lemma holds_parseCallback (callback : Tg.CallbackQuery.t) :
  hoare (holds one_question_each) (Bot.parseCallback callback)
    (fun _ => holds one_question_each).
Proof.
  unfold Bot.parseCallback. cbv zeta.
  eapply hoare_bind; [apply holds_GetUserByChatID|].
  intros [u|]; cbv beta iota.
  - destruct (Database.User.IsEmployee u) eqn:Hrole.
    + eapply hoare_bind.
      { eapply hoare_pre with (P' := holds (handling u 1 None)); [tauto|].
        apply holds_parseCallbackEmployee. exact Hrole. }
      intros r. hdone. assumption.
    + unfold Bot.parseCallbackUser.
      eapply hoare_bind with (R := fun _ => holds one_question_each).
      * hdone. tauto.
      * intros r. hdone. assumption.
  - hdone. assumption.
Qed.

(** Writing the cursor touches neither the store nor the transport. *)
Lemma holds_onConf (A : Type) (P : View -> Prop) (m : M Bot.Viper A) :
  hoare (holds P) (Bot.onConf m) (fun _ => holds P).
Proof.
  intros [bot db conf] H. unfold Bot.onConf.
  cbn [Bot.Conf Bot.DB Bot.Bot]. destruct (m conf) as [a conf']. exact H.
Qed.

Lemma holds_parseUpdate (update : Tg.Update.t) :
  hoare (holds one_question_each) (Bot.parseUpdate update)
    (fun _ => holds one_question_each).
Proof.
  unfold Bot.parseUpdate.
  eapply hoare_bind with (R := fun _ => holds one_question_each).
  { destruct (Tg.Update.Message update) as [message|];
      [apply holds_parseMessage|hdone; assumption]. }
  intros e.
  eapply hoare_bind with (R := fun _ => holds one_question_each).
  { destruct (Tg.Update.CallbackQuery update) as [callback|];
      [apply holds_parseCallback|hdone; assumption]. }
  intros [e'|].
  - hdone. assumption.
  - eapply hoare_bind; [apply holds_onConf|]. intros done.
    eapply hoare_bind; [apply holds_onConf|]. intros r.
    hdone. assumption.
Qed.

Lemma holds_set_clock (P : View -> Prop) (now : Z) (app : Bot.App) :
  holds P app -> holds P (set_clock now app).
Proof. intros H. exact H. Qed.

Lemma reachable_unrefused_holds (app : Bot.App) :
  reachable_unrefused app -> holds one_question_each app.
Proof.
  induction 1 as [app Hrel Hqs Hnd Hkeys|now app _ IH|update app _ IH].
  - split; [exact Hrel|]. unfold view. rewrite Hqs.
    split; [|split].
    + split_keyed.
      * constructor.
      * intros q [].
      * intros q [].
    + intros a. cbn. lia.
    + intros u _ _ _. reflexivity.
  - apply holds_set_clock, IH.
  - exact (holds_parseUpdate update IH).
Qed.

Lemma unrefused_run (updates : list Tg.Update.t) (app : Bot.App) :
  reachable_unrefused app -> reachable_unrefused (Scenario.run updates app).
Proof.
  revert app. induction updates as [|u rest IH]; intros app H; simpl.
  - exact H.
  - apply IH, unrefused_step, H.
Qed.



(* ================================================================== *)
(** ** Messages and presses that the dispatcher turns away *)

(** X1. A text that is not the start command, from a chat without a user row:
    the error names the chat, behind the positions of the [l.Err] calls
    it has passed (line 64 in [parseMessage], line 54 in [parseUpdate]);
    nothing is written or sent, the cursor stays, and the rest of the
    batch is not dispatched. *)
Theorem unknown_sender_rejected (update_id : Z) (message : Tg.Message.t)
  (app : Bot.App)
  (Htext : Tg.Message.Text message <> "/start")
  (Hunknown : Database.GetUserByChatID (Tg.User.ID (Tg.Message.From message))
                (Bot.DB app) = None) :
  let update := Tg.Update.mk update_id (Some message) None in
  let text :=
    ("User " ++ Strconv.Itoa (Tg.User.ID (Tg.Message.From message))
     ++ " is not found")%string in
  Bot.parseMessage message app
  = (Some ("[parsers.go:64] " ++ text)%string, app)
  /\ Bot.parseUpdate update app
     = (Some ("[parsers.go:54] [parsers.go:64] " ++ text)%string, app)
  /\ forall rest,
       Bot.processBatch (update :: rest) app
       = ([Some ("[parsers.go:54] [parsers.go:64] " ++ text)%string], app).
Proof.
  apply String.eqb_neq in Htext.
  assert (H : Bot.parseMessage message app
              = (Some ("[parsers.go:64] "
                       ++ ("User "
                           ++ Strconv.Itoa
                                (Tg.User.ID (Tg.Message.From message))
                           ++ " is not found"))%string,
                 app)).
  { unfold Bot.parseMessage, Bot.parseCommand. rewrite Htext.
    unfold bind, ret, Bot.onDB, Database.query. cbv beta iota zeta.
    rewrite Hunknown. destruct app as [bot db conf]. reflexivity. }
  cbv zeta. split; [exact H|].
  assert (H' : Bot.parseUpdate (Tg.Update.mk update_id (Some message) None) app
               = (Some ("[parsers.go:54] [parsers.go:64] "
                        ++ ("User "
                            ++ Strconv.Itoa
                                 (Tg.User.ID (Tg.Message.From message))
                            ++ " is not found"))%string,
                  app)).
  { unfold Bot.parseUpdate, bind. cbn [Tg.Update.Message Tg.Update.CallbackQuery].
    rewrite H. reflexivity. }
  split; [exact H'|].
  intros rest. cbn [Bot.processBatch]. unfold bind. rewrite H'. reflexivity.
Qed.

Lemma unknown_sender_rejected_witness :
  Bot.processBatch
    [Scenario.text_update 5 30 6 "amy" "hello";
     Scenario.text_update 6 31 5 "bob" "Hello?"] Scenario.asked
  = ([Some "[parsers.go:54] [parsers.go:64] User 6 is not found"],
     Scenario.asked).
Proof.
  refine (proj2 (proj2
    (@unknown_sender_rejected 5
       (Tg.Message.mk 30 (Tg.User.mk 6 "amy") (Tg.Chat.mk 6) "hello")
       Scenario.asked _ _)) _).
  - discriminate.
  - vm_compute. reflexivity.
Defined.

(** X2. A user row whose state is none of those its role's handler has a case
    for (the state 0 of a row that the operator has created, or a state
    of the other role) is inert: any text but the start command is
    dropped without an error, a write or a reply. *)
Theorem message_in_unhandled_state_dropped (message : Tg.Message.t)
  (app : Bot.App) (user : Database.User.t)
  (Htext : Tg.Message.Text message <> "/start")
  (Huser : Database.GetUserByChatID (Tg.User.ID (Tg.Message.From message))
             (Bot.DB app) = Some user)
  (Hstate : ~ In (Database.User.State user)
              (if Database.User.IsEmployee user
               then [Bot.SNew; Bot.SMain; Bot.SReview;
                     Bot.SQuestionDiscussion; Bot.SSearchQuestion]
               else [Bot.SNew; Bot.SMain; Bot.SReview; Bot.SReviewText;
                     Bot.SQuestion; Bot.SQuestionDiscussion])) :
  Bot.parseMessage message app = (None, app).
Proof.
  apply String.eqb_neq in Htext.
  unfold Bot.parseMessage, Bot.parseCommand. rewrite Htext.
  unfold bind, ret, Bot.onDB, Database.query. cbv beta iota zeta.
  rewrite Huser. destruct app as [bot db conf]. cbn [Bot.DB Bot.Bot Bot.Conf].
  destruct (Database.User.IsEmployee user).
  - unfold Bot.parseMessageEmployee. cbv zeta.
    repeat match goal with
    | |- context [Database.User.State user =? ?s] =>
        let E := fresh "E" in
        destruct (Database.User.State user =? s) eqn:E;
        [apply Z.eqb_eq in E; exfalso; apply Hstate; rewrite E;
         cbn [In]; tauto|]
    end.
    reflexivity.
  - unfold Bot.parseMessageUser. cbv zeta.
    repeat match goal with
    | |- context [Database.User.State user =? ?s] =>
        let E := fresh "E" in
        destruct (Database.User.State user =? s) eqn:E;
        [apply Z.eqb_eq in E; exfalso; apply Hstate; rewrite E;
         cbn [In]; tauto|]
    end.
    reflexivity.
Qed.

Lemma message_in_unhandled_state_dropped_witness :
  Bot.parseMessage (Tg.Message.mk 40 (Tg.User.mk 9 "eve") (Tg.Chat.mk 9) "hi")
    (Scenario.abi 9 (Scenario.start_app [] []))
  = (None, Scenario.abi 9 (Scenario.start_app [] [])).
Proof.
  refine (@message_in_unhandled_state_dropped
            (Tg.Message.mk 40 (Tg.User.mk 9 "eve") (Tg.Chat.mk 9) "hi")
            (Scenario.abi 9 (Scenario.start_app [] []))
            (Database.User.mk 1 9 0 "" true false) _ _ _).
  - discriminate.
  - vm_compute. reflexivity.
  - vm_compute. intuition discriminate.
Defined.

(** X3. A button press whose data does not start with the number of the
    claim type (no number at all, or another number) is dropped for every
    known user, customer or employee: no error, nothing written or sent.
    With the claim type but without a readable question number the press
    of an employee in Main is the error "no id" behind the positions of
    the two [l.Err] calls it has passed (line 424 in
    [parseCallbackEmployee], line 403 in [parseCallback]), and nothing is
    written or sent either. *)
Theorem unreadable_button_dropped (callback : Tg.CallbackQuery.t)
  (app : Bot.App) (user : Database.User.t)
  (Huser : Database.GetUserByChatID
             (Tg.Chat.ID (Tg.Message.Chat (Tg.CallbackQuery.Message callback)))
             (Bot.DB app) = Some user) :
  let pieces := Strings.Split (Tg.CallbackQuery.Data callback) "-"%char in
  (Strconv.Atoi (hd "" pieces) <> Some Bot.CBQuestion ->
   Bot.parseCallback callback app = (None, app))
  /\ (Database.User.IsEmployee user = false ->
      Bot.parseCallback callback app = (None, app))
  /\ (Database.User.IsEmployee user = true ->
      Database.User.State user = Bot.SMain ->
      Strconv.Atoi (hd "" pieces) = Some Bot.CBQuestion ->
      Strconv.Atoi (nth 1 pieces "") = None ->
      Bot.parseCallback callback app
      = (Some "[parsers.go:403] [parsers.go:424] no id", app)).
Proof.
  cbv zeta.
  assert (Hrun : Bot.parseCallback callback app
                 = if Database.User.IsEmployee user
                   then (let (e, a) := Bot.parseCallbackEmployee user callback app
                         in (Logger.Err Bot.parsers_go 403 e, a))
                   else (None, app)).
  { unfold Bot.parseCallback, bind, ret, Bot.onDB, Database.query.
    cbv beta iota zeta. rewrite Huser. destruct app as [bot db conf].
    cbn [Bot.DB Bot.Bot Bot.Conf].
    destruct (Database.User.IsEmployee user); reflexivity. }
  split; [|split].
  - intros Hkey. rewrite Hrun.
    destruct (Database.User.IsEmployee user); [|reflexivity].
    unfold Bot.parseCallbackEmployee, Bot.splitCallbackData. cbv zeta.
    destruct (Strconv.Atoi (hd "" (Strings.Split (Tg.CallbackQuery.Data callback) "-")))
      as [key|] eqn:E.
    + assert (Hne : (key =? Bot.CBQuestion) = false).
      { apply Z.eqb_neq. intros ->. apply Hkey. reflexivity. }
      destruct (Strings.Split (Tg.CallbackQuery.Data callback) "-")
        as [|p0 [|p1 ps]];
        rewrite Hne; destruct (Database.User.State user =? Bot.SMain);
        reflexivity.
    + cbn [Z.eqb Bot.CBQuestion].
      destruct (Database.User.State user =? Bot.SMain); reflexivity.
  - intros Hc. rewrite Hrun, Hc. reflexivity.
  - intros He Hs Hkey Hid. rewrite Hrun, He.
    unfold Bot.parseCallbackEmployee, Bot.splitCallbackData. cbv zeta.
    rewrite Hkey, Hs.
    destruct (Strings.Split (Tg.CallbackQuery.Data callback) "-")
      as [|p0 [|p1 ps]]; cbn [nth] in Hid; cbn [Z.eqb Pos.eqb Bot.SMain Bot.CBQuestion];
      rewrite ?Hid; reflexivity.
Qed.

Lemma unreadable_button_dropped_witness :
  Bot.parseCallback
    (Tg.CallbackQuery.mk
       (Tg.Message.mk 0 (Tg.User.mk 0 "") (Tg.Chat.mk 9) "") "take-1")
    Scenario.asked
  = (None, Scenario.asked).
Proof.
  refine (proj1
    (@unreadable_button_dropped
       (Tg.CallbackQuery.mk
          (Tg.Message.mk 0 (Tg.User.mk 0 "") (Tg.Chat.mk 9) "") "take-1")
       Scenario.asked (Database.User.mk 1 9 Bot.SMain "eve" true false) _) _).
  - vm_compute. reflexivity.
  - vm_compute. discriminate.
Defined.

(* ================================================================== *)
(** ** One fetched batch *)

(** X4. The loop over a batch dispatches the updates in order and gives up
    at the first error: the state it leaves is the state after the
    dispatch of as many updates as it has results, and no update after
    those is looked at. *)
Theorem batch_dispatches_prefix (updates : list Tg.Update.t) (app : Bot.App) :
  let results := fst (Bot.processBatch updates app) in
  snd (Bot.processBatch updates app)
  = Scenario.run (firstn (List.length results) updates) app
  /\ (List.length results <= List.length updates)%nat
  /\ (forall later,
        (List.length results < List.length updates)%nat ->
        Bot.processBatch (firstn (List.length results) updates ++ later) app
        = Bot.processBatch updates app).
Proof.
  cbv zeta. revert app.
  induction updates as [|u rest IH]; intros app.
  - cbn. split; [reflexivity|]. split; [lia|]. intros later H. lia.
  - cbn [Bot.processBatch]. unfold bind.
    destruct (Bot.parseUpdate u app) as [[e|] app1] eqn:E.
    + cbn [ret fst snd List.length firstn Scenario.run fold_left].
      unfold Scenario.run. cbn [fold_left List.app]. rewrite E.
      split; [reflexivity|]. split; [lia|].
      intros later _. cbn [Bot.processBatch]. unfold bind. rewrite E.
      reflexivity.
    + destruct (IH app1) as (Hrun & Hlen & Hlater).
      destruct (Bot.processBatch rest app1) as [results app2] eqn:E2.
      cbn [ret fst snd List.length firstn] in *.
      unfold Scenario.run in *. cbn [fold_left]. rewrite E. cbn [snd].
      split; [exact Hrun|]. split; [lia|].
      intros later Hlt. cbn [List.app Bot.processBatch]. unfold bind.
      rewrite E. rewrite Hlater by lia. reflexivity.
Qed.

(* ================================================================== *)
(** ** Review statistics *)

(** X5. The counts per rating: five numbers, none negative, and when every
    stored rating is one of 1 to 5 (the only ratings [parseReview] stores
    for a rating token) they add up to the number of reviews. *)
Theorem rating_counts_add_up (db : Database.DB) :
  let counts := Database.GetCountReviewsByRating db in
  List.length counts = 5%nat
  /\ (forall c, In c counts -> 0 <= c)
  /\ ((forall r, In r (Database.reviews db) ->
         1 <= Database.Review.Rating r <= 5) ->
      fold_right Z.add 0 counts
      = Z.of_nat (List.length (Database.reviews db))).
Proof.
  cbv zeta. unfold Database.GetCountReviewsByRating.
  split; [reflexivity|]. split.
  - intros c Hc. apply in_map_iff in Hc. destruct Hc as (i & <- & _). lia.
  - cbn [map fold_right]. generalize (Database.reviews db) as rs.
    induction rs as [|r rs IH]; intros Hr; [reflexivity|].
    cbn [filter List.length].
    assert (Hr' : forall r0, In r0 rs -> 1 <= Database.Review.Rating r0 <= 5).
    { intros r0 H0. apply Hr. right. exact H0. }
    specialize (IH Hr'). specialize (Hr r (or_introl eq_refl)).
    assert (Hone : forall i,
              Z.of_nat (List.length
                          (if Database.Review.Rating r =? i
                           then r :: filter (fun r0 => Database.Review.Rating r0 =? i) rs
                           else filter (fun r0 => Database.Review.Rating r0 =? i) rs))
              = (if Database.Review.Rating r =? i then 1 else 0)
                + Z.of_nat (List.length
                              (filter (fun r0 => Database.Review.Rating r0 =? i) rs))).
    { intros i. destruct (Database.Review.Rating r =? i); cbn [List.length]; lia. }
    rewrite !Hone. rewrite Nat2Z.inj_succ.
    destruct (rating_between Hr) as [E|[E|[E|[E|E]]]]; rewrite E;
      repeat match goal with
             | |- context [?a =? ?b] => destruct (Z.eqb_spec a b)
             end; lia.
Qed.

(* ================================================================== *)
(** ** New questions: the list and the claim *)

(** X6. The list of new questions is in ascending key order and holds exactly
    the stored questions without answerer, without answer and not closed
    (their columns: nothing is preloaded); on a table with distinct keys a
    question of key [id] (not 0) is in the list exactly when the filtered
    fetch of the claim, [GetNewQuestionById], returns it. *)
Theorem new_questions_listed_iff_claimable (db : Database.DB) :
  StronglySorted
    (fun a b => Database.Question.ID a <= Database.Question.ID b)
    (Database.GetNewQuestions db)
  /\ (forall q, In q (Database.GetNewQuestions db) <->
        exists row, In row (Database.questions db)
                    /\ Database.is_new row = true
                    /\ q = Database.question_columns row)
  /\ (NoDup (map Database.Question.ID (Database.questions db)) ->
      forall id q, id <> 0 ->
        (Database.GetNewQuestionById id db = Some q <->
         In q (Database.GetNewQuestions db) /\ Database.Question.ID q = id)).
Proof.
  split; [|split; [apply GetNewQuestions_In|]].
  - unfold Database.GetNewQuestions.
    pose proof (order_by_id_sorted Database.Question.ID
                  (filter Database.is_new (Database.questions db))) as Hs.
    induction Hs as [|x l _ IH Hx]; cbn [map]; constructor; [exact IH|].
    rewrite Forall_map. exact Hx.
  - intros Hnd id q Hid. rewrite GetNewQuestions_In.
    unfold Database.GetNewQuestionById. split.
    + destruct (Database.First _ _ _) as [x|] eqn:E; [|discriminate].
      destruct (Database.Question.ID x =? 0); [discriminate|].
      intros H; injection H as <-.
      apply First_Some in E. destruct E as (Hx & Hc & _).
      apply andb_true_iff in Hc. destruct Hc as [Hk Hn].
      apply Z.eqb_eq in Hk. split; [exists x; auto|exact Hk].
    + intros [(row & Hrow & Hn & ->) Hk].
      change (Database.Question.ID row = id) in Hk.
      destruct (@First_found _ Database.Question.ID
                  (fun q0 => (Database.Question.ID q0 =? id)
                             && Database.is_new q0)
                  (Database.questions db) row Hrow) as [x Hx].
      { rewrite Hn, Hk, Z.eqb_refl. reflexivity. }
      rewrite Hx. apply First_Some in Hx. destruct Hx as (Hxin & Hc & _).
      apply andb_true_iff in Hc. destruct Hc as [Hxk _]. apply Z.eqb_eq in Hxk.
      assert (x = row).
      { apply (same_key_same_row Database.Question.ID _ x row Hnd Hxin Hrow).
        congruence. }
      subst x. rewrite Hk. apply Z.eqb_neq in Hid. rewrite Hid. reflexivity.
Qed.

(** What the claim writes when the store accepts the write. *)
Lemma loadCorrespondence_store (id : Z) (user : Database.User.t)
  (app : Bot.App) (q : Database.Question.t) :
  Database.GetNewQuestionById id (Bot.DB app) = Some q ->
  accepts_next (Database.refusals (Bot.DB app)) ->
  Database.questions (Bot.DB (snd (Bot.loadCorrespondence id user app)))
  = Database.update Database.Question.ID
      (Database.question_columns
         (Database.Question.with_AnswererID (Database.User.ID user) q))
      (Database.questions (Bot.DB app))
  /\ Database.users (Bot.DB (snd (Bot.loadCorrespondence id user app)))
     = Database.users (Bot.DB app).
Proof.
  intros Hq Hacc. unfold Bot.loadCorrespondence, bind, ret, Bot.onDB, Bot.onBot,
    Database.query. rewrite Hq.
  assert (Hk : exists x, q = Database.question_columns x
                         /\ (Database.Question.ID x =? 0) = false).
  { unfold Database.GetNewQuestionById in Hq.
    destruct (Database.First _ _ _) as [x|] eqn:E; [|discriminate].
    destruct (Database.Question.ID x =? 0) eqn:E0; [discriminate|].
    injection Hq as <-. exists x. split; [reflexivity|exact E0]. }
  destruct Hk as (x & -> & Hk).
  unfold Database.ChangeQuestionAnswerer, Database.SaveQuestion, bind, ret.
  unfold accepts_next in Hacc.
  destruct app as [bot db conf]. cbn [Bot.DB Bot.Bot Bot.Conf] in *.
  destruct (attempt (Database.refusals db)) as [ok rest].
  cbn [fst] in Hacc. subst ok. cbn [negb].
  unfold Database.question_keys. qnorm. rewrite Hk.
  cbv beta iota zeta. cbn [Logger.Err]. cbv beta iota.
  cbn [Bot.DB Bot.Bot Bot.Conf].
  match goal with
  | |- context [Bot.forwardCorrespondence ?u ?rows ?c] =>
      destruct (Bot.forwardCorrespondence u rows c) as [e c']
  end.
  cbn [snd Bot.DB Database.questions Database.users Database.with_questions
       Database.with_refusals]. split; reflexivity.
Qed.

(** X7. A question that an employee has claimed is no longer new: the
    filtered fetch of its key returns nothing (a second press gets
    "Question already taken"), the list of new questions has no question
    of that key, and the stored question names the employee as
    answerer. *)
Theorem claimed_question_leaves_the_list (id : Z) (user : Database.User.t)
  (app : Bot.App) (q : Database.Question.t)
  (Hnew : Database.GetNewQuestionById id (Bot.DB app) = Some q)
  (Huser : Database.User.ID user <> 0)
  (Hacc : accepts_next (Database.refusals (Bot.DB app))) :
  let db' := Bot.DB (snd (Bot.loadCorrespondence id user app)) in
  Database.GetNewQuestionById id db' = None
  /\ (forall x, In x (Database.GetNewQuestions db') ->
        Database.Question.ID x <> id)
  /\ exists q',
       Database.GetQuestionById id db' = Some q'
       /\ Database.Question.AnswererID q' = Database.User.ID user
       /\ Database.Question.Header q' = Database.Question.Header q
       /\ Database.Question.UserID q' = Database.Question.UserID q
       /\ Database.Question.IsClosed q' = false.
Proof.
  cbv zeta.
  destruct (loadCorrespondence_store id user app Hnew Hacc) as [Hqs Hus].
  set (db' := Bot.DB (snd (Bot.loadCorrespondence id user app))) in *.
  set (row := Database.question_columns
                (Database.Question.with_AnswererID (Database.User.ID user) q))
    in *.
  assert (Hq : (exists x, In x (Database.questions (Bot.DB app))
                          /\ Database.Question.ID x = Database.Question.ID q)
               /\ Database.Question.ID q = id /\ Database.is_new q = true
               /\ Database.Question.ID q <> 0).
  { unfold Database.GetNewQuestionById in Hnew.
    destruct (Database.First _ _ _) as [x|] eqn:E; [|discriminate].
    destruct (Database.Question.ID x =? 0) eqn:E0; [discriminate|].
    injection Hnew as <-. apply Z.eqb_neq in E0.
    apply First_Some in E. destruct E as (Hin & Hc & _).
    apply andb_true_iff in Hc. destruct Hc as [Hc Hn].
    apply Z.eqb_eq in Hc. split; [exists x|]; auto. }
  destruct Hq as ((x0 & Hin & Hx0) & Hk & Hn & Hk0).
  assert (Hp : Database.has_id Database.Question.ID (Database.Question.ID row)
                 (Database.questions (Bot.DB app)) = true).
  { apply has_id_true. exists x0. split; [exact Hin|exact Hx0]. }
  assert (Hrow_new : Database.is_new row = false).
  { unfold Database.is_new, row. cbn.
    apply Z.eqb_neq in Huser. rewrite Huser. reflexivity. }
  assert (Hrid : Database.Question.ID row = id) by exact Hk.
  split; [|split].
  - unfold Database.GetNewQuestionById. rewrite Hqs.
    rewrite First_update_on_key; [| |exact Hp].
    + rewrite Hrow_new, andb_false_r. reflexivity.
    + intros r Hr. apply andb_true_iff in Hr. destruct Hr as [Hr _].
      apply Z.eqb_eq in Hr. congruence.
  - intros x Hx Hxid. apply GetNewQuestions_In in Hx.
    destruct Hx as (r & Hr & Hrn & ->). rewrite Hqs in Hr.
    change (Database.Question.ID r = id) in Hxid.
    apply (In_update Database.Question.ID row _ r Hp) in Hr.
    destruct Hr as [->|[_ Hne]]; [congruence|]. apply Hne. congruence.
  - unfold Database.GetQuestionById. rewrite Hqs.
    rewrite First_update_on_key; [| |exact Hp].
    + rewrite Hrid, Z.eqb_refl.
      assert (E0 : (Database.Question.ID row =? 0) = false).
      { apply Z.eqb_neq. exact Hk0. }
      rewrite E0. eexists. split; [reflexivity|].
      unfold Database.is_new in Hn. apply andb_true_iff in Hn.
      destruct Hn as [_ Hc]. apply eqb_prop in Hc.
      unfold row. cbn. auto.
    + intros r Hr. apply Z.eqb_eq in Hr. congruence.
Qed.

Lemma claimed_question_leaves_the_list_witness :
  Database.GetNewQuestionById 1
    (Bot.DB (snd (Bot.loadCorrespondence 1 Scenario.eve Scenario.asked)))
  = None.
Proof.
  refine (proj1
    (@claimed_question_leaves_the_list 1 Scenario.eve Scenario.asked
       (Database.Question.mk 1 "Why is my order late?" 2 Database.User.zero 0
          Database.User.zero false false) _ _ _)).
  - vm_compute. reflexivity.
  - vm_compute. discriminate.
  - vm_compute. reflexivity.
Defined.

(* ================================================================== *)
(** ** User rows: the operator's commands and the start command *)

Lemma SaveUser_accepted (user : Database.User.t) (db : Database.DB) :
  accepts_next (Database.refusals db) ->
  fst (Database.SaveUser user db)
  = (if Database.User.ID user =? 0
     then Database.User.with_ID
            (Database.next_id Database.User.ID (Database.users db)) user
     else user, None)
  /\ Database.users (snd (Database.SaveUser user db))
     = (if Database.User.ID user =? 0
        then Database.users db
             ++ [Database.User.with_ID
                   (Database.next_id Database.User.ID (Database.users db)) user]
        else Database.update Database.User.ID user (Database.users db))
  /\ Database.questions (snd (Database.SaveUser user db))
     = Database.questions db.
Proof.
  unfold accepts_next, Database.SaveUser. intros Hacc.
  destruct (attempt (Database.refusals db)) as [ok rest].
  cbn [fst] in Hacc. subst ok. cbn [negb].
  destruct (Database.User.ID user =? 0); cbn; auto.
Qed.

Lemma GetUserByChatID_None_keyed (chat : Z) (db : Database.DB) :
  users_keyed db ->
  Database.GetUserByChatID chat db = None ->
  Database.First Database.User.ID (fun u => Database.User.ChatID u =? chat)
    (Database.users db) = None.
Proof.
  intros Hk. unfold Database.GetUserByChatID.
  destruct (Database.First _ _ _) as [u|] eqn:E; [|reflexivity].
  apply First_Some in E. destruct E as (Hin & _).
  specialize (Hk u Hin). apply Z.eqb_neq in Hk. rewrite Hk. discriminate.
Qed.

(** [SetEmployeeByID] on a store with keyed user rows, the write
    accepted. *)
Lemma SetEmployeeByID_accepted (line : Z) (flag : bool) (id : Z)
  (db : Database.DB) :
  users_keyed db -> accepts_next (Database.refusals db) ->
  let db' := snd (Database.SetEmployeeByID line flag id db) in
  fst (Database.SetEmployeeByID line flag id db) = None
  /\ match Database.GetUserByChatID id db with
     | Some old =>
         map Database.User.ID (Database.users db')
         = map Database.User.ID (Database.users db)
         /\ Database.GetUserByChatID id db'
            = Some (Database.User.with_IsEmployee flag old)
     | None =>
         Database.users db'
         = Database.users db
           ++ [Database.User.mk
                 (Database.next_id Database.User.ID (Database.users db))
                 id 0 "" flag false]
         /\ Database.GetUserByChatID id db'
            = Some (Database.User.mk
                      (Database.next_id Database.User.ID (Database.users db))
                      id 0 "" flag false)
     end.
Proof.
  intros Hk Hacc. cbv zeta.
  unfold Database.SetEmployeeByID, bind, ret, Database.query.
  destruct (Database.GetUserByChatID id db) as [old|] eqn:E.
  - pose proof (GetUserByChatID_Some _ _ E) as (HF & Hid & Hchat & Hin).
    rewrite HF. cbv beta iota zeta.
    set (x := Database.User.with_IsEmployee flag
                (Database.User.with_ChatID id old)).
    assert (Hx : x = Database.User.with_IsEmployee flag old).
    { unfold x. destruct old; cbn in *. subst. reflexivity. }
    destruct (SaveUser_accepted x db Hacc) as (Hr & Hus & _).
    destruct (Database.SaveUser x db) as [[u e] db'] eqn:Es.
    cbn [fst snd] in *. injection Hr as -> ->.
    assert (E0 : (Database.User.ID x =? 0) = false).
    { apply Z.eqb_neq. rewrite Hx. exact Hid. }
    rewrite E0 in Hus. split; [reflexivity|]. split.
    + rewrite Hus. apply update_ids. apply has_id_true.
      exists old. split; [exact Hin|]. rewrite Hx. reflexivity.
    + rewrite <- Hx.
      apply (@GetUserByChatID_rewritten id db db' old x E Hus).
      * rewrite Hx. reflexivity.
      * reflexivity.
  - pose proof (GetUserByChatID_None_keyed _ Hk E) as HF.
    rewrite HF. cbv beta iota zeta.
    set (x := Database.User.with_IsEmployee flag
                (Database.User.with_ChatID id Database.User.zero)).
    destruct (SaveUser_accepted x db Hacc) as (Hr & Hus & _).
    destruct (Database.SaveUser x db) as [[u e] db'] eqn:Es.
    cbn [fst snd] in *. injection Hr as -> ->.
    change (Database.User.ID x =? 0) with true in Hus. cbv iota in Hus.
    split; [reflexivity|]. split; [exact Hus|].
    unfold Database.GetUserByChatID. rewrite Hus.
    rewrite First_append_new.
    + cbn [Database.User.ID Database.User.with_ID x].
      pose proof (next_id_positive Database.User.ID (Database.users db)) as Hp.
      destruct (Z.eqb_spec (Database.next_id Database.User.ID (Database.users db)) 0);
        [lia|reflexivity].
    + exact (First_None _ _ _ HF).
    + cbn. apply Z.eqb_refl.
Qed.

(** X8. The operator's [abi] and [rbi]: when the write is accepted the chat
    resolves to a row with the flag set as asked, listed by
    [GetEmployees] exactly after [abi]; a row that exists keeps its key
    and its other columns and no row is added; for a chat without a row
    a row is created, also by [rbi]. *)
Theorem operator_sets_employee_by_id (id : Z) (db : Database.DB)
  (Hkeyed : users_keyed db)
  (Haccepted : accepts_next (Database.refusals db)) :
  (fst (Database.AddEmployeeByID id db) = None
   /\ exists u,
        Database.GetUserByChatID id (snd (Database.AddEmployeeByID id db))
        = Some u
        /\ Database.User.IsEmployee u = true
        /\ In u (Database.GetEmployees (snd (Database.AddEmployeeByID id db))))
  /\ (fst (Database.RemoveEmployeeByID id db) = None
      /\ exists u,
           Database.GetUserByChatID id (snd (Database.RemoveEmployeeByID id db))
           = Some u
           /\ Database.User.IsEmployee u = false
           /\ ~ In u (Database.GetEmployees
                        (snd (Database.RemoveEmployeeByID id db))))
  /\ (forall old,
        Database.GetUserByChatID id db = Some old ->
        List.length (Database.users (snd (Database.RemoveEmployeeByID id db)))
        = List.length (Database.users db)
        /\ Database.GetUserByChatID id (snd (Database.AddEmployeeByID id db))
           = Some (Database.User.with_IsEmployee true old)
        /\ Database.GetUserByChatID id (snd (Database.RemoveEmployeeByID id db))
           = Some (Database.User.with_IsEmployee false old))
  /\ (Database.GetUserByChatID id db = None ->
      Database.users (snd (Database.RemoveEmployeeByID id db))
      = Database.users db
        ++ [Database.User.mk
              (Database.next_id Database.User.ID (Database.users db))
              id 0 "" false false]).
Proof.
  unfold Database.AddEmployeeByID, Database.RemoveEmployeeByID.
  pose proof (SetEmployeeByID_accepted 87 true id Hkeyed Haccepted) as [Ha1 Ha2].
  pose proof (SetEmployeeByID_accepted 105 false id Hkeyed Haccepted) as [Hr1 Hr2].
  cbv zeta in *.
  assert (Hres : forall line flag u,
            Database.GetUserByChatID id (snd (Database.SetEmployeeByID line flag id db))
            = Some u ->
            Database.User.IsEmployee u = flag ->
            (In u (Database.GetEmployees (snd (Database.SetEmployeeByID line flag id db)))
             <-> flag = true)).
  { intros line flag u Hu Hf. apply GetUserByChatID_Some in Hu.
    destruct Hu as (_ & _ & _ & Hin).
    unfold Database.GetEmployees. rewrite filter_In, Hf. tauto. }
  split; [|split; [|split]].
  - split; [exact Ha1|].
    destruct (Database.GetUserByChatID id db) as [old|].
    + destruct Ha2 as [_ Ha2]. eexists. split; [exact Ha2|].
      split; [reflexivity|]. apply (Hres 87 true _ Ha2); reflexivity.
    + destruct Ha2 as [_ Ha2]. eexists. split; [exact Ha2|].
      split; [reflexivity|]. apply (Hres 87 true _ Ha2); reflexivity.
  - split; [exact Hr1|].
    destruct (Database.GetUserByChatID id db) as [old|].
    + destruct Hr2 as [_ Hr2]. eexists. split; [exact Hr2|].
      split; [reflexivity|]. intros H.
      apply (Hres 105 false _ Hr2) in H; [discriminate|reflexivity].
    + destruct Hr2 as [_ Hr2]. eexists. split; [exact Hr2|].
      split; [reflexivity|]. intros H.
      apply (Hres 105 false _ Hr2) in H; [discriminate|reflexivity].
  - intros old Hold. rewrite Hold in *.
    destruct Ha2 as [_ Ha2]. destruct Hr2 as [Hr2 Hr3].
    split; [|split; assumption].
    rewrite <- (length_map Database.User.ID), Hr2. apply length_map.
  - intros Hnone. rewrite Hnone in *. apply Hr2.
Qed.

Lemma operator_sets_employee_by_id_witness :
  Database.users
    (snd (Database.RemoveEmployeeByID 7 (Bot.DB Scenario.asked)))
  = Database.users (Bot.DB Scenario.asked)
    ++ [Database.User.mk 3 7 0 "" false false].
Proof.
  refine (proj2 (proj2 (proj2
    (@operator_sets_employee_by_id 7 (Bot.DB Scenario.asked) _ _))) _).
  - apply users_checked. vm_compute. reflexivity.
  - vm_compute. reflexivity.
  - vm_compute. reflexivity.
Defined.

(** What [AddUser] does when the write is accepted. *)
Lemma AddUser_accepted (chat : Z) (nick : string)
  (state : Z) (db : Database.DB)
  (Hkeyed : users_keyed db)
  (Haccepted : accepts_next (Database.refusals db)) :
  let r := Database.AddUser chat nick state db in
  snd (fst r) = None
  /\ Database.GetUserByChatID chat (snd r) = Some (fst (fst r))
  /\ match Database.First Database.User.ID
             (fun u => (Database.User.ChatID u =? chat)
                       || String.eqb (Database.User.Nickname u) nick)
             (Database.users db) with
     | Some old =>
         fst (fst r)
         = Database.User.mk (Database.User.ID old) chat state nick
             (Database.User.IsEmployee old) false
         /\ map Database.User.ID (Database.users (snd r))
            = map Database.User.ID (Database.users db)
     | None =>
         fst (fst r)
         = Database.User.mk
             (Database.next_id Database.User.ID (Database.users db))
             chat state nick false false
         /\ Database.users (snd r) = Database.users db ++ [fst (fst r)]
     end.
Proof.
  cbv zeta. unfold Database.AddUser, bind, ret, Database.query.
  destruct (Database.First Database.User.ID
              (fun u => (Database.User.ChatID u =? chat)
                        || String.eqb (Database.User.Nickname u) nick)
              (Database.users db)) as [old|] eqn:E.
  - cbv beta iota zeta.
    set (x := Database.User.with_IsReceiver false
                (Database.User.with_State state
                   (Database.User.with_ChatID chat
                      (Database.User.with_Nickname nick old)))).
    pose proof (First_Some _ _ _ E) as (Hin & Hc & _).
    pose proof (Hkeyed old Hin) as Hid.
    assert (E0 : (Database.User.ID x =? 0) = false).
    { apply Z.eqb_neq. exact Hid. }
    destruct (SaveUser_accepted x db Haccepted) as (Hr & Hus & _).
    rewrite E0 in Hr, Hus.
    destruct (Database.SaveUser x db) as [[u e] db'].
    cbn [fst snd] in *. injection Hr as -> ->.
    split; [reflexivity|]. split; [|split].
    + unfold Database.GetUserByChatID. rewrite Hus.
      rewrite (@First_update_narrower _ Database.User.ID
                 (fun u => (Database.User.ChatID u =? chat)
                           || String.eqb (Database.User.Nickname u) nick)
                 (fun u => Database.User.ChatID u =? chat) old x _ E).
      * rewrite E0. reflexivity.
      * reflexivity.
      * cbn. apply Z.eqb_refl.
      * intros r _ Hr. rewrite Hr. reflexivity.
    + reflexivity.
    + rewrite Hus. apply update_ids. apply has_id_true.
      exists old. split; [exact Hin|reflexivity].
  - cbv beta iota zeta.
    set (x := Database.User.with_IsReceiver false
                (Database.User.with_State state
                   (Database.User.with_ChatID chat
                      (Database.User.with_Nickname nick Database.User.zero)))).
    destruct (SaveUser_accepted x db Haccepted) as (Hr & Hus & _).
    change (Database.User.ID x =? 0) with true in Hr, Hus. cbv iota in Hr, Hus.
    destruct (Database.SaveUser x db) as [[u e] db'].
    cbn [fst snd] in *. injection Hr as -> ->.
    split; [reflexivity|]. split; [|split; [reflexivity|exact Hus]].
    unfold Database.GetUserByChatID. rewrite Hus.
    rewrite First_append_new.
    + cbn [Database.User.ID Database.User.with_ID x].
      pose proof (next_id_positive Database.User.ID (Database.users db)) as Hp.
      destruct (Z.eqb_spec (Database.next_id Database.User.ID (Database.users db)) 0);
        [lia|reflexivity].
    + intros r Hr. pose proof (First_None _ _ _ E r Hr) as Hn.
      cbv beta in Hn. apply orb_false_iff in Hn. apply Hn.
    + cbn. apply Z.eqb_refl.
Qed.

(** X9. [AddUser] never adds a second row for a chat or a nickname it finds:
    it rewrites the row of lowest key whose chat or whose nickname
    matches, which keeps its key and its employee flag and gets the chat,
    the nickname and the state of the call; without such a row it appends
    a customer row.  Either way the chat resolves to the row returned.
    So a row found by its nickname alone changes hands: its former chat
    no longer owns it. *)
Theorem AddUser_reuses_row_of_chat_or_nickname (chat : Z) (nick : string)
  (state : Z) (db : Database.DB)
  (Hkeyed : users_keyed db)
  (Haccepted : accepts_next (Database.refusals db)) :
  let r := Database.AddUser chat nick state db in
  snd (fst r) = None
  /\ Database.GetUserByChatID chat (snd r) = Some (fst (fst r))
  /\ match Database.First Database.User.ID
             (fun u => (Database.User.ChatID u =? chat)
                       || String.eqb (Database.User.Nickname u) nick)
             (Database.users db) with
     | Some old =>
         fst (fst r)
         = Database.User.mk (Database.User.ID old) chat state nick
             (Database.User.IsEmployee old) false
         /\ map Database.User.ID (Database.users (snd r))
            = map Database.User.ID (Database.users db)
     | None =>
         fst (fst r)
         = Database.User.mk
             (Database.next_id Database.User.ID (Database.users db))
             chat state nick false false
         /\ Database.users (snd r) = Database.users db ++ [fst (fst r)]
     end.
Proof. exact (AddUser_accepted chat nick state Hkeyed Haccepted). Qed.


(** The operator has added chat 9 as an employee, who has not started
    the bot yet (the row has no nickname); a customer without a user name
    starts the bot from chat 5 and gets the employee's row. *)
Lemma AddUser_reuses_row_of_chat_or_nickname_witness :
  let db := Bot.DB (Scenario.abi 9 (Scenario.start_app [] [])) in
  Database.GetUserByChatID 9 db
  = Some (Database.User.mk 1 9 0 "" true false)
  /\ Database.GetUserByChatID 5 (snd (Database.AddUser 5 "" Bot.SNew db))
     = Some (fst (fst (Database.AddUser 5 "" Bot.SNew db)))
  /\ fst (fst (Database.AddUser 5 "" Bot.SNew db))
     = Database.User.mk 1 5 Bot.SNew "" true false
  /\ Database.GetUserByChatID 9 (snd (Database.AddUser 5 "" Bot.SNew db))
     = None.
Proof.
  cbv zeta. split; [vm_compute; reflexivity|].
  split; [|split; vm_compute; reflexivity].
  refine (proj1 (proj2
    (@AddUser_reuses_row_of_chat_or_nickname 5 "" Bot.SNew
       (Bot.DB (Scenario.abi 9 (Scenario.start_app [] []))) _ _))).
  - apply users_checked. vm_compute. reflexivity.
  - vm_compute. reflexivity.
Defined.

(* ================================================================== *)
(** ** Numbers in texts: [Itoa] read back by [Atoi] *)

Lemma digits_of_uint_acc (d : Decimal.uint) (acc : positive) :
  Strconv.digits (Z.pos acc) (NilEmpty.string_of_uint d)
  = Some (Z.pos (Pos.of_uint_acc d acc)).
Proof.
  revert acc. induction d; intros acc; cbn [NilEmpty.string_of_uint
    Strconv.digits Pos.of_uint_acc]; [reflexivity|..];
  match goal with
  | |- context [Strconv.digit ?c] =>
      let v := eval vm_compute in (Strconv.digit c) in
      change (Strconv.digit c) with v
  end; cbv iota; rewrite <- IHd; f_equal; lia.
Qed.

Lemma digits_of_uint (d : Decimal.uint) :
  Strconv.digits 0 (NilEmpty.string_of_uint d)
  = Some (Z.of_N (Pos.of_uint d)).
Proof.
  induction d; cbn [NilEmpty.string_of_uint Strconv.digits Pos.of_uint];
    [reflexivity|..];
  match goal with
  | |- context [Strconv.digit ?c] =>
      let v := eval vm_compute in (Strconv.digit c) in
      change (Strconv.digit c) with v
  end; cbv iota; [exact IHd|..];
  cbn [Z.mul Z.add Z.of_N]; apply digits_of_uint_acc.
Qed.

(** The decimal text of a positive number: only digits, at least one. *)
Lemma decimal_text (p : positive) :
  exists c rest,
    NilZero.string_of_uint (Pos.to_uint p) = String c rest
    /\ NilZero.string_of_uint (Pos.to_uint p)
       = NilEmpty.string_of_uint (Pos.to_uint p)
    /\ Ascii.eqb c "-" = false /\ Ascii.eqb c "+" = false.
Proof.
  pose proof (Unsigned.to_uint_nonnil p) as Hn.
  destruct (Pos.to_uint p) eqn:E; [contradiction|..];
    cbn [NilZero.string_of_uint NilEmpty.string_of_uint];
    eexists; eexists; (split; [reflexivity|]);
    (split; [reflexivity|]); split; reflexivity.
Qed.

(** [Atoi] reads back what [Itoa] writes, for every 64-bit integer. *)
Lemma Atoi_Itoa (n : Z) :
  Strconv.minInt <= n <= Strconv.maxInt ->
  Strconv.Atoi (Strconv.Itoa n) = Some n.
Proof.
  intros Hn. unfold Strconv.Itoa. destruct n as [|p|p].
  - reflexivity.
  - cbn [Z.to_int NilZero.string_of_int].
    destruct (decimal_text p) as (c & rest & Hs & He & Hm & Hp).
    rewrite Hs. unfold Strconv.Atoi. rewrite Hm, Hp.
    unfold Strconv.signed. rewrite <- Hs, He, digits_of_uint.
    rewrite Unsigned.of_to. cbn [Z.of_N].
    assert (Hr : (Strconv.minInt <=? Z.pos p) && (Z.pos p <=? Strconv.maxInt)
                 = true)
      by (apply andb_true_iff; split; apply Z.leb_le; lia).
    rewrite Hr. reflexivity.
  - cbn [Z.to_int NilZero.string_of_int].
    destruct (decimal_text p) as (c & rest & Hs & He & Hm & Hp).
    unfold Strconv.Atoi. cbn [Ascii.eqb Bool.eqb]. cbv iota.
    unfold Strconv.signed. rewrite Hs. rewrite <- Hs, He, digits_of_uint.
    rewrite Unsigned.of_to. cbn [Z.of_N Z.opp].
    assert (Hr : (Strconv.minInt <=? Z.neg p) && (Z.neg p <=? Strconv.maxInt)
                 = true)
      by (apply andb_true_iff; split; apply Z.leb_le; lia).
    rewrite Hr. reflexivity.
Qed.

Lemma Split_decimal (d : Decimal.uint) :
  Strings.Split (NilEmpty.string_of_uint d) "-"
  = [NilEmpty.string_of_uint d].
Proof.
  induction d; cbn [NilEmpty.string_of_uint Strings.Split];
    [reflexivity|..];
    cbn [Ascii.eqb Bool.eqb]; cbv iota; rewrite IHd; reflexivity.
Qed.

Lemma Split_Itoa (n : Z) :
  0 <= n -> Strings.Split (Strconv.Itoa n) "-" = [Strconv.Itoa n].
Proof.
  intros Hn. unfold Strconv.Itoa. destruct n as [|p|p]; [reflexivity| |lia].
  cbn [Z.to_int NilZero.string_of_int].
  destruct (decimal_text p) as (c & rest & _ & He & _).
  rewrite He. apply Split_decimal.
Qed.

(* ================================================================== *)
(** ** The claim button *)

(** X10. The button that [sendQuestions] puts under a question carries data
    that [splitCallbackData] takes apart into the claim type and the
    decimal text of the question's key, which [Atoi] reads back as the
    key: a press of the button asks for exactly that question. *)
Theorem claim_button_names_its_question (to : Database.User.t)
  (q : Database.Question.t) (client : Tg.Client) (press : Tg.Message.t)
  (Hkey : 0 <= Database.Question.ID q <= Strconv.maxInt)
  (Hclient : Tg.Refusals client = []) :
  exists text data,
    Bot.sendQuestions to [q] client
    = (None,
       Tg.mkClient
         (Tg.Sent client
          ++ [Tg.SendMessageConf (Database.User.ChatID to) text
                (Tg.InlineKeyboardMarkup [[("Take question", data)]])]) [])
    /\ (exists key id,
          Bot.splitCallbackData (Tg.CallbackQuery.mk press data) = (key, id)
          /\ key = Bot.CBQuestion
          /\ Strconv.Atoi id = Some (Database.Question.ID q)).
Proof.
  eexists. eexists. split.
  - rewrite sendQuestions_one by exact Hclient. unfold offer. reflexivity.
  - unfold Bot.splitCallbackData. cbn [Tg.CallbackQuery.Data].
    change (Strconv.Itoa Bot.CBQuestion ++ "-")%string with "1-".
    cbn [String.append Strings.Split Ascii.eqb Bool.eqb]. cbv iota.
    rewrite Split_Itoa by lia. cbn [hd].
    change (Strconv.Atoi "1") with (Some 1). cbv iota.
    eexists. eexists. split; [reflexivity|]. split; [reflexivity|].
    apply Atoi_Itoa. unfold Strconv.minInt. lia.
Qed.

Lemma claim_button_names_its_question_witness :
  exists text data,
    Bot.sendQuestions Scenario.eve
      [Database.Question.mk 12 "Why?" 2 Database.User.zero 0
         Database.User.zero false false]
      (Tg.mkClient [] [])
    = (None,
       Tg.mkClient
         ([] ++ [Tg.SendMessageConf 9 text
                   (Tg.InlineKeyboardMarkup [[("Take question", data)]])]) [])
    /\ (exists key id,
          Bot.splitCallbackData
            (Tg.CallbackQuery.mk Scenario.back_message data) = (key, id)
          /\ key = Bot.CBQuestion
          /\ Strconv.Atoi id = Some 12).
Proof.
  refine (@claim_button_names_its_question Scenario.eve
            (Database.Question.mk 12 "Why?" 2 Database.User.zero 0
               Database.User.zero false false)
            (Tg.mkClient [] []) Scenario.back_message _ _).
  - vm_compute. split; discriminate.
  - reflexivity.
Defined.

(* ================================================================== *)
(** ** The employee's Main menu *)

Lemma sendQuestions_all (to : Database.User.t)
  (qs : list Database.Question.t) (client : Tg.Client) :
  Tg.Refusals client = [] ->
  Bot.sendQuestions to qs client
  = (None, Tg.mkClient (Tg.Sent client ++ map (fun q => offer q to) qs) []).
Proof.
  revert client. induction qs as [|q qs IH]; intros [sent rf] H;
    cbn [Tg.Refusals] in H; subst rf.
  - cbn. rewrite app_nil_r. reflexivity.
  - cbn [Bot.sendQuestions map]. unfold bind.
    rewrite Send_accepted by reflexivity. cbv iota beta.
    rewrite IH by reflexivity. cbn [Tg.Sent]. rewrite <- app_assoc.
    reflexivity.
Qed.

(** X11. Either label of the receive switch toggles: an employee in Main who
    sends "Receive questions" or "Do not receive questions" ends with the
    opposite of the stored flag, whichever of the two texts was sent,
    stays in Main and gets the menu that offers the way back. *)
Theorem receive_switch_toggles (message : Tg.Message.t) (app : Bot.App)
  (user : Database.User.t)
  (Hreliable : reliable app)
  (Htext : Tg.Message.Text message = "❓Receive questions"
           \/ Tg.Message.Text message = "❓Do not receive questions")
  (Huser : Database.GetUserByChatID (Tg.User.ID (Tg.Message.From message))
             (Bot.DB app) = Some user)
  (Hemployee : Database.User.IsEmployee user = true)
  (Hstate : Database.User.State user = Bot.SMain) :
  let app' := snd (Bot.parseMessage message app) in
  fst (Bot.parseMessage message app) = None
  /\ Database.GetUserByChatID (Tg.User.ID (Tg.Message.From message))
       (Bot.DB app')
     = Some (Database.User.with_IsReceiver
               (negb (Database.User.IsReceiver user)) user)
  /\ Database.questions (Bot.DB app') = Database.questions (Bot.DB app)
  /\ Tg.Sent (Bot.Bot app')
     = Tg.Sent (Bot.Bot app)
       ++ [Tg.SendMessageConf (Database.User.ChatID user)
             (if Database.User.IsReceiver user
              then "You no longer receive questions"
              else "Now You receive questions")
             (Bot.newReplyKeyboardMarkup
                (Bot.buttons (if Database.User.IsReceiver user
                              then Bot.EmplMain else Bot.EmplMainR)))].
Proof.
  destruct Hreliable as [Hbot Hdb].
  pose proof (GetUserByChatID_Some _ _ Huser) as (_ & Hid & Hchat & Hin).
  set (u1 := Database.User.with_State Bot.SSwitchReceiver user).
  set (u2 := Database.User.with_State Bot.SMain u1).
  set (u3 := Database.User.with_IsReceiver
               (negb (Database.User.IsReceiver user)) u2).
  assert (Hu3 : u3 = Database.User.with_IsReceiver
                       (negb (Database.User.IsReceiver user)) user).
  { unfold u3, u2, u1. destruct user; cbn in *. subst. reflexivity. }
  assert (Hrun :
    Bot.parseMessage message app
    = (None,
       delivered
         [Tg.SendMessageConf (Database.User.ChatID user)
            (if Database.User.IsReceiver user
             then "You no longer receive questions"
             else "Now You receive questions")
            (Bot.newReplyKeyboardMarkup
               (Bot.buttons (if Database.User.IsReceiver user
                             then Bot.EmplMain else Bot.EmplMainR)))]
         (set_DB
            (Database.with_users
               (Database.update Database.User.ID u3
                  (Database.update Database.User.ID u2
                     (Database.update Database.User.ID u1
                        (Database.users (Bot.DB app)))))
               (Bot.DB app))
            app))).
  { unfold Bot.parseMessage, Bot.parseCommand.
    assert (Hcmd : String.eqb (Tg.Message.Text message) "/start" = false).
    { destruct Htext as [-> | ->]; reflexivity. }
    rewrite Hcmd. exec. rewrite Huser, Hemployee. exec.
    unfold Bot.parseMessageEmployee. rewrite Hstate. decide_states.
    destruct Htext as [Ht | Ht]; rewrite Ht; decide_strings; exec;
      unfold Bot.responser; norm; rewrite Hemployee;
      unfold Bot.responserEmployee; norm; decide_states; exec;
      unfold Bot.send_menu, u3, u2, u1;
      destruct (Database.User.IsReceiver user); exec; reflexivity. }
  cbv zeta. rewrite Hrun. norm.
  split; [reflexivity|]. split; [|split; reflexivity].
  rewrite <- Hu3.
  assert (H1 : Database.GetUserByChatID (Tg.User.ID (Tg.Message.From message))
                 (Database.with_users
                    (Database.update Database.User.ID u1
                       (Database.users (Bot.DB app))) (Bot.DB app))
               = Some u1).
  { eapply GetUserByChatID_rewritten; [exact Huser|reflexivity|reflexivity|].
    exact Hchat. }
  assert (H2 : Database.GetUserByChatID (Tg.User.ID (Tg.Message.From message))
                 (Database.with_users
                    (Database.update Database.User.ID u2
                       (Database.update Database.User.ID u1
                          (Database.users (Bot.DB app)))) (Bot.DB app))
               = Some u2).
  { eapply GetUserByChatID_rewritten; [exact H1|reflexivity|reflexivity|].
    exact Hchat. }
  eapply GetUserByChatID_rewritten; [exact H2|reflexivity|reflexivity|].
  exact Hchat.
Qed.

Lemma receive_switch_toggles_witness :
  Database.GetUserByChatID 9
    (Bot.DB (snd (Bot.parseMessage
                    (Tg.Message.mk 14 (Tg.User.mk 9 "eve") (Tg.Chat.mk 9)
                       "❓Do not receive questions")
                    Scenario.asked)))
  = Some (Database.User.mk 1 9 Bot.SMain "eve" true true).
Proof.
  refine (proj1 (proj2
    (@receive_switch_toggles
       (Tg.Message.mk 14 (Tg.User.mk 9 "eve") (Tg.Chat.mk 9)
          "❓Do not receive questions")
       Scenario.asked (Database.User.mk 1 9 Bot.SMain "eve" true false)
       _ _ _ _ _))).
  - vm_compute. split; reflexivity.
  - right. reflexivity.
  - vm_compute. reflexivity.
  - reflexivity.
  - reflexivity.
Defined.

(** X12. "Open questions" from an employee in Main, nothing refused: every new
    question is offered to the employee with its claim button, in
    ascending key order, and nothing is written; when there is none the
    employee is told so.  The employee is in Main afterwards. *)
Theorem open_questions_are_offered (message : Tg.Message.t) (app : Bot.App)
  (user : Database.User.t)
  (Hreliable : reliable app)
  (Htext : Tg.Message.Text message = "❓Open questions")
  (Huser : Database.GetUserByChatID (Tg.User.ID (Tg.Message.From message))
             (Bot.DB app) = Some user)
  (Hemployee : Database.User.IsEmployee user = true)
  (Hstate : Database.User.State user = Bot.SMain) :
  let app' := snd (Bot.parseMessage message app) in
  fst (Bot.parseMessage message app) = None
  /\ Tg.Sent (Bot.Bot app')
     = Tg.Sent (Bot.Bot app)
       ++ match Database.GetNewQuestions (Bot.DB app) with
          | [] => [Tg.SendMessageConf (Database.User.ChatID user)
                     "No questions" Tg.NoMarkup]
          | qs => map (fun q => offer q user) qs
          end
  /\ Database.questions (Bot.DB app') = Database.questions (Bot.DB app)
  /\ Database.GetUserByChatID (Tg.User.ID (Tg.Message.From message))
       (Bot.DB app') = Some user.
Proof.
  destruct Hreliable as [Hbot Hdb].
  pose proof (GetUserByChatID_Some _ _ Huser) as (_ & Hid & Hchat & Hin).
  cbv zeta.
  unfold Bot.parseMessage, Bot.parseCommand. rewrite Htext. decide_strings.
  exec. rewrite Huser, Hemployee. exec.
  unfold Bot.parseMessageEmployee. rewrite Hstate, Htext.
  decide_states. decide_strings. cbn [orb]. exec.
  destruct (Database.GetNewQuestions (Bot.DB app)) as [|q qs] eqn:E.
  - exec. unfold Bot.responser. norm. rewrite Hemployee.
    unfold Bot.responserEmployee. norm. decide_states.
    unfold Bot.send_text. exec.
    split; [reflexivity|]. split; [reflexivity|]. split; [reflexivity|].
    set (u1 := Database.User.with_State Bot.SQuestion user).
    assert (H1 : Database.GetUserByChatID (Tg.User.ID (Tg.Message.From message))
                   (Database.with_users
                      (Database.update Database.User.ID u1
                         (Database.users (Bot.DB app))) (Bot.DB app))
                 = Some u1).
    { eapply GetUserByChatID_rewritten; [exact Huser|reflexivity|reflexivity|].
      exact Hchat. }
    assert (Hu : Database.User.with_State Bot.SMain u1 = user).
    { unfold u1. destruct user; cbn in *. subst. reflexivity. }
    transitivity (Some (Database.User.with_State Bot.SMain u1));
      [|f_equal; exact Hu].
    eapply GetUserByChatID_rewritten; [exact H1|reflexivity|reflexivity|].
    exact Hchat.
  - rewrite sendQuestions_all by exact Hbot. exec.
    destruct app as [bot db conf]. norm.
    split; [reflexivity|]. split; [reflexivity|]. split; [reflexivity|].
    exact Huser.
Qed.

Lemma open_questions_are_offered_witness :
  Tg.Sent
    (Bot.Bot (snd (Bot.parseMessage
                     (Tg.Message.mk 14 (Tg.User.mk 9 "eve") (Tg.Chat.mk 9)
                        "❓Open questions")
                     Scenario.asked)))
  = Tg.Sent (Bot.Bot Scenario.asked)
    ++ [offer (Database.Question.mk 1 "Why is my order late?" 2
                 Database.User.zero 0 Database.User.zero false false)
          (Database.User.mk 1 9 Bot.SMain "eve" true false)].
Proof.
  refine (proj1 (proj2
    (@open_questions_are_offered
       (Tg.Message.mk 14 (Tg.User.mk 9 "eve") (Tg.Chat.mk 9)
          "❓Open questions")
       Scenario.asked (Database.User.mk 1 9 Bot.SMain "eve" true false)
       _ _ _ _ _))).
  - vm_compute. split; reflexivity.
  - reflexivity.
  - vm_compute. reflexivity.
  - reflexivity.
  - reflexivity.
Defined.

(* ================================================================== *)
(** ** The thread between a customer and an employee *)

Lemma GetOpenQuestionByUser_row (user : Database.User.t) (db : Database.DB)
  (q : Database.Question.t) :
  Database.GetOpenQuestionByUser user db = Some q ->
  exists row,
    Database.First Database.Question.ID
      (fun q0 => (Database.Question.UserID q0 =? Database.User.ID user)
                 && Bool.eqb (Database.Question.IsClosed q0) false)
      (Database.questions db) = Some row
    /\ Database.Question.ID row <> 0
    /\ q = Database.preload_question db row.
Proof.
  unfold Database.GetOpenQuestionByUser.
  destruct (Database.First _ _ _) as [row|]; [|discriminate].
  destruct (Database.Question.ID row =? 0) eqn:E; [discriminate|].
  intros H; injection H as <-. exists row.
  apply Z.eqb_neq in E. auto.
Qed.

Lemma AddCorrespondence_accepted (user : Database.User.t) (messageId : Z)
  (db : Database.DB) (q : Database.Question.t) :
  store_reliable db ->
  (if Database.User.IsEmployee user
   then Database.GetOpenQuestionByAnswerer user db
   else Database.GetOpenQuestionByUser user db) = Some q ->
  Database.User.ID user <> 0 ->
  exists corr,
    Database.AddCorrespondence user messageId db
    = ((Some corr, None),
       Database.with_question_correspondences
         (Database.question_correspondences db
          ++ [filed user (Database.Question.ID q) messageId db]) db).
Proof.
  intros H Hq Hid. unfold Database.AddCorrespondence, bind, ret, Database.query.
  rewrite Hq. store_cases db H.
  unfold Database.SaveCorrespondence, Database.correspondence_keys,
    Database.owner_key.
  cbn [attempt Database.refusals negb Database.QuestionCorrespondence.ID
       Database.QuestionCorrespondence.User
       Database.QuestionCorrespondence.UserID
       Database.QuestionCorrespondence.with_UserID
       Database.with_refusals Database.question_correspondences].
  apply Z.eqb_neq in Hid. rewrite Hid. cbv beta iota zeta.
  cbn [Database.QuestionCorrespondence.ID Z.eqb].
  eexists. reflexivity.
Qed.

(** A question row rewritten with the same key, asker, answerer and
    closed flag is found again by the two "open question" queries. *)
Lemma GetOpenQuestionByUser_rewritten (user : Database.User.t)
  (db db' : Database.DB) (q : Database.Question.t) (x : Database.Question.t) :
  Database.GetOpenQuestionByUser user db = Some q ->
  Database.questions db'
  = Database.update Database.Question.ID x (Database.questions db) ->
  Database.Question.ID x = Database.Question.ID q ->
  Database.Question.UserID x = Database.Question.UserID q ->
  Database.Question.IsClosed x = Database.Question.IsClosed q ->
  exists q', Database.GetOpenQuestionByUser user db' = Some q'
             /\ Database.Question.ID q' = Database.Question.ID q.
Proof.
  intros Hq Hqs Hid Hu Hc.
  destruct (GetOpenQuestionByUser_row _ _ Hq) as (row & HF & Hne & ->).
  pose proof (First_Some _ _ _ HF) as (_ & Hcond & _).
  unfold Database.GetOpenQuestionByUser. rewrite Hqs.
  rewrite (@First_update_found _ Database.Question.ID _ row x _ HF).
  - cbn in Hid. rewrite Hid. apply Z.eqb_neq in Hne. rewrite Hne.
    eexists. split; [reflexivity|]. cbn. exact Hid.
  - exact Hid.
  - cbn in Hu, Hc. rewrite Hu, Hc. exact Hcond.
Qed.

Lemma GetOpenQuestionByAnswerer_rewritten (user : Database.User.t)
  (db db' : Database.DB) (q : Database.Question.t) (x : Database.Question.t) :
  Database.GetOpenQuestionByAnswerer user db = Some q ->
  Database.questions db'
  = Database.update Database.Question.ID x (Database.questions db) ->
  Database.Question.ID x = Database.Question.ID q ->
  Database.Question.AnswererID x = Database.Question.AnswererID q ->
  Database.Question.IsClosed x = Database.Question.IsClosed q ->
  exists q', Database.GetOpenQuestionByAnswerer user db' = Some q'
             /\ Database.Question.ID q' = Database.Question.ID q.
Proof.
  intros Hq Hqs Hid Hu Hc.
  destruct (GetOpenQuestionByAnswerer_row _ _ Hq) as (row & HF & Hne & ->).
  pose proof (First_Some _ _ _ HF) as (_ & Hcond & _).
  unfold Database.GetOpenQuestionByAnswerer. rewrite Hqs.
  change (fun q0 => (Database.Question.AnswererID q0 =? Database.User.ID user)
                    && Bool.eqb (Database.Question.IsClosed q0) false)
    with (answered_open_by (Database.User.ID user)).
  rewrite (@First_update_found _ Database.Question.ID _ row x _ HF).
  - cbn in Hid. rewrite Hid. apply Z.eqb_neq in Hne. rewrite Hne.
    eexists. split; [reflexivity|]. cbn. exact Hid.
  - exact Hid.
  - unfold answered_open_by in *. cbn in Hu, Hc. rewrite Hu, Hc. exact Hcond.
Qed.

(** The stored question of a key after its row was rewritten. *)
Lemma GetQuestionById_rewritten (db db' : Database.DB)
  (x : Database.Question.t) :
  Database.questions db'
  = Database.update Database.Question.ID x (Database.questions db) ->
  Database.has_id Database.Question.ID (Database.Question.ID x)
    (Database.questions db) = true ->
  Database.Question.ID x <> 0 ->
  Database.GetQuestionById (Database.Question.ID x) db'
  = Some (Database.preload_question db' x).
Proof.
  intros Hqs Hp Hne. unfold Database.GetQuestionById. rewrite Hqs.
  rewrite First_update_on_key; [| |exact Hp].
  - rewrite Z.eqb_refl. apply Z.eqb_neq in Hne. rewrite Hne. reflexivity.
  - intros r Hr. apply Z.eqb_eq in Hr. exact Hr.
Qed.

(** X13. A customer in QuestionDiscussion writes into the thread, nothing
    refused: when the question has an answerer the message is forwarded
    from the customer's chat to the answerer's chat, otherwise nothing is
    sent; the question is marked as having no answer (so that it counts
    as new again once it has no answerer); the message is filed under the
    question.  The user rows are not touched. *)
Theorem customer_message_is_relayed (message : Tg.Message.t) (app : Bot.App)
  (user : Database.User.t) (q : Database.Question.t)
  (Hreliable : reliable app)
  (Hclose : Tg.Message.Text message <> "❌Close")
  (Hstart : Tg.Message.Text message <> "/start")
  (Huser : Database.GetUserByChatID (Tg.User.ID (Tg.Message.From message))
             (Bot.DB app) = Some user)
  (Hcustomer : Database.User.IsEmployee user = false)
  (Hstate : Database.User.State user = Bot.SQuestionDiscussion)
  (Hquestion : Database.GetOpenQuestionByUser user (Bot.DB app) = Some q) :
  let app' := snd (Bot.parseMessage message app) in
  fst (Bot.parseMessage message app) = None
  /\ Tg.Sent (Bot.Bot app')
     = Tg.Sent (Bot.Bot app)
       ++ (if Database.User.ID (Database.Question.Answerer q) =? 0 then []
           else [Tg.ForwardMessageConf
                   (Database.User.ChatID (Database.Question.Answerer q))
                   (Database.User.ChatID (Database.Question.User q))
                   (Tg.Message.MessageID message)])
  /\ Database.question_correspondences (Bot.DB app')
     = Database.question_correspondences (Bot.DB app)
       ++ [filed user (Database.Question.ID q) (Tg.Message.MessageID message)
             (Bot.DB app)]
  /\ (exists q',
        Database.GetQuestionById (Database.Question.ID q) (Bot.DB app')
        = Some q'
        /\ Database.Question.HaveAnswer q' = false
        /\ Database.Question.AnswererID q' = Database.Question.AnswererID q
        /\ Database.Question.IsClosed q' = false)
  /\ Database.users (Bot.DB app') = Database.users (Bot.DB app).
Proof.
  destruct Hreliable as [Hbot Hdb].
  pose proof (GetUserByChatID_Some _ _ Huser) as (_ & Hid & Hchat & Hin).
  destruct (GetOpenQuestionByUser_row _ _ Hquestion) as (row & HF & Hrid & Hq).
  pose proof (First_Some _ _ _ HF) as (Hrin & Hcond & _).
  apply andb_true_iff in Hcond. destruct Hcond as [_ Hopen].
  apply eqb_prop in Hopen.
  assert (Hqid : Database.Question.ID q = Database.Question.ID row)
    by (subst q; reflexivity).
  assert (Hqne : Database.Question.ID q <> 0) by congruence.
  assert (Hkeys : Database.question_keys q = q)
    by (rewrite Hq; apply question_keys_preload).
  set (x := Database.question_columns
              (Database.Question.with_HaveAnswer false q)).
  set (db1 := Database.with_questions
                (Database.update Database.Question.ID x
                   (Database.questions (Bot.DB app))) (Bot.DB app)).
  assert (Hp : Database.has_id Database.Question.ID (Database.Question.ID x)
                 (Database.questions (Bot.DB app)) = true).
  { apply has_id_true. exists row. split; [exact Hrin|]. symmetry. exact Hqid. }
  destruct (@GetOpenQuestionByUser_rewritten user (Bot.DB app) db1 q x
              Hquestion eq_refl eq_refl eq_refl eq_refl) as (q1 & Hq1 & Hq1id).
  destruct (@AddCorrespondence_accepted user (Tg.Message.MessageID message)
              db1 q1) as [corr Hadd].
  { exact Hdb. }
  { rewrite Hcustomer. exact Hq1. }
  { exact Hid. }
  apply String.eqb_neq in Hclose. apply String.eqb_neq in Hstart.
  assert (Hrun :
    Bot.parseMessage message app
    = (None,
       delivered
         (if Database.User.ID (Database.Question.Answerer q) =? 0 then []
          else [Tg.ForwardMessageConf
                  (Database.User.ChatID (Database.Question.Answerer q))
                  (Database.User.ChatID (Database.Question.User q))
                  (Tg.Message.MessageID message)])
         (set_DB
            (Database.with_question_correspondences
               (Database.question_correspondences (Bot.DB app)
                ++ [filed user (Database.Question.ID q)
                      (Tg.Message.MessageID message) (Bot.DB app)]) db1)
            app))).
  { unfold Bot.parseMessage, Bot.parseCommand. rewrite Hstart.
    exec. rewrite Huser, Hcustomer. exec.
    unfold Bot.parseMessageUser. rewrite Hstate, Hclose.
    decide_states. exec. rewrite Hquestion.
    destruct (Database.User.ID (Database.Question.Answerer q) =? 0) eqn:Ea;
      cbn [negb]; exec.
    - fold x. fold db1. rewrite Hadd. exec. rewrite Hq1id.
      unfold delivered. norm. rewrite app_nil_r.
      destruct app as [[sent rf] db conf]. norm. subst rf. reflexivity.
    - unfold Bot.sendCorrespondenceFromUser, Tg.NewForward, bind, ret. exec.
      fold x. fold db1. rewrite Hadd. exec. rewrite Hq1id. reflexivity. }
  cbv zeta. rewrite Hrun. norm.
  split; [reflexivity|]. split; [reflexivity|]. split; [reflexivity|].
  split; [|reflexivity].
  change (Database.Question.ID q) with (Database.Question.ID x).
  erewrite GetQuestionById_rewritten;
    [|cbn -[Database.update]; reflexivity|exact Hp|exact Hqne].
  eexists. split; [reflexivity|]. subst q. cbn. auto.
Qed.

Lemma customer_message_is_relayed_witness :
  Tg.Sent
    (Bot.Bot (snd (Bot.parseMessage
                     (Tg.Message.mk 26 (Tg.User.mk 5 "bob") (Tg.Chat.mk 5)
                        "Any news?")
                     Scenario.claimed)))
  = Tg.Sent (Bot.Bot Scenario.claimed) ++ [Tg.ForwardMessageConf 9 5 26].
Proof.
  refine (proj1 (proj2
    (@customer_message_is_relayed
       (Tg.Message.mk 26 (Tg.User.mk 5 "bob") (Tg.Chat.mk 5) "Any news?")
       Scenario.claimed
       (Database.User.mk 2 5 Bot.SQuestionDiscussion "bob" false false)
       (Database.Question.mk 1 "Why is my order late?" 2
          (Database.User.mk 2 5 6 "bob" false false) 1
          (Database.User.mk 1 9 6 "eve" true false) false false)
       _ _ _ _ _ _ _))).
  - vm_compute. split; reflexivity.
  - discriminate.
  - discriminate.
  - vm_compute. reflexivity.
  - reflexivity.
  - reflexivity.
  - vm_compute. reflexivity.
Defined.

(** X14. An employee in QuestionDiscussion writes into the thread, nothing
    refused: the message is copied from the employee's chat to the chat of
    the asker of the first open question the employee answers, the
    question is marked as answered, and the message is filed under it.
    Without such a question the message is dropped. *)
Theorem employee_answer_is_relayed (message : Tg.Message.t) (app : Bot.App)
  (user : Database.User.t)
  (Hreliable : reliable app)
  (Hback : Tg.Message.Text message <> "↩️Back")
  (Hstart : Tg.Message.Text message <> "/start")
  (Huser : Database.GetUserByChatID (Tg.User.ID (Tg.Message.From message))
             (Bot.DB app) = Some user)
  (Hemployee : Database.User.IsEmployee user = true)
  (Hstate : Database.User.State user = Bot.SQuestionDiscussion) :
  let app' := snd (Bot.parseMessage message app) in
  fst (Bot.parseMessage message app) = None
  /\ Database.users (Bot.DB app') = Database.users (Bot.DB app)
  /\ match Database.GetOpenQuestionByAnswerer user (Bot.DB app) with
     | None => app' = app
     | Some q =>
         Tg.Sent (Bot.Bot app')
         = Tg.Sent (Bot.Bot app)
           ++ [Tg.CopyMessageConf
                 (Database.User.ChatID (Database.Question.User q))
                 (Database.User.ChatID (Database.Question.Answerer q))
                 (Tg.Message.MessageID message)]
         /\ Database.question_correspondences (Bot.DB app')
            = Database.question_correspondences (Bot.DB app)
              ++ [filed user (Database.Question.ID q)
                    (Tg.Message.MessageID message) (Bot.DB app)]
         /\ exists q',
              Database.GetQuestionById (Database.Question.ID q) (Bot.DB app')
              = Some q'
              /\ Database.Question.HaveAnswer q' = true
              /\ Database.Question.AnswererID q' = Database.User.ID user
              /\ Database.Question.IsClosed q' = false
     end.
Proof.
  destruct Hreliable as [Hbot Hdb].
  pose proof (GetUserByChatID_Some _ _ Huser) as (_ & Hid & Hchat & Hin).
  apply String.eqb_neq in Hback. apply String.eqb_neq in Hstart.
  cbv zeta.
  destruct (Database.GetOpenQuestionByAnswerer user (Bot.DB app)) as [q|]
    eqn:Hquestion.
  - destruct (GetOpenQuestionByAnswerer_row _ _ Hquestion)
      as (row & HF & Hrid & Hq).
    pose proof (First_Some _ _ _ HF) as (Hrin & Hcond & _).
    apply andb_true_iff in Hcond. destruct Hcond as [Hans Hopen].
    apply eqb_prop in Hopen. apply Z.eqb_eq in Hans.
    assert (Hqid : Database.Question.ID q = Database.Question.ID row)
      by (subst q; reflexivity).
    assert (Hqne : Database.Question.ID q <> 0) by congruence.
    assert (Hkeys : Database.question_keys q = q)
      by (rewrite Hq; apply question_keys_preload).
    set (x := Database.question_columns
                (Database.Question.with_HaveAnswer true q)).
    set (db1 := Database.with_questions
                  (Database.update Database.Question.ID x
                     (Database.questions (Bot.DB app))) (Bot.DB app)).
    assert (Hp : Database.has_id Database.Question.ID (Database.Question.ID x)
                   (Database.questions (Bot.DB app)) = true).
    { apply has_id_true. exists row. split; [exact Hrin|].
      symmetry. exact Hqid. }
    destruct (@GetOpenQuestionByAnswerer_rewritten user (Bot.DB app) db1 q x
                Hquestion eq_refl eq_refl eq_refl eq_refl)
      as (q1 & Hq1 & Hq1id).
    destruct (@AddCorrespondence_accepted user (Tg.Message.MessageID message)
                db1 q1) as [corr Hadd].
    { exact Hdb. }
    { rewrite Hemployee. exact Hq1. }
    { exact Hid. }
    assert (Hrun :
      Bot.parseMessage message app
      = (None,
         delivered
           [Tg.CopyMessageConf
              (Database.User.ChatID (Database.Question.User q))
              (Database.User.ChatID (Database.Question.Answerer q))
              (Tg.Message.MessageID message)]
           (set_DB
              (Database.with_question_correspondences
                 (Database.question_correspondences (Bot.DB app)
                  ++ [filed user (Database.Question.ID q)
                        (Tg.Message.MessageID message) (Bot.DB app)]) db1)
              app))).
    { unfold Bot.parseMessage, Bot.parseCommand. rewrite Hstart.
      exec. rewrite Huser, Hemployee. exec.
      unfold Bot.parseMessageEmployee. rewrite Hstate, Hback.
      decide_states. exec. rewrite Hquestion.
      unfold Bot.sendCorrespondenceFromAnswerer, Tg.NewCopyMessage, bind, ret.
      exec. fold x. fold db1. rewrite Hadd. exec. rewrite Hq1id.
      reflexivity. }
    rewrite Hrun. norm.
    split; [reflexivity|]. split; [reflexivity|]. split; [reflexivity|].
    split; [reflexivity|].
    change (Database.Question.ID q) with (Database.Question.ID x).
    erewrite GetQuestionById_rewritten;
      [|cbn -[Database.update]; reflexivity|exact Hp|exact Hqne].
    eexists. split; [reflexivity|]. subst q. cbn. auto.
  - unfold Bot.parseMessage, Bot.parseCommand. rewrite Hstart.
    exec. rewrite Huser, Hemployee. exec.
    unfold Bot.parseMessageEmployee. rewrite Hstate, Hback.
    decide_states. exec. rewrite Hquestion. exec.
    destruct app as [bot db conf]. auto.
Qed.

Lemma employee_answer_is_relayed_witness :
  let message :=
    Tg.Message.mk 11 (Tg.User.mk 9 "eve") (Tg.Chat.mk 9)
      "It shipped yesterday" in
  Tg.Sent (Bot.Bot (snd (Bot.parseMessage message Scenario.claimed)))
  = Tg.Sent (Bot.Bot Scenario.claimed) ++ [Tg.CopyMessageConf 5 9 11].
Proof.
  cbv zeta.
  pose proof
    (@employee_answer_is_relayed
       (Tg.Message.mk 11 (Tg.User.mk 9 "eve") (Tg.Chat.mk 9)
          "It shipped yesterday")
       Scenario.claimed
       (Database.User.mk 1 9 Bot.SQuestionDiscussion "eve" true false)
       ltac:(vm_compute; split; reflexivity) ltac:(discriminate)
       ltac:(discriminate) ltac:(vm_compute; reflexivity)
       ltac:(reflexivity) ltac:(reflexivity)) as H.
  cbv zeta in H. destruct H as (_ & _ & H).
  assert (E : Database.GetOpenQuestionByAnswerer
                (Database.User.mk 1 9 Bot.SQuestionDiscussion "eve" true false)
                (Bot.DB Scenario.claimed)
              = Some (Database.Question.mk 1 "Why is my order late?" 2
                        (Database.User.mk 2 5 6 "bob" false false) 1
                        (Database.User.mk 1 9 6 "eve" true false) false false))
    by (vm_compute; reflexivity).
  rewrite E in H. exact (proj1 H).
Defined.

(* ================================================================== *)
(** ** The comment of a review *)

Lemma GetEmptyReview_row (user : Database.User.t) (db : Database.DB)
  (r : Database.Review.t) :
  Database.GetEmptyReview user db = Some r ->
  exists row,
    r = Database.preload_review db row
    /\ In row (Database.reviews db)
    /\ Database.Review.ID row <> 0
    /\ Database.Review.UserID row = Database.User.ID user
    /\ Database.Review.Text row = ""
    /\ forall other, In other (Database.reviews db) ->
         Database.Review.UserID other = Database.User.ID user ->
         Database.Review.Text other = "" ->
         Database.Review.ID row <= Database.Review.ID other.
Proof.
  unfold Database.GetEmptyReview.
  destruct (Database.First _ _ _) as [row|] eqn:E; [|discriminate].
  destruct (Database.Review.ID row =? 0) eqn:E0; [discriminate|].
  intros H; injection H as <-. exists row.
  apply Z.eqb_neq in E0. apply First_Some in E.
  destruct E as (Hin & Hc & Hmin). apply andb_true_iff in Hc.
  destruct Hc as [Hu Ht]. apply Z.eqb_eq in Hu. apply String.eqb_eq in Ht.
  repeat split; auto.
  intros other Ho Hou Hot. apply Hmin; [exact Ho|].
  rewrite Hou, Hot, Z.eqb_refl. reflexivity.
Qed.

Lemma ChangeTextReviewByUser_accepted (text : string)
  (user : Database.User.t) (db : Database.DB) :
  store_reliable db ->
  Database.ChangeTextReviewByUser text user db
  = (None,
     match Database.GetEmptyReview user db with
     | Some r =>
         Database.with_reviews
           (Database.update Database.Review.ID
              (Database.review_columns (Database.Review.with_Text text r))
              (Database.reviews db)) db
     | None => db
     end).
Proof.
  intros H. unfold Database.ChangeTextReviewByUser, bind, ret, Database.query.
  destruct (Database.GetEmptyReview user db) as [r|] eqn:E; [|reflexivity].
  destruct (GetEmptyReview_row _ _ E) as (row & -> & _ & Hne & _).
  assert (Hkeys : Database.review_keys
                    (Database.Review.with_Text text
                       (Database.preload_review db row))
                  = Database.Review.with_Text text
                      (Database.preload_review db row)).
  { unfold Database.review_keys, Database.preload_review.
    destruct row as [i c r t u su].
    cbn [Database.Review.User Database.Review.UserID
         Database.Review.with_User Database.Review.with_Text
         Database.Review.with_UserID].
    rewrite owner_key_load_user. reflexivity. }
  store_cases db H. unfold Database.SaveReview.
  cbn [attempt Database.refusals negb Database.with_refusals].
  cbv zeta. rewrite Hkeys.
  cbn [Database.Review.ID Database.Review.with_Text Database.preload_review
       Database.Review.with_User].
  apply Z.eqb_neq in Hne. rewrite Hne. reflexivity.
Qed.

(** X15. A customer in ReviewText sends the comment, nothing refused: the
    text (or "-" for the close button) is written to the customer's
    review of lowest key that has no text yet, whose rating stays; when
    there is no such review nothing is written.  Either way the customer
    is back in Main with the Main menu. *)
Theorem review_comment_is_stored (message : Tg.Message.t) (app : Bot.App)
  (user : Database.User.t)
  (Hreliable : reliable app)
  (Hstart : Tg.Message.Text message <> "/start")
  (Huser : Database.GetUserByChatID (Tg.User.ID (Tg.Message.From message))
             (Bot.DB app) = Some user)
  (Hcustomer : Database.User.IsEmployee user = false)
  (Hstate : Database.User.State user = Bot.SReviewText) :
  let app' := snd (Bot.parseMessage message app) in
  let comment :=
    if String.eqb (Tg.Message.Text message) "❌Close" then "-"
    else Tg.Message.Text message in
  fst (Bot.parseMessage message app) = None
  /\ Database.GetUserByChatID (Tg.User.ID (Tg.Message.From message))
       (Bot.DB app') = Some (Database.User.with_State Bot.SMain user)
  /\ Tg.Sent (Bot.Bot app')
     = Tg.Sent (Bot.Bot app)
       ++ [Tg.SendMessageConf (Database.User.ChatID user)
             "If you have any questions or review, I'm listening carefully"
             (Bot.newReplyKeyboardMarkup (Bot.buttons Bot.UserMain))]
  /\ match Database.GetEmptyReview user (Bot.DB app) with
     | None => Database.reviews (Bot.DB app') = Database.reviews (Bot.DB app)
     | Some r =>
         (forall other, In other (Database.reviews (Bot.DB app)) ->
            Database.Review.UserID other = Database.User.ID user ->
            Database.Review.Text other = "" ->
            Database.Review.ID r <= Database.Review.ID other)
         /\ forall row,
              In row (Database.reviews (Bot.DB app')) <->
              row = Database.Review.mk (Database.Review.ID r)
                      (Database.Review.CreatedAt r) (Database.Review.Rating r)
                      comment (Database.Review.UserID r) Database.User.zero
              \/ (In row (Database.reviews (Bot.DB app))
                  /\ Database.Review.ID row <> Database.Review.ID r)
     end.
Proof.
  destruct Hreliable as [Hbot Hdb].
  pose proof (GetUserByChatID_Some _ _ Huser) as (_ & Hid & Hchat & Hin).
  apply String.eqb_neq in Hstart. cbv zeta.
  set (comment := if String.eqb (Tg.Message.Text message) "❌Close" then "-"
                  else Tg.Message.Text message).
  set (db1 := match Database.GetEmptyReview user (Bot.DB app) with
              | Some r =>
                  Database.with_reviews
                    (Database.update Database.Review.ID
                       (Database.review_columns
                          (Database.Review.with_Text comment r))
                       (Database.reviews (Bot.DB app))) (Bot.DB app)
              | None => Bot.DB app
              end).
  assert (Hdb1 : store_reliable db1 /\ Database.users db1
                                       = Database.users (Bot.DB app)).
  { unfold db1. destruct (Database.GetEmptyReview user (Bot.DB app));
      split; try reflexivity; exact Hdb. }
  destruct Hdb1 as [Hrel1 Hus1].
  assert (Hrun :
    Bot.parseMessage message app
    = (None,
       delivered
         [Tg.SendMessageConf (Database.User.ChatID user)
            "If you have any questions or review, I'm listening carefully"
            (Bot.newReplyKeyboardMarkup (Bot.buttons Bot.UserMain))]
         (set_DB
            (Database.with_users
               (Database.update Database.User.ID
                  (Database.User.with_State Bot.SMain user)
                  (Database.users db1)) db1) app))).
  { unfold Bot.parseMessage, Bot.parseCommand. rewrite Hstart.
    exec. rewrite Huser, Hcustomer. exec.
    unfold Bot.parseMessageUser. rewrite Hstate. decide_states.
    unfold comment in db1.
    destruct (String.eqb (Tg.Message.Text message) "❌Close"); exec;
      rewrite ChangeTextReviewByUser_accepted by exact Hdb; exec;
      fold db1; unfold Bot.enter; exec;
      unfold Bot.respond_or_back, Bot.responser; norm; rewrite Hcustomer;
      unfold Bot.responserUser; norm; decide_states; unfold Bot.send_menu;
      exec; reflexivity. }
  rewrite Hrun. norm.
  split; [reflexivity|]. split; [|split; [reflexivity|]].
  - apply (@GetUserByChatID_rewritten
             (Tg.User.ID (Tg.Message.From message)) db1
             (Database.with_users
                (Database.update Database.User.ID
                   (Database.User.with_State Bot.SMain user)
                   (Database.users db1)) db1)
             user (Database.User.with_State Bot.SMain user));
      [|reflexivity|reflexivity|exact Hchat].
    rewrite (GetUserByChatID_same_users _ _ _ Hus1). exact Huser.
  - unfold db1.
    destruct (Database.GetEmptyReview user (Bot.DB app)) as [r|] eqn:E;
      [|reflexivity].
    destruct (GetEmptyReview_row _ _ E) as (row0 & -> & Hrin & Hne & Hu & Ht & Hmin).
    split; [exact Hmin|]. intros row. norm.
    cbn [Database.with_reviews Database.reviews].
    rewrite In_update.
    + cbn. reflexivity.
    + apply has_id_true. exists row0. split; [exact Hrin|reflexivity].
Qed.

(* ================================================================== *)
(** ** Reviews of the last days *)

(** Membership in [GetReviewsInRange]: the wall clock of the stamp lies
    between the bounds; on a machine whose zone is UTC this is the
    instant of the stamp. *)
Lemma zone_rank_nonneg (zone : Z) : 0 <= Database.zone_rank zone.
Proof.
  unfold Database.zone_rank. cbv zeta.
  destruct (Z.quot zone 60 <? 0) eqn:E.
  - apply Z.ltb_lt in E. lia.
  - apply Z.ltb_ge in E. exact E.
Qed.

Lemma stamp_leb_lower (sDate wall zone : Z) :
  Database.stamp_leb sDate 0 wall zone = true <-> sDate <= wall.
Proof.
  unfold Database.stamp_leb. pose proof (zone_rank_nonneg zone) as Hz.
  change (Database.zone_rank 0) with 0.
  rewrite orb_true_iff, andb_true_iff, Z.ltb_lt, Z.eqb_eq, Z.leb_le. lia.
Qed.

Lemma stamp_leb_upper (wall zone fDate : Z) :
  (wall < fDate -> Database.stamp_leb wall zone fDate 0 = true)
  /\ (Database.stamp_leb wall zone fDate 0 = true -> wall <= fDate)
  /\ (zone = 0 ->
      (Database.stamp_leb wall zone fDate 0 = true <-> wall <= fDate)).
Proof.
  unfold Database.stamp_leb.
  rewrite orb_true_iff, andb_true_iff, Z.ltb_lt, Z.eqb_eq, Z.leb_le.
  change (Database.zone_rank 0) with 0.
  split; [|split]; [lia|lia|].
  intros ->. change (Database.zone_rank 0) with 0. lia.
Qed.

Lemma GetReviewsInRange_In (fDate sDate : Z) (db : Database.DB)
  (r : Database.Review.t) :
  (In r (Database.GetReviewsInRange fDate sDate db) ->
   In r (Database.reviews db)
   /\ sDate <= Database.Review.CreatedAt r + Database.zone db <= fDate)
  /\ (In r (Database.reviews db) ->
      sDate <= Database.Review.CreatedAt r + Database.zone db < fDate ->
      In r (Database.GetReviewsInRange fDate sDate db))
  /\ (Database.zone db = 0 ->
      (In r (Database.GetReviewsInRange fDate sDate db) <->
       In r (Database.reviews db)
       /\ sDate <= Database.Review.CreatedAt r <= fDate)).
Proof.
  unfold Database.GetReviewsInRange.
  rewrite order_by_id_In, filter_In. cbv zeta.
  rewrite andb_true_iff, stamp_leb_lower.
  destruct (stamp_leb_upper
              (Database.Review.CreatedAt r + Database.zone db)
              (Database.zone db) fDate) as (Hlt & Hle & Hutc).
  split; [|split].
  - intros (Hin & Hs & Hf). split; [exact Hin|]. split; [exact Hs|auto].
  - intros Hin [Hs Hf]. split; [exact Hin|]. split; [exact Hs|auto].
  - intros Hz. rewrite (Hutc Hz), Hz, Z.add_0_r. tauto.
Qed.

Lemma GetReviewsInRange_sorted (fDate sDate : Z) (db : Database.DB) :
  StronglySorted
    (fun a b => Database.Review.ID a <= Database.Review.ID b)
    (Database.GetReviewsInRange fDate sDate db).
Proof. apply order_by_id_sorted. Qed.

(** X16. "For a day" and "For a week" from an employee in the Review state, the
    transport refusing nothing: one message per review, stars and text, in
    ascending key order, for the reviews whose stamp lies between the UTC
    midnight that began the day 0 (respectively 6) days ago and the coming
    midnight.  The stamp of a review is compared as the wall clock of the
    machine's zone: every review that is shown has its wall clock between
    the two midnights, and every review whose wall clock is from the
    first midnight on and before the second is shown.  On a machine whose
    zone is UTC these are exactly the reviews created between the two
    midnights, both included.  The day is the calendar day, not the last
    24 hours; the current time always lies in the interval.  Nothing is
    written. *)
Theorem reviews_of_the_last_days_are_sent (message : Tg.Message.t)
  (app : Bot.App) (user : Database.User.t)
  (Hbot : Tg.Refusals (Bot.Bot app) = [])
  (Htext : Tg.Message.Text message = "📅For a day"
           \/ Tg.Message.Text message = "📅For a week")
  (Huser : Database.GetUserByChatID (Tg.User.ID (Tg.Message.From message))
             (Bot.DB app) = Some user)
  (Hemployee : Database.User.IsEmployee user = true)
  (Hstate : Database.User.State user = Bot.SReview)
  (Hratings : forall r, In r (Database.reviews (Bot.DB app)) ->
                0 <= Database.Review.Rating r) :
  let days :=
    if String.eqb (Tg.Message.Text message) "📅For a day" then 1 else 7 in
  let midnight := Time.Truncate_day (Database.clock (Bot.DB app)) in
  let zone := Database.zone (Bot.DB app) in
  exists shown,
    Bot.parseMessage message app
    = (None,
       delivered
         (map (fun r =>
                 Tg.SendMessageConf (Database.User.ChatID user)
                   (Bot.ratingInStars (Database.Review.Rating r) ++ Bot.nl
                    ++ Database.Review.Text r) Tg.NoMarkup) shown) app)
    /\ StronglySorted
         (fun a b => Database.Review.ID a <= Database.Review.ID b) shown
    /\ (forall r, In r shown ->
          In r (Database.reviews (Bot.DB app))
          /\ midnight - (days - 1) * Time.day
             <= Database.Review.CreatedAt r + zone <= midnight + Time.day)
    /\ (forall r, In r (Database.reviews (Bot.DB app)) ->
          midnight - (days - 1) * Time.day
          <= Database.Review.CreatedAt r + zone < midnight + Time.day ->
          In r shown)
    /\ (zone = 0 ->
        forall r, In r shown <->
          In r (Database.reviews (Bot.DB app))
          /\ midnight - (days - 1) * Time.day
             <= Database.Review.CreatedAt r <= midnight + Time.day)
    /\ midnight <= Database.clock (Bot.DB app) < midnight + Time.day.
Proof.
  cbv zeta. destruct app as [bot db conf].
  cbn [Bot.DB Bot.Bot Bot.Conf] in *.
  set (now := Database.clock db).
  set (fDate := Time.Truncate_day now + Time.day).
  assert (Hload : forall interval,
      interval = Bot.RDay \/ interval = Bot.RWeek ->
      Bot.loadReviews interval user (Bot.mkApp bot db conf)
      = (tt,
         delivered
           (map (fun r =>
                   Tg.SendMessageConf (Database.User.ChatID user)
                     (Bot.ratingInStars (Database.Review.Rating r) ++ Bot.nl
                      ++ Database.Review.Text r) Tg.NoMarkup)
              (Database.GetReviewsInRange fDate
                 (Time.AddDays_back (if interval =? Bot.RDay then 1 else 7)
                    fDate) db)) (Bot.mkApp bot db conf))).
  { intros interval Hi.
    unfold Bot.loadReviews, bind, ret, Bot.onDB, Database.query.
    cbv beta iota zeta. fold now. fold fDate.
    destruct Hi as [-> | ->];
      cbn [Z.eqb Pos.eqb Bot.RDay Bot.RWeek Bot.RAll Bot.RMonth];
      cbv iota; cbn [Bot.DB Bot.Bot Bot.Conf];
      (rewrite (@for_each_delivered _
                  (fun r => Tg.SendMessageConf (Database.User.ChatID user)
                              (Bot.ratingInStars (Database.Review.Rating r)
                               ++ Bot.nl ++ Database.Review.Text r)
                              Tg.NoMarkup));
       [reflexivity| |exact Hbot]);
      intros x app' Hr; exec; unfold Tg.NewMessage; exec; reflexivity. }
  assert (Hstart : forall days,
            Time.AddDays_back days fDate
            = Time.Truncate_day now - (days - 1) * Time.day).
  { intros days. unfold Time.AddDays_back, fDate, Time.day. lia. }
  assert (Hnow : Time.Truncate_day now <= now < Time.Truncate_day now + Time.day).
  { unfold Time.Truncate_day, Time.day.
    pose proof (Z.mod_pos_bound now 86400 ltac:(lia)). lia. }
  assert (Hcmd : String.eqb (Tg.Message.Text message) "/start" = false).
  { destruct Htext as [-> | ->]; reflexivity. }
  destruct Htext as [Ht|Ht]; rewrite Ht; decide_strings; cbv iota.
  - exists (Database.GetReviewsInRange fDate (Time.AddDays_back 1 fDate)
              db).
    split; [|split; [apply GetReviewsInRange_sorted|]].
    + unfold Bot.parseMessage, Bot.parseCommand. rewrite Hcmd.
      exec. rewrite Huser, Hemployee. exec.
      unfold Bot.parseMessageEmployee. rewrite Hstate, Ht. decide_states.
      decide_strings. exec. rewrite (Hload Bot.RDay) by auto. reflexivity.
    + rewrite <- (Hstart 1).
      split; [|split; [|split; [|exact Hnow]]].
      * intros r. apply GetReviewsInRange_In.
      * intros r. apply GetReviewsInRange_In.
      * intros Hz r. apply GetReviewsInRange_In. exact Hz.
  - exists (Database.GetReviewsInRange fDate (Time.AddDays_back 7 fDate)
              db).
    split; [|split; [apply GetReviewsInRange_sorted|]].
    + unfold Bot.parseMessage, Bot.parseCommand. rewrite Hcmd.
      exec. rewrite Huser, Hemployee. exec.
      unfold Bot.parseMessageEmployee. rewrite Hstate, Ht. decide_states.
      decide_strings. exec. rewrite (Hload Bot.RWeek) by auto. reflexivity.
    + rewrite <- (Hstart 7).
      split; [|split; [|split; [|exact Hnow]]].
      * intros r. apply GetReviewsInRange_In.
      * intros r. apply GetReviewsInRange_In.
      * intros Hz r. apply GetReviewsInRange_In. exact Hz.
Qed.

(** X27. On a machine that is not on UTC the interval of "For a day" is met by
    the local wall clock of the stamps.  Five hours east of UTC, at 23:00
    UTC of the day 10, the interval runs from the midnight that began the
    day 10 to the next; the review created at 22:00 UTC of the day 9,
    before the interval, is sent, and the review created at 20:00 UTC of
    the day 10, inside the interval, is not. *)
Theorem reviews_follow_the_local_clock :
  let message :=
    Tg.Message.mk 12 (Tg.User.mk 9 "eve") (Tg.Chat.mk 9) "📅For a day" in
  let db := Bot.DB Scenario.east_of_UTC in
  let midnight := Time.Truncate_day (Database.clock db) in
  Database.zone db = 5 * 3600
  /\ midnight = 10 * Time.day
  /\ map (fun r => (Database.Review.ID r,
                    Database.Review.CreatedAt r - midnight))
       (Database.reviews db)
     = [(1, - (2 * 3600)); (2, 20 * 3600)]
  /\ Bot.parseMessage message Scenario.east_of_UTC
     = (None,
        delivered
          [Tg.SendMessageConf 9 (Bot.ratingInStars 4 ++ Bot.nl ++ "Late")
             Tg.NoMarkup]
          Scenario.east_of_UTC).
Proof. vm_compute. repeat split. Qed.

(* ================================================================== *)
(** ** The calendar behind "For a month" *)

(** The year, the day of the year and the month index that
    [civil_from_days] computes from the day of the era are in range. *)
Lemma day_of_era_split (doe : Z) :
  0 <= doe < 146097 ->
  let yoe := (doe - doe / 1460 + doe / 36524 - doe / 146096) / 365 in
  let doy := doe - (365 * yoe + yoe / 4 - yoe / 100) in
  let mp := (5 * doy + 2) / 153 in
  0 <= yoe <= 399 /\ 0 <= doy <= 365 /\ 0 <= mp <= 11
  /\ 1 <= doy - (153 * mp + 2) / 5 + 1 <= 31.
Proof. intros H. cbv zeta. Z.div_mod_to_equations. lia. Qed.

(** A day number is the day number of the first of its month plus its
    day of the month less one; months are 1 to 12, days 1 to 31. *)
Lemma civil_from_days_spec (z : Z) :
  let '(y, m, d) := Time.civil_from_days z in
  1 <= m <= 12 /\ 1 <= d <= 31 /\ Time.days_from_civil y m + d - 1 = z.
Proof.
  unfold Time.civil_from_days. cbv zeta.
  set (z0 := z + 719468).
  set (era := z0 / 146097).
  set (doe := z0 - era * 146097).
  assert (Hdoe : 0 <= doe < 146097).
  { unfold doe, era. Z.div_mod_to_equations. lia. }
  pose proof (day_of_era_split Hdoe) as Hs. cbv zeta in Hs.
  set (yoe := (doe - doe / 1460 + doe / 36524 - doe / 146096) / 365) in *.
  set (doy := doe - (365 * yoe + yoe / 4 - yoe / 100)) in *.
  set (mp := (5 * doy + 2) / 153) in *.
  destruct Hs as (Hyoe & Hdoy & Hmp & Hd).
  set (d := doy - (153 * mp + 2) / 5 + 1) in *.
  unfold Time.days_from_civil. cbv zeta.
  destruct (mp <? 10) eqn:E10.
  - apply Z.ltb_lt in E10.
    assert (E2 : (mp + 3 <=? 2) = false) by (apply Z.leb_gt; lia).
    assert (E3 : (2 <? mp + 3) = true) by (apply Z.ltb_lt; lia).
    rewrite E2, E3.
    replace (mp + 3 - 3) with mp by lia.
    assert (He : (yoe + era * 400) / 400 = era).
    { symmetry. apply Z.div_unique with (r := yoe); lia. }
    rewrite He. replace (yoe + era * 400 - era * 400) with yoe by lia.
    unfold d, doy, doe, z0. lia.
  - apply Z.ltb_ge in E10.
    assert (E2 : (mp - 9 <=? 2) = true) by (apply Z.leb_le; lia).
    assert (E3 : (2 <? mp - 9) = false) by (apply Z.ltb_ge; lia).
    rewrite E2, E3.
    replace (mp - 9 + 9) with mp by lia.
    replace (yoe + era * 400 + 1 - 1) with (yoe + era * 400) by lia.
    assert (He : (yoe + era * 400) / 400 = era).
    { symmetry. apply Z.div_unique with (r := yoe); lia. }
    rewrite He. replace (yoe + era * 400 - era * 400) with yoe by lia.
    unfold d, doy, doe, z0. lia.
Qed.

(** The month before has 28 to 31 days. *)
Lemma month_before_length (y m : Z) :
  1 <= m <= 12 ->
  let '(y', m') := if m =? 1 then (y - 1, 12) else (y, m - 1) in
  28 <= Time.days_from_civil y m - Time.days_from_civil y' m' <= 31.
Proof.
  intros Hm.
  assert (Hc : m = 1 \/ m = 2 \/ m = 3 \/ m = 4 \/ m = 5 \/ m = 6 \/ m = 7
               \/ m = 8 \/ m = 9 \/ m = 10 \/ m = 11 \/ m = 12) by lia.
  unfold Time.days_from_civil.
  repeat destruct Hc as [->|Hc]; try subst m;
    cbn [Z.eqb Z.leb Z.ltb Z.compare Pos.compare Pos.compare_cont Z.sub
         Z.add Z.mul Pos.mul Pos.add Pos.succ Z.pos_sub Pos.pred_double
         Z.double Z.succ_double Z.pred_double Z.opp Pos.eqb];
    cbv zeta; Z.div_mod_to_equations; lia.
Qed.

(** [AddMonth_back] of a midnight is a midnight 28 to 31 days before. *)
Lemma AddMonth_back_length (t : Z) :
  t mod Time.day = 0 ->
  28 * Time.day <= t - Time.AddMonth_back t <= 31 * Time.day
  /\ Time.AddMonth_back t mod Time.day = 0.
Proof.
  intros Ht. unfold Time.AddMonth_back.
  pose proof (civil_from_days_spec (t / Time.day)) as Hs.
  destruct (Time.civil_from_days (t / Time.day)) as [[y m] d].
  destruct Hs as (Hm & Hd & Hz).
  pose proof (month_before_length y Hm) as Hl.
  destruct (if m =? 1 then (y - 1, 12) else (y, m - 1)) as [y' m'].
  assert (Hday : t = (t / Time.day) * Time.day).
  { unfold Time.day in *. Z.div_mod_to_equations. lia. }
  split.
  - rewrite <- Hz in Hday. unfold Time.day in *. lia.
  - apply Z.mod_mul. unfold Time.day. lia.
Qed.

(** X17. "For a month" from an employee in the Review state, the transport
    refusing nothing: one message per review whose stamp lies between a
    midnight 28 to 31 days before the coming midnight (the same day of the
    month before, as the calendar has it) and the coming midnight, in
    ascending key order.  The stamp is compared as the wall clock of the
    machine's zone: every review shown has its wall clock between the two
    midnights, every review whose wall clock is from the first on and
    before the second is shown, and on a machine whose zone is UTC these
    are exactly the reviews created between the two, both included.
    Nothing is written. *)
Theorem reviews_of_the_last_month_are_sent (message : Tg.Message.t)
  (app : Bot.App) (user : Database.User.t)
  (Hbot : Tg.Refusals (Bot.Bot app) = [])
  (Htext : Tg.Message.Text message = "📅For a month")
  (Huser : Database.GetUserByChatID (Tg.User.ID (Tg.Message.From message))
             (Bot.DB app) = Some user)
  (Hemployee : Database.User.IsEmployee user = true)
  (Hstate : Database.User.State user = Bot.SReview)
  (Hratings : forall r, In r (Database.reviews (Bot.DB app)) ->
                0 <= Database.Review.Rating r) :
  let next_midnight :=
    Time.Truncate_day (Database.clock (Bot.DB app)) + Time.day in
  let zone := Database.zone (Bot.DB app) in
  exists shown start,
    Bot.parseMessage message app
    = (None,
       delivered
         (map (fun r =>
                 Tg.SendMessageConf (Database.User.ChatID user)
                   (Bot.ratingInStars (Database.Review.Rating r) ++ Bot.nl
                    ++ Database.Review.Text r) Tg.NoMarkup) shown) app)
    /\ StronglySorted
         (fun a b => Database.Review.ID a <= Database.Review.ID b) shown
    /\ (forall r, In r shown ->
          In r (Database.reviews (Bot.DB app))
          /\ start <= Database.Review.CreatedAt r + zone <= next_midnight)
    /\ (forall r, In r (Database.reviews (Bot.DB app)) ->
          start <= Database.Review.CreatedAt r + zone < next_midnight ->
          In r shown)
    /\ (zone = 0 ->
        forall r, In r shown <->
          In r (Database.reviews (Bot.DB app))
          /\ start <= Database.Review.CreatedAt r <= next_midnight)
    /\ next_midnight - 31 * Time.day <= start <= next_midnight - 28 * Time.day
    /\ start mod Time.day = 0.
Proof.
  cbv zeta. destruct app as [bot db conf].
  cbn [Bot.DB Bot.Bot Bot.Conf] in *.
  set (now := Database.clock db).
  set (fDate := Time.Truncate_day now + Time.day).
  assert (Hmid : fDate mod Time.day = 0).
  { unfold fDate, Time.Truncate_day, Time.day. Z.div_mod_to_equations. lia. }
  destruct (AddMonth_back_length fDate Hmid) as [Hlen Hstart].
  exists (Database.GetReviewsInRange fDate (Time.AddMonth_back fDate) db).
  exists (Time.AddMonth_back fDate).
  split; [|split; [apply GetReviewsInRange_sorted
                  |split; [|split; [|split; [|split; [lia|exact Hstart]]]]]].
  - unfold Bot.parseMessage, Bot.parseCommand. rewrite Htext. decide_strings.
    exec. rewrite Huser, Hemployee. exec.
    unfold Bot.parseMessageEmployee. rewrite Hstate, Htext. decide_states.
    decide_strings. exec.
    unfold Bot.loadReviews, bind, ret, Bot.onDB, Database.query.
    cbv beta iota zeta. cbn [Bot.DB Bot.Bot Bot.Conf]. fold now. fold fDate.
    cbn [Z.eqb Pos.eqb Bot.RDay Bot.RWeek Bot.RAll Bot.RMonth]. cbv iota.
    rewrite (@for_each_delivered _
               (fun r => Tg.SendMessageConf (Database.User.ChatID user)
                           (Bot.ratingInStars (Database.Review.Rating r)
                            ++ Bot.nl ++ Database.Review.Text r)
                           Tg.NoMarkup)); [reflexivity| |exact Hbot].
    intros x app' Hr. exec. unfold Tg.NewMessage. exec. reflexivity.
  - intros r. apply GetReviewsInRange_In.
  - intros r. apply GetReviewsInRange_In.
  - intros Hz r. apply GetReviewsInRange_In. exact Hz.
Qed.

(* ================================================================== *)
(** ** Finding a question by its number *)

Lemma forwardCorrespondence_all (user : Database.User.t)
  (rows : list Database.QuestionCorrespondence.t) (client : Tg.Client) :
  Tg.Refusals client = [] ->
  Bot.forwardCorrespondence user rows client
  = (None, Tg.mkClient (Tg.Sent client ++ map (replayed user) rows) []).
Proof.
  revert client. induction rows as [|c rows IH]; intros [sent rf] H;
    cbn [Tg.Refusals] in H; subst rf.
  - cbn. rewrite app_nil_r. reflexivity.
  - cbn [Bot.forwardCorrespondence map]. unfold bind.
    rewrite Send_accepted by reflexivity. cbv iota beta.
    rewrite IH by reflexivity. cbn [Tg.Sent]. rewrite <- app_assoc.
    reflexivity.
Qed.

(** X18. An employee in SearchQuestion sends a text that is not the back
    button, the transport refusing nothing: a text that is no number gets
    "Wrong format", the number of no stored question gets "Question not
    found", and the number of a question gets its text followed by the
    forwards of every message filed under it, in ascending key order.
    Nothing is written, the employee stays in SearchQuestion, and the
    result is never an error. *)
Theorem question_found_by_number (message : Tg.Message.t) (app : Bot.App)
  (user : Database.User.t)
  (Hbot : Tg.Refusals (Bot.Bot app) = [])
  (Hback : Tg.Message.Text message <> "↩️Back")
  (Hstart : Tg.Message.Text message <> "/start")
  (Huser : Database.GetUserByChatID (Tg.User.ID (Tg.Message.From message))
             (Bot.DB app) = Some user)
  (Hemployee : Database.User.IsEmployee user = true)
  (Hstate : Database.User.State user = Bot.SSearchQuestion) :
  Bot.parseMessage message app
  = (None,
     delivered
       match Strconv.Atoi (Tg.Message.Text message) with
       | None =>
           [Tg.SendMessageConf (Database.User.ChatID user) "Wrong format"
              Tg.NoMarkup]
       | Some id =>
           match Database.GetQuestionById id (Bot.DB app) with
           | None =>
               [Tg.SendMessageConf (Database.User.ChatID user)
                  "Question not found" Tg.NoMarkup]
           | Some q =>
               Tg.SendMessageConf (Database.User.ChatID user)
                 (Database.Question.Header q) Tg.NoMarkup
               :: map (replayed user)
                    (Database.GetCorrespondenceByQuestion q (Bot.DB app))
           end
       end app).
Proof.
  apply String.eqb_neq in Hback. apply String.eqb_neq in Hstart.
  destruct app as [[sent rf] db conf]. cbn [Bot.DB Bot.Bot Bot.Conf Tg.Refusals] in *.
  subst rf.
  unfold Bot.parseMessage, Bot.parseCommand. rewrite Hstart.
  exec. rewrite Huser, Hemployee. exec.
  unfold Bot.parseMessageEmployee. rewrite Hstate, Hback. decide_states.
  exec. unfold Bot.loadFullQuestionById. cbv zeta.
  destruct (Strconv.Atoi (Tg.Message.Text message)) as [id|].
  - exec. destruct (Database.GetQuestionById id db) as [q|].
    + unfold Tg.NewMessage. exec.
      rewrite forwardCorrespondence_all by reflexivity. exec.
      unfold delivered. norm. rewrite <- app_assoc. reflexivity.
    + unfold Tg.NewMessage. exec. reflexivity.
  - unfold Tg.NewMessage. exec. reflexivity.
Qed.

Lemma question_found_by_number_witness :
  let message :=
    Tg.Message.mk 15 (Tg.User.mk 9 "eve") (Tg.Chat.mk 9) "1" in
  let searching :=
    Scenario.run
      [Scenario.text_update 7 14 9 "eve" "❓Find a question"] Scenario.thread in
  Tg.Sent (Bot.Bot (snd (Bot.parseMessage message searching)))
  = Tg.Sent (Bot.Bot searching)
    ++ [Tg.SendMessageConf 9 "Why is my order late?" Tg.NoMarkup;
        Tg.ForwardMessageConf 9 5 23; Tg.ForwardMessageConf 9 5 24].
Proof.
  cbv zeta.
  rewrite (@question_found_by_number
             (Tg.Message.mk 15 (Tg.User.mk 9 "eve") (Tg.Chat.mk 9) "1")
             (Scenario.run
                [Scenario.text_update 7 14 9 "eve" "❓Find a question"]
                Scenario.thread)
             (Database.User.mk 1 9 Bot.SSearchQuestion "eve" true false)).
  - vm_compute. reflexivity.
  - vm_compute. reflexivity.
  - discriminate.
  - discriminate.
  - vm_compute. reflexivity.
  - reflexivity.
  - reflexivity.
Defined.

(* ================================================================== *)
(** ** The start command *)

(** [AddUser] on a store that refuses nothing, as an equation. *)
Lemma AddUser_reliable (chat : Z) (nick : string) (state : Z)
  (db : Database.DB) :
  users_keyed db -> store_reliable db ->
  exists u us,
    Database.AddUser chat nick state db
    = ((u, None), Database.with_users us db)
    /\ Database.User.ID u <> 0
    /\ Database.User.ChatID u = chat
    /\ Database.User.State u = state
    /\ Database.GetUserByChatID chat (Database.with_users us db) = Some u.
Proof.
  intros Hk Hrel.
  assert (Hacc : accepts_next (Database.refusals db)).
  { unfold accepts_next. rewrite Hrel. reflexivity. }
  destruct (AddUser_accepted chat nick state Hk Hacc) as (He & Hu & Hrow).
  cbv zeta in Hrow.
  assert (Hdb : exists us, snd (Database.AddUser chat nick state db)
                           = Database.with_users us db).
  { unfold Database.AddUser, bind, ret, Database.query, Database.SaveUser.
    store_cases db Hrel. cbn [attempt Database.refusals negb].
    match goal with
    | |- context [if ?b then _ else _] => destruct b
    end; eexists; reflexivity. }
  destruct Hdb as [us Hdb].
  destruct (Database.AddUser chat nick state db) as [[u e] db'].
  cbn [fst snd] in *. subst e db'. exists u, us.
  split; [reflexivity|].
  pose proof (GetUserByChatID_Some _ _ Hu) as (_ & Hid & Hchat & _).
  split; [exact Hid|]. split; [exact Hchat|]. split; [|exact Hu].
  destruct (Database.First _ _ _); destruct Hrow as [-> _]; reflexivity.
Qed.

(** A list with at most one element that holds two elements holds the
    same element twice. *)
Lemma at_most_one_same (A : Type) (l : list A) (x y : A) :
  (List.length l <= 1)%nat -> In x l -> In y l -> x = y.
Proof.
  destruct l as [|a [|b l]]; cbn; intros H Hx Hy; try lia; try tauto.
  destruct Hx as [<-|[]], Hy as [<-|[]]. reflexivity.
Qed.

(** X19. The start command, nothing refused: the sender's row (found by chat
    or nickname, or created) ends in Main, the greeting of the sender's
    role is sent, and the sender's open question of lowest key, if there
    is one, is closed.  When no asker has more than one open question,
    the sender has no open question afterwards. *)
Theorem start_resets_the_sender (message : Tg.Message.t) (app : Bot.App)
  (Hreliable : reliable app)
  (Hkeyed : users_keyed (Bot.DB app))
  (Htext : Tg.Message.Text message = "/start") :
  let chat := Tg.User.ID (Tg.Message.From message) in
  let app' := snd (Bot.parseMessage message app) in
  fst (Bot.parseMessage message app) = None
  /\ exists user,
       Database.GetUserByChatID chat (Bot.DB app') = Some user
       /\ Database.User.State user = Bot.SMain
       /\ (exists text,
             Tg.Sent (Bot.Bot app')
             = Tg.Sent (Bot.Bot app)
               ++ [Tg.SendMessageConf chat text
                     (Bot.newReplyKeyboardMarkup
                        (Bot.buttons (if Database.User.IsEmployee user
                                      then Bot.EmplMain else Bot.UserMain)))])
       /\ (forall q,
             Database.GetOpenQuestionByUser user (Bot.DB app) = Some q ->
             exists q',
               Database.GetQuestionById (Database.Question.ID q) (Bot.DB app')
               = Some q'
               /\ Database.Question.IsClosed q' = true
               /\ Database.Question.Header q' = Database.Question.Header q)
       /\ (at_most_one_open (Bot.DB app) ->
           Database.GetOpenQuestionByUser user (Bot.DB app') = None).
Proof.
  destruct Hreliable as [Hbot Hdb]. cbv zeta.
  set (chat := Tg.User.ID (Tg.Message.From message)).
  destruct (@AddUser_reliable chat
              (Tg.User.UserName (Tg.Message.From message)) Bot.SNew
              (Bot.DB app) Hkeyed Hdb)
    as (u & us & Hadd & Hid & Hchat & Hst & Hres).
  set (db1 := Database.with_users us (Bot.DB app)) in *.
  set (cond := fun q0 : Database.Question.t =>
                 (Database.Question.UserID q0 =? Database.User.ID u)
                 && Bool.eqb (Database.Question.IsClosed q0) false).
  set (db2 := match Database.First Database.Question.ID cond
                      (Database.questions (Bot.DB app)) with
              | Some row =>
                  if Database.Question.ID row =? 0 then db1
                  else
                    Database.with_questions
                      (Database.update Database.Question.ID
                         (Database.question_columns
                            (Database.Question.with_IsClosed true
                               (Database.preload_question db1 row)))
                         (Database.questions (Bot.DB app))) db1
              | None => db1
              end).
  assert (Hdb2 : store_reliable db2 /\ Database.users db2 = us).
  { unfold db2. destruct (Database.First _ _ _) as [row|];
      [destruct (Database.Question.ID row =? 0)|]; split; try reflexivity;
      exact Hdb. }
  destruct Hdb2 as [Hrel2 Hus2].
  set (user := Database.User.with_State Bot.SMain u).
  assert (Hrun : exists text,
    Bot.parseMessage message app
    = (None,
       delivered
         [Tg.SendMessageConf chat text
            (Bot.newReplyKeyboardMarkup
               (Bot.buttons (if Database.User.IsEmployee user
                             then Bot.EmplMain else Bot.UserMain)))]
         (set_DB
            (Database.with_users
               (Database.update Database.User.ID user us) db2) app))).
  { unfold Bot.parseMessage, Bot.parseCommand. rewrite Htext. decide_strings.
    unfold bind at 1 2. unfold Bot.onDB at 1. fold chat. rewrite Hadd.
    cbv beta iota zeta. fold db1.
    unfold bind at 1. unfold Bot.onDB at 1, Database.query.
    cbn [Bot.DB Bot.Bot Bot.Conf].
    unfold Database.GetOpenQuestionByUser at 1. fold cond.
    change (Database.questions db1) with (Database.questions (Bot.DB app)).
    unfold db2.
    destruct (Database.First Database.Question.ID cond
                (Database.questions (Bot.DB app))) as [row|];
      [destruct (Database.Question.ID row =? 0) eqn:E0|].
    - exec. unfold Bot.responserCommand. norm.
      unfold Bot.responserCommandEmployee, Bot.responserCommandUser.
      decide_strings. unfold user. norm.
      destruct (Database.User.IsEmployee u); exec; rewrite <- Hchat;
        eexists; reflexivity.
    - apply Z.eqb_neq in E0.
      assert (Hq0 : Database.Question.ID (Database.preload_question db1 row)
                    <> 0) by exact E0.
      exec. unfold Bot.responserCommand. norm.
      unfold Bot.responserCommandEmployee, Bot.responserCommandUser.
      decide_strings. unfold user. norm.
      destruct (Database.User.IsEmployee u); exec; rewrite <- Hchat;
        eexists; reflexivity.
    - exec. unfold Bot.responserCommand. norm.
      unfold Bot.responserCommandEmployee, Bot.responserCommandUser.
      decide_strings. unfold user. norm.
      destruct (Database.User.IsEmployee u); exec; rewrite <- Hchat;
        eexists; reflexivity. }
  destruct Hrun as [text Hrun]. rewrite Hrun. norm.
  split; [reflexivity|]. exists user.
  split; [|split; [reflexivity|split; [exists text; reflexivity|split]]].
  - apply (@GetUserByChatID_rewritten chat db2
             (Database.with_users
                (Database.update Database.User.ID user us) db2) u user);
      [|rewrite Hus2; reflexivity|reflexivity|exact Hchat].
    rewrite <- Hres. apply GetUserByChatID_same_users. exact Hus2.
  - intros q Hq.
    destruct (GetOpenQuestionByUser_row _ _ Hq) as (row & HF & Hne & ->).
    change (fun q0 : Database.Question.t =>
              (Database.Question.UserID q0 =? Database.User.ID user)
              && Bool.eqb (Database.Question.IsClosed q0) false)
      with cond in HF.
    unfold db2. rewrite HF.
    pose proof Hne as E0. apply Z.eqb_neq in E0. rewrite E0.
    pose proof (First_Some _ _ _ HF) as (Hrin & _).
    set (x := Database.question_columns
                (Database.Question.with_IsClosed true
                   (Database.preload_question db1 row))).
    change (Database.Question.ID (Database.preload_question (Bot.DB app) row))
      with (Database.Question.ID x).
    erewrite GetQuestionById_rewritten;
      [|cbn -[Database.update]; reflexivity| |exact Hne].
    + eexists. split; [reflexivity|]. cbn. auto.
    + apply has_id_true. exists row. split; [exact Hrin|reflexivity].
  - intros Hone. unfold Database.GetOpenQuestionByUser.
    change (fun q0 : Database.Question.t =>
              (Database.Question.UserID q0 =? Database.User.ID user)
              && Bool.eqb (Database.Question.IsClosed q0) false)
      with cond.
    cbn [Database.questions Database.with_users].
    unfold db2.
    destruct (Database.First Database.Question.ID cond
                (Database.questions (Bot.DB app))) as [row|] eqn:HF.
    + pose proof (First_Some _ _ _ HF) as (Hrin & Hrc & _).
      destruct (Database.Question.ID row =? 0) eqn:E0.
      * change (Database.questions db1)
          with (Database.questions (Bot.DB app)).
        rewrite HF, E0. reflexivity.
      * cbn [Database.questions Database.with_questions].
        set (x := Database.question_columns
                    (Database.Question.with_IsClosed true
                       (Database.preload_question db1 row))).
        assert (Hp : Database.has_id Database.Question.ID
                       (Database.Question.ID x)
                       (Database.questions (Bot.DB app)) = true).
        { apply has_id_true. exists row. split; [exact Hrin|reflexivity]. }
        destruct (Database.First Database.Question.ID cond
                    (Database.update Database.Question.ID x
                       (Database.questions (Bot.DB app)))) as [r|] eqn:E;
          [|reflexivity].
        exfalso. apply First_Some in E. destruct E as (Hr & Hc & _).
        apply (In_update Database.Question.ID x _ r Hp) in Hr.
        destruct Hr as [->|[Hr Hne]].
        -- unfold cond, x in Hc. cbn in Hc.
           rewrite andb_false_r in Hc. discriminate.
        -- apply Hne.
           assert (Hopen : forall q0, cond q0 = true ->
                     is_open_of (Database.User.ID u) q0 = true).
           { intros q0 H0. unfold cond in H0. unfold is_open_of.
             apply andb_true_iff in H0. destruct H0 as [H1 H2].
             apply eqb_prop in H2. rewrite H1, H2. reflexivity. }
           assert (r = row).
           { apply (at_most_one_same
                      (open_questions_of (Database.User.ID u) (Bot.DB app))).
             - apply Hone.
             - apply filter_In. split; [exact Hr|apply Hopen, Hc].
             - apply filter_In. split; [exact Hrin|apply Hopen, Hrc]. }
           subst r. reflexivity.
    + change (Database.questions db1) with (Database.questions (Bot.DB app)).
      rewrite HF. reflexivity.
Qed.

(* ================================================================== *)
(** ** The operator console *)

Lemma Split_decimal_space (d : Decimal.uint) :
  Strings.Split (NilEmpty.string_of_uint d) " "
  = [NilEmpty.string_of_uint d].
Proof.
  induction d; cbn [NilEmpty.string_of_uint Strings.Split];
    [reflexivity|..];
    cbn [Ascii.eqb Bool.eqb]; cbv iota; rewrite IHd; reflexivity.
Qed.

Lemma Split_Itoa_space (n : Z) :
  0 <= n -> Strings.Split (Strconv.Itoa n) " " = [Strconv.Itoa n].
Proof.
  intros Hn. unfold Strconv.Itoa. destruct n as [|p|p]; [reflexivity| |lia].
  cbn [Z.to_int NilZero.string_of_int].
  destruct (decimal_text p) as (c & rest & _ & He & _).
  rewrite He. apply Split_decimal_space.
Qed.

Lemma for_each_Println (lines : list string) (c : Console.t) :
  Bot.for_each lines Console.Println c
  = (tt, Console.mk (Console.DB c) (Console.Printed c ++ lines)
           (Console.Logged c)).
Proof.
  revert c. induction lines as [|l lines IH]; intros [db out log].
  - cbn. rewrite app_nil_r. reflexivity.
  - cbn [Bot.for_each]. unfold bind. cbn [Console.Println].
    unfold Console.Println at 1. cbn [Console.DB Console.Printed Console.Logged].
    rewrite IH. cbn [Console.DB Console.Printed Console.Logged].
    rewrite <- app_assoc. reflexivity.
Qed.

Lemma for_each_employee_lines (users : list Database.User.t) (c : Console.t) :
  Bot.for_each users
    (fun user => Bot.for_each (Console.employee_lines user) Console.Println) c
  = (tt, Console.mk (Console.DB c)
           (Console.Printed c ++ flat_map Console.employee_lines users)
           (Console.Logged c)).
Proof.
  revert c. induction users as [|u users IH]; intros [db out log].
  - cbn. rewrite app_nil_r. reflexivity.
  - cbn [Bot.for_each flat_map]. unfold bind. rewrite for_each_Println.
    rewrite IH. cbn [Console.DB Console.Printed Console.Logged].
    rewrite <- app_assoc. reflexivity.
Qed.

(** X20. [abi] with the decimal text of a chat identifier, the store accepting
    the write: "Employee added" is printed, nothing is logged, the chat
    resolves to an employee row, and a following [ge] prints the line of
    that row (and changes nothing). *)
Theorem console_abi_then_ge (id : Z) (c : Console.t)
  (Hid : 0 <= id <= Strconv.maxInt)
  (Hkeyed : users_keyed (Console.DB c))
  (Haccepted : accepts_next (Database.refusals (Console.DB c))) :
  let c1 := snd (Console.command ("abi " ++ Strconv.Itoa id) c) in
  let c2 := snd (Console.command "ge" c1) in
  fst (Console.command ("abi " ++ Strconv.Itoa id) c) = false
  /\ Console.Printed c1 = Console.Printed c ++ ["Employee added"]
  /\ Console.Logged c1 = Console.Logged c
  /\ Console.DB c1 = snd (Database.AddEmployeeByID id (Console.DB c))
  /\ (exists user,
        Database.GetUserByChatID id (Console.DB c1) = Some user
        /\ Database.User.IsEmployee user = true
        /\ In ("UserID: " ++ Strconv.Itoa id ++ " Nickname: "
               ++ Database.User.Nickname user)%string (Console.Printed c2))
  /\ Console.DB c2 = Console.DB c1
  /\ Console.Printed c2
     = Console.Printed c1
       ++ flat_map Console.employee_lines
            (Database.GetEmployees (Console.DB c1)).
Proof.
  cbv zeta.
  assert (Hset : Database.AddEmployeeByID id (Console.DB c)
                 = Database.SetEmployeeByID 87 true id (Console.DB c))
    by reflexivity.
  destruct (SetEmployeeByID_accepted 87 true id Hkeyed Haccepted) as [Herr Hrow].
  cbv zeta in Hrow. rewrite <- Hset in Herr, Hrow.
  assert (Hu : exists u,
            Database.GetUserByChatID id
              (snd (Database.AddEmployeeByID id (Console.DB c))) = Some u
            /\ Database.User.IsEmployee u = true).
  { destruct (Database.GetUserByChatID id (Console.DB c));
      destruct Hrow as [_ Hrow]; eexists; (split; [exact Hrow|reflexivity]). }
  destruct Hu as (u & Hu & Hemp).
  assert (Hlisted : In u (Database.GetEmployees
                            (snd (Database.AddEmployeeByID id (Console.DB c))))).
  { unfold Database.GetEmployees. apply filter_In. split; [|exact Hemp].
    apply (GetUserByChatID_Some _ _ Hu). }
  assert (Hrun : Console.command ("abi " ++ Strconv.Itoa id) c
                 = (false,
                    Console.mk (snd (Database.AddEmployeeByID id (Console.DB c)))
                      (Console.Printed c ++ ["Employee added"])
                      (Console.Logged c))).
  { unfold Console.command.
    cbn [String.append Strings.Split Ascii.eqb Bool.eqb]. cbv iota.
    rewrite Split_Itoa_space by lia. cbn [hd]. decide_strings. cbv iota.
    unfold Console.by_id.
    rewrite Atoi_Itoa by (unfold Strconv.minInt; lia).
    unfold bind, ret, Console.onDB.
    destruct (Database.AddEmployeeByID id (Console.DB c)) as [e db'].
    cbn [fst snd] in *. subst e. destruct c as [db out log]. reflexivity. }
  rewrite Hrun. cbn [fst snd Console.DB Console.Printed Console.Logged].
  assert (Hge : forall c1,
            Console.command "ge" c1
            = (false,
               Console.mk (Console.DB c1)
                 (Console.Printed c1
                  ++ flat_map Console.employee_lines
                       (Database.GetEmployees (Console.DB c1)))
                 (Console.Logged c1))).
  { intros [db1 out1 log1]. unfold Console.command.
    cbn [Strings.Split Ascii.eqb Bool.eqb hd]. decide_strings. cbv iota.
    unfold bind, ret, Console.onDB, Database.query.
    cbn [Console.DB Console.Printed Console.Logged].
    rewrite for_each_employee_lines. reflexivity. }
  rewrite Hge. cbn [fst snd Console.DB Console.Printed Console.Logged].
  repeat split; try reflexivity.
  exists u. split; [exact Hu|]. split; [exact Hemp|].
  apply in_or_app. right. apply in_flat_map. exists u. split; [exact Hlisted|].
  pose proof (GetUserByChatID_Some _ _ Hu) as (_ & _ & Hchat & _).
  unfold Console.employee_lines. rewrite Hchat. left. reflexivity.
Qed.

(** The loop ends exactly on a line whose first word is [close]. *)
Lemma command_closes (line : string) (c : Console.t) :
  fst (Console.command line c) = true
  <-> hd "" (Strings.Split line " ") = "close".
Proof.
  unfold Console.command. cbv zeta.
  set (c0 := hd "" (Strings.Split line " ")).
  repeat match goal with
  | |- context [String.eqb c0 ?s] =>
      destruct (String.eqb_spec c0 s) as [->|?]
  end; unfold bind, ret;
  repeat match goal with
  | |- context [let (_, _) := ?m in _] => destruct m
  end; cbn [fst]; split; try discriminate; try reflexivity; try congruence.
Qed.

(** X21. Lines that are not one of the four employee commands never change
    the store; [abi] and [rbi] without an argument, or with an argument
    that is no number, print "Enter value" or "Wrong format" and change
    nothing; and the loop ends exactly on [close]. *)
Theorem console_keeps_store_on_other_input (line : string) (c : Console.t) :
  let words := Strings.Split line " " in
  (~ In (hd "" words) ["abi"; "abn"; "rbi"; "rbn"] ->
   Console.DB (snd (Console.command line c)) = Console.DB c)
  /\ (hd "" words = "abi" \/ hd "" words = "rbi" ->
      match words with
      | _ :: arg :: _ =>
          Strconv.Atoi arg = None ->
          snd (Console.command line c)
          = Console.mk (Console.DB c) (Console.Printed c ++ ["Wrong format"])
              (Console.Logged c)
      | _ =>
          snd (Console.command line c)
          = Console.mk (Console.DB c) (Console.Printed c ++ ["Enter value"])
              (Console.Logged c)
      end)
  /\ (fst (Console.command line c) = true <-> hd "" words = "close").
Proof.
  cbv zeta. split; [|split; [|apply command_closes]].
  - intros Hother. unfold Console.command. cbv zeta.
    set (words := Strings.Split line " ") in *.
    repeat match goal with
    | |- context [String.eqb (hd "" words) ?s] =>
        destruct (String.eqb_spec (hd "" words) s) as [E|?];
        [try (exfalso; apply Hother; rewrite E; cbn [In]; tauto)|]
    end; unfold bind, ret, Console.onDB, Database.query;
      rewrite ?for_each_Println, ?for_each_employee_lines;
      destruct c; reflexivity.
  - intros Hc. unfold Console.command. cbv zeta.
    set (words := Strings.Split line " ") in *.
    destruct Hc as [Hc|Hc]; rewrite Hc; decide_strings; cbv iota;
      unfold Console.by_id, bind, ret;
      destruct words as [|w0 [|arg ws]]; try reflexivity;
      intros Harg; rewrite Harg; reflexivity.
Qed.

(** X22. Nothing after [close] is read: the loop ends there with the state
    that the lines before it have left. *)
Theorem console_close_ends_the_loop (before after : list string)
  (c : Console.t)
  (Hbefore : forall line, In line before ->
               hd "" (Strings.Split line " ") <> "close") :
  Console.Run (before ++ "close" :: after) c
  = (true, snd (Console.Run before c))
  /\ fst (Console.Run before c) = false.
Proof.
  revert c. induction before as [|line before IH]; intros c.
  - cbn. split; reflexivity.
  - cbn [List.app Console.Run]. unfold bind.
    pose proof (command_closes line c) as Hcl.
    destruct (Console.command line c) as [closed c1]. cbn [fst] in Hcl.
    destruct closed.
    + exfalso. apply (Hbefore line); [left; reflexivity|].
      apply Hcl. reflexivity.
    + apply IH. intros l Hl. apply Hbefore. right. exact Hl.
Qed.

Lemma console_close_ends_the_loop_witness :
  Console.Run (["abi 9"; "ge"] ++ "close" :: ["rbi 9"])
    (Console.mk (Scenario.empty_db []) [] [])
  = (true,
     snd (Console.Run ["abi 9"; "ge"]
            (Console.mk (Scenario.empty_db []) [] []))).
Proof.
  refine (proj1 (@console_close_ends_the_loop ["abi 9"; "ge"] ["rbi 9"]
                   (Console.mk (Scenario.empty_db []) [] []) _)).
  intros line [<-|[<-|[]]]; vm_compute; discriminate.
Defined.

(** [SetEmployeeByNickname] on a store with keyed user rows that refuses
    nothing: the row of lowest key with the nickname carries the flag
    afterwards, and every other row is a row from before. *)
Lemma SetEmployeeByNickname_accepted (line : Z) (flag : bool) (nick : string)
  (db : Database.DB) :
  users_keyed db -> store_reliable db ->
  let db' := snd (Database.SetEmployeeByNickname line flag nick db) in
  fst (Database.SetEmployeeByNickname line flag nick db) = None
  /\ store_reliable db'
  /\ exists x,
       Database.First Database.User.ID
         (fun u => String.eqb (Database.User.Nickname u) nick)
         (Database.users db') = Some x
       /\ Database.User.IsEmployee x = flag
       /\ Database.User.ID x <> 0
       /\ In x (Database.users db')
       /\ forall y, In y (Database.users db') -> y = x \/ In y (Database.users db).
Proof.
  intros Hk Hrel. cbv zeta.
  unfold Database.SetEmployeeByNickname, bind, ret, Database.query.
  destruct (Database.First Database.User.ID
              (fun u => String.eqb (Database.User.Nickname u) nick)
              (Database.users db)) as [old|] eqn:E.
  - pose proof (First_Some _ _ _ E) as (Hin & Hc & _).
    pose proof (Hk old Hin) as Hid.
    set (x := Database.User.with_IsEmployee flag
                (Database.User.with_Nickname nick old)).
    rewrite (SaveUser_rewrite x Hrel) by exact Hid.
    cbn [fst snd Database.users Database.with_users].
    assert (Hp : Database.has_id Database.User.ID (Database.User.ID x)
                   (Database.users db) = true).
    { apply has_id_true. exists old. split; [exact Hin|reflexivity]. }
    split; [reflexivity|]. split; [exact Hrel|]. exists x.
    split; [|split; [reflexivity|split; [exact Hid|split]]].
    + apply (@First_update_found _ Database.User.ID _ old x _ E eq_refl).
      cbn. apply String.eqb_refl.
    + apply In_update; auto.
    + intros y Hy. apply (In_update Database.User.ID x _ y Hp) in Hy.
      tauto.
  - set (x := Database.User.with_IsEmployee flag
                (Database.User.with_Nickname nick Database.User.zero)).
    rewrite (SaveUser_insert x Hrel) by reflexivity. cbv zeta.
    cbn [fst snd Database.users Database.with_users].
    pose proof (next_id_positive Database.User.ID (Database.users db)) as Hp.
    split; [reflexivity|]. split; [exact Hrel|].
    exists (Database.User.with_ID
              (Database.next_id Database.User.ID (Database.users db)) x).
    split; [|split; [reflexivity|split; [|split]]].
    + apply First_append_new.
      * exact (First_None _ _ _ E).
      * cbn. apply String.eqb_refl.
    + cbn [Database.User.ID Database.User.with_ID]. lia.
    + apply in_or_app. right. left. reflexivity.
    + intros y Hy. apply in_app_or in Hy. destruct Hy as [Hy|[<-|[]]]; auto.
Qed.

(** X23. The operator adds an employee by nickname, and a chat that the store
    does not know yet starts the bot under that nickname: the chat gets
    the row that carries the flag, so the new user is an employee. *)
Theorem employee_by_nickname_is_bound_at_start (nick : string) (chat : Z)
  (state : Z) (db : Database.DB)
  (Hkeyed : users_keyed db)
  (Hreliable : store_reliable db)
  (Hnew : forall u, In u (Database.users db) -> Database.User.ChatID u <> chat) :
  let db1 := snd (Database.AddEmployeeByNickname nick db) in
  let r := Database.AddUser chat nick state db1 in
  snd (fst r) = None
  /\ Database.GetUserByChatID chat (snd r) = Some (fst (fst r))
  /\ Database.User.IsEmployee (fst (fst r)) = true
  /\ Database.User.Nickname (fst (fst r)) = nick
  /\ Database.User.State (fst (fst r)) = state.
Proof.
  cbv zeta. unfold Database.AddEmployeeByNickname.
  destruct (SetEmployeeByNickname_accepted 96 true nick Hkeyed Hreliable)
    as (_ & Hrel1 & x & HF & Hemp & Hid & Hxin & Hrows).
  set (db1 := snd (Database.SetEmployeeByNickname 96 true nick db)) in *.
  assert (Hk1 : users_keyed db1).
  { intros y Hy. destruct (Hrows y Hy) as [->|Hy']; [exact Hid|].
    apply Hkeyed, Hy'. }
  assert (Hacc : accepts_next (Database.refusals db1)).
  { unfold accepts_next. rewrite Hrel1. reflexivity. }
  pose proof (First_Some _ _ _ HF) as (_ & Hxn & _).
  assert (HF2 : Database.First Database.User.ID
                  (fun u => (Database.User.ChatID u =? chat)
                            || String.eqb (Database.User.Nickname u) nick)
                  (Database.users db1) = Some x).
  { rewrite <- HF. apply First_ext. intros y Hy.
    destruct (Hrows y Hy) as [->|Hy'].
    - rewrite Hxn. apply orb_true_r.
    - apply Hnew in Hy'. apply Z.eqb_neq in Hy'. rewrite Hy'. reflexivity. }
  destruct (AddUser_accepted chat nick state Hk1 Hacc) as (He & Hu & Hrow).
  cbv zeta in Hrow. rewrite HF2 in Hrow. destruct Hrow as [Hrow _].
  split; [exact He|]. split; [exact Hu|]. rewrite Hrow. cbn.
  split; [exact Hemp|]. split; reflexivity.
Qed.

Lemma employee_by_nickname_is_bound_at_start_witness :
  let db1 :=
    snd (Database.AddEmployeeByNickname "dan" (Bot.DB Scenario.asked)) in
  fst (fst (Database.AddUser 8 "dan" Bot.SNew db1))
  = Database.User.mk 3 8 Bot.SNew "dan" true false
  /\ Database.User.IsEmployee (fst (fst (Database.AddUser 8 "dan" Bot.SNew db1)))
     = true.
Proof.
  cbv zeta. split; [vm_compute; reflexivity|].
  refine (proj1 (proj2 (proj2
    (@employee_by_nickname_is_bound_at_start "dan" 8 Bot.SNew
       (Bot.DB Scenario.asked) _ _ _)))).
  - apply users_checked. vm_compute. reflexivity.
  - vm_compute. reflexivity.
  - apply chat_unknown_checked. vm_compute. reflexivity.
Defined.

Lemma console_abi_then_ge_witness :
  let c := Console.mk (Bot.DB Scenario.asked) [] [] in
  Console.Printed (snd (Console.command ("abi " ++ Strconv.Itoa 7) c))
  = Console.Printed c ++ ["Employee added"].
Proof.
  refine (proj1 (proj2
    (@console_abi_then_ge 7 (Console.mk (Bot.DB Scenario.asked) [] []) _ _ _))).
  - vm_compute. split; discriminate.
  - apply users_checked. vm_compute. reflexivity.
  - vm_compute. reflexivity.
Defined.

(* ================================================================== *)
(** ** The properties above on the example runs *)

Lemma review_comment_is_stored_witness :
  let message :=
    Tg.Message.mk 23 (Tg.User.mk 5 "bob") (Tg.Chat.mk 5) "Great" in
  Database.GetUserByChatID 5
    (Bot.DB (snd (Bot.parseMessage message Scenario.rated)))
  = Some (Database.User.mk 2 5 Bot.SMain "bob" false false).
Proof.
  refine (proj1 (proj2
    (@review_comment_is_stored
       (Tg.Message.mk 23 (Tg.User.mk 5 "bob") (Tg.Chat.mk 5) "Great")
       Scenario.rated
       (Database.User.mk 2 5 Bot.SReviewText "bob" false false)
       _ _ _ _ _))).
  - vm_compute. split; reflexivity.
  - discriminate.
  - vm_compute. reflexivity.
  - reflexivity.
  - reflexivity.
Defined.

Lemma reviews_of_the_last_days_are_sent_witness :
  let message :=
    Tg.Message.mk 12 (Tg.User.mk 9 "eve") (Tg.Chat.mk 9) "📅For a day" in
  exists shown,
    Bot.parseMessage message Scenario.reviewed
    = (None,
       delivered
         (map (fun r =>
                 Tg.SendMessageConf 9
                   (Bot.ratingInStars (Database.Review.Rating r) ++ Bot.nl
                    ++ Database.Review.Text r) Tg.NoMarkup) shown)
         Scenario.reviewed).
Proof.
  cbv zeta.
  destruct (@reviews_of_the_last_days_are_sent
              (Tg.Message.mk 12 (Tg.User.mk 9 "eve") (Tg.Chat.mk 9)
                 "📅For a day")
              Scenario.reviewed
              (Database.User.mk 1 9 Bot.SReview "eve" true false))
    as (shown & H & _).
  - vm_compute. reflexivity.
  - left. reflexivity.
  - vm_compute. reflexivity.
  - reflexivity.
  - reflexivity.
  - apply ratings_checked. vm_compute. reflexivity.
  - exists shown. exact H.
Defined.

Lemma reviews_of_the_last_month_are_sent_witness :
  let message :=
    Tg.Message.mk 12 (Tg.User.mk 9 "eve") (Tg.Chat.mk 9) "📅For a month" in
  exists shown,
    Bot.parseMessage message Scenario.reviewed
    = (None,
       delivered
         (map (fun r =>
                 Tg.SendMessageConf 9
                   (Bot.ratingInStars (Database.Review.Rating r) ++ Bot.nl
                    ++ Database.Review.Text r) Tg.NoMarkup) shown)
         Scenario.reviewed).
Proof.
  cbv zeta.
  destruct (@reviews_of_the_last_month_are_sent
              (Tg.Message.mk 12 (Tg.User.mk 9 "eve") (Tg.Chat.mk 9)
                 "📅For a month")
              Scenario.reviewed
              (Database.User.mk 1 9 Bot.SReview "eve" true false))
    as (shown & start & H & _).
  - vm_compute. reflexivity.
  - reflexivity.
  - vm_compute. reflexivity.
  - reflexivity.
  - reflexivity.
  - apply ratings_checked. vm_compute. reflexivity.
  - exists shown. exact H.
Defined.

Lemma start_resets_the_sender_witness :
  let message :=
    Tg.Message.mk 27 (Tg.User.mk 5 "bob") (Tg.Chat.mk 5) "/start" in
  fst (Bot.parseMessage message Scenario.claimed) = None.
Proof.
  refine (proj1
    (@start_resets_the_sender
       (Tg.Message.mk 27 (Tg.User.mk 5 "bob") (Tg.Chat.mk 5) "/start")
       Scenario.claimed _ _ _)).
  - vm_compute. split; reflexivity.
  - apply users_checked. vm_compute. reflexivity.
  - reflexivity.
Defined.

(* ================================================================== *)
(** ** The customer's Main menu *)

(** X24. A customer in Main presses "Review" or "Question", the store refusing
    nothing.  When the transport delivers the reply, the customer is in
    the Review (respectively Question) state and has got that state's
    menu.  When the transport refuses the reply, the transition is undone:
    the customer is in Main again, nothing was sent and the result is an
    error (the transport's, behind the positions of the callers that
    passed it on), so that the update is not counted as handled.  Any other text
    in Main is dropped without error.  Reviews and questions are not
    touched. *)
Theorem customer_menu_transition (message : Tg.Message.t) (app : Bot.App)
  (user : Database.User.t)
  (Hstore : store_reliable (Bot.DB app))
  (Hstart : Tg.Message.Text message <> "/start")
  (Huser : Database.GetUserByChatID (Tg.User.ID (Tg.Message.From message))
             (Bot.DB app) = Some user)
  (Hcustomer : Database.User.IsEmployee user = false)
  (Hstate : Database.User.State user = Bot.SMain) :
  let chat := Tg.User.ID (Tg.Message.From message) in
  let text := Tg.Message.Text message in
  let app' := snd (Bot.parseMessage message app) in
  let target := if String.eqb text "⭐Review" then Bot.SReview
                else Bot.SQuestion in
  (text = "⭐Review" \/ text = "❓Question" ->
   (accepts_next (Tg.Refusals (Bot.Bot app)) ->
    fst (Bot.parseMessage message app) = None
    /\ Database.GetUserByChatID chat (Bot.DB app')
       = Some (Database.User.with_State target user)
    /\ exists menu,
         Tg.Sent (Bot.Bot app')
         = Tg.Sent (Bot.Bot app)
           ++ [Tg.SendMessageConf chat menu
                 (Bot.newReplyKeyboardMarkup
                    (Bot.buttons (if String.eqb text "⭐Review"
                                  then Bot.UserStars else Bot.UserClose)))])
   /\ (~ accepts_next (Tg.Refusals (Bot.Bot app)) ->
       (exists callers,
          fst (Bot.parseMessage message app)
          = Some (callers ++ "transport: request refused")%string)
       /\ Database.GetUserByChatID chat (Bot.DB app') = Some user
       /\ Tg.Sent (Bot.Bot app') = Tg.Sent (Bot.Bot app))
   /\ Database.questions (Bot.DB app') = Database.questions (Bot.DB app)
   /\ Database.reviews (Bot.DB app') = Database.reviews (Bot.DB app))
  /\ (text <> "⭐Review" -> text <> "❓Question" ->
      Bot.parseMessage message app = (None, app)).
Proof.
  pose proof (GetUserByChatID_Some _ _ Huser) as (_ & Hid & Hchat & Hin).
  apply String.eqb_neq in Hstart. cbv zeta.
  destruct app as [[sent rf] db conf].
  cbn [Bot.DB Bot.Bot Bot.Conf Tg.Sent Tg.Refusals] in *.
  split.
  - intros Htext.
    set (target := if String.eqb (Tg.Message.Text message) "⭐Review"
                   then Bot.SReview else Bot.SQuestion).
    set (u1 := Database.User.with_State target user).
    assert (H1 : Database.GetUserByChatID (Tg.User.ID (Tg.Message.From message))
                   (Database.with_users
                      (Database.update Database.User.ID u1 (Database.users db))
                      db) = Some u1).
    { eapply GetUserByChatID_rewritten; [exact Huser|reflexivity|reflexivity|].
      exact Hchat. }
    assert (Hback : Database.User.with_State Bot.SMain u1 = user).
    { unfold u1. destruct user; cbn in *. subst. reflexivity. }
    set (keys := if String.eqb (Tg.Message.Text message) "⭐Review"
                 then Bot.UserStars else Bot.UserClose).
    assert (Hrun : exists menu callers,
      Bot.parseMessage message (Bot.mkApp (Tg.mkClient sent rf) db conf)
      = (let (ok, rest) := attempt rf in
         if ok then
           (None,
            Bot.mkApp
              (Tg.mkClient
                 (sent ++ [Tg.SendMessageConf (Tg.User.ID (Tg.Message.From message))
                             menu
                             (Bot.newReplyKeyboardMarkup (Bot.buttons keys))])
                 rest)
              (Database.with_users
                 (Database.update Database.User.ID u1 (Database.users db)) db)
              conf)
         else
           (Some (callers ++ "transport: request refused")%string,
            Bot.mkApp (Tg.mkClient sent rest)
              (Database.with_users
                 (Database.update Database.User.ID
                    (Database.User.with_State Bot.SMain u1)
                    (Database.update Database.User.ID u1 (Database.users db)))
                 db)
              conf))).
    { unfold Bot.parseMessage, Bot.parseCommand. rewrite Hstart.
      exec. rewrite Huser, Hcustomer. exec.
      unfold Bot.parseMessageUser. rewrite Hstate. decide_states.
      unfold u1, target, keys.
      destruct Htext as [Ht|Ht]; rewrite Ht; decide_strings; cbv iota;
        unfold Bot.enter; exec;
        unfold Bot.respond_or_back, Bot.responser; norm; rewrite Hcustomer;
        unfold Bot.responserUser; norm; decide_states; unfold Bot.send_menu;
        unfold bind, ret, Bot.onBot, Tg.Send, Tg.with_ReplyMarkup, Tg.NewMessage;
        norm; rewrite <- Hchat;
        (destruct (attempt rf) as [[|] rest]; unfold Tg.transport_error;
         exec;
         [eexists; exists ""; reflexivity
         |exists "";
          match goal with
          | |- exists c, (Some (?a ++ " " ++ ?b ++ " " ++ ?c1 ++ " " ++ ?d
                                ++ " " ++ _)%string, _) = _ =>
              exists (a ++ " " ++ b ++ " " ++ c1 ++ " " ++ d ++ " ")%string;
              reflexivity
          end]). }
    destruct Hrun as (menu & callers & Hrun). rewrite Hrun.
    unfold accepts_next.
    destruct (attempt rf) as [[|] rest]; cbn [fst snd Bot.DB Bot.Bot Tg.Sent
      Database.questions Database.reviews Database.with_users].
    + split; [|split; [intros H; exfalso; apply H; reflexivity|]].
      * intros _. split; [reflexivity|]. split; [exact H1|].
        exists menu. reflexivity.
      * split; reflexivity.
    + split; [intros H; discriminate|split].
      * intros _. split; [exists callers; reflexivity|].
        split; [|reflexivity].
        transitivity (Some (Database.User.with_State Bot.SMain u1));
          [|f_equal; exact Hback].
        eapply GetUserByChatID_rewritten;
          [exact H1|reflexivity|reflexivity|exact Hchat].
      * split; reflexivity.
  - intros Hr Hq. apply String.eqb_neq in Hr, Hq.
    unfold Bot.parseMessage, Bot.parseCommand. rewrite Hstart.
    exec. rewrite Huser, Hcustomer. exec.
    unfold Bot.parseMessageUser. rewrite Hstate, Hr, Hq. decide_states.
    reflexivity.
Qed.

Lemma customer_menu_transition_witness :
  let message :=
    Tg.Message.mk 21 (Tg.User.mk 5 "bob") (Tg.Chat.mk 5) "❓Question" in
  let app :=
    Bot.mkApp (Tg.mkClient [] [0%nat])
      (Bot.DB (Scenario.run [Scenario.text_update 1 20 5 "bob" "/start"]
                 (Scenario.start_app [] [])))
      (Bot.mkViper 0 0 []) in
  (exists callers,
     fst (Bot.parseMessage message app)
     = Some (callers ++ "transport: request refused")%string)
  /\ Database.GetUserByChatID 5 (Bot.DB (snd (Bot.parseMessage message app)))
     = Some (Database.User.mk 1 5 Bot.SMain "bob" false false)
  /\ Tg.Sent (Bot.Bot (snd (Bot.parseMessage message app))) = [].
Proof.
  cbv zeta.
  refine (proj1 (proj2 (proj1
    (@customer_menu_transition
       (Tg.Message.mk 21 (Tg.User.mk 5 "bob") (Tg.Chat.mk 5) "❓Question")
       (Bot.mkApp (Tg.mkClient [] [0%nat])
          (Bot.DB (Scenario.run [Scenario.text_update 1 20 5 "bob" "/start"]
                     (Scenario.start_app [] [])))
          (Bot.mkViper 0 0 []))
       (Database.User.mk 1 5 Bot.SMain "bob" false false) _ _ _ _ _)
    _)) _).
  - vm_compute. reflexivity.
  - discriminate.
  - vm_compute. reflexivity.
  - reflexivity.
  - reflexivity.
  - right. reflexivity.
  - vm_compute. discriminate.
Defined.

(* ================================================================== *)
(** ** The customer closes the question *)

(** A user row rewritten with another state is preloaded with the same
    key and the same chat. *)
Lemma load_user_after_state_change (user : Database.User.t) (state : Z)
  (db : Database.DB) (k : Z) :
  NoDup (map Database.User.ID (Database.users db)) ->
  In user (Database.users db) ->
  let db1 :=
    Database.with_users
      (Database.update Database.User.ID (Database.User.with_State state user)
         (Database.users db)) db in
  Database.User.ID (Database.load_user k db1)
  = Database.User.ID (Database.load_user k db)
  /\ Database.User.ChatID (Database.load_user k db1)
     = Database.User.ChatID (Database.load_user k db).
Proof.
  intros Hnd Hin. cbv zeta. unfold Database.load_user.
  cbn [Database.users Database.with_users].
  set (x := Database.User.with_State state user).
  assert (Hp : Database.has_id Database.User.ID (Database.User.ID x)
                 (Database.users db) = true).
  { apply has_id_true. exists user. split; [exact Hin|reflexivity]. }
  destruct (Z.eq_dec k (Database.User.ID user)) as [->|Hne].
  - rewrite First_update_on_key; [| |exact Hp].
    + cbn [Database.User.ID Database.User.with_State x]. rewrite Z.eqb_refl.
      destruct (@First_found _ Database.User.ID
                  (fun u => Database.User.ID u =? Database.User.ID user)
                  (Database.users db) user Hin (Z.eqb_refl _)) as [r Hr].
      rewrite Hr. apply First_Some in Hr. destruct Hr as (Hrin & Hc & _).
      apply Z.eqb_eq in Hc.
      rewrite (same_key_same_row Database.User.ID _ r user Hnd Hrin Hin Hc).
      split; reflexivity.
    + intros r Hr. apply Z.eqb_eq in Hr. exact Hr.
  - rewrite First_update_other; [split; reflexivity|exact Hp| |].
    + cbn. apply Z.eqb_neq. congruence.
    + intros r _ Hr. apply Z.eqb_neq. cbn in Hr. congruence.
Qed.

(** X25. A customer in QuestionDiscussion presses "Close", nothing refused:
    the customer is in Main with the Main menu, the open question of
    lowest key is closed and keeps its answerer, the press is filed under
    it, and when the question has an answerer the press is forwarded to
    the answerer's chat.  When the customer had no other open question,
    none is left. *)
Theorem customer_closes_question (message : Tg.Message.t) (app : Bot.App)
  (user : Database.User.t) (q : Database.Question.t)
  (Hreliable : reliable app)
  (Hkeys : NoDup (map Database.User.ID (Database.users (Bot.DB app))))
  (Htext : Tg.Message.Text message = "❌Close")
  (Huser : Database.GetUserByChatID (Tg.User.ID (Tg.Message.From message))
             (Bot.DB app) = Some user)
  (Hcustomer : Database.User.IsEmployee user = false)
  (Hstate : Database.User.State user = Bot.SQuestionDiscussion)
  (Hquestion : Database.GetOpenQuestionByUser user (Bot.DB app) = Some q) :
  let chat := Tg.User.ID (Tg.Message.From message) in
  let app' := snd (Bot.parseMessage message app) in
  fst (Bot.parseMessage message app) = None
  /\ Database.GetUserByChatID chat (Bot.DB app')
     = Some (Database.User.with_State Bot.SMain user)
  /\ (exists q',
        Database.GetQuestionById (Database.Question.ID q) (Bot.DB app')
        = Some q'
        /\ Database.Question.IsClosed q' = true
        /\ Database.Question.AnswererID q' = Database.Question.AnswererID q)
  /\ Database.question_correspondences (Bot.DB app')
     = Database.question_correspondences (Bot.DB app)
       ++ [filed user (Database.Question.ID q) (Tg.Message.MessageID message)
             (Bot.DB app)]
  /\ Tg.Sent (Bot.Bot app')
     = Tg.Sent (Bot.Bot app)
       ++ (if Database.User.ID (Database.Question.Answerer q) =? 0 then []
           else [Tg.ForwardMessageConf
                   (Database.User.ChatID (Database.Question.Answerer q))
                   (Database.User.ChatID (Database.Question.User q))
                   (Tg.Message.MessageID message)])
       ++ [Tg.SendMessageConf chat
             "If you have any questions or review, I'm listening carefully"
             (Bot.newReplyKeyboardMarkup (Bot.buttons Bot.UserMain))]
  /\ (at_most_one_open (Bot.DB app) ->
      Database.GetOpenQuestionByUser
        (Database.User.with_State Bot.SMain user) (Bot.DB app') = None).
Proof.
  destruct Hreliable as [Hbot Hdb].
  pose proof (GetUserByChatID_Some _ _ Huser) as (_ & Hid & Hchat & Hin).
  destruct (GetOpenQuestionByUser_row _ _ Hquestion) as (row & HF & Hrid & Hq).
  pose proof (First_Some _ _ _ HF) as (Hrin & Hcond & _).
  cbv zeta.
  set (chat := Tg.User.ID (Tg.Message.From message)) in *.
  set (u1 := Database.User.with_State Bot.SMain user).
  set (db1 := Database.with_users
                (Database.update Database.User.ID u1
                   (Database.users (Bot.DB app))) (Bot.DB app)).
  set (q1 := Database.preload_question db1 row).
  assert (Hq1 : Database.GetOpenQuestionByUser u1 db1 = Some q1).
  { unfold Database.GetOpenQuestionByUser.
    change (Database.questions db1) with (Database.questions (Bot.DB app)).
    change (Database.User.ID u1) with (Database.User.ID user).
    rewrite HF. apply Z.eqb_neq in Hrid. rewrite Hrid. reflexivity. }
  destruct (@AddCorrespondence_accepted u1 (Tg.Message.MessageID message)
              db1 q1) as [corr Hadd].
  { exact Hdb. }
  { change (Database.User.IsEmployee u1) with (Database.User.IsEmployee user).
    rewrite Hcustomer. exact Hq1. }
  { exact Hid. }
  set (db2 := Database.with_question_correspondences
                (Database.question_correspondences db1
                 ++ [filed u1 (Database.Question.ID q1)
                       (Tg.Message.MessageID message) db1]) db1) in *.
  set (x := Database.question_columns
              (Database.Question.with_IsClosed true q1)).
  set (db3 := Database.with_questions
                (Database.update Database.Question.ID x
                   (Database.questions db2)) db2).
  assert (Hq1id : Database.Question.ID q1 <> 0) by exact Hrid.
  destruct (@load_user_after_state_change user Bot.SMain (Bot.DB app)
              (Database.Question.AnswererID row) Hkeys Hin) as [Ha1 Ha2].
  destruct (@load_user_after_state_change user Bot.SMain (Bot.DB app)
              (Database.Question.UserID row) Hkeys Hin) as [_ Hu2].
  cbv zeta in Ha1, Ha2, Hu2. fold u1 in Ha1, Ha2, Hu2.
  fold db1 in Ha1, Ha2, Hu2.
  assert (Hrun :
    Bot.parseMessage message app
    = (None,
       delivered
         ((if Database.User.ID (Database.Question.Answerer q) =? 0 then []
           else [Tg.ForwardMessageConf
                   (Database.User.ChatID (Database.Question.Answerer q))
                   (Database.User.ChatID (Database.Question.User q))
                   (Tg.Message.MessageID message)])
          ++ [Tg.SendMessageConf chat
                "If you have any questions or review, I'm listening carefully"
                (Bot.newReplyKeyboardMarkup (Bot.buttons Bot.UserMain))])
         (set_DB db3 app))).
  { unfold Bot.parseMessage, Bot.parseCommand. rewrite Htext. decide_strings.
    exec. fold chat. rewrite Huser, Hcustomer. exec.
    unfold Bot.parseMessageUser. rewrite Hstate, Htext.
    decide_states. decide_strings. exec. fold u1. fold db1. rewrite Hq1.
    norm. rewrite Hadd. exec. fold db2. fold x. fold db3.
    assert (Ea : (Database.User.ID (Database.Question.Answerer q1) =? 0)
                 = (Database.User.ID (Database.Question.Answerer q) =? 0)).
    { subst q. unfold q1. cbn. rewrite Ha1. reflexivity. }
    qnorm. fold q1. rewrite Ea.
    destruct (Database.User.ID (Database.Question.Answerer q) =? 0);
      cbn [negb].
    - unfold Bot.respond_or_back, Bot.responser. norm.
      change (Database.User.IsEmployee u1) with (Database.User.IsEmployee user).
      rewrite Hcustomer. unfold Bot.responserUser. unfold u1 at 1 2. norm.
      decide_states. unfold Bot.send_menu. exec. rewrite Hchat. reflexivity.
    - unfold Bot.sendCorrespondenceFromUser, Tg.NewForward, bind, ret. exec.
      unfold Bot.respond_or_back, Bot.responser. norm.
      change (Database.User.IsEmployee u1) with (Database.User.IsEmployee user).
      rewrite Hcustomer. unfold Bot.responserUser. unfold u1 at 1 2. norm.
      decide_states. unfold Bot.send_menu. exec. rewrite Hchat.
      unfold delivered. norm. rewrite <- app_assoc.
      subst q. unfold q1. cbn [Database.Question.Answerer Database.Question.User
        Database.preload_question Database.Question.with_Answerer
        Database.Question.with_User Database.Question.AnswererID
        Database.Question.UserID Database.Question.with_IsClosed].
      rewrite Ha2, Hu2. reflexivity. }
  rewrite Hrun. norm.
  assert (Hp : Database.has_id Database.Question.ID (Database.Question.ID x)
                 (Database.questions (Bot.DB app)) = true).
  { apply has_id_true. exists row. split; [exact Hrin|reflexivity]. }
  split; [reflexivity|]. split; [|split; [|split; [|split]]].
  - apply (@GetUserByChatID_rewritten chat (Bot.DB app) db3 user u1 Huser);
      [reflexivity|reflexivity|exact Hchat].
  - subst q.
    change (Database.Question.ID (Database.preload_question (Bot.DB app) row))
      with (Database.Question.ID x).
    erewrite GetQuestionById_rewritten;
      [|cbn -[Database.update]; reflexivity|exact Hp|exact Hrid].
    eexists. split; [reflexivity|]. cbn. auto.
  - subst q. reflexivity.
  - unfold delivered. norm. reflexivity.
  - intros Hone. unfold Database.GetOpenQuestionByUser.
    change (Database.questions db3)
      with (Database.update Database.Question.ID x
              (Database.questions (Bot.DB app))).
    change (Database.User.ID u1) with (Database.User.ID user).
    set (cond := fun q0 : Database.Question.t =>
                   (Database.Question.UserID q0 =? Database.User.ID user)
                   && Bool.eqb (Database.Question.IsClosed q0) false) in *.
    destruct (Database.First Database.Question.ID cond
                (Database.update Database.Question.ID x
                   (Database.questions (Bot.DB app)))) as [r|] eqn:E;
      [|reflexivity].
    exfalso. apply First_Some in E. destruct E as (Hr & Hc & _).
    apply (In_update Database.Question.ID x _ r Hp) in Hr.
    destruct Hr as [->|[Hr Hne]].
    + unfold cond, x in Hc. cbn in Hc.
      rewrite andb_false_r in Hc. discriminate.
    + apply Hne.
      assert (Hopen : forall q0, cond q0 = true ->
                is_open_of (Database.User.ID user) q0 = true).
      { intros q0 H0. unfold cond in H0. unfold is_open_of.
        apply andb_true_iff in H0. destruct H0 as [H1 H2].
        apply eqb_prop in H2. rewrite H1, H2. reflexivity. }
      assert (r = row).
      { apply (at_most_one_same
                 (open_questions_of (Database.User.ID user) (Bot.DB app))).
        - apply Hone.
        - apply filter_In. split; [exact Hr|apply Hopen, Hc].
        - apply filter_In. split; [exact Hrin|apply Hopen, Hcond]. }
      subst r. reflexivity.
Qed.

Lemma customer_closes_question_witness :
  Tg.Sent
    (Bot.Bot (snd (Bot.parseMessage
                     (Tg.Message.mk 27 (Tg.User.mk 5 "bob") (Tg.Chat.mk 5)
                        "❌Close")
                     Scenario.claimed)))
  = Tg.Sent (Bot.Bot Scenario.claimed)
    ++ [Tg.ForwardMessageConf 9 5 27]
    ++ [Tg.SendMessageConf 5
          "If you have any questions or review, I'm listening carefully"
          (Bot.newReplyKeyboardMarkup (Bot.buttons Bot.UserMain))].
Proof.
  refine (proj1 (proj2 (proj2 (proj2 (proj2
    (@customer_closes_question
       (Tg.Message.mk 27 (Tg.User.mk 5 "bob") (Tg.Chat.mk 5) "❌Close")
       Scenario.claimed
       (Database.User.mk 2 5 Bot.SQuestionDiscussion "bob" false false)
       (Database.Question.mk 1 "Why is my order late?" 2
          (Database.User.mk 2 5 6 "bob" false false) 1
          (Database.User.mk 1 9 6 "eve" true false) false false)
       _ _ _ _ _ _ _)))))).
  - vm_compute. split; reflexivity.
  - vm_compute. repeat constructor; cbn; intuition discriminate.
  - reflexivity.
  - vm_compute. reflexivity.
  - reflexivity.
  - reflexivity.
  - vm_compute. reflexivity.
Defined.
